(** * Finexo Excel Data Importer: validation and normalization pipeline

    A shallow embedding of the spreadsheet validation code of the
    repository, and the theorems that settle the claims of its
    specification.

    Definitions
    - [Js]: the JavaScript values and built-ins the code relies on
      (truthiness, [typeof], [Number], [Date], [toISOString], string
      methods, plain objects).
    - [ErrorHandling]: frontend [utils/errorHandling.ts]
      ([validateExcelData], [validateSheetStructure], [handleAxiosError],
      [formatValidationErrors]).
    - [App]: the cell normalization of [handleFileSelect] in [App.tsx].
    - [Server]: backend [config/excel.config.js], [utils/validators.js] and
      [services/excel.service.js].
    - [Calendar]: the civil calendar, by the day after a date.
    - [Host]: a concrete host for the examples.
    - [Text]: string methods of the file checks and of the preview.
    - [FileChecks]: [handleFileValidationError] and
      [validateAndProcessFile] of [FileUpload.tsx].
    - [Handlers]: the loading of a workbook, [handleValidate] up to its
      request and [handleDeleteRow] of [App.tsx].
    - [Preview]: the formatting, the paging and the delete dialog of
      [DataPreview.tsx].
    - [Middleware]: the upload limits and the file filter of the backend.
    - [Controller]: [processFile] of the service, [validateFile] and
      [importData] of the upload controller.
    - [Exchange]: [handleValidate] and [handleImport] of [App.tsx] once
      the request has settled.
    - [Props]: the vocabulary of the properties; [Examples]: sample inputs.

    Theorems, in this order: the row validator and the order of its
    findings (C2), the server validator and the row numbers (C9), what the
    findings depend on (C6), the structural validator (C5), the transport
    adapter (C8), the normalizer (C3, C10), the rows both validators
    reject, the error aggregator (C7), the calendar, rounding to double
    precision and the date fields (C4); then the further properties X1
    to X26: the structural gate and the findings per cell, the local
    stage of [handleValidate], the file checks, the rows and the sheets
    on the server, the controller, the preview, the loading of a
    workbook, the clean rows of the client and the answers of the server
    as the client shows them; last, where the verdicts of the client and
    of the server are the same (C1). *)

From Stdlib Require Import ZArith QArith Qround Qabs Qpower Lia Lqa.
From Stdlib Require Import Ascii String DecimalString.
From stdpp Require Import base gmap strings list sorting.

Local Open Scope string_scope.
Local Open Scope list_scope.
Local Open Scope Z_scope.

(* ===================================================================== *)
(** * JavaScript values and built-ins *)
(* ===================================================================== *)

Module Js.

(** ** Numbers

    A JavaScript number is [NaN], an infinity or a finite value; finite
    values are kept as exact rationals (each finite double is one).
    Comparisons are exact on doubles; the arithmetic of doubles is the
    exact operation followed by [round_double]. *)
Inductive number :=
| NaN
| PosInf
| NegInf
| Fin (q : Q).

Definition Qltb (a b : Q) : bool := negb (Qle_bool b a).

Definition num_isNaN (n : number) : bool :=
  match n with NaN => true | _ => false end.

(** [a < b] on numbers; any comparison with [NaN] is false. *)
Definition num_ltb (a b : number) : bool :=
  match a, b with
  | NaN, _ | _, NaN => false
  | PosInf, _ => false
  | _, NegInf => false
  | NegInf, _ => true
  | Fin _, PosInf => true
  | Fin x, Fin y => Qltb x y
  end.

(** [a <= b] on numbers. *)
Definition num_leb (a b : number) : bool :=
  match a, b with
  | NaN, _ | _, NaN => false
  | NegInf, _ => true
  | _, PosInf => true
  | PosInf, _ => false
  | Fin _, NegInf => false
  | Fin x, Fin y => Qle_bool x y
  end.

Definition num_gtb (a b : number) : bool := num_ltb b a.

Definition num_neg (a : number) : number :=
  match a with
  | NaN => NaN
  | PosInf => NegInf
  | NegInf => PosInf
  | Fin x => Fin (- x)
  end.

Definition num_add (a b : number) : number :=
  match a, b with
  | NaN, _ | _, NaN => NaN
  | PosInf, NegInf | NegInf, PosInf => NaN
  | PosInf, _ | _, PosInf => PosInf
  | NegInf, _ | _, NegInf => NegInf
  | Fin x, Fin y => Fin (x + y)
  end.

Definition num_sub (a b : number) : number := num_add a (num_neg b).

Definition inf_of_sign (positive : bool) : number :=
  if positive then PosInf else NegInf.

(** Sign of a number that is not [NaN]: [None] for zero. *)
Definition num_sign (a : number) : option bool :=
  match a with
  | NaN => None
  | PosInf => Some true
  | NegInf => Some false
  | Fin x => if Qeq_bool x 0 then None else Some (Qltb 0 x)
  end.

Definition num_mul (a b : number) : number :=
  match a, b with
  | NaN, _ | _, NaN => NaN
  | Fin x, Fin y => Fin (x * y)
  | _, _ =>
      match num_sign a, num_sign b with
      | Some sa, Some sb => inf_of_sign (Bool.eqb sa sb)
      | _, _ => NaN
      end
  end.

(** [Math.round]: the nearest integer, halves rounded towards +infinity. *)
Definition Math_round (a : number) : number :=
  match a with
  | Fin x => Fin (inject_Z (Qfloor (x + (1 # 2))))
  | _ => a
  end.

Definition num_of_Z (z : Z) : number := Fin (inject_Z z).

(** ** Double precision

    The integer nearest to [x], a half going to the even neighbour. *)
Definition round_half_even (x : Q) : Z :=
  let f := Qfloor x in
  match (x - inject_Z f ?= 1 # 2)%Q with
  | Lt => f
  | Gt => f + 1
  | Eq => if Z.even f then f else f + 1
  end.

(** The exponent of the leading bit of [q], which is not zero: the
    largest [e] with [2 ^ e <= |q|]. *)
Definition ilog2 (q : Q) : Z :=
  let est := Z.log2 (Z.abs (Qnum q)) - Z.log2 (Zpos (Qden q)) in
  if Qle_bool (2 ^ est) (Qabs q) then est else est - 1.

(** The double nearest to the real number [q], ties to even: 53
    significant bits, the last of them of exponent -1074 at least; a
    result of [2 ^ 1024] or more is an infinity. (The sign of a zero is
    not kept.) *)
Definition round_double (q : Q) : number :=
  if Qeq_bool q 0 then Fin 0
  else
    let e := Z.max (ilog2 q - 52) (-1074) in
    let m := (inject_Z (round_half_even (Qabs q / 2 ^ e)) * 2 ^ e)%Q in
    if Qle_bool (2 ^ 1024) m then inf_of_sign (Qle_bool 0 q)
    else Fin (if Qle_bool 0 q then m else (- m)%Q).

Definition to_double (a : number) : number :=
  match a with
  | Fin q => round_double q
  | _ => a
  end.

(** [a + b], [a - b] and [a * b] on doubles. *)
Definition dbl_add (a b : number) : number := to_double (num_add a b).
Definition dbl_sub (a b : number) : number := to_double (num_sub a b).
Definition dbl_mul (a b : number) : number := to_double (num_mul a b).

(** ** Values

    The values a decoded sheet cell can hold: [sheet_to_json] yields
    numbers, strings, booleans, [Date] objects (with [cellDates]) and
    [null] (with [defval: null]); a missing key reads as [undefined]. A
    [Date] object carries its time value in milliseconds since
    1970-01-01T00:00:00Z, [None] for an Invalid Date. *)
Inductive value :=
| VUndefined
| VNull
| VBool (b : bool)
| VNum (n : number)
| VStr (s : string)
| VDate (t : option Z).

Inductive jstype := TUndefined | TObject | TBoolean | TNumber | TString.

Definition typeof (v : value) : jstype :=
  match v with
  | VUndefined => TUndefined
  | VNull => TObject
  | VBool _ => TBoolean
  | VNum _ => TNumber
  | VStr _ => TString
  | VDate _ => TObject
  end.

Definition jstype_eqb (a b : jstype) : bool :=
  match a, b with
  | TUndefined, TUndefined | TObject, TObject | TBoolean, TBoolean
  | TNumber, TNumber | TString, TString => true
  | _, _ => false
  end.

(** ToBoolean. *)
Definition truthy (v : value) : bool :=
  match v with
  | VUndefined | VNull => false
  | VBool b => b
  | VNum NaN => false
  | VNum (Fin x) => negb (Qeq_bool x 0)
  | VNum _ => true
  | VStr s => negb (String.eqb s "")
  | VDate _ => true
  end.

Definition is_nullish (v : value) : bool :=
  match v with VUndefined | VNull => true | _ => false end.

(** ** Exceptions *)
Inductive result (A : Type) :=
| Ok (a : A)
| Throw (msg : string).
Arguments Ok {A} a.
Arguments Throw {A} msg.

Definition bind {A B} (r : result A) (k : A -> result B) : result B :=
  match r with
  | Ok a => k a
  | Throw m => Throw m
  end.

(** ** Strings

    A [string] is a sequence of UTF-16 code units; the characters of this
    model are the code units below 256. *)

Definition code_unit (c : ascii) : N := N_of_ascii c.

(** [String.prototype.toLowerCase] on one code unit (A-Z and the
    upper-case letters of Latin-1). *)
Definition lower_char (c : ascii) : ascii :=
  let n := code_unit c in
  if ((65 <=? n) && (n <=? 90))%N then ascii_of_N (n + 32)
  else if ((192 <=? n) && (n <=? 222) && negb (n =? 215))%N then ascii_of_N (n + 32)
  else c.

Fixpoint toLowerCase (s : string) : string :=
  match s with
  | EmptyString => EmptyString
  | String c r => String (lower_char c) (toLowerCase r)
  end.

(** WhiteSpace and LineTerminator code units below 256. *)
Definition is_whitespace (c : ascii) : bool :=
  let n := code_unit c in
  ((9 <=? n) && (n <=? 13) || (n =? 32) || (n =? 160))%N.

Fixpoint trimStart (s : string) : string :=
  match s with
  | EmptyString => EmptyString
  | String c r => if is_whitespace c then trimStart r else s
  end.

Fixpoint trimEnd (s : string) : string :=
  match s with
  | EmptyString => EmptyString
  | String c r =>
      let r' := trimEnd r in
      if is_whitespace c && String.eqb r' "" then EmptyString else String c r'
  end.

Definition trim (s : string) : string := trimEnd (trimStart s).

(** [s.includes(pat)]. *)
Fixpoint includes (pat s : string) : bool :=
  String.prefix pat s ||
  match s with
  | EmptyString => false
  | String _ r => includes pat r
  end.

(** Case folding of a regular expression with flag [i] and without flag
    [u]: a code unit above 127 never folds to an ASCII letter, so against
    an ASCII pattern only A-Z are folded. *)
Definition fold_char (c : ascii) : ascii :=
  let n := code_unit c in
  if ((65 <=? n) && (n <=? 90))%N then ascii_of_N (n + 32) else c.

Fixpoint fold_case (s : string) : string :=
  match s with
  | EmptyString => EmptyString
  | String c r => String (fold_char c) (fold_case r)
  end.

(** [Array.prototype.join]. *)
Definition join (sep : string) (l : list string) : string := String.concat sep l.

(** [s.split(sep)[0]] for a one-character separator: the part of [s]
    before the first occurrence of [sep], all of [s] when there is none. *)
Fixpoint split_head (sep : ascii) (s : string) : string :=
  match s with
  | EmptyString => EmptyString
  | String c r => if Ascii.eqb c sep then EmptyString else String c (split_head sep r)
  end.

(** Decimal rendering of an integer (as in a template literal). *)
Definition Z_to_string (n : Z) : string :=
  NilZero.string_of_int (Z.to_int n).

(** ** Dates *)

Definition msPerDay : Z := 86400000.
Definition maxTime : Z := 8640000000000000.

(** ToIntegerOrInfinity on a finite value: truncation towards zero. *)
Definition Qtruncate (q : Q) : Z :=
  if Qle_bool 0 q then Qfloor q else Qceiling q.

(** TimeClip: the time value of [new Date(n)] for a number [n]. *)
Definition TimeClip (n : number) : option Z :=
  match n with
  | Fin q =>
      if Qle_bool (- inject_Z maxTime) q && Qle_bool q (inject_Z maxTime)
      then Some (Qtruncate q) else None
  | _ => None
  end.

Definition Day (t : Z) : Z := t / msPerDay.
Definition TimeWithinDay (t : Z) : Z := t mod msPerDay.

Definition DaysInYear (y : Z) : Z :=
  if negb (y mod 4 =? 0) then 365
  else if negb (y mod 100 =? 0) then 366
  else if negb (y mod 400 =? 0) then 365
  else 366.

Definition DayFromYear (y : Z) : Z :=
  365 * (y - 1970) + (y - 1969) / 4 - (y - 1901) / 100 + (y - 1601) / 400.

(** The largest year [y] with [DayFromYear y <= d], found from an estimate
    that is off by at most one. *)
Definition YearFromDay (d : Z) : Z :=
  let y0 := 1970 + (d * 400) / 146097 in
  if d <? DayFromYear y0 then y0 - 1
  else if DayFromYear (y0 + 1) <=? d then y0 + 1
  else y0.

Definition YearFromTime (t : Z) : Z := YearFromDay (Day t).

Definition InLeapYear (y : Z) : Z := if DaysInYear y =? 366 then 1 else 0.

Definition DayWithinYear (d : Z) : Z := d - DayFromYear (YearFromDay d).

(** Month number 0..11 of day [d]. *)
Definition MonthFromDay (d : Z) : Z :=
  let w := DayWithinYear d in
  let leap := InLeapYear (YearFromDay d) in
  if w <? 31 then 0
  else if w <? 59 + leap then 1
  else if w <? 90 + leap then 2
  else if w <? 120 + leap then 3
  else if w <? 151 + leap then 4
  else if w <? 181 + leap then 5
  else if w <? 212 + leap then 6
  else if w <? 243 + leap then 7
  else if w <? 273 + leap then 8
  else if w <? 304 + leap then 9
  else if w <? 334 + leap then 10
  else 11.

(** Day of the month 1..31 of day [d]. *)
Definition DateFromDay (d : Z) : Z :=
  let w := DayWithinYear d in
  let leap := InLeapYear (YearFromDay d) in
  match MonthFromDay d with
  | 0 => w + 1
  | 1 => w - 30
  | 2 => w - 58 - leap
  | 3 => w - 89 - leap
  | 4 => w - 119 - leap
  | 5 => w - 150 - leap
  | 6 => w - 180 - leap
  | 7 => w - 211 - leap
  | 8 => w - 242 - leap
  | 9 => w - 272 - leap
  | 10 => w - 303 - leap
  | _ => w - 333 - leap
  end.

Definition digit (n : Z) : ascii := ascii_of_N (48 + Z.to_N (n mod 10)).

Definition pad2 (n : Z) : string :=
  String (digit (n / 10)) (String (digit n) "").

Definition pad3 (n : Z) : string :=
  String (digit (n / 100)) (pad2 n).

Definition pad4 (n : Z) : string :=
  String (digit (n / 1000)) (pad3 n).

Definition pad6 (n : Z) : string :=
  String (digit (n / 100000)) (String (digit (n / 10000)) (pad4 n)).

(** The year of an ISO date-time string: four digits for years 0..9999,
    a sign and six digits otherwise. *)
Definition iso_year (y : Z) : string :=
  if (0 <=? y) && (y <=? 9999) then pad4 y
  else if y <? 0 then "-" +:+ pad6 (- y)
  else "+" +:+ pad6 y.

(** The [YYYY-MM-DD] part of [toISOString]. *)
Definition iso_date (t : Z) : string :=
  let d := Day t in
  iso_year (YearFromDay d) +:+ "-" +:+ pad2 (MonthFromDay d + 1) +:+ "-" +:+ pad2 (DateFromDay d).

(** The [HH:mm:ss.sss] part of [toISOString]. *)
Definition iso_time (t : Z) : string :=
  let w := TimeWithinDay t in
  pad2 (w / 3600000) +:+ ":" +:+ pad2 (w / 60000 mod 60) +:+ ":" +:+
  pad2 (w / 1000 mod 60) +:+ "." +:+ pad3 (w mod 1000).

(** [Date.prototype.toISOString]: a RangeError on an Invalid Date. *)
Definition toISOString (t : option Z) : result string :=
  match t with
  | None => Throw "Invalid time value"
  | Some t => Ok (iso_date t +:+ "T" +:+ iso_time t +:+ "Z")
  end.

(** ** The host environment

    Built-ins whose result is fixed by the engine and the machine, not by
    the repository: [Number] and [Date.parse] on strings, [String] on a
    value, and the local-time month accessors of [Date]. *)
Record Runtime := {
  StringToNumber : string -> number;
  Date_parse : string -> option Z;
  ToString : value -> string;
  Date_getMonth : Z -> Z;
  Date_setMonth : Z -> Z -> Z;
}.

Section Builtins.
Context (rt : Runtime).

(** [Number(v)]. *)
Definition Number (v : value) : number :=
  match v with
  | VUndefined => NaN
  | VNull => Fin 0
  | VBool b => if b then Fin 1 else Fin 0
  | VNum n => n
  | VStr s => StringToNumber rt s
  | VDate (Some t) => num_of_Z t
  | VDate None => NaN
  end.

(** The time value of [new Date(v)]. *)
Definition new_Date (v : value) : option Z :=
  match v with
  | VStr s => Date_parse rt s
  | VDate t => t
  | VUndefined => None
  | _ => TimeClip (Number v)
  end.
End Builtins.

(** ** Objects

    A plain object (a sheet row) is the list of its own properties in
    insertion order. *)
Definition object := list (string * value).

(** [key in o] for a key that [Object.prototype] does not define. *)
Fixpoint has_key (key : string) (o : object) : bool :=
  match o with
  | [] => false
  | (k, _) :: r => String.eqb k key || has_key key r
  end.

(** [o[key]], [undefined] when the key is missing. *)
Fixpoint get (key : string) (o : object) : value :=
  match o with
  | [] => VUndefined
  | (k, v) :: r => if String.eqb k key then v else get key r
  end.

(** [o[key] = v]: an existing property keeps its place. *)
Fixpoint set (key : string) (v : value) (o : object) : object :=
  match o with
  | [] => [(key, v)]
  | (k, w) :: r => if String.eqb k key then (k, v) :: r else (k, w) :: set key v r
  end.

Definition keys (o : object) : list string := map fst o.

(** The property names every plain object inherits from
    [Object.prototype]. *)
Definition Object_prototype_names : list string :=
  [ "constructor"; "__proto__"; "hasOwnProperty"; "isPrototypeOf";
    "propertyIsEnumerable"; "toLocaleString"; "toString"; "valueOf";
    "__defineGetter__"; "__defineSetter__"; "__lookupGetter__";
    "__lookupSetter__" ].

Definition inherited (name : string) : bool :=
  existsb (String.eqb name) Object_prototype_names.

End Js.

(* ===================================================================== *)
(** * Frontend: utils/errorHandling.ts *)
(* ===================================================================== *)

Module ErrorHandling.
Import Js.

Inductive Severity := SevError | SevWarning | SevInfo.

Definition Severity_eqb (a b : Severity) : bool :=
  match a, b with
  | SevError, SevError | SevWarning, SevWarning | SevInfo, SevInfo => true
  | _, _ => false
  end.

(** [interface ValidationError]. *)
Record ValidationError := {
  row : nat;
  column : option string;
  message : string;
  sheetName : option string;
  severity : option Severity;
}.

(** [interface ApiError] (the fields the code reads). *)
Record ApiError := {
  api_error : option string;
  api_errors : option (list ValidationError);
  api_message : option string;
}.

Definition is_severity (s : Severity) (e : ValidationError) : bool :=
  match severity e with
  | Some s' => Severity_eqb s' s
  | None => false
  end.

(** Truthiness of an optional string property. *)
Definition truthy_str (o : option string) : bool :=
  match o with
  | Some s => negb (String.eqb s "")
  | None => false
  end.

Definition str_of (o : option string) : string :=
  match o with Some s => s | None => "" end.

(** The string held by a value whose [typeof] is ["string"]. *)
Definition string_of (v : value) : string :=
  match v with VStr s => s | _ => "" end.

Definition push {A} (l : list A) (x : A) : list A := l ++ [x].

(** [forEach((x, index) => ...)] threading the state the callback
    updates. *)
Fixpoint forEach {A St : Type} (f : A -> nat -> St -> St) (l : list A) (index : nat) (st : St) : St :=
  match l with
  | [] => st
  | x :: rest => forEach f rest (S index) (f x index st)
  end.

Definition requiredColumns : list string := ["Name"; "Amount"; "Date"; "Verified"].

(** ** validateExcelData *)

(** What the caller passes as [data: any[]]. *)
Inductive sheet_data :=
| NotArray
| RowArray (rows : list object).

(** The two arrays the function fills. *)
Record findings := {
  errors : list ValidationError;
  warnings : list ValidationError;
}.

Definition no_findings : findings := {| errors := []; warnings := [] |}.

Definition field_error (rowNum : nat) (col msg : string) : ValidationError :=
  {| row := rowNum; column := Some col; message := msg; sheetName := None;
     severity := Some SevError |}.

Definition field_warning (rowNum : nat) (col msg : string) : ValidationError :=
  {| row := rowNum; column := Some col; message := msg; sheetName := None;
     severity := Some SevWarning |}.

Definition file_finding (rowNum : nat) (msg : string) (sev : Severity) : ValidationError :=
  {| row := rowNum; column := None; message := msg; sheetName := None;
     severity := Some sev |}.

Definition push_error (st : findings) (e : ValidationError) : findings :=
  {| errors := push (errors st) e; warnings := warnings st |}.

Definition push_warning (st : findings) (e : ValidationError) : findings :=
  {| errors := errors st; warnings := push (warnings st) e |}.

Section Validation.
Context (rt : Runtime).

(** Validate Name *)
Definition validateName (r : object) (rowNum : nat) (st : findings) : findings :=
  let Name := get "Name" r in
  if negb (truthy Name) then
    push_error st (field_error rowNum "Name" "Name is required")
  else if negb (jstype_eqb (typeof Name) TString) then
    push_error st (field_error rowNum "Name" "Name must be text")
  else if (String.length (trim (string_of Name)) =? 0)%nat then
    push_error st (field_error rowNum "Name" "Name cannot be empty")
  else if (100 <? String.length (string_of Name))%nat then
    push_warning st (field_warning rowNum "Name" "Name is unusually long (>100 characters)")
  else st.

(** Validate Amount *)
Definition validateAmount (r : object) (rowNum : nat) (st : findings) : findings :=
  let Amount := get "Amount" r in
  if is_nullish Amount then
    push_error st (field_error rowNum "Amount" "Amount is required")
  else
    let amount := Number rt Amount in
    if num_isNaN amount then
      push_error st (field_error rowNum "Amount" "Amount must be a number")
    else if num_leb amount (Fin 0) then
      push_error st (field_error rowNum "Amount" "Amount must be positive")
    else if num_gtb amount (Fin 1000000) then
      push_warning st (field_warning rowNum "Amount" "Amount is unusually large (>1,000,000)")
    else st.

(** Validate Date; [now] is the clock read by [new Date()]. *)
Definition validateDate (now : Z) (r : object) (rowNum : nat) (st : findings) : findings :=
  let Date := get "Date" r in
  if negb (truthy Date) then
    push_error st (field_error rowNum "Date" "Date is required")
  else
    match new_Date rt Date with
    | None => push_error st (field_error rowNum "Date" "Invalid date format")
    | Some date =>
        if now <? date then
          push_warning st (field_warning rowNum "Date" "Date is in the future")
        else st
    end.

(** Validate Verified *)
Definition validateVerified (r : object) (rowNum : nat) (st : findings) : findings :=
  let Verified := get "Verified" r in
  if is_nullish Verified then
    push_error st (field_error rowNum "Verified" "Verified status is required")
  else if jstype_eqb (typeof Verified) TString then
    let value := trim (toLowerCase (string_of Verified)) in
    if negb (String.eqb value "yes") && negb (String.eqb value "no") &&
       negb (String.eqb value "true") && negb (String.eqb value "false") then
      push_error st (field_error rowNum "Verified" "Verified must be Yes/No or True/False")
    else st
  else if negb (jstype_eqb (typeof Verified) TBoolean) then
    push_error st (field_error rowNum "Verified" "Verified must be a boolean value")
  else st.

(** The body of [data.forEach((row, index) => ...)]; [clock index] is
    the time the clock shows while row [index] is checked. *)
Definition validateExcelRow (clock : nat -> Z) (r : object) (index : nat) (st : findings) : findings :=
  let rowNum := (index + 1)%nat in
  let st := validateName r rowNum st in
  let st := validateAmount r rowNum st in
  let st := validateDate (clock index) r rowNum st in
  validateVerified r rowNum st.

Definition missingColumns (firstRow : object) : list string :=
  List.filter (fun col => negb (has_key col firstRow)) requiredColumns.

Definition validateExcelData (clock : nat -> Z) (data : sheet_data) : list ValidationError :=
  match data with
  | NotArray =>
      [file_finding 0 "Invalid data format: Expected an array of rows" SevError]
  | RowArray [] =>
      [file_finding 0 "File is empty" SevError]
  | RowArray ((firstRow :: _) as rows) =>
      if (0 <? length (missingColumns firstRow))%nat then
        [file_finding 1 ("Missing required columns: " +:+ join ", " (missingColumns firstRow))
           SevError]
      else
        let st := forEach (validateExcelRow clock) rows 0%nat no_findings in
        errors st ++ warnings st
  end.
End Validation.

(** ** validateSheetStructure *)

Definition extraColumns (firstRow : object) : list string :=
  List.filter (fun col => negb (existsb (String.eqb col) requiredColumns)) (keys firstRow).

Definition validateSheetStructure (data : sheet_data) : list ValidationError :=
  match data with
  | NotArray =>
      [file_finding 0 "Invalid file format: Expected Excel data" SevError]
  | RowArray [] =>
      [file_finding 0 "Sheet is empty" SevError]
  | RowArray ((firstRow :: _) as rows) =>
      if 10000 <? Z.of_nat (length rows) then
        [file_finding 0
           "Sheet contains too many rows (>10,000). Please split the data into smaller files."
           SevError]
      else
        let errors := [] in
        let errors :=
          if (0 <? length (missingColumns firstRow))%nat then
            push errors
              (file_finding 0
                 ("Missing required columns: " +:+ join ", " (missingColumns firstRow)) SevError)
          else errors in
        let errors :=
          if (0 <? length (extraColumns firstRow))%nat then
            push errors
              (file_finding 0
                 ("Warning: Found extra columns that will be ignored: " +:+
                  join ", " (extraColumns firstRow)) SevWarning)
          else errors in
        errors
  end.

(** ** handleAxiosError *)

Record Response := {
  data : ApiError;
  status : Z;
}.

(** [AxiosError<ApiError>]: [request] tells whether [error.request] is
    set. *)
Record AxiosError := {
  response : option Response;
  request : bool;
  code : option string;
  error_message : string;
}.

Definition status_message (st : Z) : string :=
  match st with
  | 400 => "Invalid data format. Please check your Excel file structure."
  | 401 => "Unauthorized. Please log in again."
  | 403 => "You do not have permission to perform this action."
  | 404 => "The requested resource was not found."
  | 413 => "The file is too large. Please split it into smaller files."
  | 422 => "The uploaded file contains invalid data. Please check the file contents."
  | 429 => "Too many requests. Please try again later."
  | 500 => "Server error. Please try again later."
  | _ => "Server error (" +:+ Z_to_string st +:+ "). Please try again later."
  end.

Definition criticalErrors (d : ApiError) : list ValidationError :=
  match api_errors d with
  | Some es => List.filter (is_severity SevError) es
  | None => []
  end.

Definition handleAxiosError (error : AxiosError) (defaultMessage : string) : string :=
  match response error with
  | Some resp =>
      let d := data resp in
      match criticalErrors d with
      | first :: _ => message first
      | [] =>
          if truthy_str (api_error d) then str_of (api_error d)
          else if truthy_str (api_message d) then str_of (api_message d)
          else status_message (status resp)
      end
  | None =>
      if request error then "No response from server. Please check your connection."
      else if bool_decide (code error = Some "ECONNABORTED") then
        "Request timed out. The file might be too large."
      else if negb (String.eqb (error_message error) "") then error_message error
      else defaultMessage
  end.

(** ** formatValidationErrors

    The findings are objects in a heap, the argument is the array of their
    references; [{...error, message: ...}] allocates a new object. *)

Abbreviation loc := nat (only parsing).
Abbreviation heap := (gmap nat ValidationError) (only parsing).

Definition alloc (h : heap) (v : ValidationError) : heap * loc :=
  let l := fresh (dom h) in (<[l := v]> h, l).

(** [acc[name]] on the accumulator, an object literal: an own property
    (an array of references), a property of [Object.prototype], or
    [undefined]. *)
Inductive acc_entry :=
| Own (arr : list loc)
| Inherited
| Undefined.

Definition acc_get (acc : gmap string (list loc)) (name : string) : acc_entry :=
  match acc !! name with
  | Some arr => Own arr
  | None => if inherited name then Inherited else Undefined
  end.

Definition formatted (error : ValidationError) : ValidationError :=
  {| row := row error;
     column := column error;
     message :=
       if truthy_str (column error)
       then str_of (column error) +:+ ": " +:+ message error
       else message error;
     sheetName := sheetName error;
     severity := severity error |}.

Definition bucket_name (error : ValidationError) : string :=
  if truthy_str (sheetName error) then str_of (sheetName error) else "Unknown Sheet".

(** The callback of [errors.reduce]: the heap after the call and the new
    accumulator, or the TypeError of calling [push] on something that is
    not an array. A reference that is not in the heap does not occur in a
    running program. *)
Definition format_step (h : heap) (acc : gmap string (list loc)) (l : loc)
  : heap * result (gmap string (list loc)) :=
  match h !! l with
  | None => (h, Throw "dangling reference")
  | Some error =>
      let sheetName := bucket_name error in
      let acc :=
        match acc_get acc sheetName with
        | Undefined => <[sheetName := []]> acc
        | _ => acc
        end in
      let '(h, l') := alloc h (formatted error) in
      match acc_get acc sheetName with
      | Own arr => (h, Ok (<[sheetName := push arr l']> acc))
      | _ => (h, Throw "acc[sheetName].push is not a function")
      end
  end.

Fixpoint reduce_format (errors : list loc) (h : heap) (acc : gmap string (list loc))
  : heap * result (gmap string (list loc)) :=
  match errors with
  | [] => (h, Ok acc)
  | l :: rest =>
      match format_step h acc l with
      | (h, Ok acc) => reduce_format rest h acc
      | (h, Throw msg) => (h, Throw msg)
      end
  end.

Definition formatValidationErrors (errors : list loc) (h : heap)
  : heap * result (gmap string (list loc)) :=
  reduce_format errors h ∅.

End ErrorHandling.

(* ===================================================================== *)
(** * Frontend: the cell normalization of handleFileSelect (App.tsx) *)
(* ===================================================================== *)

Module App.
Import Js.

(** [/date|dt|time/i.test(key)] *)
Definition isDateKey (key : string) : bool :=
  let k := fold_case key in
  includes "date" k || includes "dt" k || includes "time" k.

(** [Math.round((value - 25569) * 86400 * 1000)] *)
Definition serialToTime (value : number) : number :=
  Math_round (dbl_mul (dbl_mul (dbl_sub value (Fin 25569)) (Fin 86400)) (Fin 1000)).

(** [date.toISOString().split('T')[0]] *)
Definition isoDay (date : option Z) : result string :=
  bind (toISOString date) (fun iso => Ok (split_head "T" iso)).

Section Normalization.
Context (rt : Runtime).

(** The callback of [Object.entries(row).forEach(([key, value]) => ...)]:
    the value assigned to [processedRow[key]], [None] when the callback
    assigns nothing. *)
Definition processEntry (key : string) (value : value) : result (option Js.value) :=
  if String.eqb key "Verified" then
    match value with
    | VStr s => Ok (Some (VBool (String.eqb (trim (toLowerCase s)) "yes")))
    | VBool _ => Ok (Some value)
    | _ => Ok (Some VNull)
    end
  else if isDateKey key then
    if truthy value then
      match value with
      | VNum n =>
          let date := TimeClip (serialToTime n) in
          bind (isoDay date) (fun day => Ok (Some (VStr day)))
      | VStr s =>
          let date := Date_parse rt s in
          match date with
          | Some _ => bind (isoDay date) (fun day => Ok (Some (VStr day)))
          | None => Ok (Some VNull)
          end
      | _ => Ok None
      end
    else Ok (Some VNull)
  else Ok None.

(** The loop over the entries of [row], updating [processedRow]. *)
Fixpoint processEntries (entries : list (string * value)) (processedRow : object)
  : result object :=
  match entries with
  | [] => Ok processedRow
  | (key, value) :: rest =>
      bind (processEntry key value) (fun assigned =>
        match assigned with
        | Some v => processEntries rest (set key v processedRow)
        | None => processEntries rest processedRow
        end)
  end.

(** [const processedRow = { ...row }; ...; return processedRow] *)
Definition processRow (r : object) : result object :=
  processEntries r r.

(** [jsonData.map(row => ...)] *)
Fixpoint processedData (jsonData : list object) : result (list object) :=
  match jsonData with
  | [] => Ok []
  | r :: rest =>
      bind (processRow r) (fun r' =>
        bind (processedData rest) (fun rest' => Ok (r' :: rest')))
  end.
End Normalization.

End App.

(* ===================================================================== *)
(** * Backend: excel.config.js, validators.js, excel.service.js *)
(* ===================================================================== *)

Module Server.
Import Js.

(** An entry of [validations]. *)
Record Validation := {
  required : bool;
  type : string;
  min : option number;
  validator : option string;
  transform : option (value -> result value);
}.

Record Config := {
  columnMapping : list (string * string);
  validations : list (string * Validation);
}.

(** [config.validations[dbField]] *)
Fixpoint lookup_validation (dbField : string) (vs : list (string * Validation))
  : option Validation :=
  match vs with
  | [] => None
  | (k, v) :: rest => if String.eqb k dbField then Some v else lookup_validation dbField rest
  end.

(** [(value) => value.toLowerCase() === 'yes'] *)
Definition verified_transform (value : value) : result Js.value :=
  match value with
  | VStr s => Ok (VBool (String.eqb (toLowerCase s) "yes"))
  | VUndefined | VNull => Throw "Cannot read properties of undefined (reading 'toLowerCase')"
  | _ => Throw "value.toLowerCase is not a function"
  end.

(** [sheetConfigs.default] *)
Definition sheetConfigs_default : Config := {|
  columnMapping :=
    [("Name", "name"); ("Amount", "amount"); ("Date", "date"); ("Verified", "verified")];
  validations :=
    [("name",
      {| required := true; type := "string"; min := None; validator := None;
         transform := None |});
     ("amount",
      {| required := true; type := "number"; min := Some (Fin 0); validator := None;
         transform := None |});
     ("date",
      {| required := true; type := "date"; min := None;
         validator := Some "isCurrentMonth"; transform := None |});
     ("verified",
      {| required := false; type := "boolean"; min := None; validator := None;
         transform := Some verified_transform |})]
|}.

(** A finding of the server. *)
Record RowError := {
  sheet : string;
  row : nat;
  message : string;
}.

Record RowResult := {
  isValid : bool;
  data : option object;
  errors : list RowError;
}.

Record SheetResult := {
  valid : list object;
  sheet_errors : list RowError;
}.

Section Service.
Context (rt : Runtime).

(** [isCurrentMonth(date)]; [clk] holds the two readings of the clock,
    by [const now = new Date()] and by
    [const twelveMonthsAgo = new Date()]. *)
Definition isCurrentMonth (clk : Z * Z) (date : Z) : bool :=
  let now := fst clk in
  let inputDate := date in
  let twelveMonthsAgo := snd clk in
  let twelveMonthsAgo := Date_setMonth rt twelveMonthsAgo (Date_getMonth rt now - 12) in
  (twelveMonthsAgo <=? inputDate) && (inputDate <=? now).

Definition validateField (clk : Z * Z) (value : value) (validation : Validation)
    (fieldName : string) : result Js.value :=
  if negb (truthy value) && negb (required validation) then Ok VNull
  else if String.eqb (type validation) "number" then
    let num := Number rt value in
    if num_isNaN num then Throw (fieldName +:+ " must be a number")
    else
      match min validation with
      | Some m =>
          if num_ltb num m then
            Throw (fieldName +:+ " must be greater than " +:+ ToString rt (VNum m))
          else Ok (VNum num)
      | None => Ok (VNum num)
      end
  else if String.eqb (type validation) "date" then
    match new_Date rt value with
    | None => Throw (fieldName +:+ " must be a valid date")
    | Some date =>
        if bool_decide (validator validation = Some "isCurrentMonth") &&
           negb (isCurrentMonth clk date) then
          Throw (fieldName +:+ " must be in the current month")
        else Ok (VDate (Some date))
    end
  else if String.eqb (type validation) "boolean" then
    match transform validation with
    | Some f => f value
    | None => Ok (VBool (truthy value))
    end
  else Ok (VStr (ToString rt value)).

(** The state of the loop of [validateRow]. *)
Record RowState := {
  st_errors : list RowError;
  st_transformedData : object;
  st_isValid : bool;
}.

(** One turn of [for (const [excelColumn, dbField] of ...)]; reading
    [validation.required] of a missing validation is a TypeError outside
    the [try]. *)
Definition validateColumn (clk : Z * Z) (r : object) (config : Config) (rowNumber : nat)
    (sheetName : string) (st : RowState) (entry : string * string) : result RowState :=
  let '(excelColumn, dbField) := entry in
  let value := get excelColumn r in
  match lookup_validation dbField (validations config) with
  | None => Throw "Cannot read properties of undefined (reading 'required')"
  | Some validation =>
      if required validation && negb (truthy value) then
        Ok {| st_errors :=
                st_errors st ++
                [{| sheet := sheetName; row := rowNumber;
                    message := excelColumn +:+ " is required" |}];
              st_transformedData := st_transformedData st;
              st_isValid := false |}
      else
        match validateField clk value validation excelColumn with
        | Ok v =>
            Ok {| st_errors := st_errors st;
                  st_transformedData := set dbField v (st_transformedData st);
                  st_isValid := st_isValid st |}
        | Throw msg =>
            Ok {| st_errors :=
                    st_errors st ++
                    [{| sheet := sheetName; row := rowNumber; message := msg |}];
                  st_transformedData := st_transformedData st;
                  st_isValid := false |}
        end
  end.

Fixpoint validateColumns (clk : Z * Z) (r : object) (config : Config) (rowNumber : nat)
    (sheetName : string) (entries : list (string * string)) (st : RowState)
  : result RowState :=
  match entries with
  | [] => Ok st
  | entry :: rest =>
      bind (validateColumn clk r config rowNumber sheetName st entry)
           (validateColumns clk r config rowNumber sheetName rest)
  end.

Definition validateRow (clk : Z * Z) (r : object) (config : Config) (rowNumber : nat)
    (sheetName : string) : result RowResult :=
  bind (validateColumns clk r config rowNumber sheetName (columnMapping config)
          {| st_errors := []; st_transformedData := []; st_isValid := true |})
       (fun st =>
          Ok {| isValid := st_isValid st;
                data :=
                  if st_isValid st
                  then Some (set "sheetName" (VStr sheetName) (st_transformedData st))
                  else None;
                errors := st_errors st |}).

(** [data.forEach((row, index) => ...)] of [validateSheetData]; [clock
    index] holds the readings of the clock while row [index] is
    checked. *)
Fixpoint validateSheetRows (clock : nat -> Z * Z) (rows : list object) (index : nat)
    (sheetName : string) (acc : SheetResult) : result SheetResult :=
  match rows with
  | [] => Ok acc
  | r :: rest =>
      let rowNumber := (index + 2)%nat in
      bind (validateRow (clock index) r sheetConfigs_default rowNumber sheetName)
           (fun validatedRow =>
              let acc :=
                if isValid validatedRow then
                  {| valid :=
                       valid acc ++
                       match data validatedRow with Some d => [d] | None => [] end;
                     sheet_errors := sheet_errors acc |}
                else
                  {| valid := valid acc;
                     sheet_errors := sheet_errors acc ++ errors validatedRow |} in
              validateSheetRows clock rest (S index) sheetName acc)
  end.

Definition validateSheetData (clock : nat -> Z * Z) (rows : list object)
    (sheetName : string) : result SheetResult :=
  validateSheetRows clock rows 0%nat sheetName {| valid := []; sheet_errors := [] |}.
End Service.

End Server.

(* ===================================================================== *)
(** * The civil calendar *)
(* ===================================================================== *)

Module Calendar.

Record date := {
  year : Z;
  month : Z;
  day : Z;
}.

Definition is_leap (y : Z) : bool :=
  (y mod 4 =? 0) && (negb (y mod 100 =? 0) || (y mod 400 =? 0)).

Definition days_in_month (y m : Z) : Z :=
  match m with
  | 2 => if is_leap y then 29 else 28
  | 4 | 6 | 9 | 11 => 30
  | _ => 31
  end.

Definition valid_date (d : date) : Prop :=
  1 <= month d <= 12 /\ 1 <= day d <= days_in_month (year d) (month d).

(** The day after [d]. *)
Definition next_day (d : date) : date :=
  if day d <? days_in_month (year d) (month d) then
    {| year := year d; month := month d; day := day d + 1 |}
  else if month d <? 12 then
    {| year := year d; month := month d + 1; day := 1 |}
  else
    {| year := year d + 1; month := 1; day := 1 |}.

(** [d'] is the date [n] days after [d] ([-n] days before it when [n] is
    negative). *)
Definition days_after (n : Z) (d d' : date) : Prop :=
  if 0 <=? n then d' = Nat.iter (Z.to_nat n) next_day d
  else d = Nat.iter (Z.to_nat (- n)) next_day d'.

(** Day 0 of the 1900 date system of spreadsheets. *)
Definition serial_epoch : date := {| year := 1899; month := 12; day := 30 |}.

(** [YYYY-MM-DD] *)
Definition render (d : date) : string :=
  Js.pad4 (year d) +:+ "-" +:+ Js.pad2 (month d) +:+ "-" +:+ Js.pad2 (day d).

(** The date of day number [n] counted from 1970-01-01, as the [Date]
    built-ins compute it. *)
Definition date_of_day (n : Z) : date :=
  {| year := Js.YearFromDay n; month := Js.MonthFromDay n + 1; day := Js.DateFromDay n |}.

End Calendar.

(* ===================================================================== *)
(** * A host for the examples *)
(* ===================================================================== *)

(** A host whose local time is UTC. Its [Number] reads unsigned decimal
    integers (the empty string is 0) and its [Date.parse] reads the dates
    [YYYY-MM-DD] of the calendar; on every other string they answer [NaN].
    The examples use it on strings of these forms, and on strings that no
    engine reads as a number or as a date. *)
Module Host.
Import Js.

Definition digit_value (c : ascii) : option Z :=
  let n := code_unit c in
  if ((48 <=? n) && (n <=? 57))%N then Some (Z.of_N n - 48) else None.

Fixpoint digits_value (s : string) (acc : Z) : option Z :=
  match s with
  | EmptyString => Some acc
  | String c r =>
      match digit_value c with
      | Some d => digits_value r (10 * acc + d)
      | None => None
      end
  end.

Definition parse_decimal (s : string) : number :=
  match digits_value s 0 with
  | Some n => num_of_Z n
  | None => NaN
  end.

(** Days of a common year before month [m] (0..11). *)
Definition days_before_month (m : Z) : Z :=
  match m with
  | 0 => 0 | 1 => 31 | 2 => 59 | 3 => 90 | 4 => 120 | 5 => 151
  | 6 => 181 | 7 => 212 | 8 => 243 | 9 => 273 | 10 => 304 | _ => 334
  end.

(** MakeDay: the day number of day [dt] of month [m] (0-based, any
    integer) of year [y]. *)
Definition MakeDay (y m dt : Z) : Z :=
  let ym := y + m / 12 in
  let mn := m mod 12 in
  DayFromYear ym + days_before_month mn + (if 2 <=? mn then InLeapYear ym else 0) + dt - 1.

Definition parse_iso_date (s : string) : option Z :=
  if negb (String.length s =? 10)%nat then None
  else
    match digits_value (substring 0 4 s) 0, digits_value (substring 5 2 s) 0,
          digits_value (substring 8 2 s) 0 with
    | Some y, Some m, Some d =>
        if String.eqb (substring 4 1 s) "-" && String.eqb (substring 7 1 s) "-" &&
           (1 <=? m) && (m <=? 12) && (1 <=? d) && (d <=? Calendar.days_in_month y m)
        then Some (MakeDay y (m - 1) d * msPerDay)
        else None
    | _, _, _ => None
    end.

Definition to_string (v : value) : string :=
  match v with
  | VUndefined => "undefined"
  | VNull => "null"
  | VBool b => if b then "true" else "false"
  | VNum (Fin q) => Z_to_string (Qfloor q)
  | VNum NaN => "NaN"
  | VNum PosInf => "Infinity"
  | VNum NegInf => "-Infinity"
  | VStr s => s
  | VDate (Some t) => iso_date t
  | VDate None => "Invalid Date"
  end.

Definition getMonth (t : Z) : Z := MonthFromDay (Day t).

Definition setMonth (t m : Z) : Z :=
  MakeDay (YearFromDay (Day t)) m (DateFromDay (Day t)) * msPerDay + TimeWithinDay t.

Definition runtime : Runtime := {|
  StringToNumber := parse_decimal;
  Date_parse := parse_iso_date;
  ToString := to_string;
  Date_getMonth := getMonth;
  Date_setMonth := setMonth;
|}.

End Host.

(* ===================================================================== *)
(** * Text helpers shared by the file checks and the preview *)
(* ===================================================================== *)

Module Text.
Import Js.

(** [s.split(sep)] for a one-character separator: never empty. *)
Fixpoint split (sep : ascii) (s : string) : list string :=
  match s with
  | EmptyString => [EmptyString]
  | String c r =>
      if Ascii.eqb c sep then EmptyString :: split sep r
      else
        match split sep r with
        | seg :: segs => String c seg :: segs
        | [] => [String c EmptyString]
        end
  end.

(** [arr.pop()]: the last element, [undefined] on an empty array. *)
Definition pop (arr : list string) : option string := last arr.

(** A regular expression [suffix$] matches: [s] ends with [suffix]. *)
Fixpoint endsWith (suffix s : string) : bool :=
  String.eqb s suffix ||
  match s with
  | EmptyString => false
  | String _ r => endsWith suffix r
  end.

(** [\d] *)
Definition is_digit (c : ascii) : bool :=
  let n := code_unit c in ((48 <=? n) && (n <=? 57))%N.

(** The double quote character, for the messages that quote a name. *)
Definition dquote : string := String (ascii_of_N 34) EmptyString.

End Text.

(* ===================================================================== *)
(** * Frontend: handleFileValidationError (errorHandling.ts) and
      validateAndProcessFile (FileUpload.tsx) *)
(* ===================================================================== *)

Module FileChecks.
Import Js Text.

(** The fields of a [File] that the code reads; [size] is a byte count. *)
Record File := {
  name : string;
  type : string;
  size : N;
}.

Definition maxSize : N := (10 * 1024 * 1024)%N.

Definition allowedTypes : list string :=
  [ "application/vnd.openxmlformats-officedocument.spreadsheetml.sheet";
    "application/vnd.ms-excel" ].

(** [file.name.match(/\.(xlsx|xls)$/i)] *)
Definition matchesExcelName (name : string) : bool :=
  let n := fold_case name in
  endsWith ".xlsx" n || endsWith ".xls" n.

(** [handleFileValidationError(file)]: the message, [None] for [null]. *)
Definition handleFileValidationError (file : option File) : option string :=
  match file with
  | None => Some "No file selected"
  | Some file =>
      if negb (matchesExcelName (name file)) then
        Some "Only Excel files (.xlsx, .xls) are allowed"
      else if negb (existsb (String.eqb (type file)) allowedTypes) then
        Some "Invalid file type. Only Excel files are allowed"
      else if (size file =? 0)%N then
        Some "The file is empty"
      else if (maxSize <? size file)%N then
        Some ("File size should not exceed " +:+
              Z_to_string (Z.of_N (maxSize / (1024 * 1024))%N) +:+ "MB")
      else None
  end.

(** The state of the [FileUpload] component. *)
Record UploadState := {
  error : string;
  isProcessing : bool;
  uploadProgress : Z;
}.

(** [a / d] for a finite divisor other than zero. *)
Definition num_div (a : number) (d : Q) : number :=
  match a with
  | Fin x => Fin (x / d)
  | _ => a
  end.

Section FileUpload.
Context (rt : Runtime).
(** The prop [onFileSelect]: it returns, or it throws. *)
Context (onFileSelect : File -> result unit).
(** The prop [maxFileSize]. *)
Context (maxFileSize : number).

(** [validateAndProcessFile(file)]: the state when the call is over, and
    the boolean it resolves to. (The timer it starts is cleared before it
    can fire, except when [onFileSelect] throws: it is then left
    running.) *)
Definition validateAndProcessFile (file : File) (st : UploadState) : UploadState * bool :=
  let validationError := handleFileValidationError (Some file) in
  if ErrorHandling.truthy_str validationError then
    ({| error := ErrorHandling.str_of validationError;
        isProcessing := isProcessing st;
        uploadProgress := uploadProgress st |}, false)
  else if num_gtb (num_of_Z (Z.of_N (size file))) maxFileSize then
    ({| error := "File size should not exceed " +:+
                 ToString rt (VNum (num_div maxFileSize (inject_Z (1024 * 1024)))) +:+ "MB";
        isProcessing := isProcessing st;
        uploadProgress := uploadProgress st |}, false)
  else
    match onFileSelect file with
    | Ok _ =>
        ({| error := ""; isProcessing := false; uploadProgress := 100 |}, true)
    | Throw _ =>
        ({| error := "Error processing file. Please try again.";
            isProcessing := false; uploadProgress := 0 |}, false)
    end.
End FileUpload.

End FileChecks.

(* ===================================================================== *)
(** * Frontend: the handlers of App.tsx *)
(* ===================================================================== *)

Module Handlers.
Import Js Text.

(** [o[key] = v] on an object literal whose values are arrays: the name
    [__proto__] is the accessor of [Object.prototype], assigning to it
    adds no property. *)
Definition assign {A} (o : gmap string A) (key : string) (v : A) : gmap string A :=
  if String.eqb key "__proto__" then o else <[key := v]> o.

(** ** handleFileSelect: the [try] block of [reader.onload]

    [workbook] lists [workbook.SheetNames] with, for each, the rows that
    [sheet_to_json] reads from the sheet. *)
Section FileSelect.
Context (rt : Runtime).

(** [workbook.SheetNames.forEach((sheetName) => ...)] *)
Fixpoint loadSheets (workbook : list (string * list object))
    (sheetsData : gmap string (list object)) : result (gmap string (list object)) :=
  match workbook with
  | [] => Ok sheetsData
  | (sheetName, jsonData) :: rest =>
      if (length jsonData =? 0)%nat then
        Throw ("Sheet " +:+ dquote +:+ sheetName +:+ dquote +:+ " is empty")
      else
        bind (App.processedData rt jsonData) (fun processedData =>
          loadSheets rest (assign sheetsData sheetName processedData))
  end.

(** The value passed to [setSheets], or the message of the error toast
    (the sheets then stay as [handleFileSelect] had reset them, empty). *)
Definition onload (workbook : list (string * list object))
  : result (gmap string (list object)) :=
  if (length workbook =? 0)%nat then Throw "The Excel file is empty"
  else loadSheets workbook ∅.
End FileSelect.

(** ** handleValidate, up to the request *)

(** Of what a run of [handleValidate] does before it awaits the server:
    the errors shown, the toast, and whether the request is sent (the
    progress flag is left out). *)
Record ValidateEffects := {
  setErrors : option (gmap string (list ErrorHandling.ValidationError));
  setShowErrors : option bool;
  errorToast : option string;
  posts : bool;
}.

(** [Object.entries(sheets).forEach(([sheetName, data]) => { const errors
    = check(data); if (errors.length > 0) acc[sheetName] = errors; })] *)
Fixpoint collectErrors (check : string -> list object -> list ErrorHandling.ValidationError)
    (entries : list (string * list object))
    (acc : gmap string (list ErrorHandling.ValidationError))
  : gmap string (list ErrorHandling.ValidationError) :=
  match entries with
  | [] => acc
  | (sheetName, data) :: rest =>
      let errors := check sheetName data in
      collectErrors check rest
        (if (0 <? length errors)%nat then assign acc sheetName errors else acc)
  end.

Section Validate.
Context (rt : Runtime).
(** [clock sheetName index]: the time the clock shows while row [index]
    of the sheet is checked. *)
Context (clock : string -> nat -> Z).

(** [entries] is [Object.entries(sheets)]. *)
Definition handleValidate (currentFile : option FileChecks.File)
    (entries : list (string * list object)) : ValidateEffects :=
  match currentFile with
  | None =>
      {| setErrors := None; setShowErrors := None;
         errorToast := Some "Please upload a file first"; posts := false |}
  | Some _ =>
      let structureErrors :=
        collectErrors
          (fun _ data => ErrorHandling.validateSheetStructure (ErrorHandling.RowArray data))
          entries ∅ in
      if (0 <? size structureErrors)%nat then
        {| setErrors := Some structureErrors; setShowErrors := Some true;
           errorToast := Some "Invalid Excel structure. Please check the required columns.";
           posts := false |}
      else
        let dataErrors :=
          collectErrors
            (fun sheetName data =>
               ErrorHandling.validateExcelData rt (clock sheetName) (ErrorHandling.RowArray data))
            entries ∅ in
        if (0 <? size dataErrors)%nat then
          {| setErrors := Some dataErrors; setShowErrors := Some true;
             errorToast := Some "Invalid data found. Please check the error details.";
             posts := false |}
        else
          {| setErrors := None; setShowErrors := None; errorToast := None; posts := true |}
  end.
End Validate.

(** ** handleDeleteRow *)

(** [arr.filter((_, index) => keep(index))] *)
Fixpoint filter_index {A} (keep : nat -> bool) (arr : list A) (index : nat) : list A :=
  match arr with
  | [] => []
  | x :: rest =>
      if keep index then x :: filter_index keep rest (S index)
      else filter_index keep rest (S index)
  end.

(** The updater passed to [setSheets]: the next sheets, or the TypeError
    of calling [filter] on what [prevSheets[sheetName]] holds when that
    is no array. *)
Definition handleDeleteRow (sheetName : string) (rowIndex : Z)
    (prevSheets : gmap string (list object)) : result (gmap string (list object)) :=
  match prevSheets !! sheetName with
  | Some rows =>
      Ok (<[sheetName :=
              filter_index (fun index => negb (Z.of_nat index =? rowIndex)) rows 0]> prevSheets)
  | None =>
      if inherited sheetName then Throw "prevSheets[sheetName].filter is not a function"
      else Throw "Cannot read properties of undefined (reading 'filter')"
  end.

End Handlers.

(* ===================================================================== *)
(** * Frontend: components/DataPreview.tsx *)
(* ===================================================================== *)

Module Preview.
Import Js Text.

(** The formatting built-ins of the host, for the locale [en-IN]:
    [toLocaleDateString] with two-digit day and month and numeric year,
    [Intl.NumberFormat] with two fraction digits, the time value of
    [new Date(1899, 11, 30)] in the local zone, and
    [Date.prototype.toString]. *)
Record Intl := {
  toLocaleDateString : Z -> string;
  NumberFormat_format : number -> string;
  excelEpoch : Z;
  Date_toString : option Z -> string;
}.

(** [/^\d{4}-\d{2}-\d{2}$/] *)
Definition isIsoDateText (s : string) : bool :=
  match s with
  | String y1 (String y2 (String y3 (String y4 (String s1
      (String m1 (String m2 (String s2 (String d1 (String d2 EmptyString))))))))) =>
      is_digit y1 && is_digit y2 && is_digit y3 && is_digit y4 && Ascii.eqb s1 "-" &&
      is_digit m1 && is_digit m2 && Ascii.eqb s2 "-" && is_digit d1 && is_digit d2
  | _ => false
  end.

(** An element of a destructured array, in a template literal. *)
Definition element (parts : list string) (i : nat) : string :=
  match nth_error parts i with
  | Some s => s
  | None => "undefined"
  end.

Section Formatting.
Context (rt : Runtime) (intl : Intl).

Definition formatDate (value : value) : string :=
  if negb (truthy value) then "-"
  else if jstype_eqb (typeof value) TString && isIsoDateText (ErrorHandling.string_of value) then
    let parts := split "-" (ErrorHandling.string_of value) in
    element parts 2 +:+ "/" +:+ element parts 1 +:+ "/" +:+ element parts 0
  else
    match value with
    | VNum n =>
        let dateValue :=
          TimeClip
            (dbl_add (num_of_Z (excelEpoch intl))
               (dbl_mul (dbl_mul (dbl_mul (dbl_mul n (Fin 24)) (Fin 60)) (Fin 60)) (Fin 1000))) in
        match dateValue with
        | None => "-"
        | Some t => toLocaleDateString intl t
        end
    | _ =>
        match new_Date rt value with
        | None => "-"
        | Some t => toLocaleDateString intl t
        end
    end.

Definition formatNumber (n : number) : string := NumberFormat_format intl n.

Definition formatValue (value : value) (header : string) : string :=
  if is_nullish value then "-"
  else if App.isDateKey header then formatDate value
  else
    match value with
    | VBool b => if b then "Yes" else "No"
    | VNum n => formatNumber n
    | VStr s => s
    | VDate t => Date_toString intl t
    | VUndefined | VNull => "-"
    end.
End Formatting.

(** ** Pagination *)

Definition ROWS_PER_PAGE : Z := 10.

(** [arr.slice(start, end)] *)
Definition slice {A} (arr : list A) (start final : Z) : list A :=
  let len := Z.of_nat (length arr) in
  let k := if start <? 0 then Z.max (len + start) 0 else Z.min start len in
  let final := if final <? 0 then Z.max (len + final) 0 else Z.min final len in
  take (Z.to_nat (final - k)) (drop (Z.to_nat k) arr).

(** [Math.ceil(currentData.length / ROWS_PER_PAGE)] *)
Definition totalPages (currentData : list object) : Z :=
  Qceiling (inject_Z (Z.of_nat (length currentData)) / inject_Z ROWS_PER_PAGE).

Definition startIndex (page : Z) : Z := (page - 1) * ROWS_PER_PAGE.

Definition displayData (currentData : list object) (page : Z) : list object :=
  slice currentData (startIndex page) (startIndex page + ROWS_PER_PAGE).

(** ** The delete dialog *)

Record DeleteDialog := {
  open : bool;
  sheetName : string;
  rowIndex : Z;
}.

(** The state of the component. *)
Record PreviewState := {
  selectedSheet : string;
  page : Z;
  deleteDialog : DeleteDialog;
}.

Definition handleDeleteClick (sheetName : string) (rowIndex : Z) (st : PreviewState)
  : PreviewState :=
  {| selectedSheet := selectedSheet st; page := page st;
     deleteDialog := {| open := true; sheetName := sheetName; rowIndex := rowIndex |} |}.

(** The [onClick] of the delete button of the row shown at position
    [index] of the page. *)
Definition deleteButton (index : nat) (st : PreviewState) : PreviewState :=
  handleDeleteClick (selectedSheet st) (startIndex (page st) + Z.of_nat index) st.

(** [handleDeleteConfirm]: the call of [onDeleteRow], which is
    [handleDeleteRow] of the application, and the state with the dialog
    closed. *)
Definition handleDeleteConfirm (st : PreviewState) (sheets : gmap string (list object))
  : PreviewState * result (gmap string (list object)) :=
  ({| selectedSheet := selectedSheet st; page := page st;
      deleteDialog := {| open := false; sheetName := ""; rowIndex := -1 |} |},
   Handlers.handleDeleteRow (sheetName (deleteDialog st)) (rowIndex (deleteDialog st)) sheets).

End Preview.

(* ===================================================================== *)
(** * Backend: middleware/fileValidation.middleware.js *)
(* ===================================================================== *)

Module Middleware.
Import Js Text.

(** [excel.config.js] *)
Definition maxFileSize : N := (2 * 1024 * 1024)%N.
Definition allowedExtensions : list string := [".xlsx"].

(** [fileFilter(req, file, cb)]: [Ok accept] for [cb(null, accept)],
    [Throw msg] for [cb(new Error(msg), false)] and for a TypeError. *)
Definition fileFilter (originalname : string) : result bool :=
  match pop (split "." originalname) with
  | None => Throw "Cannot read properties of undefined (reading 'toLowerCase')"
  | Some last =>
      let ext := "." +:+ toLowerCase last in
      if negb (existsb (String.eqb ext) allowedExtensions) then
        Throw "Invalid file type. Only .xlsx files are allowed."
      else Ok true
  end.

End Middleware.

(* ===================================================================== *)
(** * Backend: ExcelService.processFile and controllers/upload.controller.js *)
(* ===================================================================== *)

Module Controller.
Import Js.

(** An element of the array [processFile] returns. *)
Record SheetReport := {
  sheetName : string;
  data : list object;
  errors : list Server.RowError;
}.

(** [req.session.validatedData]. *)
Inductive SessionData :=
| Unset
| Null
| Rows (rows : list object).

(** The bodies handed to [res.json]. *)
Record Body := {
  success : option bool;
  error : option string;
  body_errors : option (list Server.RowError);
  message : option string;
  rowCount : option nat;
  importedCount : option nat;
}.

Definition no_body : Body :=
  {| success := None; error := None; body_errors := None; message := None;
     rowCount := None; importedCount := None |}.

Record Reply := {
  status : Z;
  body : Body;
}.

Section Service.
Context (rt : Runtime).
(** [clock k index]: the readings of the clock while row [index] of the
    sheet at position [k] is checked. *)
Context (clock : nat -> nat -> Z * Z).

(** [for (const sheetName of workbook.SheetNames)] *)
Fixpoint processSheets (sheets : list (string * list object)) (k : nat)
    (results : list SheetReport) : result (list SheetReport) :=
  match sheets with
  | [] => Ok results
  | (sheetName, data) :: rest =>
      bind (Server.validateSheetData rt (clock k) data sheetName) (fun validatedData =>
        processSheets rest (S k)
          (results ++
           [{| sheetName := sheetName;
               data := Server.valid validatedData;
               errors := Server.sheet_errors validatedData |}]))
  end.

(** [processFile(buffer)]; [workbook] is what [XLSX.read] and
    [sheet_to_json] make of the buffer: the sheet names with their rows,
    or the error they throw. *)
Definition processFile (workbook : result (list (string * list object)))
  : result (list SheetReport) :=
  match bind workbook (fun sheets => processSheets sheets 0 []) with
  | Ok results => Ok results
  | Throw msg => Throw ("Error processing Excel file: " +:+ msg)
  end.

(** [validateFile(req, res)]: [file] is [req.file] (by what its buffer
    decodes to), [session] is [req.session.validatedData]; the result is
    the session property after the call and the reply. *)
Definition validateFile (file : option (result (list (string * list object))))
    (session : SessionData) : SessionData * Reply :=
  match file with
  | None =>
      (session,
       {| status := 400;
          body := {| success := None; error := Some "No file uploaded"; body_errors := None;
                     message := None; rowCount := None; importedCount := None |} |})
  | Some workbook =>
      match processFile workbook with
      | Ok results =>
          let hasErrors := existsb (fun result => (0 <? length (errors result))%nat) results in
          if hasErrors then
            (session,
             {| status := 400;
                body := {| success := Some false; error := None;
                           body_errors := Some (concat (map errors results));
                           message := None; rowCount := None; importedCount := None |} |})
          else
            let validatedData := concat (map data results) in
            (Rows validatedData,
             {| status := 200;
                body := {| success := Some true; error := None; body_errors := None;
                           message := Some "File validated successfully";
                           rowCount := Some (length validatedData);
                           importedCount := None |} |})
      | Throw msg =>
          (session,
           {| status := 500;
              body := {| success := Some false; error := Some msg; body_errors := None;
                         message := None; rowCount := None; importedCount := None |} |})
      end
  end.
End Service.

Section Insertion.
(** [Data.insertMany(docs, { ordered: false })]: the number of documents
    of the array it resolves to, or the error it rejects with. *)
Context (insertMany : list object -> result nat).

(** [importData(req, res)]: the session property after the call, the
    reply, and the arrays passed to [insertMany]. *)
Definition importData (session : SessionData) : SessionData * Reply * list (list object) :=
  match session with
  | Rows ((_ :: _) as validatedData) =>
      match insertMany validatedData with
      | Ok n =>
          (Null,
           {| status := 200;
              body := {| success := Some true; error := None; body_errors := None;
                         message := Some "Data imported successfully";
                         rowCount := None; importedCount := Some n |} |},
           [validatedData])
      | Throw msg =>
          (session,
           {| status := 500;
              body := {| success := Some false; error := Some msg; body_errors := None;
                         message := None; rowCount := None; importedCount := None |} |},
           [validatedData])
      end
  | _ =>
      (session,
       {| status := 400;
          body := {| success := Some false;
                     error := Some "No validated data found. Please upload and validate a file first.";
                     body_errors := None; message := None; rowCount := None;
                     importedCount := None |} |},
       [])
  end.
End Insertion.

End Controller.

(* ===================================================================== *)
(** * Frontend: handleValidate and handleImport, from the answer on *)
(* ===================================================================== *)

Module Exchange.
Import Js.

(** The objects [{ row: err.row, message: err.message }] that
    [handleValidate] shows. *)
Record ShownError := {
  row : nat;
  message : string;
}.

(** [apiError.errors.forEach((err) => { if (!errorsBySheet[err.sheet])
    errorsBySheet[err.sheet] = []; errorsBySheet[err.sheet].push({...}) })]
    on an object literal: under a name that [Object.prototype] defines
    and the object does not, the value read is no array and [push]
    throws. *)
Fixpoint groupBySheet (errors : list Server.RowError)
    (errorsBySheet : gmap string (list ShownError)) : result (gmap string (list ShownError)) :=
  match errors with
  | [] => Ok errorsBySheet
  | err :: rest =>
      let shown := {| row := Server.row err; message := Server.message err |} in
      match errorsBySheet !! Server.sheet err with
      | Some arr =>
          groupBySheet rest (<[Server.sheet err := ErrorHandling.push arr shown]> errorsBySheet)
      | None =>
          if inherited (Server.sheet err) then
            Throw "errorsBySheet[err.sheet].push is not a function"
          else
            groupBySheet rest
              (<[Server.sheet err := ErrorHandling.push [] shown]> errorsBySheet)
      end
  end.

(** An error of the server as the client decodes it: the fields that the
    server does not send read as [undefined]. *)
Definition decoded (err : Server.RowError) : ErrorHandling.ValidationError :=
  {| ErrorHandling.row := Server.row err;
     ErrorHandling.column := None;
     ErrorHandling.message := Server.message err;
     ErrorHandling.sheetName := None;
     ErrorHandling.severity := None |}.

(** The decoded errors as objects of a heap, at the references 0, 1,
    ... *)
Definition store (errors : list ErrorHandling.ValidationError) : gmap nat ErrorHandling.ValidationError :=
  list_to_map (imap (fun i e => (i, e)) errors).

(** Of what a handler does once the request has settled: the verdict,
    the errors shown and the toasts (the progress flag, the step and the
    reset of the sheets are left out). [formatted] is the result of
    [formatValidationErrors], passed to [setErrors] by [handleImport];
    [thrown] an error that leaves the handler. *)
Record Effects := {
  setIsValidated : option bool;
  setErrors : option (gmap string (list ShownError));
  formatted : option (gmap nat ErrorHandling.ValidationError * gmap string (list nat));
  setShowErrors : option bool;
  successToast : option string;
  errorToast : option string;
  thrown : option string;
}.

Definition no_effects : Effects :=
  {| setIsValidated := None; setErrors := None; formatted := None; setShowErrors := None;
     successToast := None; errorToast := None; thrown := None |}.

Definition error_toast (msg : string) : Effects :=
  {| setIsValidated := None; setErrors := None; formatted := None; setShowErrors := None;
     successToast := None; errorToast := Some msg; thrown := None |}.

(** The client library resolves on a status from 200 to 299 and rejects
    on every other answer. *)
Definition resolves (reply : Controller.Reply) : bool :=
  (200 <=? Controller.status reply) && (Controller.status reply <? 300).

(** [handleValidate] from [await api.post('/api/upload/validate', ...)]
    on; [answer] is the answer of the server, [None] when none came. *)
Definition handleValidate_settled (answer : option Controller.Reply) : Effects :=
  match answer with
  | Some reply =>
      let data := Controller.body reply in
      if resolves reply then
        match Controller.success data with
        | Some true =>
            {| setIsValidated := Some true; setErrors := Some ∅; formatted := None;
               setShowErrors := Some false;
               successToast := Some "Data validated successfully"; errorToast := None;
               thrown := None |}
        | _ => no_effects
        end
      else
        match Controller.body_errors data with
        | Some errors =>
            match groupBySheet errors ∅ with
            | Ok errorsBySheet =>
                {| setIsValidated := None; setErrors := Some errorsBySheet; formatted := None;
                   setShowErrors := Some true; successToast := None;
                   errorToast := Some "Validation failed. Please check the error details.";
                   thrown := None |}
            | Throw msg =>
                {| setIsValidated := None; setErrors := None; formatted := None;
                   setShowErrors := None; successToast := None; errorToast := None;
                   thrown := Some msg |}
            end
        | None =>
            error_toast (if ErrorHandling.truthy_str (Controller.error data)
                         then ErrorHandling.str_of (Controller.error data)
                         else "Validation failed")
        end
  | None => error_toast "An unexpected error occurred during validation"
  end.

(** The error the client library rejects with: the answer when there is
    one, and a request that was sent. *)
Definition rejection (answer : option Controller.Reply) : ErrorHandling.AxiosError :=
  match answer with
  | Some reply =>
      {| ErrorHandling.response :=
           Some {| ErrorHandling.data :=
                     {| ErrorHandling.api_error := Controller.error (Controller.body reply);
                        ErrorHandling.api_errors :=
                          option_map (map decoded)
                            (Controller.body_errors (Controller.body reply));
                        ErrorHandling.api_message := Controller.message (Controller.body reply) |};
                   ErrorHandling.status := Controller.status reply |};
         ErrorHandling.request := true;
         ErrorHandling.code :=
           Some (if Controller.status reply <? 500 then "ERR_BAD_REQUEST" else "ERR_BAD_RESPONSE");
         ErrorHandling.error_message :=
           "Request failed with status code " +:+ Z_to_string (Controller.status reply) |}
  | None =>
      {| ErrorHandling.response := None; ErrorHandling.request := true;
         ErrorHandling.code := Some "ERR_NETWORK";
         ErrorHandling.error_message := "Network Error" |}
  end.

(** A TypeError thrown in the [try] block, as the [catch] block sees
    it. *)
Definition type_error (msg : string) : ErrorHandling.AxiosError :=
  {| ErrorHandling.response := None; ErrorHandling.request := false;
     ErrorHandling.code := None; ErrorHandling.error_message := msg |}.

(** [handleImport] from its first test on; [answer] is what
    [await api.post('/api/upload/import', null)] settles to. *)
Definition handleImport_settled (isValidated : bool) (currentFile : option FileChecks.File)
    (answer : option Controller.Reply) : Effects :=
  if negb isValidated || match currentFile with None => true | Some _ => false end then
    error_toast "Please validate the file before importing"
  else
    match answer with
    | Some reply =>
        let data := Controller.body reply in
        if resolves reply then
          match Controller.success data with
          | Some true =>
              {| setIsValidated := Some false; setErrors := None; formatted := None;
                 setShowErrors := None;
                 successToast := Some "Data imported successfully"; errorToast := None;
                 thrown := None |}
          | _ =>
              match Controller.body_errors data with
              | Some errors =>
                  let objects := map decoded errors in
                  match ErrorHandling.formatValidationErrors (seq 0 (length objects))
                          (store objects) with
                  | (h, Ok formattedErrors) =>
                      {| setIsValidated := None; setErrors := None;
                         formatted := Some (h, formattedErrors); setShowErrors := Some true;
                         successToast := None;
                         errorToast :=
                           Some "Some rows contain validation errors. Please check the error details.";
                         thrown := None |}
                  | (_, Throw msg) =>
                      error_toast (ErrorHandling.handleAxiosError (type_error msg)
                                     "An error occurred")
                  end
              | None =>
                  error_toast (if ErrorHandling.truthy_str (Controller.error data)
                               then ErrorHandling.str_of (Controller.error data)
                               else "Failed to import data. Please try again.")
              end
          end
        else
          error_toast (ErrorHandling.handleAxiosError (rejection answer) "An error occurred")
    | None =>
        error_toast (ErrorHandling.handleAxiosError (rejection answer) "An error occurred")
    end.

End Exchange.

(* ===================================================================== *)
(** * Vocabulary of the properties *)
(* ===================================================================== *)

Module Props.
Import Js.

(** ** The row validator *)

(** [merge a b]: the findings of [a] followed by those of [b], array by
    array. *)
Definition merge (a b : ErrorHandling.findings) : ErrorHandling.findings :=
  {| ErrorHandling.errors := ErrorHandling.errors a ++ ErrorHandling.errors b;
     ErrorHandling.warnings := ErrorHandling.warnings a ++ ErrorHandling.warnings b |}.

(** A step that only pushes onto the two arrays. *)
Definition appends (f : ErrorHandling.findings -> ErrorHandling.findings) : Prop :=
  forall st, f st = merge st (f ErrorHandling.no_findings).

(** What the row at [index] contributes to a pass of [validateExcelData]. *)
Definition rowFindings (rt : Runtime) (clock : nat -> Z) (index : nat) (r : object)
  : ErrorHandling.findings :=
  ErrorHandling.validateExcelRow rt clock r index ErrorHandling.no_findings.

Definition rowErrors (rt : Runtime) (clock : nat -> Z) (index : nat) (r : object)
  : list ErrorHandling.ValidationError :=
  ErrorHandling.errors (rowFindings rt clock index r).

Definition rowWarnings (rt : Runtime) (clock : nat -> Z) (index : nat) (r : object)
  : list ErrorHandling.ValidationError :=
  ErrorHandling.warnings (rowFindings rt clock index r).

(** The input gets past the checks that come before the loop over the
    rows: it is an array, it is not empty and its first row has the four
    required columns. *)
Definition reachesRowPass (data : ErrorHandling.sheet_data) : Prop :=
  match data with
  | ErrorHandling.NotArray => False
  | ErrorHandling.RowArray [] => False
  | ErrorHandling.RowArray (firstRow :: _) => ErrorHandling.missingColumns firstRow = []
  end.

Definition rowsOf (data : ErrorHandling.sheet_data) : list object :=
  match data with
  | ErrorHandling.NotArray => []
  | ErrorHandling.RowArray rows => rows
  end.

Definition hasSeverity (s : ErrorHandling.Severity) (e : ErrorHandling.ValidationError) : Prop :=
  ErrorHandling.severity e = Some s.

(** ** The normalizer *)

(** The value [processEntry] leaves under [key] when it returns. *)
Definition normalized (rt : Runtime) (key : string) (v : value) : value :=
  match App.processEntry rt key v with
  | Ok (Some w) => w
  | _ => v
  end.

Definition normalizedRow (rt : Runtime) (r : object) : object :=
  map (fun kv => (fst kv, normalized rt (fst kv) (snd kv))) r.

(** The lower-cased, trimmed form of a string cell. *)
Definition token (s : string) : string := trim (toLowerCase s).

(** No character of [s] is [c]. *)
Fixpoint lacks (c : ascii) (s : string) : bool :=
  match s with
  | EmptyString => true
  | String a r => negb (Ascii.eqb a c) && lacks c r
  end.

(** The first and the last day number (counted from 1970-01-01) of the
    years 0000 to 9999, the years [toISOString] writes with four digits. *)
Definition first_day : Z := -719528.
Definition last_day : Z := 2932896.

(** The serial number of 1970-01-01 in the 1900 date system. *)
Definition unix_epoch_serial : Z := 25569.

(** ** The server validator *)

(** The findings of [validateRow] for the row at [index] of a sheet. *)
Definition serverRowErrors (rt : Runtime) (clock : nat -> Z * Z) (sheetName : string)
    (index : nat) (r : object) : list Server.RowError :=
  match Server.validateRow rt (clock index) r Server.sheetConfigs_default (index + 2) sheetName with
  | Ok res => Server.errors res
  | Throw _ => []
  end.

(** ** The error aggregator *)

(** The bucket of a finding: its sheet name, "Unknown Sheet" when the
    sheet name is absent or empty. *)
Definition bucket_of (e : ErrorHandling.ValidationError) : string :=
  match ErrorHandling.sheetName e with
  | Some s => if decide (s = "") then "Unknown Sheet" else s
  | None => "Unknown Sheet"
  end.

(** The finding with its message prefixed by its column, when it has a
    column that is not empty. *)
Definition rewritten (e : ErrorHandling.ValidationError) : ErrorHandling.ValidationError :=
  {| ErrorHandling.row := ErrorHandling.row e;
     ErrorHandling.column := ErrorHandling.column e;
     ErrorHandling.message :=
       match ErrorHandling.column e with
       | Some c => if decide (c = "") then ErrorHandling.message e
                   else c +:+ ": " +:+ ErrorHandling.message e
       | None => ErrorHandling.message e
       end;
     ErrorHandling.sheetName := ErrorHandling.sheetName e;
     ErrorHandling.severity := ErrorHandling.severity e |}.

(** The references [ls] point, in heap [h], to the findings [es]. *)
Definition points_to (h : ErrorHandling.heap) (ls : list ErrorHandling.loc)
    (es : list ErrorHandling.ValidationError) : Prop :=
  Forall2 (fun l e => h !! l = Some e) ls es.

(** The array under [name] in the result, empty when there is none. *)
Definition bucket (acc : gmap string (list ErrorHandling.loc)) (name : string)
  : list ErrorHandling.loc :=
  default [] (acc !! name).

(** What holds of the heap [h] and the accumulator [acc] once
    [formatValidationErrors], started in heap [h0], has gone through the
    findings [seen]: the objects of [h0] are as they were; each array of
    the accumulator points to new objects, the rewritten findings of its
    bucket in the order they were seen; the accumulator has an array for
    the buckets of the findings seen and for no other name. *)
Definition aggregated (h0 : ErrorHandling.heap) (seen : list ErrorHandling.ValidationError)
    (h : ErrorHandling.heap) (acc : gmap string (list ErrorHandling.loc)) : Prop :=
  (forall l, is_Some (h0 !! l) -> h !! l = h0 !! l) /\
  (forall b, Forall2 (fun l e => h !! l = Some e /\ h0 !! l = None)
               (bucket acc b) (rewritten <$> filter (fun e => bucket_of e = b) seen)) /\
  (forall b, is_Some (acc !! b) <-> exists e, e ∈ seen /\ bucket_of e = b).

(** ** Verdicts on a row *)

(** The client accepts the row at [index]: the normalization of
    [handleFileSelect] returns, and [validateExcelData] has no
    error-severity finding for the normalized row. *)
Definition client_accepts (rt : Runtime) (clock : nat -> Z) (index : nat) (r : object) : bool :=
  match App.processRow rt r with
  | Ok r' => match rowErrors rt clock index r' with [] => true | _ :: _ => false end
  | Throw _ => false
  end.

(** The server accepts the row at [index]: [validateRow], under the
    default configuration, answers [isValid]. *)
Definition server_accepts (rt : Runtime) (clock : nat -> Z * Z) (sheetName : string)
    (index : nat) (r : object) : bool :=
  match Server.validateRow rt (clock index) r Server.sheetConfigs_default (index + 2) sheetName with
  | Ok res => Server.isValid res
  | Throw _ => false
  end.

(** The turn of the loop of [validateRow] for this column clears the
    verdict: the cell is required and falsy, or [validateField] throws. *)
Definition column_fails (rt : Runtime) (clk : Z * Z) (r : object) (excelColumn : string)
    (validation : Server.Validation) : Prop :=
  Server.required validation && negb (truthy (get excelColumn r)) = true \/
  exists msg, Server.validateField rt clk (get excelColumn r) validation excelColumn = Throw msg.

(** The cells both validators refuse: a falsy Name; an Amount that is
    [null], [undefined], [NaN] or a number not above zero; a falsy Date or
    a Date string that does not parse. *)
Definition bad_Name (r : object) : Prop := truthy (get "Name" r) = false.

Definition bad_Amount (r : object) : Prop :=
  is_nullish (get "Amount" r) = true \/
  exists n, get "Amount" r = VNum n /\ (num_isNaN n = true \/ num_leb n (Fin 0) = true).

Definition bad_Date (rt : Runtime) (r : object) : Prop :=
  truthy (get "Date" r) = false \/
  exists s, get "Date" r = VStr s /\ Date_parse rt s = None.

(** Every finding in the errors array is an error for row [n], every
    finding in the warnings array a warning for row [n]. *)
Definition labelled (n : nat) (st : ErrorHandling.findings) : Prop :=
  Forall (fun e => ErrorHandling.row e = n /\ hasSeverity ErrorHandling.SevError e)
         (ErrorHandling.errors st) /\
  Forall (fun e => ErrorHandling.row e = n /\ hasSeverity ErrorHandling.SevWarning e)
         (ErrorHandling.warnings st).

(** ** The gate of handleValidate *)

(** The sheets that [handleValidate] can record a finding for: every
    name but [__proto__]. *)
Definition recordable (sheetName : string) : Prop := sheetName <> "__proto__".

(** The first row has the four required columns and no other. *)
Definition exact_header (firstRow : object) : Prop :=
  forall col, col ∈ keys firstRow <-> col ∈ ErrorHandling.requiredColumns.

(** Cells that [validateExcelData] answers with a warning: a name of
    more than 100 characters, an amount above 1,000,000, a date after the
    reading [now] of the clock. *)
Definition long_Name (r : object) : Prop :=
  exists s, get "Name" r = VStr s /\ trim s <> "" /\ (100 < String.length s)%nat.

Definition large_Amount (rt : Runtime) (r : object) : Prop :=
  is_nullish (get "Amount" r) = false /\
  num_gtb (Number rt (get "Amount" r)) (Fin 1000000) = true.

Definition future_Date (rt : Runtime) (now : Z) (r : object) : Prop :=
  truthy (get "Date" r) = true /\
  exists t, new_Date rt (get "Date" r) = Some t /\ now < t.

(** The findings a sheet has at one of the two stages of
    [handleValidate]. *)
Definition structureFindings (rows : list object) : list ErrorHandling.ValidationError :=
  ErrorHandling.validateSheetStructure (ErrorHandling.RowArray rows).

Definition dataFindings (rt : Runtime) (clock : string -> nat -> Z) (sheetName : string)
    (rows : list object) : list ErrorHandling.ValidationError :=
  ErrorHandling.validateExcelData rt (clock sheetName) (ErrorHandling.RowArray rows).

(** [m] holds, under each recordable name of [entries], the findings
    [check] has for that sheet when it has any, and nothing else. *)
Definition records (check : string -> list object -> list ErrorHandling.ValidationError)
    (entries : list (string * list object))
    (m : gmap string (list ErrorHandling.ValidationError)) : Prop :=
  forall sheetName errs,
    m !! sheetName = Some errs <->
    recordable sheetName /\ errs <> [] /\
    exists rows, (sheetName, rows) ∈ entries /\ errs = check sheetName rows.

(** The findings of one field check for row [n]: none, one error or one
    warning, under the name [col] of the field. *)
Definition single_field (n : nat) (col : string) (st : ErrorHandling.findings) : Prop :=
  st = ErrorHandling.no_findings \/
  (exists msg,
     st = {| ErrorHandling.errors := [ErrorHandling.field_error n col msg];
             ErrorHandling.warnings := [] |}) \/
  (exists msg,
     st = {| ErrorHandling.errors := [];
             ErrorHandling.warnings := [ErrorHandling.field_warning n col msg] |}).

(** The cell a finding is about. *)
Definition cell_of (f : ErrorHandling.ValidationError) : nat * option string :=
  (ErrorHandling.row f, ErrorHandling.column f).

(** ** The rows of the server *)

(** The turn of the loop of [validateRow] for a column: the value it
    stores, or the message of the error it pushes. *)
Definition columnTurn (rt : Runtime) (clk : Z * Z) (r : object) (excelColumn : string)
    (validation : Server.Validation) : result value :=
  if Server.required validation && negb (truthy (get excelColumn r)) then
    Throw (excelColumn +:+ " is required")
  else Server.validateField rt clk (get excelColumn r) validation excelColumn.

(** The entry of [sheetConfigs.default.validations] for a field. *)
Definition default_validation (dbField : string) : option Server.Validation :=
  Server.lookup_validation dbField (Server.validations Server.sheetConfigs_default).

(** The lower end of the window of [isCurrentMonth]: the second reading
    of the clock, moved back by twelve months. *)
Definition twelveMonthsAgo (rt : Runtime) (clk : Z * Z) : Z :=
  Date_setMonth rt (snd clk) (Date_getMonth rt (fst clk) - 12).

(** The cells of a row that the server accepts: a truthy Name; a truthy
    Amount whose number is not [NaN] and not below zero; a truthy Date
    that parses to a time [t] between the time twelve months ago and now;
    a Verified cell that is falsy or a string. *)
Definition server_cells (rt : Runtime) (clk : Z * Z) (r : object) (t : Z) : Prop :=
  truthy (get "Name" r) = true /\
  truthy (get "Amount" r) = true /\
  num_isNaN (Number rt (get "Amount" r)) = false /\
  num_ltb (Number rt (get "Amount" r)) (Fin 0) = false /\
  truthy (get "Date" r) = true /\
  new_Date rt (get "Date" r) = Some t /\
  twelveMonthsAgo rt clk <= t <= fst clk /\
  (truthy (get "Verified" r) = false \/ exists s, get "Verified" r = VStr s).

(** What the server stores for a Verified cell it accepts. *)
Definition server_verified (v : value) : value :=
  match v with
  | VStr s => if String.eqb s "" then VNull else VBool (String.eqb (toLowerCase s) "yes")
  | _ => VNull
  end.

(** The document the server makes of a row it accepts. *)
Definition server_document (rt : Runtime) (r : object) (t : Z) (sheetName : string) : object :=
  [("name", VStr (ToString rt (get "Name" r)));
   ("amount", VNum (Number rt (get "Amount" r)));
   ("date", VDate (Some t));
   ("verified", server_verified (get "Verified" r));
   ("sheetName", VStr sheetName)].

(** The document [validateRow] returns for the row at [index]. *)
Definition serverRowData (rt : Runtime) (clock : nat -> Z * Z) (sheetName : string)
    (index : nat) (r : object) : option object :=
  match Server.validateRow rt (clock index) r Server.sheetConfigs_default (index + 2) sheetName with
  | Ok res => Server.data res
  | Throw _ => None
  end.

Definition server_error (sheetName : string) (n : nat) (msg : string) : Server.RowError :=
  {| Server.sheet := sheetName; Server.row := n; Server.message := msg |}.

(** The four entries of [sheetConfigs.default.validations]. *)
Definition name_validation : Server.Validation :=
  {| Server.required := true; Server.type := "string"; Server.min := None;
     Server.validator := None; Server.transform := None |}.

Definition amount_validation : Server.Validation :=
  {| Server.required := true; Server.type := "number"; Server.min := Some (Fin 0);
     Server.validator := None; Server.transform := None |}.

Definition date_validation : Server.Validation :=
  {| Server.required := true; Server.type := "date"; Server.min := None;
     Server.validator := Some "isCurrentMonth"; Server.transform := None |}.

Definition verified_validation : Server.Validation :=
  {| Server.required := false; Server.type := "boolean"; Server.min := None;
     Server.validator := None; Server.transform := Some Server.verified_transform |}.

(** The error a turn of the loop pushes for row [n], if any. *)
Definition turnErrors (sheetName : string) (n : nat) (turn : result value)
  : list Server.RowError :=
  match turn with
  | Ok _ => []
  | Throw msg => [server_error sheetName n msg]
  end.

(** ** The workbook on the server *)

(** The documents and the errors of the sheet at position [k] of the
    workbook, in the order of its rows. *)
Definition sheetDocuments (rt : Runtime) (clock : nat -> nat -> Z * Z) (k : nat)
    (sheet : string * list object) : list object :=
  concat (imap (fun i r => option_list (serverRowData rt (clock k) (fst sheet) i r)) (snd sheet)).

Definition sheetErrors (rt : Runtime) (clock : nat -> nat -> Z * Z) (k : nat)
    (sheet : string * list object) : list Server.RowError :=
  concat (imap (serverRowErrors rt (clock k) (fst sheet)) (snd sheet)).

(** The element of the array of [processFile] for the sheet at position
    [k]. *)
Definition sheetReport (rt : Runtime) (clock : nat -> nat -> Z * Z) (k : nat)
    (sheet : string * list object) : Controller.SheetReport :=
  {| Controller.sheetName := fst sheet;
     Controller.data := sheetDocuments rt clock k sheet;
     Controller.errors := sheetErrors rt clock k sheet |}.

(** The documents and the errors of the workbook, sheet after sheet. *)
Definition allDocuments (rt : Runtime) (clock : nat -> nat -> Z * Z)
    (sheets : list (string * list object)) : list object :=
  concat (imap (sheetDocuments rt clock) sheets).

Definition allErrors (rt : Runtime) (clock : nat -> nat -> Z * Z)
    (sheets : list (string * list object)) : list Server.RowError :=
  concat (imap (sheetErrors rt clock) sheets).

(** The number of rows of the workbook. *)
Definition totalRows (sheets : list (string * list object)) : nat :=
  length (concat (snd <$> sheets)).

(** The arrays that a run of [validateFile] followed by a run of
    [importData] passes to [insertMany]. *)
Definition inserted (rt : Runtime) (clock : nat -> nat -> Z * Z)
    (insertMany : list object -> result nat)
    (file : option (result (list (string * list object)))) (session : Controller.SessionData)
  : list (list object) :=
  snd (Controller.importData insertMany (fst (Controller.validateFile rt clock file session))).

(** ** The preview *)

(** A date as the preview writes it, [DD/MM/YYYY]. *)
Definition shown (d : Calendar.date) : string :=
  pad2 (Calendar.day d) +:+ "/" +:+ pad2 (Calendar.month d) +:+ "/" +:+ pad4 (Calendar.year d).

(** The page [page] (counted from 1) holds the rows of [rows] from
    position [10 * (page - 1)] on, ten at most. *)
Definition page_rows (rows : list object) (page : Z) : list object :=
  take 10 (drop (Z.to_nat (10 * (page - 1))) rows).

Definition closed_dialog : Preview.DeleteDialog :=
  {| Preview.open := false; Preview.sheetName := ""; Preview.rowIndex := -1 |}.

(** [st] with the dialog closed. *)
Definition dialog_closed (st : Preview.PreviewState) : Preview.PreviewState :=
  {| Preview.selectedSheet := Preview.selectedSheet st; Preview.page := Preview.page st;
     Preview.deleteDialog := closed_dialog |}.

(** The one finding [validateExcelData] can have for the Verified cell of
    a normalized row. *)
Definition Verified_required (n : nat) : ErrorHandling.findings :=
  {| ErrorHandling.errors :=
       [ErrorHandling.field_error n "Verified" "Verified status is required"];
     ErrorHandling.warnings := [] |}.

(** A cell with a date name that holds a number (not zero, not [NaN])
    whose time is out of the range of [Date]. *)
Definition unreadable_serial (r : object) : Prop :=
  exists key n,
    (key, VNum n) ∈ r /\ App.isDateKey key = true /\ truthy (VNum n) = true /\
    TimeClip (App.serialToTime n) = None.

(** ** A row without finding *)

(** The row has no finding at [validateExcelData] when the clock reads
    [now]: its Name is a string of at most 100 characters that does not
    trim to nothing; its Amount is not [null] or [undefined] and its
    number is above 0 and at most 1,000,000; its Date is truthy and
    parses to a time that is not after [now]; its Verified cell is a
    boolean, or a string that reads yes, no, true or false once
    lower-cased and trimmed. *)
Definition clean_Name (r : object) : Prop :=
  exists s, get "Name" r = VStr s /\ trim s <> "" /\ (String.length s <= 100)%nat.

Definition clean_Amount (rt : Runtime) (r : object) : Prop :=
  is_nullish (get "Amount" r) = false /\
  exists x, Number rt (get "Amount" r) = Fin x /\ (0 < x)%Q /\ (x <= 1000000)%Q.

Definition clean_Date (rt : Runtime) (now : Z) (r : object) : Prop :=
  truthy (get "Date" r) = true /\
  exists t, new_Date rt (get "Date" r) = Some t /\ t <= now.

Definition clean_Verified (r : object) : Prop :=
  (exists b, get "Verified" r = VBool b) \/
  (exists s, get "Verified" r = VStr s /\ token s ∈ ["yes"; "no"; "true"; "false"]).

Definition clean_row (rt : Runtime) (now : Z) (r : object) : Prop :=
  clean_Name r /\ clean_Amount rt r /\ clean_Date rt now r /\ clean_Verified r.

(** ** The answer of the server, at the client *)

Definition shown_error (err : Server.RowError) : Exchange.ShownError :=
  {| Exchange.row := Server.row err; Exchange.message := Server.message err |}.

(** No sheet has a name that [Object.prototype] defines. *)
Definition plain_names (sheets : list (string * list object)) : Prop :=
  Forall (fun sheet => inherited (fst sheet) = false) sheets.

(** The reply of [validateFile] and of [importData]. *)
Definition validateFile_reply (rt : Runtime) (clock : nat -> nat -> Z * Z)
    (file : option (result (list (string * list object)))) (session : Controller.SessionData)
  : Controller.Reply :=
  snd (Controller.validateFile rt clock file session).

Definition importData_reply (insertMany : list object -> result nat)
    (session : Controller.SessionData) : Controller.Reply :=
  snd (fst (Controller.importData insertMany session)).

(** What [handleValidate] does with the answer of [validateFile] to a
    workbook that was read, and [handleImport], for a validated file,
    with the answer of [importData]. *)
Definition validate_shown (rt : Runtime) (clock : nat -> nat -> Z * Z)
    (sheets : list (string * list object)) (session : Controller.SessionData)
  : Exchange.Effects :=
  Exchange.handleValidate_settled
    (Some (validateFile_reply rt clock (Some (Ok sheets)) session)).

Definition import_shown (insertMany : list object -> result nat)
    (session : Controller.SessionData) (file : FileChecks.File) : Exchange.Effects :=
  Exchange.handleImport_settled true (Some file)
    (Some (importData_reply insertMany session)).

(** ** Where the client and the server agree

    The row loads: its normalization throws nothing (no column with a
    date name holds a number out of the range of [Date]). *)
Definition loads (rt : Runtime) (r : object) : Prop :=
  exists r', App.processRow rt r = Ok r'.

(** The Name cell is falsy, or a text that is not blank. *)
Definition plain_Name (r : object) : Prop :=
  truthy (get "Name" r) = false \/ exists s, get "Name" r = VStr s /\ trim s <> "".

(** The Amount cell is truthy exactly when its number is not zero; a
    cell whose number is [NaN] is left aside (both sides refuse it). *)
Definition plain_Amount (rt : Runtime) (r : object) : Prop :=
  match Number rt (get "Amount" r) with
  | NaN => True
  | Fin q => truthy (get "Amount" r) = negb (Qeq_bool q 0)
  | _ => truthy (get "Amount" r) = true
  end.

(** The Date cell is falsy, a text that does not parse, or a text or a
    [Date] object whose time lies in the window of the server, from
    twelve months ago to now; the date part of the ISO text of a text
    that parses, which is what the client checks after normalization,
    is parsed by the host. *)
Definition plain_Date (rt : Runtime) (clk : Z * Z) (r : object) : Prop :=
  match get "Date" r with
  | VNum n => truthy (VNum n) = false
  | VBool b => b = false
  | VStr s =>
      match Date_parse rt s with
      | Some t =>
          s <> "" ->
          twelveMonthsAgo rt clk <= t <= fst clk /\ is_Some (Date_parse rt (iso_date t))
      | None => True
      end
  | VDate (Some t) => twelveMonthsAgo rt clk <= t <= fst clk
  | _ => True
  end.

(** The Verified cell is a text, the boolean [false], or a truthy value
    that is neither a text nor a boolean. *)
Definition plain_Verified (r : object) : Prop :=
  match get "Verified" r with
  | VStr _ => True
  | VBool b => b = false
  | v => truthy v = true
  end.

Definition plain_row (rt : Runtime) (clk : Z * Z) (r : object) : Prop :=
  plain_Name r /\ plain_Amount rt r /\ plain_Date rt clk r /\ plain_Verified r.

(** The cells of a row that both validators accept: a Name that is a
    text and not blank, an Amount whose number is above zero, a truthy
    Date that parses to a time in the window of the server, a Verified
    cell that is a text or the boolean [false]. *)
Definition accepted_cells (rt : Runtime) (clk : Z * Z) (r : object) : Prop :=
  (exists s, get "Name" r = VStr s /\ trim s <> "") /\
  num_gtb (Number rt (get "Amount" r)) (Fin 0) = true /\
  (exists t, truthy (get "Date" r) = true /\ new_Date rt (get "Date" r) = Some t /\
             twelveMonthsAgo rt clk <= t <= fst clk) /\
  ((exists s, get "Verified" r = VStr s) \/ get "Verified" r = VBool false).

End Props.

(* ===================================================================== *)
(** * Sample inputs *)
(* ===================================================================== *)

Module Examples.
Import Js.

(** A clean row, but for its date in the year 2099. *)
Definition row_future : object :=
  [("Name", VStr "A"); ("Amount", VNum (Fin 50)); ("Date", VStr "2099-01-01");
   ("Verified", VStr "Yes")].

(** A row with a finding in each field. *)
Definition row_bad : object :=
  [("Name", VStr ""); ("Amount", VNum (Fin (-5))); ("Date", VStr "bad");
   ("Verified", VStr "maybe")].

(** A clean row dated 2024-01-05. *)
Definition row_clean : object :=
  [("Name", VStr "A"); ("Amount", VNum (Fin 50)); ("Date", VStr "2024-01-05");
   ("Verified", VBool true)].

Definition sheet : ErrorHandling.sheet_data :=
  ErrorHandling.RowArray [row_future; row_bad; row_clean].

(** 2023-11-14T22:13:20Z on every reading. *)
Definition clock_2023 : nat -> Z := fun _ => 1700000000000.

(** 2024-06-01T00:00:00Z on every reading. *)
Definition clock_2024 : nat -> Z := fun _ => 1717200000000.

Definition server_clock_2024 : nat -> Z * Z := fun _ => (1717200000000, 1717200000000).

(** A row as the workbook decoder hands it over: a [Date] object
    (2024-01-05) in the date column, a string in the Verified column. *)
Definition row_decoded : object :=
  [("Name", VStr "A"); ("Amount", VNum (Fin 50)); ("Date", VDate (Some 1704412800000));
   ("Verified", VStr " YES ")].

(** A row whose Verified cell is the boolean [true]. *)
Definition row_verified_true : object :=
  [("Name", VStr "A"); ("Amount", VNum (Fin 50)); ("Date", VStr "2024-01-05");
   ("Verified", VBool true)].

(** Rows on which the client and the server differ: a date of 2020, a
    number as the name, no Verified cell, a serial number (2024-01-09)
    as the date. *)
Definition row_old_date : object :=
  [("Name", VStr "A"); ("Amount", VNum (Fin 50)); ("Date", VStr "2020-01-05");
   ("Verified", VStr "yes")].

Definition row_numeric_name : object :=
  [("Name", VNum (Fin 7)); ("Amount", VNum (Fin 50)); ("Date", VStr "2024-01-05");
   ("Verified", VStr "yes")].

Definition row_unverified : object :=
  [("Name", VStr "A"); ("Amount", VNum (Fin 50)); ("Date", VStr "2024-01-05");
   ("Verified", VNull)].

Definition row_serial_date : object :=
  [("Name", VStr "A"); ("Amount", VNum (Fin 50)); ("Date", VNum (Fin 45300));
   ("Verified", VStr "yes")].

(** A row without a name. *)
Definition row_no_name : object :=
  [("Name", VNull); ("Amount", VNum (Fin 50)); ("Date", VStr "2024-01-05");
   ("Verified", VStr "yes")].

(** A header row without [Verified] and with a column of its own. *)
Definition row_missing_and_extra : object :=
  [("Name", VStr "A"); ("Amount", VNum (Fin 50)); ("Date", VStr "2024-01-05");
   ("Notes", VStr "n/a")].

(** A header row without [Verified] and with nothing else. *)
Definition row_missing : object :=
  [("Name", VStr "A"); ("Amount", VNum (Fin 50)); ("Date", VStr "2024-01-05")].

(** The finding of the scenario of the specification. *)
Definition finding_sheet1 : ErrorHandling.ValidationError :=
  {| ErrorHandling.row := 2; ErrorHandling.column := Some "Amount";
     ErrorHandling.message := "must be a number"; ErrorHandling.sheetName := Some "Sheet1";
     ErrorHandling.severity := Some ErrorHandling.SevError |}.

(** A finding with no sheet name and no column. *)
Definition finding_plain : ErrorHandling.ValidationError :=
  {| ErrorHandling.row := 0; ErrorHandling.column := None;
     ErrorHandling.message := "Sheet is empty"; ErrorHandling.sheetName := None;
     ErrorHandling.severity := Some ErrorHandling.SevError |}.

(** A finding whose sheet name and column are present and empty. *)
Definition finding_empty_names : ErrorHandling.ValidationError :=
  {| ErrorHandling.row := 2; ErrorHandling.column := Some "";
     ErrorHandling.message := "must be a number"; ErrorHandling.sheetName := Some "";
     ErrorHandling.severity := Some ErrorHandling.SevError |}.

(** A finding of a sheet named like a property of [Object.prototype]. *)
Definition finding_constructor : ErrorHandling.ValidationError :=
  {| ErrorHandling.row := 2; ErrorHandling.column := Some "Amount";
     ErrorHandling.message := "must be a number"; ErrorHandling.sheetName := Some "constructor";
     ErrorHandling.severity := Some ErrorHandling.SevError |}.

(** A heap holding the findings [es] at the references 0, 1, ... *)
Definition heap_of (es : list ErrorHandling.ValidationError) : ErrorHandling.heap :=
  list_to_map (imap (fun i e => (i, e)) es).

Definition no_payload : ErrorHandling.ApiError :=
  {| ErrorHandling.api_error := None; ErrorHandling.api_errors := None;
     ErrorHandling.api_message := None |}.

Definition warning_finding : ErrorHandling.ValidationError :=
  ErrorHandling.field_warning 3 "Amount" "Amount is unusually large (>1,000,000)".

Definition error_finding : ErrorHandling.ValidationError :=
  ErrorHandling.field_error 4 "Amount" "Amount must be a number".

(** A 400 answer whose payload lists a warning, then an error. *)
Definition rejected_with_errors : ErrorHandling.AxiosError :=
  {| ErrorHandling.response :=
       Some {| ErrorHandling.data :=
                 {| ErrorHandling.api_error := Some "Validation Error";
                    ErrorHandling.api_errors := Some [warning_finding; error_finding];
                    ErrorHandling.api_message := Some "Bad request" |};
               ErrorHandling.status := 400 |};
     ErrorHandling.request := true;
     ErrorHandling.code := Some "ERR_BAD_REQUEST";
     ErrorHandling.error_message := "Request failed with status code 400" |}.

(** A 500 answer with an [error] and a [message]. *)
Definition rejected_with_error : ErrorHandling.AxiosError :=
  {| ErrorHandling.response :=
       Some {| ErrorHandling.data :=
                 {| ErrorHandling.api_error := Some "No validated data found";
                    ErrorHandling.api_errors := None;
                    ErrorHandling.api_message := Some "Import failed" |};
               ErrorHandling.status := 500 |};
     ErrorHandling.request := true;
     ErrorHandling.code := Some "ERR_BAD_RESPONSE";
     ErrorHandling.error_message := "Request failed with status code 500" |}.

(** A 500 answer with a [message] only. *)
Definition rejected_with_message : ErrorHandling.AxiosError :=
  {| ErrorHandling.response :=
       Some {| ErrorHandling.data :=
                 {| ErrorHandling.api_error := None;
                    ErrorHandling.api_errors := Some [warning_finding];
                    ErrorHandling.api_message := Some "Import failed" |};
               ErrorHandling.status := 500 |};
     ErrorHandling.request := true;
     ErrorHandling.code := Some "ERR_BAD_RESPONSE";
     ErrorHandling.error_message := "Request failed with status code 500" |}.

(** The request left and no answer came. *)
Definition unanswered : ErrorHandling.AxiosError :=
  {| ErrorHandling.response := None;
     ErrorHandling.request := true;
     ErrorHandling.code := Some "ERR_NETWORK";
     ErrorHandling.error_message := "Network Error" |}.

(** A request that timed out, as the client library reports it: no
    response, the request that was sent, the code ECONNABORTED. *)
Definition timed_out : ErrorHandling.AxiosError :=
  {| ErrorHandling.response := None;
     ErrorHandling.request := true;
     ErrorHandling.code := Some "ECONNABORTED";
     ErrorHandling.error_message := "timeout of 30000ms exceeded" |}.

(** An aborted request that carries neither a response nor a request. *)
Definition aborted : ErrorHandling.AxiosError :=
  {| ErrorHandling.response := None;
     ErrorHandling.request := false;
     ErrorHandling.code := Some "ECONNABORTED";
     ErrorHandling.error_message := "timeout of 5000ms exceeded" |}.

(** A clean row with a column of its own. *)
Definition row_with_notes : object :=
  [("Name", VStr "A"); ("Amount", VNum (Fin 50)); ("Date", VStr "2024-01-05");
   ("Verified", VBool true); ("Notes", VStr "n/a")].

(** The clock of the browser, the same for every sheet. *)
Definition sheet_clock_2023 : string -> nat -> Z := fun _ => clock_2023.
Definition sheet_clock_2024 : string -> nat -> Z := fun _ => clock_2024.

Definition xlsx_file : FileChecks.File :=
  {| FileChecks.name := "Book1.xlsx";
     FileChecks.type := "application/vnd.openxmlformats-officedocument.spreadsheetml.sheet";
     FileChecks.size := 2048 |}.

(** A row dated 2023-07-15, eleven months before the clock of 2024. *)
Definition row_last_year : object :=
  [("Name", VStr "A"); ("Amount", VStr "0"); ("Date", VStr "2023-07-15");
   ("Verified", VStr "Yes")].

(** A row whose amount is the number 0. *)
Definition row_zero_amount : object :=
  [("Name", VStr "A"); ("Amount", VNum (Fin 0)); ("Date", VStr "2024-01-05");
   ("Verified", VStr "no")].

(** The clock of the server, the same for every sheet. *)
Definition workbook_clock_2024 : nat -> nat -> Z * Z := fun _ => server_clock_2024.

(** A workbook of two sheets, three rows in all, that the server
    accepts. *)
Definition workbook_accepted : list (string * list object) :=
  [("Sheet1", [row_last_year; row_last_year]); ("Sheet2", [row_last_year])].

(** A workbook with a row the server refuses. *)
Definition workbook_refused : list (string * list object) :=
  [("Sheet1", [row_last_year; row_zero_amount])].

(** The refused workbook, its sheet under a name of [Object.prototype]. *)
Definition workbook_constructor : list (string * list object) :=
  [("constructor", [row_last_year; row_zero_amount])].

(** A store that inserts every document. *)
Definition insert_all : list object -> result nat := fun docs => Ok (length docs).

(** The formatting of a host in UTC: dates as [DD/MM/YYYY], numbers by
    their whole part, the epoch of serial numbers at
    1899-12-30T00:00:00Z. *)
Definition intl : Preview.Intl :=
  {| Preview.toLocaleDateString :=
       fun t => Props.shown (Calendar.date_of_day (Day t));
     Preview.NumberFormat_format := fun n => Host.to_string (VNum n);
     Preview.excelEpoch := -2209161600000;
     Preview.Date_toString := fun t => Host.to_string (VDate t) |}.

(** Twenty-one rows, numbered by their amount. *)
Definition numbered_rows : list object :=
  (fun k => [("Name", VStr "A"); ("Amount", VNum (num_of_Z (Z.of_nat k)));
             ("Date", VStr "2024-01-05"); ("Verified", VBool true)]) <$> seq 1 21.

Definition preview_page_3 : Preview.PreviewState :=
  {| Preview.selectedSheet := "Sheet1"; Preview.page := 3;
     Preview.deleteDialog := Props.closed_dialog |}.

(** A row with a text in the Verified cell that is neither yes nor no. *)
Definition row_maybe : object :=
  [("Name", VStr "A"); ("Amount", VNum (Fin 50)); ("Date", VStr "2024-01-05");
   ("Verified", VStr "maybe")].

(** A row with a number in a date cell that no [Date] can hold. *)
Definition row_unreadable : object :=
  [("Name", VStr "A"); ("Amount", VNum (Fin 50)); ("Update", VNum (num_of_Z 100000000000));
   ("Verified", VStr "yes")].

End Examples.

(* ===================================================================== *)
(** * The row validator *)
(* ===================================================================== *)

Section RowValidator.
Import Js ErrorHandling Props.
Context (rt : Runtime).

Lemma merge_no_findings_r st : merge st no_findings = st.
Proof. destruct st; unfold merge; simpl; by rewrite !app_nil_r. Qed.

Lemma merge_no_findings_l st : merge no_findings st = st.
Proof. by destruct st. Qed.

Lemma merge_assoc a b c : merge (merge a b) c = merge a (merge b c).
Proof. unfold merge; simpl; by rewrite !app_assoc. Qed.

Lemma appends_id : appends (fun st => st).
Proof. intros st. by rewrite merge_no_findings_r. Qed.

Lemma appends_push_error e : appends (fun st => push_error st e).
Proof. by intros [es ws]; unfold merge, push_error, push; simpl; rewrite app_nil_r. Qed.

Lemma appends_push_warning e : appends (fun st => push_warning st e).
Proof. by intros [es ws]; unfold merge, push_warning, push; simpl; rewrite app_nil_r. Qed.

Lemma appends_compose f g : appends f -> appends g -> appends (fun st => g (f st)).
Proof.
  intros Hf Hg st.
  rewrite (Hg (f st)), (Hf st), (Hg (f no_findings)). apply merge_assoc.
Qed.

Ltac appends_cases :=
  repeat match goal with
    | |- appends (fun st => if ?c then _ else _) => destruct c
    | |- appends (fun st => match ?c with _ => _ end) => destruct c
    end;
  first [apply appends_id | apply appends_push_error | apply appends_push_warning].

Lemma appends_validateName r n : appends (validateName r n).
Proof. unfold validateName. cbv zeta. appends_cases. Qed.

Lemma appends_validateAmount r n : appends (validateAmount rt r n).
Proof. unfold validateAmount. cbv zeta. appends_cases. Qed.

Lemma appends_validateDate now r n : appends (validateDate rt now r n).
Proof. unfold validateDate. cbv zeta. appends_cases. Qed.

Lemma appends_validateVerified r n : appends (validateVerified r n).
Proof. unfold validateVerified. cbv zeta. appends_cases. Qed.

Lemma appends_validateExcelRow clock r i : appends (validateExcelRow rt clock r i).
Proof.
  unfold validateExcelRow. cbv zeta.
  apply (appends_compose (fun st => validateDate rt (clock i) r (i + 1)
                                      (validateAmount rt r (i + 1) (validateName r (i + 1) st)))).
  2: apply appends_validateVerified.
  apply (appends_compose (fun st => validateAmount rt r (i + 1) (validateName r (i + 1) st))).
  2: apply appends_validateDate.
  apply (appends_compose (validateName r (i + 1))).
  - apply appends_validateName.
  - apply appends_validateAmount.
Qed.

(** The loop collects, array by array, what each row contributes, in the
    order of the rows. *)
Lemma forEach_validateExcelRow clock rows i st :
  forEach (validateExcelRow rt clock) rows i st =
  merge st
    {| errors := concat (imap (fun j r => rowErrors rt clock (i + j) r) rows);
       warnings := concat (imap (fun j r => rowWarnings rt clock (i + j) r) rows) |}.
Proof.
  revert i st. induction rows as [|r rows IH]; intros i st; simpl.
  - symmetry. apply merge_no_findings_r.
  - rewrite IH, (appends_validateExcelRow clock r i st), merge_assoc. f_equal.
    unfold merge; simpl. rewrite Nat.add_0_r.
    f_equal; f_equal; try done; f_equal; apply imap_ext; intros j x _; simpl;
      by rewrite Nat.add_succ_r.
Qed.

Lemma validateExcelData_rows clock data :
  reachesRowPass data ->
  validateExcelData rt clock data =
  concat (imap (rowErrors rt clock) (rowsOf data)) ++
  concat (imap (rowWarnings rt clock) (rowsOf data)).
Proof.
  destruct data as [|[|firstRow rows]]; simpl; try done.
  intros ->. simpl.
  change (validateExcelRow rt clock firstRow 0 no_findings)
    with (rowFindings rt clock 0 firstRow).
  rewrite forEach_validateExcelRow. unfold merge; simpl.
  fold (rowErrors rt clock 0 firstRow) (rowWarnings rt clock 0 firstRow).
  done.
Qed.

(** *** Row numbers and severities *)

Lemma labelled_push_error n st col msg :
  labelled n st -> labelled n (push_error st (field_error n col msg)).
Proof.
  intros [He Hw]. split; simpl; [|done].
  apply Forall_app. split; [done|]. by repeat constructor.
Qed.

Lemma labelled_push_warning n st col msg :
  labelled n st -> labelled n (push_warning st (field_warning n col msg)).
Proof.
  intros [He Hw]. split; simpl; [done|].
  apply Forall_app. split; [done|]. by repeat constructor.
Qed.

Ltac labelled_cases :=
  intros;
  repeat match goal with
    | |- labelled _ (if ?c then _ else _) => destruct c
    | |- labelled _ (match ?c with _ => _ end) => destruct c
    end;
  first [assumption | by apply labelled_push_error | by apply labelled_push_warning].

Lemma labelled_validateName r n st : labelled n st -> labelled n (validateName r n st).
Proof. unfold validateName. cbv zeta. labelled_cases. Qed.

Lemma labelled_validateAmount r n st : labelled n st -> labelled n (validateAmount rt r n st).
Proof. unfold validateAmount. cbv zeta. labelled_cases. Qed.

Lemma labelled_validateDate now r n st :
  labelled n st -> labelled n (validateDate rt now r n st).
Proof. unfold validateDate. cbv zeta. labelled_cases. Qed.

Lemma labelled_validateVerified r n st :
  labelled n st -> labelled n (validateVerified r n st).
Proof. unfold validateVerified. cbv zeta. labelled_cases. Qed.

Lemma labelled_rowFindings clock i r : labelled (i + 1) (rowFindings rt clock i r).
Proof.
  unfold rowFindings, validateExcelRow. cbv zeta.
  apply labelled_validateVerified, labelled_validateDate, labelled_validateAmount,
    labelled_validateName.
  by split; constructor.
Qed.

Lemma rowErrors_labelled clock i r e :
  e ∈ rowErrors rt clock i r -> row e = (i + 1)%nat /\ hasSeverity SevError e.
Proof.
  intros He. destruct (labelled_rowFindings clock i r) as [H _].
  by apply (proj1 (Forall_forall _ _) H).
Qed.

Lemma rowWarnings_labelled clock i r e :
  e ∈ rowWarnings rt clock i r -> row e = (i + 1)%nat /\ hasSeverity SevWarning e.
Proof.
  intros He. destruct (labelled_rowFindings clock i r) as [_ H].
  by apply (proj1 (Forall_forall _ _) H).
Qed.
End RowValidator.

Lemma elem_of_concat {A} (x : A) (ls : list (list A)) :
  x ∈ concat ls <-> exists l, l ∈ ls /\ x ∈ l.
Proof.
  induction ls as [|l ls IH]; simpl.
  - split; [by intros ?%elem_of_nil|]. by intros (l & ?%elem_of_nil & _).
  - rewrite elem_of_app, IH. split.
    + intros [H|(l' & H1 & H2)]; [exists l|exists l']; split; try done;
        [apply list_elem_of_here|by apply list_elem_of_further].
    + intros (l' & [->|H1]%elem_of_cons & H2); [by left|right; by exists l'].
Qed.

Lemma constant_row_sorted (c : nat) (l : list ErrorHandling.ValidationError) :
  Forall (fun e => ErrorHandling.row e = c) l ->
  StronglySorted le (ErrorHandling.row <$> l).
Proof.
  induction 1 as [|e l He Hl IH]; simpl; constructor; [done|].
  rewrite Forall_fmap. eapply Forall_impl; [exact Hl|]. simpl. lia.
Qed.

(** Groups of findings laid out in the order of the rows, each group
    carrying the number of its row, make a list sorted by row number. *)
Lemma concat_imap_sorted (g : nat -> Js.object -> list ErrorHandling.ValidationError)
    (rows : list Js.object) (k : nat) :
  (forall j r e, e ∈ g j r -> ErrorHandling.row e = (k + j + 1)%nat) ->
  StronglySorted le (ErrorHandling.row <$> concat (imap g rows)) /\
  Forall (fun e => (k + 1 <= ErrorHandling.row e)%nat) (concat (imap g rows)).
Proof.
  revert g k. induction rows as [|r rows IH]; intros g k Hg.
  - split; constructor.
  - rewrite imap_cons. simpl.
    destruct (IH (g ∘ S) (S k)) as [IHs IHb].
    { intros j r' e He. rewrite (Hg (S j) r' e He). lia. }
    assert (Hhead : Forall (fun e => ErrorHandling.row e = (k + 1)%nat) (g 0%nat r)).
    { apply Forall_forall. intros e He. rewrite (Hg 0%nat r e He). lia. }
    split.
    + rewrite fmap_app. apply StronglySorted_app. split_and!.
      * intros x1 x2 [e1 [-> H1]]%list_elem_of_fmap [e2 [-> H2]]%list_elem_of_fmap.
        rewrite (proj1 (Forall_forall _ _) Hhead e1 H1).
        pose proof (proj1 (Forall_forall _ _) IHb e2 H2). simpl in *. lia.
      * by eapply constant_row_sorted.
      * done.
    + apply Forall_app. split.
      * eapply Forall_impl; [exact Hhead|]. simpl. lia.
      * eapply Forall_impl; [exact IHb|]. simpl. lia.
Qed.


(* ===================================================================== *)
(** * The order of the findings *)
(* ===================================================================== *)

Lemma filter_all_severity (s : ErrorHandling.Severity) (l : list ErrorHandling.ValidationError) :
  Forall (Props.hasSeverity s) l -> List.filter (ErrorHandling.is_severity s) l = l.
Proof.
  induction 1 as [|e l He _ IH]; simpl; [done|].
  unfold ErrorHandling.is_severity at 1. rewrite He.
  destruct s; simpl; by rewrite IH.
Qed.

Lemma filter_other_severity (s s' : ErrorHandling.Severity)
    (l : list ErrorHandling.ValidationError) :
  s <> s' -> Forall (Props.hasSeverity s') l -> List.filter (ErrorHandling.is_severity s) l = [].
Proof.
  intros Hne. induction 1 as [|e l He _ IH]; simpl; [done|].
  unfold ErrorHandling.is_severity at 1. rewrite He.
  destruct s, s'; simpl; try done.
Qed.

Lemma rowErrors_all_errors (rt : Js.Runtime) (clock : nat -> Z) (rows : list Js.object) :
  Forall (Props.hasSeverity ErrorHandling.SevError) (concat (imap (Props.rowErrors rt clock) rows)).
Proof.
  apply Forall_forall. intros e [l [Hl He]]%elem_of_concat.
  apply elem_of_lookup_imap in Hl as (i & r & -> & _).
  by apply rowErrors_labelled in He as [_ ?].
Qed.

Lemma rowWarnings_all_warnings (rt : Js.Runtime) (clock : nat -> Z) (rows : list Js.object) :
  Forall (Props.hasSeverity ErrorHandling.SevWarning)
         (concat (imap (Props.rowWarnings rt clock) rows)).
Proof.
  apply Forall_forall. intros e [l [Hl He]]%elem_of_concat.
  apply elem_of_lookup_imap in Hl as (i & r & -> & _).
  by apply rowWarnings_labelled in He as [_ ?].
Qed.

(** Filtering the result by severity gives back the two arrays. *)
Lemma validateExcelData_filter_errors (rt : Js.Runtime) (clock : nat -> Z)
    (data : ErrorHandling.sheet_data) :
  Props.reachesRowPass data ->
  List.filter (ErrorHandling.is_severity ErrorHandling.SevError)
    (ErrorHandling.validateExcelData rt clock data) =
  concat (imap (Props.rowErrors rt clock) (Props.rowsOf data)).
Proof.
  intros Hreach. rewrite (validateExcelData_rows rt clock data Hreach), List.filter_app.
  rewrite (filter_all_severity _ (concat (imap (Props.rowErrors rt clock) _)))
    by apply rowErrors_all_errors.
  rewrite (filter_other_severity _ ErrorHandling.SevWarning)
    by (done || apply rowWarnings_all_warnings).
  apply app_nil_r.
Qed.

Lemma validateExcelData_filter_warnings (rt : Js.Runtime) (clock : nat -> Z)
    (data : ErrorHandling.sheet_data) :
  Props.reachesRowPass data ->
  List.filter (ErrorHandling.is_severity ErrorHandling.SevWarning)
    (ErrorHandling.validateExcelData rt clock data) =
  concat (imap (Props.rowWarnings rt clock) (Props.rowsOf data)).
Proof.
  intros Hreach. rewrite (validateExcelData_rows rt clock data Hreach), List.filter_app.
  rewrite (filter_all_severity _ (concat (imap (Props.rowWarnings rt clock) _)))
    by apply rowWarnings_all_warnings.
  by rewrite (filter_other_severity _ ErrorHandling.SevError)
    by (done || apply rowErrors_all_errors).
Qed.

(** C2. For every input that reaches the loop over the rows, the list
    [validateExcelData] returns is the error findings of the rows, row by
    row, followed by the warning findings of the rows, row by row: every
    error-severity finding comes before every warning-severity finding
    (the two groups are what filtering the result by severity gives), and
    within each group the row numbers never decrease. *)
Theorem validateExcelData_stable_partition (rt : Js.Runtime) (clock : nat -> Z)
    (data : ErrorHandling.sheet_data) :
  Props.reachesRowPass data ->
  let out := ErrorHandling.validateExcelData rt clock data in
  let es := concat (imap (Props.rowErrors rt clock) (Props.rowsOf data)) in
  let ws := concat (imap (Props.rowWarnings rt clock) (Props.rowsOf data)) in
  out = es ++ ws /\
  Forall (Props.hasSeverity ErrorHandling.SevError) es /\
  Forall (Props.hasSeverity ErrorHandling.SevWarning) ws /\
  List.filter (ErrorHandling.is_severity ErrorHandling.SevError) out = es /\
  List.filter (ErrorHandling.is_severity ErrorHandling.SevWarning) out = ws /\
  StronglySorted le (ErrorHandling.row <$> es) /\
  StronglySorted le (ErrorHandling.row <$> ws).
Proof.
  intros Hreach out es ws. split_and!.
  - by apply validateExcelData_rows.
  - apply rowErrors_all_errors.
  - apply rowWarnings_all_warnings.
  - by apply validateExcelData_filter_errors.
  - by apply validateExcelData_filter_warnings.
  - apply (concat_imap_sorted _ _ 0). intros j r e He.
    by apply rowErrors_labelled in He as [-> _].
  - apply (concat_imap_sorted _ _ 0). intros j r e He.
    by apply rowWarnings_labelled in He as [-> _].
Qed.

(** C2 on the sample sheet. *)
Lemma validateExcelData_stable_partition_witness :
  let out := ErrorHandling.validateExcelData Host.runtime Examples.clock_2023 Examples.sheet in
  let es := concat (imap (Props.rowErrors Host.runtime Examples.clock_2023)
                      (Props.rowsOf Examples.sheet)) in
  let ws := concat (imap (Props.rowWarnings Host.runtime Examples.clock_2023)
                      (Props.rowsOf Examples.sheet)) in
  out = es ++ ws /\
  Forall (Props.hasSeverity ErrorHandling.SevError) es /\
  Forall (Props.hasSeverity ErrorHandling.SevWarning) ws /\
  List.filter (ErrorHandling.is_severity ErrorHandling.SevError) out = es /\
  List.filter (ErrorHandling.is_severity ErrorHandling.SevWarning) out = ws /\
  StronglySorted le (ErrorHandling.row <$> es) /\
  StronglySorted le (ErrorHandling.row <$> ws).
Proof.
  apply (validateExcelData_stable_partition Host.runtime Examples.clock_2023 Examples.sheet).
  reflexivity.
Defined.

(** The scenarios of the specification: a clean row dated 2099 has one
    finding, the warning; a row with a finding in each field has four
    errors, in the order of the fields. *)
Example validateExcelData_scenarios :
  ErrorHandling.validateExcelData Host.runtime Examples.clock_2023
    (ErrorHandling.RowArray [Examples.row_future]) =
  [ErrorHandling.field_warning 1 "Date" "Date is in the future"] /\
  ErrorHandling.message <$>
    ErrorHandling.validateExcelData Host.runtime Examples.clock_2023
      (ErrorHandling.RowArray [Examples.row_bad]) =
  ["Name is required"; "Amount must be positive"; "Invalid date format";
   "Verified must be Yes/No or True/False"].
Proof. split; vm_compute; reflexivity. Qed.

(** The bounds on Amount: 0 is an error, 1,000,000 has no finding and
    1,000,000.01 is a warning. *)
Example validateAmount_bounds :
  ErrorHandling.validateAmount Host.runtime [("Amount", Js.VNum (Js.Fin 0))] 1
    ErrorHandling.no_findings =
  {| ErrorHandling.errors := [ErrorHandling.field_error 1 "Amount" "Amount must be positive"];
     ErrorHandling.warnings := [] |} /\
  ErrorHandling.validateAmount Host.runtime [("Amount", Js.VNum (Js.Fin 1000000))] 1
    ErrorHandling.no_findings = ErrorHandling.no_findings /\
  ErrorHandling.validateAmount Host.runtime [("Amount", Js.VNum (Js.Fin (100000001 # 100)))] 1
    ErrorHandling.no_findings =
  {| ErrorHandling.errors := [];
     ErrorHandling.warnings :=
       [ErrorHandling.field_warning 1 "Amount" "Amount is unusually large (>1,000,000)"] |}.
Proof. split_and!; vm_compute; reflexivity. Qed.

(* ===================================================================== *)
(** * The server validator *)
(* ===================================================================== *)

Section ServerValidator.
Import Js Server Props.
Context (rt : Runtime).

(** A turn of the loop of [validateRow] either leaves the errors and the
    verdict as they are, or pushes one error for this row and clears the
    verdict. *)
Lemma validateColumn_shape clk r config n sheetName st entry validation :
  lookup_validation (snd entry) (validations config) = Some validation ->
  exists st',
    validateColumn rt clk r config n sheetName st entry = Ok st' /\
    ((st_errors st' = st_errors st /\ st_isValid st' = st_isValid st) \/
     (exists msg,
        st_errors st' = st_errors st ++ [{| sheet := sheetName; row := n; message := msg |}] /\
        st_isValid st' = false)).
Proof.
  destruct entry as [excelColumn dbField]. simpl. intros Hv.
  unfold validateColumn. rewrite Hv.
  destruct (required validation && negb (truthy (get excelColumn r))).
  - eexists. split; [done|]. right. by eexists.
  - destruct (validateField rt clk (get excelColumn r) validation excelColumn).
    + eexists. split; [done|]. by left.
    + eexists. split; [done|]. right. by eexists.
Qed.

Lemma validateColumns_shape clk r config n sheetName entries st :
  Forall (fun entry => is_Some (lookup_validation (snd entry) (validations config))) entries ->
  exists st' extra,
    validateColumns rt clk r config n sheetName entries st = Ok st' /\
    st_errors st' = st_errors st ++ extra /\
    Forall (fun g => row g = n /\ sheet g = sheetName) extra /\
    (st_isValid st' = true <-> st_isValid st = true /\ extra = []).
Proof.
  intros Hall. revert st. induction Hall as [|entry entries [v Hv] _ IH]; intros st.
  - exists st, []. simpl. rewrite app_nil_r. split_and!; try done. tauto.
  - simpl.
    destruct (validateColumn_shape clk r config n sheetName st entry v Hv)
      as (st1 & -> & Hshape). simpl.
    destruct (IH st1) as (st' & extra & -> & He & Hl & Hvalid).
    destruct Hshape as [[He1 Hv1]|(msg & He1 & Hv1)].
    + exists st', extra. rewrite He, He1, Hvalid, Hv1. done.
    + exists st', ({| sheet := sheetName; row := n; message := msg |} :: extra).
      rewrite He, He1, <- app_assoc. split_and!; try done.
      * by constructor.
      * rewrite Hvalid, Hv1. split; [by intros [? _]|by intros [_ ?]].
Qed.

Lemma default_validations :
  Forall (fun entry => is_Some (lookup_validation (snd entry) (validations sheetConfigs_default)))
         (columnMapping sheetConfigs_default).
Proof. repeat constructor; by eexists. Qed.

(** Under the default configuration [validateRow] returns, its errors
    carry the row number and the sheet name it was given, and its verdict
    is "valid" exactly when it has no error. *)
Lemma validateRow_default clk r n sheetName :
  exists res,
    validateRow rt clk r sheetConfigs_default n sheetName = Ok res /\
    Forall (fun g => row g = n /\ sheet g = sheetName) (errors res) /\
    (isValid res = true <-> errors res = []).
Proof.
  unfold validateRow.
  destruct (validateColumns_shape clk r sheetConfigs_default n sheetName
              (columnMapping sheetConfigs_default)
              {| st_errors := []; st_transformedData := []; st_isValid := true |}
              default_validations)
    as (st' & extra & -> & He & Hl & Hvalid).
  simpl in *. eexists. split; [done|]. simpl. subst extra.
  split; [done|]. rewrite Hvalid. tauto.
Qed.

Lemma serverRowErrors_row clock sheetName i r g :
  g ∈ serverRowErrors rt clock sheetName i r -> row g = (i + 2)%nat.
Proof.
  unfold serverRowErrors.
  destruct (validateRow_default (clock i) r (i + 2) sheetName) as (res & -> & Hl & _).
  intros Hg. by destruct (proj1 (Forall_forall _ _) Hl g Hg).
Qed.

(** The loop of [validateSheetData] collects the errors of the rows in the
    order of the rows. *)
Lemma validateSheetRows_errors clock rows i sheetName acc :
  exists res,
    validateSheetRows rt clock rows i sheetName acc = Ok res /\
    sheet_errors res =
    sheet_errors acc ++
    concat (imap (fun j r => serverRowErrors rt clock sheetName (i + j) r) rows).
Proof.
  revert i acc. induction rows as [|r rows IH]; intros i acc; simpl.
  - eexists. split; [done|]. by rewrite app_nil_r.
  - pose proof (validateRow_default (clock i) r (i + 2) sheetName) as (res & Hres & _ & Hvalid).
    rewrite Hres. simpl.
    match goal with |- context [validateSheetRows rt clock rows (S i) sheetName ?a] =>
      destruct (IH (S i) a) as (res' & -> & He) end.
    exists res'. split; [done|]. rewrite He.
    unfold serverRowErrors at 2. rewrite Nat.add_0_r, Hres.
    assert (Htail :
      imap (fun j r0 => serverRowErrors rt clock sheetName (S i + j) r0) rows =
      imap ((fun j r0 => serverRowErrors rt clock sheetName (i + j) r0) ∘ S) rows).
    { apply imap_ext. intros j x _. simpl. by rewrite Nat.add_succ_r. }
    rewrite Htail.
    destruct (isValid res) eqn:Hv; simpl.
    + by rewrite (proj1 Hvalid eq_refl).
    + by rewrite app_assoc.
Qed.

Lemma validateSheetData_errors clock rows sheetName :
  exists res,
    validateSheetData rt clock rows sheetName = Ok res /\
    sheet_errors res = concat (imap (serverRowErrors rt clock sheetName) rows).
Proof.
  unfold validateSheetData.
  destruct (validateSheetRows_errors clock rows 0 sheetName {| valid := []; sheet_errors := [] |})
    as (res & -> & He).
  exists res. split; [done|]. by rewrite He.
Qed.
End ServerValidator.

(* ===================================================================== *)
(** * Row numbers on the client and on the server *)
(* ===================================================================== *)

Lemma elem_of_concat_imap {A B} (g : nat -> A -> list B) (l : list A) (x : B) :
  x ∈ concat (imap g l) <-> exists i a, l !! i = Some a /\ x ∈ g i a.
Proof.
  rewrite elem_of_concat. split.
  - intros (ys & Hys & Hx). apply elem_of_lookup_imap in Hys as (i & a & -> & Hi).
    by exists i, a.
  - intros (i & a & Hi & Hx). exists (g i a). split; [|done].
    by apply elem_of_lookup_imap_2.
Qed.

(** C9. For an input that reaches the loop over the rows, the findings of
    [validateExcelData] are exactly the findings of its rows, and those of
    the row stored at index [i] report row [i + 1]; the findings of the
    server's [validateSheetData] on the same rows are exactly the findings
    of [validateRow] on each row, and those of the row stored at index [i]
    report row [i + 2]: the two sides label the same row with numbers that
    differ by one. *)
Theorem row_numbers_client_and_server (rt : Js.Runtime) (clock : nat -> Z)
    (server_clock : nat -> Z * Z) (sheetName : string) (data : ErrorHandling.sheet_data) :
  Props.reachesRowPass data ->
  (forall f,
     f ∈ ErrorHandling.validateExcelData rt clock data <->
     exists i r, Props.rowsOf data !! i = Some r /\
                 (f ∈ Props.rowErrors rt clock i r \/ f ∈ Props.rowWarnings rt clock i r)) /\
  (exists res,
     Server.validateSheetData rt server_clock (Props.rowsOf data) sheetName = Js.Ok res /\
     forall g,
       g ∈ Server.sheet_errors res <->
       exists i r, Props.rowsOf data !! i = Some r /\
                   g ∈ Props.serverRowErrors rt server_clock sheetName i r) /\
  (forall i r, Props.rowsOf data !! i = Some r ->
     (forall f, f ∈ Props.rowErrors rt clock i r \/ f ∈ Props.rowWarnings rt clock i r ->
                ErrorHandling.row f = (i + 1)%nat) /\
     (forall g, g ∈ Props.serverRowErrors rt server_clock sheetName i r ->
                Server.row g = (i + 2)%nat) /\
     (forall f g, f ∈ Props.rowErrors rt clock i r \/ f ∈ Props.rowWarnings rt clock i r ->
                  g ∈ Props.serverRowErrors rt server_clock sheetName i r ->
                  Server.row g = (ErrorHandling.row f + 1)%nat)).
Proof.
  intros Hreach. split_and!.
  - intros f. rewrite (validateExcelData_rows rt clock data Hreach), elem_of_app.
    rewrite !elem_of_concat_imap. split.
    + intros [(i & r & Hi & Hf)|(i & r & Hi & Hf)]; exists i, r; auto.
    + intros (i & r & Hi & [Hf|Hf]); [left|right]; by exists i, r.
  - destruct (validateSheetData_errors rt server_clock (Props.rowsOf data) sheetName)
      as (res & Hres & He).
    exists res. split; [done|]. intros g. by rewrite He, elem_of_concat_imap.
  - intros i r Hi.
    assert (Hclient : forall f,
      f ∈ Props.rowErrors rt clock i r \/ f ∈ Props.rowWarnings rt clock i r ->
      ErrorHandling.row f = (i + 1)%nat).
    { intros f [Hf|Hf].
      - by apply rowErrors_labelled in Hf as [? _].
      - by apply rowWarnings_labelled in Hf as [? _]. }
    split_and!; [done|apply serverRowErrors_row|].
    intros f g Hf Hg. rewrite (Hclient f Hf), (serverRowErrors_row _ _ _ _ _ _ Hg). lia.
Qed.

(** C9 on the sample sheet. *)
Lemma row_numbers_client_and_server_witness :
  (forall f,
     f ∈ ErrorHandling.validateExcelData Host.runtime Examples.clock_2023 Examples.sheet <->
     exists i r, Props.rowsOf Examples.sheet !! i = Some r /\
                 (f ∈ Props.rowErrors Host.runtime Examples.clock_2023 i r \/
                  f ∈ Props.rowWarnings Host.runtime Examples.clock_2023 i r)) /\
  (exists res,
     Server.validateSheetData Host.runtime Examples.server_clock_2024
       (Props.rowsOf Examples.sheet) "Sheet1" = Js.Ok res /\
     forall g,
       g ∈ Server.sheet_errors res <->
       exists i r, Props.rowsOf Examples.sheet !! i = Some r /\
                   g ∈ Props.serverRowErrors Host.runtime Examples.server_clock_2024 "Sheet1" i r) /\
  (forall i r, Props.rowsOf Examples.sheet !! i = Some r ->
     (forall f, f ∈ Props.rowErrors Host.runtime Examples.clock_2023 i r \/
                f ∈ Props.rowWarnings Host.runtime Examples.clock_2023 i r ->
                ErrorHandling.row f = (i + 1)%nat) /\
     (forall g, g ∈ Props.serverRowErrors Host.runtime Examples.server_clock_2024 "Sheet1" i r ->
                Server.row g = (i + 2)%nat) /\
     (forall f g, f ∈ Props.rowErrors Host.runtime Examples.clock_2023 i r \/
                  f ∈ Props.rowWarnings Host.runtime Examples.clock_2023 i r ->
                  g ∈ Props.serverRowErrors Host.runtime Examples.server_clock_2024 "Sheet1" i r ->
                  Server.row g = (ErrorHandling.row f + 1)%nat)).
Proof.
  apply (row_numbers_client_and_server Host.runtime Examples.clock_2023
           Examples.server_clock_2024 "Sheet1" Examples.sheet).
  reflexivity.
Defined.

(** The row at index 1 of the sample sheet: 2 on the client, 3 on the
    server. *)
Example row_numbers_sample :
  ErrorHandling.row <$> Props.rowErrors Host.runtime Examples.clock_2023 1 Examples.row_bad
    = [2; 2; 2; 2]%nat /\
  Server.row <$> Props.serverRowErrors Host.runtime Examples.server_clock_2024 "Sheet1" 1
                   Examples.row_bad
    = [3; 3; 3]%nat.
Proof. split; vm_compute; reflexivity. Qed.

(* ===================================================================== *)
(** * What the findings depend on *)
(* ===================================================================== *)

Section Purity.
Import Js ErrorHandling Props.
Context (rt : Runtime).

Lemma rowFindings_fields clock i r :
  rowFindings rt clock i r =
  merge (merge (merge (validateName r (i + 1) no_findings)
                      (validateAmount rt r (i + 1) no_findings))
               (validateDate rt (clock i) r (i + 1) no_findings))
        (validateVerified r (i + 1) no_findings).
Proof.
  unfold rowFindings, validateExcelRow. cbv zeta.
  rewrite (appends_validateVerified r (i + 1) _).
  rewrite (appends_validateDate rt (clock i) r (i + 1) _).
  by rewrite (appends_validateAmount rt r (i + 1) _).
Qed.

(** The clock never decides an error. *)
Lemma validateDate_errors now now' r n :
  errors (validateDate rt now r n no_findings) = errors (validateDate rt now' r n no_findings).
Proof.
  unfold validateDate. cbv zeta.
  destruct (negb (truthy (get "Date" r))); [done|].
  destruct (new_Date rt (get "Date" r)); [|done].
  by destruct (now <? z), (now' <? z).
Qed.

Lemma validateDate_same_side now now' r n :
  (forall t, truthy (get "Date" r) = true -> new_Date rt (get "Date" r) = Some t ->
             (now <? t) = (now' <? t)) ->
  validateDate rt now r n no_findings = validateDate rt now' r n no_findings.
Proof.
  intros Hside. unfold validateDate. cbv zeta.
  destruct (truthy (get "Date" r)) eqn:Ht; [|done]. simpl.
  destruct (new_Date rt (get "Date" r)) as [t|]; [|done].
  by rewrite (Hside t).
Qed.

Lemma rowErrors_clock c1 c2 i r : rowErrors rt c1 i r = rowErrors rt c2 i r.
Proof.
  unfold rowErrors. rewrite !rowFindings_fields. simpl.
  by rewrite (validateDate_errors (c1 i) (c2 i)).
Qed.

Lemma has_key_keys key (o : object) : has_key key o = existsb (String.eqb key) (keys o).
Proof.
  induction o as [|[k v] o IH]; simpl; [done|].
  by rewrite IH, (String.eqb_sym k key).
Qed.

Lemma missingColumns_keys (r1 r2 : object) :
  keys r1 = keys r2 -> missingColumns r1 = missingColumns r2.
Proof.
  intros Hk. unfold missingColumns. apply List.filter_ext. intros col.
  by rewrite !has_key_keys, Hk.
Qed.
End Purity.

(** C6 (as amended). [validateSheetStructure] is a function of its input
    alone, and of no more of it than the keys of the first row and whether
    there are more than 10,000 rows. [validateExcelData] also reads the
    clock: its error-severity findings are the same whatever the clock
    shows, and two runs on the same input return the same list whenever,
    for every row whose date is valid, the clocks of both runs are on the
    same side of that date. *)
Theorem validation_findings_depend_on (rt : Js.Runtime) (c1 c2 : nat -> Z)
    (data : ErrorHandling.sheet_data) :
  (forall r1 rest1 r2 rest2,
     Js.keys r1 = Js.keys r2 ->
     (10000 <? Z.of_nat (length (r1 :: rest1))) = (10000 <? Z.of_nat (length (r2 :: rest2))) ->
     ErrorHandling.validateSheetStructure (ErrorHandling.RowArray (r1 :: rest1)) =
     ErrorHandling.validateSheetStructure (ErrorHandling.RowArray (r2 :: rest2))) /\
  List.filter (ErrorHandling.is_severity ErrorHandling.SevError)
    (ErrorHandling.validateExcelData rt c1 data) =
  List.filter (ErrorHandling.is_severity ErrorHandling.SevError)
    (ErrorHandling.validateExcelData rt c2 data) /\
  ((forall i r t,
      Props.rowsOf data !! i = Some r ->
      Js.truthy (Js.get "Date" r) = true ->
      Js.new_Date rt (Js.get "Date" r) = Some t ->
      (c1 i <? t) = (c2 i <? t)) ->
   ErrorHandling.validateExcelData rt c1 data = ErrorHandling.validateExcelData rt c2 data).
Proof.
  split_and!.
  - intros r1 rest1 r2 rest2 Hk Hlen. unfold ErrorHandling.validateSheetStructure.
    rewrite Hlen, (missingColumns_keys r1 r2 Hk). unfold ErrorHandling.extraColumns.
    by rewrite Hk.
  - destruct data as [|[|firstRow rows]]; try done.
    destruct (decide (ErrorHandling.missingColumns firstRow = [])) as [Hm|Hm].
    + rewrite !validateExcelData_filter_errors by done.
      f_equal. apply imap_ext. intros i r _. apply rowErrors_clock.
    + simpl. by destruct (ErrorHandling.missingColumns firstRow).
  - intros Hside. destruct data as [|[|firstRow rows]]; try done.
    destruct (decide (ErrorHandling.missingColumns firstRow = [])) as [Hm|Hm].
    + rewrite !validateExcelData_rows by done. simpl Props.rowsOf in *.
      f_equal; f_equal; apply imap_ext; intros i r Hi.
      * apply rowErrors_clock.
      * unfold Props.rowWarnings. rewrite !rowFindings_fields. simpl.
        by rewrite (validateDate_same_side rt (c1 i) (c2 i) r (i + 1) (fun t => Hside i r t Hi)).
    + simpl. by destruct (ErrorHandling.missingColumns firstRow).
Qed.

(** C6 on sample sheets: two sheets with the same header have the same
    structural findings, and a row dated 2099 gets the same findings in
    2023 and in 2024. *)
Lemma validation_findings_depend_on_witness :
  ErrorHandling.validateSheetStructure
    (ErrorHandling.RowArray [Examples.row_future; Examples.row_bad]) =
  ErrorHandling.validateSheetStructure (ErrorHandling.RowArray [Examples.row_clean]) /\
  ErrorHandling.validateExcelData Host.runtime Examples.clock_2023
    (ErrorHandling.RowArray [Examples.row_future]) =
  ErrorHandling.validateExcelData Host.runtime Examples.clock_2024
    (ErrorHandling.RowArray [Examples.row_future]).
Proof.
  destruct (validation_findings_depend_on Host.runtime Examples.clock_2023 Examples.clock_2024
              (ErrorHandling.RowArray [Examples.row_future])) as (Hstructure & _ & Hsame).
  split.
  - apply Hstructure; reflexivity.
  - apply Hsame. intros i r t Hi _ Ht.
    destruct i as [|i]; [|destruct i; discriminate Hi].
    injection Hi as <-. vm_compute in Ht. injection Ht as <-. reflexivity.
Defined.

(** C6 (counterexample). The same one-row sheet, whose date is
    2024-01-05, validated by a clock in November 2023 and by a clock in
    June 2024: the first run returns the warning "Date is in the future",
    the second returns nothing. *)
Lemma validateExcelData_reads_the_clock :
  ErrorHandling.validateExcelData Host.runtime Examples.clock_2023
    (ErrorHandling.RowArray [Examples.row_clean]) =
  [ErrorHandling.field_warning 1 "Date" "Date is in the future"] /\
  ErrorHandling.validateExcelData Host.runtime Examples.clock_2024
    (ErrorHandling.RowArray [Examples.row_clean]) = [].
Proof. split; vm_compute; reflexivity. Qed.

(* ===================================================================== *)
(** * The structural validator *)
(* ===================================================================== *)

(** Past the first three checks, the missing-columns finding (if any) is
    followed by the extra-columns finding (if any). *)
Lemma validateSheetStructure_columns (firstRow : Js.object) (rest : list Js.object) :
  (10000 <? Z.of_nat (length (firstRow :: rest))) = false ->
  ErrorHandling.validateSheetStructure (ErrorHandling.RowArray (firstRow :: rest)) =
  (if (0 <? length (ErrorHandling.missingColumns firstRow))%nat
   then [ErrorHandling.file_finding 0
           ("Missing required columns: " +:+ Js.join ", " (ErrorHandling.missingColumns firstRow))
           ErrorHandling.SevError]
   else []) ++
  (if (0 <? length (ErrorHandling.extraColumns firstRow))%nat
   then [ErrorHandling.file_finding 0
           ("Warning: Found extra columns that will be ignored: " +:+
            Js.join ", " (ErrorHandling.extraColumns firstRow))
           ErrorHandling.SevWarning]
   else []).
Proof.
  intros Hlen. unfold ErrorHandling.validateSheetStructure. rewrite Hlen.
  by destruct (0 <? length (ErrorHandling.missingColumns firstRow))%nat,
              (0 <? length (ErrorHandling.extraColumns firstRow))%nat.
Qed.

(** C5 (the code at the failing input). A one-row sheet whose first row
    has the columns Name, Amount, Date and Notes passes the first three
    checks and misses Verified: [validateSheetStructure] does not return
    after the missing-columns error and goes on to the extra-columns
    check, so it returns two findings, not one. *)
Theorem validateSheetStructure_missing_then_extra :
  ErrorHandling.validateSheetStructure (ErrorHandling.RowArray [Examples.row_missing_and_extra]) =
  [ErrorHandling.file_finding 0 "Missing required columns: Verified" ErrorHandling.SevError;
   ErrorHandling.file_finding 0 "Warning: Found extra columns that will be ignored: Notes"
     ErrorHandling.SevWarning].
Proof. reflexivity. Qed.

(** The scenario of the specification: with no column beyond the required
    ones, the missing-columns error is the only finding. *)
Example validateSheetStructure_missing_only :
  ErrorHandling.validateSheetStructure (ErrorHandling.RowArray [Examples.row_missing]) =
  [ErrorHandling.file_finding 0 "Missing required columns: Verified" ErrorHandling.SevError].
Proof. reflexivity. Qed.

(** The bound on the number of rows: 10,000 rows pass, 10,001 do not. *)
Example validateSheetStructure_row_bound :
  ErrorHandling.validateSheetStructure
    (ErrorHandling.RowArray (Examples.row_clean :: replicate (Z.to_nat 9999) Examples.row_clean)) = [] /\
  ErrorHandling.validateSheetStructure
    (ErrorHandling.RowArray (Examples.row_clean :: replicate (Z.to_nat 10000) Examples.row_clean)) =
  [ErrorHandling.file_finding 0
     "Sheet contains too many rows (>10,000). Please split the data into smaller files."
     ErrorHandling.SevError].
Proof.
  split.
  - rewrite validateSheetStructure_columns; [done|].
    cbn [length]. rewrite length_replicate. reflexivity.
  - unfold ErrorHandling.validateSheetStructure.
    cbn [length]. rewrite length_replicate. reflexivity.
Qed.

(** The sibling check of [validateExcelData] returns at once. *)
Example validateExcelData_missing_returns :
  ErrorHandling.validateExcelData Host.runtime Examples.clock_2023
    (ErrorHandling.RowArray [Examples.row_missing_and_extra]) =
  [ErrorHandling.file_finding 1 "Missing required columns: Verified" ErrorHandling.SevError].
Proof. reflexivity. Qed.

(* ===================================================================== *)
(** * The transport adapter *)
(* ===================================================================== *)

Lemma filter_none {A} (f : A -> bool) (l : list A) :
  Forall (fun x => f x = false) l -> List.filter f l = [].
Proof. induction 1 as [|x l Hx _ IH]; simpl; [done|]. by rewrite Hx. Qed.

Lemma criticalErrors_first (d : ErrorHandling.ApiError) (es before after : list ErrorHandling.ValidationError)
    (e : ErrorHandling.ValidationError) :
  ErrorHandling.api_errors d = Some es ->
  es = before ++ e :: after ->
  Forall (fun x => ErrorHandling.is_severity ErrorHandling.SevError x = false) before ->
  ErrorHandling.is_severity ErrorHandling.SevError e = true ->
  exists rest, ErrorHandling.criticalErrors d = e :: rest.
Proof.
  intros Hes -> Hbefore He. unfold ErrorHandling.criticalErrors. rewrite Hes.
  rewrite List.filter_app. simpl. rewrite He.
  rewrite (filter_none _ _ Hbefore). by eexists.
Qed.

Lemma criticalErrors_none (d : ErrorHandling.ApiError) :
  (forall es, ErrorHandling.api_errors d = Some es ->
              Forall (fun x => ErrorHandling.is_severity ErrorHandling.SevError x = false) es) ->
  ErrorHandling.criticalErrors d = [].
Proof.
  intros Hnone. unfold ErrorHandling.criticalErrors.
  destruct (ErrorHandling.api_errors d) as [es|]; [|done].
  by apply filter_none, Hnone.
Qed.

(** The order of the tests of [handleAxiosError]. With a response: the
    message of the first error-severity entry of the payload's [errors],
    when there is one; otherwise the payload's [error] when it is a
    non-empty string; otherwise the payload's [message] when it is a
    non-empty string. Without a response: the connectivity message when
    the error carries its request; the timeout message only when it
    carries none and its code is ECONNABORTED. *)
Theorem handleAxiosError_priority (error : ErrorHandling.AxiosError) (defaultMessage : string) :
  (forall resp es before e after,
     ErrorHandling.response error = Some resp ->
     ErrorHandling.api_errors (ErrorHandling.data resp) = Some es ->
     es = before ++ e :: after ->
     Forall (fun x => ErrorHandling.is_severity ErrorHandling.SevError x = false) before ->
     ErrorHandling.is_severity ErrorHandling.SevError e = true ->
     ErrorHandling.handleAxiosError error defaultMessage = ErrorHandling.message e) /\
  (forall resp s,
     ErrorHandling.response error = Some resp ->
     (forall es, ErrorHandling.api_errors (ErrorHandling.data resp) = Some es ->
                 Forall (fun x => ErrorHandling.is_severity ErrorHandling.SevError x = false) es) ->
     ErrorHandling.api_error (ErrorHandling.data resp) = Some s ->
     s <> "" ->
     ErrorHandling.handleAxiosError error defaultMessage = s) /\
  (forall resp s,
     ErrorHandling.response error = Some resp ->
     (forall es, ErrorHandling.api_errors (ErrorHandling.data resp) = Some es ->
                 Forall (fun x => ErrorHandling.is_severity ErrorHandling.SevError x = false) es) ->
     ErrorHandling.api_error (ErrorHandling.data resp) = None \/
     ErrorHandling.api_error (ErrorHandling.data resp) = Some "" ->
     ErrorHandling.api_message (ErrorHandling.data resp) = Some s ->
     s <> "" ->
     ErrorHandling.handleAxiosError error defaultMessage = s) /\
  (ErrorHandling.response error = None ->
   ErrorHandling.request error = true ->
   ErrorHandling.handleAxiosError error defaultMessage =
   "No response from server. Please check your connection.") /\
  (ErrorHandling.response error = None ->
   ErrorHandling.request error = false ->
   ErrorHandling.code error = Some "ECONNABORTED" ->
   ErrorHandling.handleAxiosError error defaultMessage =
   "Request timed out. The file might be too large.").
Proof.
  unfold ErrorHandling.handleAxiosError. split_and!.
  - intros resp es before e after -> Hes Hsplit Hbefore He.
    by destruct (criticalErrors_first _ _ _ _ _ Hes Hsplit Hbefore He) as [rest ->].
  - intros resp s -> Hnone Herr Hs.
    rewrite (criticalErrors_none _ Hnone), Herr. simpl.
    by destruct (String.eqb_spec s "").
  - intros resp s -> Hnone Herr Hmsg Hs.
    rewrite (criticalErrors_none _ Hnone), Hmsg. simpl.
    destruct (String.eqb_spec s ""); [done|]. by destruct Herr as [-> | ->].
  - by intros -> ->.
  - intros -> -> ->. by rewrite bool_decide_eq_true_2.
Qed.

(** Five sample failures, one for each case. *)
Lemma handleAxiosError_priority_witness :
  ErrorHandling.handleAxiosError Examples.rejected_with_errors "An error occurred" =
    "Amount must be a number" /\
  ErrorHandling.handleAxiosError Examples.rejected_with_error "An error occurred" =
    "No validated data found" /\
  ErrorHandling.handleAxiosError Examples.rejected_with_message "An error occurred" =
    "Import failed" /\
  ErrorHandling.handleAxiosError Examples.unanswered "An error occurred" =
    "No response from server. Please check your connection." /\
  ErrorHandling.handleAxiosError Examples.aborted "An error occurred" =
    "Request timed out. The file might be too large.".
Proof.
  split_and!.
  - apply (proj1 (handleAxiosError_priority Examples.rejected_with_errors "An error occurred")
             _ _ [Examples.warning_finding] Examples.error_finding [] eq_refl eq_refl eq_refl);
      [by repeat constructor|reflexivity].
  - apply (proj1 (proj2 (handleAxiosError_priority Examples.rejected_with_error
                           "An error occurred")) _ _ eq_refl); [done|reflexivity|done].
  - apply (proj1 (proj2 (proj2 (handleAxiosError_priority Examples.rejected_with_message
                                  "An error occurred"))) _ _ eq_refl).
    + intros es [= <-]. by repeat constructor.
    + by left.
    + reflexivity.
    + done.
  - by apply (proj1 (proj2 (proj2 (proj2 (handleAxiosError_priority Examples.unanswered
                                            "An error occurred"))))).
  - by apply (proj2 (proj2 (proj2 (proj2 (handleAxiosError_priority Examples.aborted
                                            "An error occurred"))))).
Defined.

(** C8 (the code at the failing input). A request that was aborted or
    timed out: the error of the client library has no response, carries
    the request that was sent, and has the code ECONNABORTED.
    [handleAxiosError] tests [error.request] before it tests the code,
    so it returns the connectivity message and not the timeout message.
    The same holds of every error without a response that carries its
    request, whatever its code: the branch of the timeout message is
    only reached by an error that carries no request. *)
Theorem handleAxiosError_timeout_shadowed :
  ErrorHandling.handleAxiosError Examples.timed_out "An error occurred" =
    "No response from server. Please check your connection." /\
  ErrorHandling.code Examples.timed_out = Some "ECONNABORTED" /\
  (forall error defaultMessage,
     ErrorHandling.response error = None ->
     ErrorHandling.request error = true ->
     ErrorHandling.handleAxiosError error defaultMessage =
     "No response from server. Please check your connection.") /\
  (forall error defaultMessage,
     ErrorHandling.handleAxiosError error defaultMessage =
     "Request timed out. The file might be too large." ->
     ErrorHandling.response error = None ->
     ErrorHandling.request error = false).
Proof.
  split_and!; [reflexivity|reflexivity| |].
  - intros error defaultMessage Hresp Hreq. unfold ErrorHandling.handleAxiosError.
    by rewrite Hresp, Hreq.
  - intros error defaultMessage Hmsg Hresp. unfold ErrorHandling.handleAxiosError in Hmsg.
    rewrite Hresp in Hmsg. by destruct (ErrorHandling.request error).
Qed.

(* ===================================================================== *)
(** * The normalizer *)
(* ===================================================================== *)

Section Normalizer.
Import Js App Props.
Context (rt : Runtime).

Lemma keys_app (a b : object) : keys (a ++ b) = keys a ++ keys b.
Proof. unfold keys. apply map_app. Qed.

Lemma has_key_false_get key (o : object) : has_key key o = false -> get key o = VUndefined.
Proof.
  induction o as [|[k v] o IH]; simpl; [done|].
  destruct (String.eqb k key); simpl; [done|]. apply IH.
Qed.

Lemma has_key_elem_of key (o : object) : has_key key o = true <-> key ∈ keys o.
Proof.
  induction o as [|[k v] o IH]; simpl.
  - split; [done|]. by intros ?%elem_of_nil.
  - rewrite elem_of_cons, <- IH. destruct (String.eqb_spec k key) as [->|Hne]; simpl.
    + split; [by left|done].
    + split; [by right|]. by intros [?|?].
Qed.

(** Assigning to a key that the front part of an object does not have. *)
Lemma set_app_fresh key v w (pre rest : object) :
  key ∉ keys pre ->
  set key w (pre ++ (key, v) :: rest) = pre ++ (key, w) :: rest.
Proof.
  induction pre as [|[k u] pre IH]; simpl; intros Hfresh.
  - by rewrite String.eqb_refl.
  - apply not_elem_of_cons in Hfresh as [Hne Hfresh].
    destruct (String.eqb_spec k key); [congruence|]. by rewrite IH.
Qed.

(** When the loop over the entries returns, each entry holds its
    normalized value, in place. *)
Lemma processEntries_ok (rest pre r' : object) :
  NoDup (keys (pre ++ rest)) ->
  processEntries rt rest (pre ++ rest) = Ok r' ->
  r' = pre ++ normalizedRow rt rest.
Proof.
  revert pre. induction rest as [|[k v] rest IH]; intros pre Hnd; simpl.
  - intros [= <-]. done.
  - assert (Hfresh : k ∉ keys pre).
    { rewrite keys_app in Hnd. apply NoDup_app in Hnd as (_ & Hdis & _).
      intros Hk. apply (Hdis k Hk). simpl. apply list_elem_of_here. }
    unfold normalized at 1. simpl.
    destruct (processEntry rt k v) as [[w|]|msg]; simpl; [| |done].
    + rewrite (set_app_fresh k v w pre rest Hfresh).
      replace (pre ++ (k, w) :: rest) with ((pre ++ [(k, w)]) ++ rest)
        by by rewrite <- app_assoc.
      intros Hrun. apply IH in Hrun.
      * by rewrite Hrun, <- app_assoc.
      * rewrite keys_app in *. rewrite keys_app. simpl in *. by rewrite <- app_assoc.
    + replace (pre ++ (k, v) :: rest) with ((pre ++ [(k, v)]) ++ rest)
        by by rewrite <- app_assoc.
      intros Hrun. apply IH in Hrun.
      * by rewrite Hrun, <- app_assoc.
      * rewrite keys_app in *. rewrite keys_app. simpl in *. by rewrite <- app_assoc.
Qed.

Lemma processRow_ok (r r' : object) :
  NoDup (keys r) -> processRow rt r = Ok r' -> r' = normalizedRow rt r.
Proof. intros Hnd Hrun. by apply (processEntries_ok r [] r'). Qed.

(** The loop returns when every entry does. *)
Lemma processEntries_total (rest pre : object) :
  NoDup (keys (pre ++ rest)) ->
  Forall (fun kv => exists a, processEntry rt (fst kv) (snd kv) = Ok a) rest ->
  processEntries rt rest (pre ++ rest) = Ok (pre ++ normalizedRow rt rest).
Proof.
  intros Hnd Hall. revert pre Hnd.
  induction Hall as [|[k v] rest [a Ha] _ IH]; intros pre Hnd; simpl in *.
  - done.
  - assert (Hfresh : k ∉ keys pre).
    { rewrite keys_app in Hnd. apply NoDup_app in Hnd as (_ & Hdis & _).
      intros Hk. apply (Hdis k Hk). simpl. apply list_elem_of_here. }
    unfold normalized at 1. simpl. rewrite Ha. simpl. destruct a as [w|].
    + rewrite (set_app_fresh k v w pre rest Hfresh).
      replace (pre ++ (k, w) :: rest) with ((pre ++ [(k, w)]) ++ rest)
        by by rewrite <- app_assoc.
      rewrite IH; [by rewrite <- app_assoc|].
      rewrite keys_app in *. rewrite keys_app. simpl in *. by rewrite <- app_assoc.
    + replace (pre ++ (k, v) :: rest) with ((pre ++ [(k, v)]) ++ rest)
        by by rewrite <- app_assoc.
      rewrite IH; [by rewrite <- app_assoc|].
      rewrite keys_app in *. rewrite keys_app. simpl in *. by rewrite <- app_assoc.
Qed.

Lemma processRow_total (r : object) :
  NoDup (keys r) ->
  Forall (fun kv => exists a, processEntry rt (fst kv) (snd kv) = Ok a) r ->
  processRow rt r = Ok (normalizedRow rt r).
Proof. intros Hnd Hall. by apply (processEntries_total r []). Qed.

Lemma get_normalizedRow key (r : object) :
  get key (normalizedRow rt r) =
  if has_key key r then normalized rt key (get key r) else VUndefined.
Proof.
  induction r as [|[k v] r IH]; simpl; [done|].
  destruct (String.eqb_spec k key) as [->|Hne]; simpl; [done|]. apply IH.
Qed.

Lemma has_key_normalizedRow key (r : object) :
  has_key key (normalizedRow rt r) = has_key key r.
Proof. induction r as [|[k v] r IH]; simpl; [done|]. by rewrite IH. Qed.

(** ** The field named Verified *)

Lemma processEntry_Verified (v : value) :
  processEntry rt "Verified" v =
  Ok (Some match v with
           | VStr s => VBool (String.eqb (token s) "yes")
           | VBool b => VBool b
           | _ => VNull
           end).
Proof. unfold processEntry. simpl. by destruct v. Qed.

(** ** Fields with a date name *)

Lemma isDateKey_not_Verified key : isDateKey key = true -> String.eqb key "Verified" = false.
Proof.
  intros Hd. destruct (String.eqb_spec key "Verified") as [->|]; [|done].
  by vm_compute in Hd.
Qed.

Lemma processEntry_date_key key (v : value) :
  isDateKey key = true ->
  processEntry rt key v =
  if truthy v then
    match v with
    | VNum n => bind (isoDay (TimeClip (serialToTime n))) (fun day => Ok (Some (VStr day)))
    | VStr s =>
        match Date_parse rt s with
        | Some t => bind (isoDay (Some t)) (fun day => Ok (Some (VStr day)))
        | None => Ok (Some VNull)
        end
    | _ => Ok None
    end
  else Ok (Some VNull).
Proof.
  intros Hd. unfold processEntry. rewrite (isDateKey_not_Verified key Hd), Hd.
  destruct (truthy v); [|done]. destruct v; try done.
  by destruct (Date_parse rt s).
Qed.
End Normalizer.

Lemma NoDup_four (a b c d : string) :
  a <> b -> a <> c -> a <> d -> b <> c -> b <> d -> c <> d -> NoDup [a; b; c; d].
Proof.
  intros. repeat (constructor; [rewrite ?elem_of_cons, elem_of_nil; tauto|]).
  constructor.
Qed.

(* ===================================================================== *)
(** * Normalization of the Verified field and of date fields *)
(* ===================================================================== *)

(** C3 (as amended). For the field named Verified, a string is
    lower-cased and trimmed and becomes a boolean: [true] when the result
    is "yes", [false] otherwise (so "no" and "false" give [false], and no
    string passes through unchanged); a boolean is kept; a value of any
    other type becomes [null]. The processed row holds that value under
    Verified. *)
Theorem Verified_normalization (rt : Js.Runtime) :
  (forall s, Props.token s = "yes" ->
             App.processEntry rt "Verified" (Js.VStr s) = Js.Ok (Some (Js.VBool true))) /\
  (forall s, Props.token s <> "yes" ->
             App.processEntry rt "Verified" (Js.VStr s) = Js.Ok (Some (Js.VBool false))) /\
  (forall b, App.processEntry rt "Verified" (Js.VBool b) = Js.Ok (Some (Js.VBool b))) /\
  (forall v, Js.typeof v <> Js.TString -> Js.typeof v <> Js.TBoolean ->
             App.processEntry rt "Verified" v = Js.Ok (Some Js.VNull)) /\
  (forall r r', NoDup (Js.keys r) -> Js.has_key "Verified" r = true ->
                App.processRow rt r = Js.Ok r' ->
                App.processEntry rt "Verified" (Js.get "Verified" r) =
                Js.Ok (Some (Js.get "Verified" r'))).
Proof.
  split_and!.
  - intros s Hs. rewrite processEntry_Verified, Hs. done.
  - intros s Hs. rewrite processEntry_Verified.
    by destruct (String.eqb_spec (Props.token s) "yes").
  - intros b. by rewrite processEntry_Verified.
  - intros v Hs Hb. rewrite processEntry_Verified. by destruct v.
  - intros r r' Hnd Hk Hrun. rewrite (processRow_ok rt r r' Hnd Hrun).
    rewrite get_normalizedRow, Hk. unfold Props.normalized.
    by rewrite processEntry_Verified.
Qed.

(** C3 on sample cells and on the decoded sample row. *)
Lemma Verified_normalization_witness :
  App.processEntry Host.runtime "Verified" (Js.VStr " YES ") = Js.Ok (Some (Js.VBool true)) /\
  App.processEntry Host.runtime "Verified" (Js.VStr "No") = Js.Ok (Some (Js.VBool false)) /\
  App.processEntry Host.runtime "Verified" (Js.VNum (Js.Fin 1)) = Js.Ok (Some Js.VNull) /\
  App.processEntry Host.runtime "Verified" (Js.get "Verified" Examples.row_decoded) =
  Js.Ok (Some (Js.get "Verified" (Props.normalizedRow Host.runtime Examples.row_decoded))).
Proof.
  destruct (Verified_normalization Host.runtime) as (Hyes & Hother & _ & Hnull & Hrow).
  split_and!.
  - apply Hyes. reflexivity.
  - apply Hother. vm_compute. discriminate.
  - apply Hnull; simpl; discriminate.
  - apply Hrow.
    + by apply NoDup_four.
    + reflexivity.
    + reflexivity.
Defined.

(** C3 (counterexample). The string "true" becomes [false], not [true],
    and the string "maybe" becomes [false], it does not pass through. *)
Lemma Verified_true_and_other_strings :
  App.processEntry Host.runtime "Verified" (Js.VStr "true") = Js.Ok (Some (Js.VBool false)) /\
  App.processEntry Host.runtime "Verified" (Js.VStr "maybe") = Js.Ok (Some (Js.VBool false)).
Proof. split; reflexivity. Qed.

(** C10. For a field whose name matches the date pattern, a cell that is
    truthy and neither a number nor a string (a [Date] object, as the
    decoder produces with [cellDates: true], or [true]) gets no
    assignment: the processed row holds the very same value, neither a
    [YYYY-MM-DD] string nor [null]. *)
Theorem date_field_other_types_unchanged (rt : Js.Runtime) (key : string) (v : Js.value) :
  App.isDateKey key = true ->
  Js.truthy v = true ->
  Js.typeof v <> Js.TNumber ->
  Js.typeof v <> Js.TString ->
  App.processEntry rt key v = Js.Ok None /\
  (forall r r', NoDup (Js.keys r) -> Js.get key r = v ->
                App.processRow rt r = Js.Ok r' -> Js.get key r' = v).
Proof.
  intros Hkey Ht Hn Hs.
  assert (Hentry : App.processEntry rt key v = Js.Ok None).
  { rewrite (processEntry_date_key rt key v Hkey), Ht. by destruct v. }
  split; [done|].
  intros r r' Hnd Hget Hrun. rewrite (processRow_ok rt r r' Hnd Hrun), get_normalizedRow.
  destruct (Js.has_key key r) eqn:Hk.
  - unfold Props.normalized. by rewrite Hget, Hentry.
  - rewrite (has_key_false_get key r Hk) in Hget. by subst v.
Qed.

(** C10 on a [Date] object in the column Date. *)
Lemma date_field_other_types_unchanged_witness :
  App.processEntry Host.runtime "Date" (Js.VDate (Some 1704412800000)) = Js.Ok None /\
  (forall r r', NoDup (Js.keys r) -> Js.get "Date" r = Js.VDate (Some 1704412800000) ->
                App.processRow Host.runtime r = Js.Ok r' ->
                Js.get "Date" r' = Js.VDate (Some 1704412800000)).
Proof.
  apply (date_field_other_types_unchanged Host.runtime "Date" (Js.VDate (Some 1704412800000)));
    [reflexivity|reflexivity|simpl; discriminate|simpl; discriminate].
Defined.

(** The decoded sample row keeps its [Date] object. *)
Example row_decoded_processed :
  App.processRow Host.runtime Examples.row_decoded =
  Js.Ok [("Name", Js.VStr "A"); ("Amount", Js.VNum (Js.Fin 50));
         ("Date", Js.VDate (Some 1704412800000)); ("Verified", Js.VBool true)].
Proof. reflexivity. Qed.

(* ===================================================================== *)
(** * Client verdict and server verdict *)
(* ===================================================================== *)

Section Verdicts.
Import Js Props.
Context (rt : Runtime).

(** *** The client *)

Lemma validateName_bad r n :
  bad_Name r -> ErrorHandling.errors (ErrorHandling.validateName r n ErrorHandling.no_findings) <> [].
Proof. unfold bad_Name, ErrorHandling.validateName. intros ->. done. Qed.

Lemma validateAmount_bad r n :
  bad_Amount r ->
  ErrorHandling.errors (ErrorHandling.validateAmount rt r n ErrorHandling.no_findings) <> [].
Proof.
  unfold bad_Amount, ErrorHandling.validateAmount. cbv zeta.
  intros [->|(x & -> & Hx)]; [done|]. simpl.
  destruct Hx as [->| Hle]; [done|].
  destruct (num_isNaN x); [done|]. by rewrite Hle.
Qed.

Lemma validateDate_bad now r n :
  truthy (get "Date" r) = false ->
  ErrorHandling.errors (ErrorHandling.validateDate rt now r n ErrorHandling.no_findings) <> [].
Proof. unfold ErrorHandling.validateDate. intros ->. done. Qed.

Lemma rowErrors_fields clock i r :
  rowErrors rt clock i r =
  ErrorHandling.errors (ErrorHandling.validateName r (i + 1) ErrorHandling.no_findings) ++
  ErrorHandling.errors (ErrorHandling.validateAmount rt r (i + 1) ErrorHandling.no_findings) ++
  ErrorHandling.errors (ErrorHandling.validateDate rt (clock i) r (i + 1) ErrorHandling.no_findings) ++
  ErrorHandling.errors (ErrorHandling.validateVerified r (i + 1) ErrorHandling.no_findings).
Proof. unfold rowErrors. rewrite rowFindings_fields. simpl. by rewrite <- !app_assoc. Qed.

Lemma normalized_Name v : normalized rt "Name" v = v.
Proof. done. Qed.

Lemma normalized_Amount v : normalized rt "Amount" v = v.
Proof. done. Qed.

(** A bad Date cell is [null] after normalization. *)
Lemma normalized_Date_bad (r : object) :
  bad_Date rt r -> truthy (normalized rt "Date" (get "Date" r)) = false.
Proof.
  unfold normalized. rewrite processEntry_date_key by done.
  intros [Hf|(s & -> & Hs)].
  - by rewrite Hf.
  - rewrite Hs. by destruct (truthy (VStr s)).
Qed.

Lemma get_normalizedRow_same key (r : object) :
  (forall v, normalized rt key v = v) -> get key (normalizedRow rt r) = get key r.
Proof.
  intros Hsame. rewrite get_normalizedRow, Hsame.
  destruct (has_key key r) eqn:Hk; [done|]. by rewrite has_key_false_get.
Qed.

Lemma client_rejects clock i r :
  NoDup (keys r) ->
  bad_Name r \/ bad_Amount r \/ bad_Date rt r ->
  client_accepts rt clock i r = false.
Proof.
  intros Hnd Hbad. unfold client_accepts.
  destruct (App.processRow rt r) as [r'|] eqn:Hrun; [|done].
  apply (processRow_ok rt r r' Hnd) in Hrun. subst r'.
  assert (Herr : rowErrors rt clock i (normalizedRow rt r) <> []);
    [|by destruct (rowErrors rt clock i (normalizedRow rt r))].
  rewrite rowErrors_fields. intros Hnil.
  apply app_eq_nil in Hnil as [HN Hnil].
  apply app_eq_nil in Hnil as [HA Hnil].
  apply app_eq_nil in Hnil as [HD _].
  destruct Hbad as [Hbad|[Hbad|Hbad]].
  - revert HN. apply validateName_bad. unfold bad_Name.
    by rewrite (get_normalizedRow_same "Name" r normalized_Name).
  - revert HA. apply validateAmount_bad. unfold bad_Amount.
    by rewrite (get_normalizedRow_same "Amount" r normalized_Amount).
  - revert HD. apply validateDate_bad. rewrite get_normalizedRow.
    destruct (has_key "Date" r); [|done]. by apply normalized_Date_bad.
Qed.

(** *** The server *)

Lemma validateColumn_fails clk r config n sheetName st excelColumn dbField validation :
  Server.lookup_validation dbField (Server.validations config) = Some validation ->
  column_fails rt clk r excelColumn validation ->
  exists st',
    Server.validateColumn rt clk r config n sheetName st (excelColumn, dbField) = Ok st' /\
    Server.st_isValid st' = false.
Proof.
  intros Hv Hfail. unfold Server.validateColumn. rewrite Hv.
  destruct (Server.required validation && negb (truthy (get excelColumn r))) eqn:Hreq.
  - by eexists.
  - destruct Hfail as [Hfail|(msg & ->)]; [congruence|]. by eexists.
Qed.

Lemma validateColumns_stays_invalid clk r config n sheetName entries st :
  Forall (fun entry => is_Some (Server.lookup_validation (snd entry) (Server.validations config)))
         entries ->
  Server.st_isValid st = false ->
  exists st',
    Server.validateColumns rt clk r config n sheetName entries st = Ok st' /\
    Server.st_isValid st' = false.
Proof.
  intros Hall Hinvalid.
  destruct (validateColumns_shape rt clk r config n sheetName entries st Hall)
    as (st' & extra & Hrun & _ & _ & Hvalid).
  exists st'. split; [done|].
  destruct (Server.st_isValid st') eqn:Hv; [|done].
  destruct (proj1 Hvalid eq_refl) as [Hst _]. congruence.
Qed.

Lemma validateColumns_cons clk r config n sheetName entry rest st :
  Server.validateColumns rt clk r config n sheetName (entry :: rest) st =
  bind (Server.validateColumn rt clk r config n sheetName st entry)
       (Server.validateColumns rt clk r config n sheetName rest).
Proof. done. Qed.

Lemma validateColumns_fails clk r config n sheetName before excelColumn dbField after
    validation st :
  Forall (fun entry => is_Some (Server.lookup_validation (snd entry) (Server.validations config)))
         (before ++ (excelColumn, dbField) :: after) ->
  Server.lookup_validation dbField (Server.validations config) = Some validation ->
  column_fails rt clk r excelColumn validation ->
  exists st',
    Server.validateColumns rt clk r config n sheetName
      (before ++ (excelColumn, dbField) :: after) st = Ok st' /\
    Server.st_isValid st' = false.
Proof.
  revert st. induction before as [|entry before IH]; intros st Hall Hv Hfail.
  - rewrite app_nil_l in *. rewrite validateColumns_cons.
    destruct (validateColumn_fails clk r config n sheetName st excelColumn dbField validation
                Hv Hfail) as (st1 & -> & Hinvalid).
    apply validateColumns_stays_invalid; [|done]. by inversion Hall.
  - rewrite <- app_comm_cons in *. rewrite validateColumns_cons.
    inversion Hall as [|? ? [v Hentry] Hrest]; subst.
    destruct (validateColumn_shape rt clk r config n sheetName st entry v Hentry)
      as (st1 & -> & _). by apply IH.
Qed.

Lemma server_rejects_column clock sheetName i r before excelColumn dbField after validation :
  Server.columnMapping Server.sheetConfigs_default = before ++ (excelColumn, dbField) :: after ->
  Server.lookup_validation dbField (Server.validations Server.sheetConfigs_default) =
    Some validation ->
  column_fails rt (clock i) r excelColumn validation ->
  server_accepts rt clock sheetName i r = false.
Proof.
  intros Hsplit Hv Hfail. unfold server_accepts, Server.validateRow.
  pose proof (default_validations) as Hall. rewrite Hsplit in *.
  destruct (validateColumns_fails (clock i) r Server.sheetConfigs_default (i + 2) sheetName
              before excelColumn dbField after validation
              {| Server.st_errors := []; Server.st_transformedData := [];
                 Server.st_isValid := true |} Hall Hv Hfail) as (st' & -> & Hinvalid).
  simpl. by rewrite Hinvalid.
Qed.

Lemma server_rejects clock sheetName i r :
  bad_Name r \/ bad_Amount r \/ bad_Date rt r ->
  server_accepts rt clock sheetName i r = false.
Proof.
  intros [Hbad|[Hbad|Hbad]].
  - eapply (server_rejects_column clock sheetName i r [] "Name" "name"); [done..|].
    left. simpl. by rewrite Hbad.
  - eapply (server_rejects_column clock sheetName i r [("Name", "name")] "Amount" "amount");
      [done..|].
    destruct Hbad as [Hnull|(x & Hx & Hbad)].
    + left. simpl. by destruct (get "Amount" r).
    + destruct (truthy (get "Amount" r)) eqn:Ht; [|left; by rewrite Ht].
      right. unfold Server.validateField. rewrite Ht, Hx. simpl.
      destruct Hbad as [->|Hle]; [by eexists|].
      destruct (num_isNaN x) eqn:Hnan; [by eexists|].
      assert (Hlt : num_ltb x (Fin 0) = true); [|rewrite Hlt; by eexists].
      rewrite Hx in Ht. destruct x as [| | |q]; try done. simpl in *.
      unfold Qltb. apply negb_true_iff, not_true_is_false. intros Hge.
      apply Qle_bool_iff in Hle, Hge.
      assert (Hq : (q == 0)%Q) by by apply Qle_antisym.
      apply negb_true_iff in Ht. apply not_true_iff_false in Ht. apply Ht.
      by apply Qeq_bool_iff.
  - eapply (server_rejects_column clock sheetName i r
              [("Name", "name"); ("Amount", "amount")] "Date" "date"); [done..|].
    destruct Hbad as [Hf|(s & Hs & Hparse)].
    + left. simpl. by rewrite Hf.
    + destruct (truthy (get "Date" r)) eqn:Ht; [|left; by rewrite Ht].
      right. unfold Server.validateField. rewrite Ht, Hs. simpl. rewrite Hparse. by eexists.
Qed.
End Verdicts.

(** A row whose Verified cell is the boolean [true] and whose other
    cells are in order (the date, 2024-01-05, is within the twelve months
    before the server's clock): the client accepts it; the server rejects
    it, because the default [transform] calls [toLowerCase] on the
    boolean, which throws. *)
Example client_accepts_server_rejects :
  Props.client_accepts Host.runtime Examples.clock_2024 0 Examples.row_verified_true = true /\
  Props.server_accepts Host.runtime Examples.server_clock_2024 "Sheet1" 0
    Examples.row_verified_true = false /\
  Props.serverRowErrors Host.runtime Examples.server_clock_2024 "Sheet1" 0
    Examples.row_verified_true =
  [{| Server.sheet := "Sheet1"; Server.row := 2;
      Server.message := "value.toLowerCase is not a function" |}].
Proof. split_and!; vm_compute; reflexivity. Qed.

(* ===================================================================== *)
(** * The error aggregator *)
(* ===================================================================== *)

Section Aggregator.
Import Js ErrorHandling Props.

Lemma bucket_name_of e : bucket_name e = bucket_of e.
Proof.
  unfold bucket_name, bucket_of, truthy_str, str_of.
  destruct (sheetName e) as [s|]; [|done].
  destruct (decide (s = "")) as [->|Hne]; [done|]. by destruct (String.eqb_spec s "").
Qed.

Lemma formatted_rewritten e : formatted e = rewritten e.
Proof.
  unfold formatted, rewritten, truthy_str, str_of. f_equal.
  destruct (column e) as [c|]; [|done].
  destruct (decide (c = "")) as [->|Hne]; [done|]. by destruct (String.eqb_spec c "").
Qed.

Lemma fresh_loc_None (h : heap) : h !! fresh (dom h) = None.
Proof. apply not_elem_of_dom, is_fresh. Qed.

(** One turn of [reduce], on a finding whose bucket is not a name of
    [Object.prototype]. *)
Lemma format_step_ok (h : heap) (acc : gmap string (list loc)) (l : loc) (e : ValidationError) :
  h !! l = Some e ->
  inherited (bucket_of e) = false ->
  format_step h acc l =
  (<[fresh (dom h) := rewritten e]> h,
   Ok (<[bucket_of e := bucket acc (bucket_of e) ++ [fresh (dom h)]]> acc)).
Proof.
  intros Hl Hin. unfold format_step, alloc, acc_get, bucket, push.
  rewrite Hl, bucket_name_of, formatted_rewritten.
  destruct (acc !! bucket_of e) as [arr|] eqn:Hacc; simpl.
  - by rewrite Hacc.
  - rewrite Hin, lookup_insert_eq. simpl. by rewrite insert_insert_eq.
Qed.

(** Whatever the turn does, the objects of the heap stay as they were. *)
Lemma format_step_heap (h : heap) (acc : gmap string (list loc)) (l l0 : loc) :
  is_Some (h !! l0) -> (format_step h acc l).1 !! l0 = h !! l0.
Proof.
  intros Hl0. unfold format_step, alloc.
  destruct (h !! l) as [e|]; [|done].
  assert (Hne : fresh (dom h) <> l0).
  { intros <-. rewrite fresh_loc_None in Hl0. by destruct Hl0. }
  simpl.
  repeat match goal with
    | |- context [match acc_get ?a ?b with _ => _ end] => destruct (acc_get a b)
    end; simpl; by rewrite lookup_insert_ne.
Qed.

Lemma reduce_format_heap (errors : list loc) (h : heap) (acc : gmap string (list loc)) (l0 : loc) :
  is_Some (h !! l0) -> (reduce_format errors h acc).1 !! l0 = h !! l0.
Proof.
  revert h acc. induction errors as [|l errors IH]; intros h acc Hl0; simpl; [done|].
  pose proof (format_step_heap h acc l l0 Hl0) as Hstep.
  destruct (format_step h acc l) as [h1 [acc1|msg]]; simpl in *; [|done].
  rewrite IH; [done|]. by rewrite Hstep.
Qed.

Lemma aggregated_step h0 seen h acc l e :
  aggregated h0 seen h acc ->
  h0 !! l = Some e ->
  aggregated h0 (seen ++ [e])
    (<[fresh (dom h) := rewritten e]> h)
    (<[bucket_of e := bucket acc (bucket_of e) ++ [fresh (dom h)]]> acc).
Proof.
  intros (Hold & Hbuckets & Hnames) Hl.
  assert (Hfresh0 : h0 !! fresh (dom h) = None).
  { destruct (h0 !! fresh (dom h)) eqn:Hf; [|done].
    rewrite <- (Hold (fresh (dom h))), fresh_loc_None in Hf by by rewrite Hf. done. }
  split_and!.
  - intros l0 Hl0. rewrite lookup_insert_ne; [by apply Hold|].
    intros <-. rewrite Hfresh0 in Hl0. by destruct Hl0.
  - intros b. rewrite filter_app, fmap_app.
    assert (Hkept : Forall2 (fun l1 e1 =>
                       <[fresh (dom h) := rewritten e]> h !! l1 = Some e1 /\ h0 !! l1 = None)
                     (bucket acc b) (rewritten <$> filter (fun e1 => bucket_of e1 = b) seen)).
    { eapply Forall2_impl; [apply Hbuckets|]. intros l1 e1 [H1 H0]. split; [|done].
      rewrite lookup_insert_ne; [done|]. intros <-. by rewrite fresh_loc_None in H1. }
    unfold bucket at 1. destruct (decide (bucket_of e = b)) as [<-|Hne].
    + rewrite lookup_insert_eq. simpl. apply Forall2_app; [done|].
      rewrite filter_cons_True by done. simpl. constructor; [|constructor].
      split; [by rewrite lookup_insert_eq|done].
    + rewrite lookup_insert_ne by done. rewrite filter_cons_False by done. simpl.
      by rewrite app_nil_r.
  - intros b. destruct (decide (bucket_of e = b)) as [<-|Hne].
    + rewrite lookup_insert_eq. split; [|by eexists].
      intros _. exists e. split; [|done]. apply elem_of_app. right. apply list_elem_of_here.
    + rewrite lookup_insert_ne by done. rewrite Hnames. split.
      * intros (e1 & H1 & Hb). exists e1. split; [|done]. apply elem_of_app. by left.
      * intros (e1 & [H1|H1%list_elem_of_singleton]%elem_of_app & Hb); [by exists e1|].
        by subst e1.
Qed.

Lemma reduce_format_ok h0 (errors : list loc) (es seen : list ValidationError) h acc :
  points_to h0 errors es ->
  Forall (fun e => inherited (bucket_of e) = false) es ->
  aggregated h0 seen h acc ->
  exists h' acc',
    reduce_format errors h acc = (h', Ok acc') /\ aggregated h0 (seen ++ es) h' acc'.
Proof.
  intros Hpts. revert seen h acc.
  induction Hpts as [|l e errors es Hl _ IH]; intros seen h acc Hin Hagg; simpl.
  - exists h, acc. by rewrite app_nil_r.
  - inversion Hin as [|? ? He Hes]; subst.
    assert (Hhl : h !! l = Some e).
    { destruct Hagg as (Hold & _). rewrite Hold; [done|]. by rewrite Hl. }
    rewrite (format_step_ok h acc l e Hhl He).
    destruct (IH (seen ++ [e]) _ _ Hes (aggregated_step h0 seen h acc l e Hagg Hl))
      as (h' & acc' & -> & Hagg').
    exists h', acc'. split; [done|]. by rewrite <- app_assoc in Hagg'.
Qed.
End Aggregator.

(** C7 (as amended). [formatValidationErrors], given references to
    findings none of whose buckets is a property name of
    [Object.prototype], returns a mapping from sheet names to arrays. Each
    finding goes to the bucket named by its sheet name, or "Unknown Sheet"
    when the sheet name is absent or empty; a name has an array exactly
    when some finding has it for bucket; the array of a bucket holds its
    findings in the order of the input; each holds a new object, whose
    message is "{column}: {message}" when the column is present and not
    empty, and the unchanged message otherwise; the objects of the input
    are left as they were. *)
Theorem formatValidationErrors_groups (h : ErrorHandling.heap) (errors : list ErrorHandling.loc)
    (es : list ErrorHandling.ValidationError) :
  Props.points_to h errors es ->
  Forall (fun e => Js.inherited (Props.bucket_of e) = false) es ->
  exists h' acc,
    ErrorHandling.formatValidationErrors errors h = (h', Js.Ok acc) /\
    (forall b, Props.points_to h' (Props.bucket acc b)
                 (Props.rewritten <$> filter (fun e => Props.bucket_of e = b) es)) /\
    (forall b, is_Some (acc !! b) <-> exists e, e ∈ es /\ Props.bucket_of e = b) /\
    (forall b l, l ∈ Props.bucket acc b -> h !! l = None) /\
    (forall l, is_Some (h !! l) -> h' !! l = h !! l) /\
    Props.points_to h' errors es.
Proof.
  intros Hpts Hin. unfold ErrorHandling.formatValidationErrors.
  destruct (reduce_format_ok h errors es [] h ∅ Hpts Hin) as (h' & acc & Hrun & Hagg).
  { split_and!.
    - done.
    - intros b. unfold Props.bucket. rewrite lookup_empty. constructor.
    - intros b. rewrite lookup_empty. split; [by intros [? ?]|].
      by intros (e & ?%elem_of_nil & _). }
  simpl in Hagg. destruct Hagg as (Hold & Hbuckets & Hnames).
  exists h', acc. split_and!; try done.
  - intros b. eapply Forall2_impl; [apply Hbuckets|]. by intros l e [? _].
  - intros b l Hl.
    destruct (proj1 (Forall2_forall_l _ _ _) (Hbuckets b)) as [_ Hall] || idtac.
    apply list_elem_of_lookup in Hl as [i Hi].
    destruct (Forall2_lookup_l _ _ _ _ _ (Hbuckets b) Hi) as (e & _ & _ & H0). done.
  - eapply Forall2_impl; [apply Hpts|]. intros l e Hl. rewrite Hold; [done|]. by rewrite Hl.
Qed.

(** C7 on three findings: one of Sheet1, two of "Unknown Sheet". *)
Lemma formatValidationErrors_groups_witness :
  exists h' acc,
    ErrorHandling.formatValidationErrors [0; 1; 2]%nat
      (Examples.heap_of
         [Examples.finding_sheet1; Examples.finding_plain; Examples.finding_empty_names]) =
    (h', Js.Ok acc) /\
    (forall b, Props.points_to h' (Props.bucket acc b)
                 (Props.rewritten <$>
                  filter (fun e => Props.bucket_of e = b)
                    [Examples.finding_sheet1; Examples.finding_plain;
                     Examples.finding_empty_names])) /\
    (forall b, is_Some (acc !! b) <->
               exists e, e ∈ [Examples.finding_sheet1; Examples.finding_plain;
                              Examples.finding_empty_names] /\ Props.bucket_of e = b) /\
    (forall b l, l ∈ Props.bucket acc b ->
                 Examples.heap_of
                   [Examples.finding_sheet1; Examples.finding_plain;
                    Examples.finding_empty_names] !! l = None) /\
    (forall l, is_Some (Examples.heap_of
                          [Examples.finding_sheet1; Examples.finding_plain;
                           Examples.finding_empty_names] !! l) ->
               h' !! l =
               Examples.heap_of
                 [Examples.finding_sheet1; Examples.finding_plain;
                  Examples.finding_empty_names] !! l) /\
    Props.points_to h' [0; 1; 2]%nat
      [Examples.finding_sheet1; Examples.finding_plain; Examples.finding_empty_names].
Proof.
  apply (formatValidationErrors_groups
           (Examples.heap_of
              [Examples.finding_sheet1; Examples.finding_plain; Examples.finding_empty_names])
           [0; 1; 2]%nat
           [Examples.finding_sheet1; Examples.finding_plain; Examples.finding_empty_names]).
  - repeat constructor.
  - repeat constructor.
Defined.

(** The scenario of the specification. *)
Example formatValidationErrors_scenario :
  let res := ErrorHandling.formatValidationErrors [0]%nat
               (Examples.heap_of [Examples.finding_sheet1]) in
  match res.2 with
  | Js.Ok acc => acc !! "Sheet1" = Some [1%nat] /\ acc !! "Unknown Sheet" = None
  | Js.Throw _ => False
  end /\
  ErrorHandling.message <$> res.1 !! 1%nat = Some "Amount: must be a number" /\
  res.1 !! 0%nat = Some Examples.finding_sheet1.
Proof. vm_compute. by split_and!. Qed.

(** C7 (counterexample). A finding whose sheet name is present and empty
    goes to "Unknown Sheet", not to the bucket of its sheet name; its
    column is present and empty, and its message is not rewritten. A
    finding of a sheet named "constructor" has no bucket at all: the call
    throws. *)
Lemma formatValidationErrors_empty_and_inherited_names :
  let res := ErrorHandling.formatValidationErrors [0]%nat
               (Examples.heap_of [Examples.finding_empty_names]) in
  match res.2 with
  | Js.Ok acc => acc !! "" = None /\ acc !! "Unknown Sheet" = Some [1%nat]
  | Js.Throw _ => False
  end /\
  ErrorHandling.message <$> res.1 !! 1%nat = Some "must be a number" /\
  (ErrorHandling.formatValidationErrors [0]%nat
     (Examples.heap_of [Examples.finding_constructor])).2 =
  Js.Throw "acc[sheetName].push is not a function".
Proof. vm_compute. by split_and!. Qed.

(* ===================================================================== *)
(** * The calendar of the Date built-ins *)
(* ===================================================================== *)

Section CalendarFacts.
Import Js Calendar.

Lemma DaysInYear_leap y : DaysInYear y = if is_leap y then 366 else 365.
Proof.
  unfold DaysInYear, is_leap.
  by destruct (y mod 4 =? 0), (y mod 100 =? 0), (y mod 400 =? 0).
Qed.

Lemma InLeapYear_leap y : InLeapYear y = if is_leap y then 1 else 0.
Proof. unfold InLeapYear. rewrite DaysInYear_leap. by destruct (is_leap y). Qed.

Lemma div_succ_step a k :
  0 < k -> (a + 1) / k = a / k + (if (a + 1) mod k =? 0 then 1 else 0).
Proof.
  intros Hk. destruct (Z.eqb_spec ((a + 1) mod k) 0) as [H0|H0].
  - pose proof (Z.div_mod (a + 1) k). pose proof (Z.div_mod a k).
    pose proof (Z.mod_pos_bound a k Hk). nia.
  - pose proof (Z.div_mod (a + 1) k). pose proof (Z.div_mod a k).
    pose proof (Z.mod_pos_bound a k Hk). pose proof (Z.mod_pos_bound (a + 1) k Hk). nia.
Qed.

(** A year is as long as the leap-year rule says. *)
Lemma DayFromYear_succ y : DayFromYear (y + 1) = DayFromYear y + DaysInYear y.
Proof.
  unfold DayFromYear, DaysInYear.
  replace (y + 1 - 1969) with (y - 1969 + 1) by lia.
  replace (y + 1 - 1901) with (y - 1901 + 1) by lia.
  replace (y + 1 - 1601) with (y - 1601 + 1) by lia.
  rewrite !div_succ_step by lia.
  replace ((y - 1969 + 1) mod 4) with (y mod 4)
    by (replace (y - 1969 + 1) with (y + (-492) * 4) by lia; by rewrite Z.mod_add).
  replace ((y - 1901 + 1) mod 100) with (y mod 100)
    by (replace (y - 1901 + 1) with (y + (-19) * 100) by lia; by rewrite Z.mod_add).
  replace ((y - 1601 + 1) mod 400) with (y mod 400)
    by (replace (y - 1601 + 1) with (y + (-4) * 400) by lia; by rewrite Z.mod_add).
  destruct (Z.eqb_spec (y mod 4) 0), (Z.eqb_spec (y mod 100) 0), (Z.eqb_spec (y mod 400) 0);
    cbn [negb]; try lia; exfalso; Z.div_mod_to_equations; lia.
Qed.

Lemma DaysInYear_pos y : 365 <= DaysInYear y <= 366.
Proof. rewrite DaysInYear_leap. destruct (is_leap y); lia. Qed.

Lemma DayFromYear_lt y1 y2 : y1 < y2 -> DayFromYear y1 < DayFromYear y2.
Proof.
  intros Hlt.
  assert (Hn : forall n : nat, DayFromYear y1 < DayFromYear (y1 + Z.of_nat n + 1)).
  { induction n as [|n IH].
    - rewrite Z.add_0_r, DayFromYear_succ. pose proof (DaysInYear_pos y1). lia.
    - replace (y1 + Z.of_nat (S n) + 1) with (y1 + Z.of_nat n + 1 + 1) by lia.
      rewrite DayFromYear_succ. pose proof (DaysInYear_pos (y1 + Z.of_nat n + 1)). lia. }
  specialize (Hn (Z.to_nat (y2 - y1 - 1))).
  by replace (y1 + Z.of_nat (Z.to_nat (y2 - y1 - 1)) + 1) with y2 in Hn by lia.
Qed.

Lemma YearFromDay_spec d :
  DayFromYear (YearFromDay d) <= d < DayFromYear (YearFromDay d + 1).
Proof.
  unfold YearFromDay. cbv zeta.
  destruct (Z.ltb_spec d (DayFromYear (1970 + d * 400 / 146097))).
  - unfold DayFromYear in *. Z.div_mod_to_equations. lia.
  - destruct (Z.leb_spec (DayFromYear (1970 + d * 400 / 146097 + 1)) d).
    + unfold DayFromYear in *. Z.div_mod_to_equations. lia.
    + lia.
Qed.

Lemma DayFromYear_le y1 y2 : y1 <= y2 -> DayFromYear y1 <= DayFromYear y2.
Proof.
  intros Hle. destruct (Z.eq_dec y1 y2) as [->|Hne]; [lia|].
  assert (Hlt : y1 < y2) by lia. pose proof (DayFromYear_lt y1 y2 Hlt). lia.
Qed.

Lemma YearFromDay_unique d y :
  DayFromYear y <= d < DayFromYear (y + 1) -> YearFromDay d = y.
Proof.
  intros Hy. pose proof (YearFromDay_spec d) as Hs.
  destruct (Z.lt_trichotomy (YearFromDay d) y) as [Hlt|[Heq|Hgt]]; [|done|].
  - assert (Hle : YearFromDay d + 1 <= y) by lia.
    apply DayFromYear_le in Hle. lia.
  - assert (Hle : y + 1 <= YearFromDay d) by lia.
    apply DayFromYear_le in Hle. lia.
Qed.

Lemma DayWithinYear_range d : 0 <= DayWithinYear d < DaysInYear (YearFromDay d).
Proof.
  unfold DayWithinYear. pose proof (YearFromDay_spec d) as Hs.
  rewrite DayFromYear_succ in Hs. lia.
Qed.

Ltac month_numbers :=
  change (0 + 1) with 1 in *; change (1 + 1) with 2 in *; change (2 + 1) with 3 in *;
  change (3 + 1) with 4 in *; change (4 + 1) with 5 in *; change (5 + 1) with 6 in *;
  change (6 + 1) with 7 in *; change (7 + 1) with 8 in *; change (8 + 1) with 9 in *;
  change (9 + 1) with 10 in *; change (10 + 1) with 11 in *; change (11 + 1) with 12 in *.

(** Case analysis on the comparisons of the goal, innermost first. *)
Ltac ltb_cases :=
  repeat match goal with
    | |- context [?a <? ?b] =>
        lazymatch a with context [Z.ltb] => fail | _ => idtac end;
        lazymatch b with context [Z.ltb] => fail | _ => idtac end;
        destruct (Z.ltb_spec a b); cbv iota; month_numbers; cbv iota; try lia
    end.

(** The day number after [d] is the day after the date of [d]. *)
Lemma date_of_day_succ d : date_of_day (d + 1) = next_day (date_of_day d).
Proof.
  pose proof (YearFromDay_spec d) as Hs. pose proof (DayWithinYear_range d) as Hw.
  rewrite DayFromYear_succ in Hs.
  unfold date_of_day, next_day. cbn [year month day].
  unfold DateFromDay. unfold MonthFromDay. cbv zeta.
  unfold DayWithinYear in *.
  destruct (Z.eq_dec (d - DayFromYear (YearFromDay d) + 1) (DaysInYear (YearFromDay d)))
    as [Hlast|Hnot].
  - assert (Hy1 : YearFromDay (d + 1) = YearFromDay d + 1).
    { apply YearFromDay_unique. rewrite !DayFromYear_succ.
      pose proof (DaysInYear_pos (YearFromDay d + 1)). lia. }
    rewrite Hy1, DayFromYear_succ. rewrite !InLeapYear_leap.
    rewrite DaysInYear_leap in *. unfold days_in_month.
    generalize dependent (DayFromYear (YearFromDay d)). intros D Hs Hw Hlast.
    generalize (is_leap (YearFromDay d + 1)). intros leap'.
    destruct (is_leap (YearFromDay d)); destruct leap'.
    all: ltb_cases.
    all: f_equal; lia.
  - assert (Hy1 : YearFromDay (d + 1) = YearFromDay d).
    { apply YearFromDay_unique. rewrite !DayFromYear_succ. lia. }
    rewrite Hy1. rewrite !InLeapYear_leap.
    rewrite DaysInYear_leap in *. unfold days_in_month.
    generalize dependent (DayFromYear (YearFromDay d)). intros D Hs Hw Hnot.
    destruct (is_leap (YearFromDay d)).
    all: ltb_cases.
    all: f_equal; lia.
Qed.

Lemma date_of_day_iter (n : nat) d :
  date_of_day (d + Z.of_nat n) = Nat.iter n next_day (date_of_day d).
Proof.
  induction n as [|n IH].
  - by rewrite Z.add_0_r.
  - replace (d + Z.of_nat (S n)) with (d + Z.of_nat n + 1) by lia.
    by rewrite date_of_day_succ, IH.
Qed.

(** The date of a day number is a date of the calendar. *)
Lemma date_of_day_valid d : valid_date (date_of_day d).
Proof.
  pose proof (DayWithinYear_range d) as Hw.
  unfold valid_date, date_of_day. cbn [year month day].
  unfold DateFromDay. unfold MonthFromDay. cbv zeta.
  rewrite !InLeapYear_leap. rewrite DaysInYear_leap in Hw. unfold days_in_month.
  generalize dependent (DayWithinYear d). intros w Hw.
  destruct (is_leap (YearFromDay d)).
  all: ltb_cases.
  all: lia.
Qed.

(** Day 0 of the 1900 date system is 25569 days before 1970-01-01. *)
Lemma date_of_serial_epoch : date_of_day (- Props.unix_epoch_serial) = serial_epoch.
Proof. reflexivity. Qed.

(** Day number [v - 25569] is the date [v] days after 1899-12-30. *)
Lemma days_after_serial_epoch v :
  days_after v serial_epoch (date_of_day (v - Props.unix_epoch_serial)).
Proof.
  unfold days_after. destruct (Z.leb_spec 0 v) as [Hv|Hv].
  - rewrite <- date_of_serial_epoch, <- date_of_day_iter. f_equal. lia.
  - rewrite <- date_of_day_iter, <- date_of_serial_epoch. f_equal. lia.
Qed.

(** The days of the years 0000 to 9999. *)
Lemma YearFromDay_four_digits d :
  Props.first_day <= d <= Props.last_day -> 0 <= YearFromDay d <= 9999.
Proof.
  unfold Props.first_day, Props.last_day. intros Hd.
  pose proof (YearFromDay_spec d) as Hs. split.
  - destruct (Z.le_gt_cases 0 (YearFromDay d)) as [|Hneg]; [done|].
    assert (Hle : YearFromDay d + 1 <= 0) by lia.
    apply DayFromYear_le in Hle. change (DayFromYear 0) with (-719528) in Hle. lia.
  - destruct (Z.le_gt_cases (YearFromDay d) 9999) as [|Hbig]; [done|].
    assert (Hle : 10000 <= YearFromDay d) by lia.
    apply DayFromYear_le in Hle. change (DayFromYear 10000) with 2932897 in Hle. lia.
Qed.
End CalendarFacts.

(* ===================================================================== *)
(** * The text of toISOString *)
(* ===================================================================== *)

Section IsoText.
Import Js Calendar Props.

Lemma lacks_app c a b : lacks c (a +:+ b) = lacks c a && lacks c b.
Proof. induction a as [|x a IH]; simpl; [done|]. by rewrite IH, andb_assoc. Qed.

Lemma split_head_lacks c a b : lacks c a = true -> split_head c (a +:+ String c b) = a.
Proof.
  induction a as [|x a IH]; simpl.
  - by rewrite Ascii.eqb_refl.
  - intros [Hx Ha]%andb_true_iff. apply negb_true_iff in Hx. rewrite Hx. by rewrite IH.
Qed.

Lemma digit_cases n :
  digit n = "0"%char \/ digit n = "1"%char \/ digit n = "2"%char \/ digit n = "3"%char \/
  digit n = "4"%char \/ digit n = "5"%char \/ digit n = "6"%char \/ digit n = "7"%char \/
  digit n = "8"%char \/ digit n = "9"%char.
Proof.
  unfold digit. pose proof (Z.mod_pos_bound n 10 eq_refl) as Hm.
  assert (Hc : n mod 10 = 0 \/ n mod 10 = 1 \/ n mod 10 = 2 \/ n mod 10 = 3 \/ n mod 10 = 4 \/
               n mod 10 = 5 \/ n mod 10 = 6 \/ n mod 10 = 7 \/ n mod 10 = 8 \/ n mod 10 = 9)
    by lia.
  destruct Hc as [->|[->|[->|[->|[->|[->|[->|[->|[->| ->]]]]]]]]]; simpl; tauto.
Qed.

Lemma lacks_T_digit n s : lacks "T" (String (digit n) s) = lacks "T" s.
Proof.
  simpl.
  destruct (digit_cases n) as [->|[->|[->|[->|[->|[->|[->|[->|[->| ->]]]]]]]]]; done.
Qed.

Lemma lacks_T_pad2 n : lacks "T" (pad2 n) = true.
Proof. unfold pad2. by rewrite !lacks_T_digit. Qed.

Lemma lacks_T_pad4 n : lacks "T" (pad4 n) = true.
Proof. unfold pad4, pad3, pad2. by rewrite !lacks_T_digit. Qed.

Lemma lacks_T_pad6 n : lacks "T" (pad6 n) = true.
Proof. unfold pad6, pad4, pad3, pad2. by rewrite !lacks_T_digit. Qed.

Lemma lacks_T_iso_date t : lacks "T" (iso_date t) = true.
Proof.
  unfold iso_date, iso_year. cbv zeta.
  destruct ((0 <=? YearFromDay (Day t)) && (YearFromDay (Day t) <=? 9999));
    [|destruct (YearFromDay (Day t) <? 0)];
    rewrite !lacks_app, ?lacks_T_pad2, ?lacks_T_pad4, ?lacks_T_pad6; done.
Qed.

(** [toISOString().split('T')[0]] is the date part of the text. *)
Lemma isoDay_iso_date t : App.isoDay (Some t) = Ok (iso_date t).
Proof.
  unfold App.isoDay, toISOString. simpl. f_equal.
  apply split_head_lacks, lacks_T_iso_date.
Qed.

Lemma isoDay_invalid : App.isoDay None = Throw "Invalid time value".
Proof. done. Qed.

(** For the years 0000 to 9999 the date part is [YYYY-MM-DD]. *)
Lemma iso_date_render t :
  first_day <= Day t <= last_day -> iso_date t = render (date_of_day (Day t)).
Proof.
  intros Hd. apply YearFromDay_four_digits in Hd. unfold iso_date, iso_year, render.
  cbv zeta. cbn [year month day date_of_day].
  destruct (Z.leb_spec 0 (YearFromDay (Day t))); [|lia].
  destruct (Z.leb_spec (YearFromDay (Day t)) 9999); [|lia]. done.
Qed.
End IsoText.

(* ===================================================================== *)
(** * Rounding to double precision *)
(* ===================================================================== *)

Section Doubles.
Import Js.
Local Open Scope Q_scope.

Lemma round_half_even_near x : Qabs (inject_Z (round_half_even x) - x) <= 1 # 2.
Proof.
  unfold round_half_even. cbv zeta.
  pose proof (Qfloor_le x) as Hlo. pose proof (Qlt_floor x) as Hhi.
  rewrite inject_Z_plus in Hhi. change (inject_Z 1) with 1 in Hhi.
  apply Qabs_Qle_condition.
  destruct (Qcompare_spec (x - inject_Z (Qfloor x)) (1 # 2)) as [He|Hl|Hg].
  - destruct (Z.even (Qfloor x)).
    + lra.
    + rewrite inject_Z_plus. change (inject_Z 1) with 1. lra.
  - lra.
  - rewrite inject_Z_plus. change (inject_Z 1) with 1. lra.
Qed.

Lemma pow2_pos e : 0 < 2 ^ e.
Proof. by apply Qpower_0_lt. Qed.

Lemma pow2_le a b : (a <= b)%Z -> 2 ^ a <= 2 ^ b.
Proof. intros Hab. by apply Qpower_le_compat_l. Qed.

Lemma pow2_plus a b : 2 ^ (a + b) == 2 ^ a * 2 ^ b.
Proof. by apply Qpower_plus. Qed.

Lemma pow2_half e : 2 ^ e * (1 # 2) == 2 ^ (e - 1).
Proof. unfold Z.sub. rewrite pow2_plus. reflexivity. Qed.

Lemma pow2_double e : 2 ^ e + 2 ^ e == 2 ^ (e + 1).
Proof. rewrite pow2_plus. change (2 ^ 1) with 2. ring. Qed.

Lemma pow2_inject (n : Z) : (0 <= n)%Z -> inject_Z (2 ^ n) == 2 ^ n.
Proof. intros Hn. by rewrite Zpower_Qpower. Qed.

(** The exponent found is not above that of the leading bit. *)
Lemma ilog2_le q : ~ q == 0 -> 2 ^ ilog2 q <= Qabs q.
Proof.
  intros Hq. unfold ilog2. cbv zeta.
  destruct (Qle_bool _ (Qabs q)) eqn:Hest; [by apply Qle_bool_iff|]. clear Hest.
  destruct q as [n d]. cbn [Qnum Qden Qabs].
  assert (Hn : (0 < Z.abs n)%Z).
  { destruct (Z.eq_dec n 0%Z) as [->|]; [|lia]. by destruct Hq. }
  destruct (Z.log2_spec (Z.abs n) Hn) as [Hlo _].
  destruct (Z.log2_spec (Z.pos d) (Pos2Z.is_pos d)) as [_ Hhi].
  pose proof (Z.log2_nonneg (Z.abs n)) as Ha. pose proof (Z.log2_nonneg (Z.pos d)) as Hb.
  set (a := Z.log2 (Z.abs n)) in *. set (b := Z.log2 (Z.pos d)) in *.
  rewrite (Qmake_Qdiv (Z.abs n) d). apply Qle_shift_div_l.
  { change 0 with (inject_Z 0). rewrite <- Zlt_Qlt. lia. }
  apply Qle_trans with (2 ^ (a - b - 1) * 2 ^ (b + 1)).
  - apply Qmult_le_compat_nonneg.
    + split; [apply Qlt_le_weak, pow2_pos|apply Qle_refl].
    + split.
      * change 0 with (inject_Z 0). rewrite <- Zle_Qle. lia.
      * rewrite <- pow2_inject by lia. rewrite <- Zle_Qle. change (Z.succ b) with (b + 1)%Z in Hhi.
        lia.
  - rewrite <- pow2_plus. replace (a - b - 1 + (b + 1))%Z with a by lia.
    rewrite <- pow2_inject by lia. by rewrite <- Zle_Qle.
Qed.

(** Rounding a number of magnitude [2 ^ k] at most moves it by
    [2 ^ (k - 53)] at most, and gives no infinity. *)
Lemma round_double_near q k :
  (-1022 <= k <= 1023)%Z ->
  Qabs q <= 2 ^ k ->
  exists f, round_double q = Fin f /\ Qabs (f - q) <= 2 ^ (k - 53).
Proof.
  intros Hk Hq. unfold round_double.
  destruct (Qeq_bool q 0) eqn:Hz.
  { apply Qeq_bool_iff in Hz. exists 0. split; [done|].
    assert (Hd : 0 - q == 0) by (rewrite Hz; ring).
    rewrite Hd. apply Qlt_le_weak, pow2_pos. }
  assert (Hnz : ~ q == 0) by (intros H%Qeq_bool_iff; congruence).
  cbv zeta. set (e := Z.max (ilog2 q - 52) (-1074)).
  assert (He : (e <= k - 52)%Z).
  { assert (ilog2 q <= k)%Z; [|lia].
    destruct (Z.le_gt_cases (ilog2 q) k) as [|Hgt]; [done|]. exfalso.
    assert (Hlt : 2 ^ k < 2 ^ ilog2 q) by (apply Qpower_lt_compat_l; [lia|done]).
    pose proof (ilog2_le q Hnz). lra. }
  set (x := Qabs q / 2 ^ e).
  pose proof (round_half_even_near x) as Hnear. apply Qabs_Qle_condition in Hnear.
  set (m := inject_Z (round_half_even x)) in *.
  pose proof (pow2_pos e) as Hpe.
  assert (Hx : x * 2 ^ e == Qabs q).
  { unfold x. field. lra. }
  assert (Hhalf : 2 ^ e * (1 # 2) <= 2 ^ (k - 53)).
  { rewrite pow2_half. apply pow2_le. lia. }
  assert (Hup : m * 2 ^ e - Qabs q <= 2 ^ (k - 53)).
  { rewrite <- Hx. apply Qle_trans with (2 ^ e * (1 # 2)); [|done]. nra. }
  assert (Hdown : Qabs q - m * 2 ^ e <= 2 ^ (k - 53)).
  { rewrite <- Hx. apply Qle_trans with (2 ^ e * (1 # 2)); [|done]. nra. }
  assert (Hsmall : 2 ^ (k - 53) <= 2 ^ k) by (apply pow2_le; lia).
  assert (Hbig : 2 ^ k + 2 ^ k <= 2 ^ 1024).
  { rewrite pow2_double. apply pow2_le. lia. }
  pose proof (pow2_pos (k - 53)) as Hpk.
  destruct (Qle_bool (2 ^ 1024) (m * 2 ^ e)) eqn:Hover.
  { apply Qle_bool_iff in Hover. exfalso.
    assert (H1 : 2 ^ (k - 53) < 2 ^ k) by (apply Qpower_lt_compat_l; [lia|done]).
    lra. }
  destruct (Qle_bool 0 q) eqn:Hs.
  - apply Qle_bool_iff in Hs. eexists. split; [done|].
    rewrite (Qabs_pos q Hs) in *. apply Qabs_Qle_condition. lra.
  - assert (Hneg : q <= 0).
    { destruct (Qlt_le_dec 0 q) as [Hp|]; [|done].
      apply Qlt_le_weak, Qle_bool_iff in Hp. congruence. }
    eexists. split; [done|].
    rewrite (Qabs_neg q Hneg) in *. apply Qabs_Qle_condition. lra.
Qed.
End Doubles.

(* ===================================================================== *)
(** * Normalization of date fields *)
(* ===================================================================== *)

Section SerialNumbers.
Import Js Props.

Lemma TimeClip_integer ms :
  - maxTime <= ms <= maxTime -> TimeClip (Fin (inject_Z ms)) = Some ms.
Proof.
  intros [Hlo Hhi]. unfold TimeClip.
  assert (Hl : Qle_bool (- inject_Z maxTime) (inject_Z ms) = true).
  { apply Qle_bool_iff. rewrite <- inject_Z_opp, <- Zle_Qle. done. }
  assert (Hh : Qle_bool (inject_Z ms) (inject_Z maxTime) = true).
  { apply Qle_bool_iff. rewrite <- Zle_Qle. done. }
  rewrite Hl, Hh. simpl. unfold Qtruncate. f_equal.
  destruct (Qle_bool 0 (inject_Z ms)); [apply Qfloor_Z|apply Qceiling_Z].
Qed.

(** The three roundings of [(value - 25569) * 86400 * 1000] move the
    product by less than a fifth of a millisecond, for a serial number
    of the years 0000 to 9999. *)
Lemma serialToTime_near q :
  (-719528 <= q - 25569 <= 2932897)%Q ->
  exists f,
    App.serialToTime (Fin q) = Fin (inject_Z (Qfloor (f + (1 # 2)))) /\
    (Qabs (f - (q - 25569) * 86400000) <= 1 # 5)%Q.
Proof.
  intros Hq. unfold App.serialToTime, dbl_mul, dbl_sub.
  change (num_sub (Fin q) (Fin 25569)) with (Fin (q + - 25569)). cbn [to_double].
  destruct (round_double_near (q + - 25569) 22) as (f1 & -> & H1); [lia| |].
  { change (2 ^ 22)%Q with 4194304%Q. apply Qabs_Qle_condition. lra. }
  change (2 ^ (22 - 53))%Q with (1 # 2147483648)%Q in H1. apply Qabs_Qle_condition in H1.
  cbn [num_mul to_double].
  destruct (round_double_near (f1 * 86400) 38) as (f2 & -> & H2); [lia| |].
  { change (2 ^ 38)%Q with 274877906944%Q. apply Qabs_Qle_condition. lra. }
  change (2 ^ (38 - 53))%Q with (1 # 32768)%Q in H2. apply Qabs_Qle_condition in H2.
  cbn [num_mul to_double].
  destruct (round_double_near (f2 * 1000) 48) as (f3 & -> & H3); [lia| |].
  { change (2 ^ 48)%Q with 281474976710656%Q. apply Qabs_Qle_condition. lra. }
  change (2 ^ (48 - 53))%Q with (1 # 32)%Q in H3. apply Qabs_Qle_condition in H3.
  exists f3. split; [done|]. apply Qabs_Qle_condition. lra.
Qed.

(** The serial number [q], of whole part [v]: the time it is converted to
    lies within day [v - 25569], unless [q] is within a millisecond of
    the next day. *)
Lemma serialToTime_day q v :
  Qfloor q = v ->
  (q - inject_Z v < 1 - (1 # 86400000))%Q ->
  first_day <= v - unix_epoch_serial <= last_day ->
  exists ms,
    App.serialToTime (Fin q) = Fin (inject_Z ms) /\
    Day ms = v - unix_epoch_serial.
Proof.
  intros Hv Hfrac Hrange.
  unfold first_day, last_day, unix_epoch_serial in Hrange.
  assert (Hq : (inject_Z v <= q)%Q) by (rewrite <- Hv; apply Qfloor_le).
  assert (Hvlo : (-719528 + 25569 <= inject_Z v)%Q).
  { change (-719528 + 25569)%Q with (inject_Z (-719528 + 25569)). rewrite <- Zle_Qle. lia. }
  assert (Hvhi : (inject_Z v <= 2932896 + 25569)%Q).
  { change (2932896 + 25569)%Q with (inject_Z (2932896 + 25569)). rewrite <- Zle_Qle. lia. }
  destruct (serialToTime_near q) as (f & Hms & Hf); [lra|].
  apply Qabs_Qle_condition in Hf.
  rewrite Hms. eexists. split; [done|].
  set (X := (f + (1 # 2))%Q).
  set (a := (v - 25569) * 86400000).
  assert (Ha : (inject_Z a == (inject_Z v - 25569) * 86400000)%Q).
  { unfold a. rewrite inject_Z_mult. unfold Z.sub. rewrite inject_Z_plus, inject_Z_opp.
    change (inject_Z 25569) with 25569%Q. change (inject_Z 86400000) with 86400000%Q.
    ring. }
  assert (Hlo : a <= Qfloor X).
  { rewrite <- (Qfloor_Z a). apply Qfloor_resp_le. rewrite Ha. unfold X. lra. }
  assert (Hhi : Qfloor X < a + 86400000).
  { rewrite Zlt_Qlt. eapply Qle_lt_trans; [apply Qfloor_le|].
    rewrite inject_Z_plus, Ha. change (inject_Z 86400000) with 86400000%Q. unfold X.
    clear -Hfrac Hf. lra. }
  unfold Day, msPerDay, unix_epoch_serial. unfold a in *.
  clear -Hlo Hhi. generalize dependent (Qfloor X). intros ms Hlo Hhi.
  symmetry. apply (Z.div_unique _ _ _ (ms - (v - 25569) * 86400000)); lia.
Qed.

Lemma Day_in_range_time ms :
  first_day <= Day ms <= last_day -> - maxTime <= ms <= maxTime.
Proof.
  unfold Day, msPerDay, first_day, last_day, maxTime. intros Hd.
  pose proof (Z.div_mod ms 86400000). pose proof (Z.mod_pos_bound ms 86400000). lia.
Qed.

(** A serial number whose date lies in the years 0000 to 9999 becomes
    that date, written [YYYY-MM-DD]. *)
Lemma processEntry_serial (rt : Runtime) key q v :
  App.isDateKey key = true ->
  Qeq_bool q 0 = false ->
  Qfloor q = v ->
  (q - inject_Z v < 1 - (1 # 86400000))%Q ->
  first_day <= v - unix_epoch_serial <= last_day ->
  App.processEntry rt key (VNum (Fin q)) =
  Ok (Some (VStr (Calendar.render (Calendar.date_of_day (v - unix_epoch_serial))))).
Proof.
  intros Hkey Hq Hv Hfrac Hrange.
  rewrite (processEntry_date_key rt key _ Hkey).
  change (truthy (VNum (Fin q))) with (negb (Qeq_bool q 0)). rewrite Hq. cbn [negb]. cbv iota.
  destruct (serialToTime_day q v Hv Hfrac Hrange) as (ms & Hms & Hday).
  rewrite <- Hday in Hrange.
  rewrite Hms, (TimeClip_integer ms (Day_in_range_time ms Hrange)), isoDay_iso_date.
  cbn [bind]. by rewrite (iso_date_render ms Hrange), Hday.
Qed.
End SerialNumbers.

(** C4 (as amended). For every field whose name contains "date", "dt" or
    "time" (in any case):
    - a number [q] other than zero whose date lies in the years 0000 to
      9999 becomes the calendar date [v] days after 1899-12-30, written
      [YYYY-MM-DD], where [v] is the whole part of [q]: the time of day is
      dropped (unless it is in the last millisecond before midnight, where
      the rounding, of the product in double precision and of
      [Math.round], can give the next day); in particular a whole number
      [v] other than zero becomes the date [v] days after 1899-12-30;
    - a string that parses as a date becomes the date part of the ISO
      text of the parsed instant, which is [YYYY-MM-DD] for the years 0000
      to 9999;
    - a string that does not parse becomes [null];
    - a falsy input ([null], [undefined], the empty string, the numbers
      zero and NaN, [false]) becomes [null]. *)
Theorem date_field_normalization (rt : Js.Runtime) (key : string) :
  App.isDateKey key = true ->
  (forall q v,
     Qeq_bool q 0 = false ->
     Qfloor q = v ->
     (q - inject_Z v < 1 - (1 # 86400000))%Q ->
     Props.first_day <= v - Props.unix_epoch_serial <= Props.last_day ->
     exists d,
       Calendar.days_after v Calendar.serial_epoch d /\
       Calendar.valid_date d /\
       App.processEntry rt key (Js.VNum (Js.Fin q)) =
       Js.Ok (Some (Js.VStr (Calendar.render d)))) /\
  (forall v,
     v <> 0 ->
     Props.first_day <= v - Props.unix_epoch_serial <= Props.last_day ->
     exists d,
       Calendar.days_after v Calendar.serial_epoch d /\
       Calendar.valid_date d /\
       App.processEntry rt key (Js.VNum (Js.num_of_Z v)) =
       Js.Ok (Some (Js.VStr (Calendar.render d)))) /\
  (forall s t,
     s <> "" ->
     Js.Date_parse rt s = Some t ->
     App.processEntry rt key (Js.VStr s) = Js.Ok (Some (Js.VStr (Js.iso_date t))) /\
     (Props.first_day <= Js.Day t <= Props.last_day ->
      Js.iso_date t = Calendar.render (Calendar.date_of_day (Js.Day t)))) /\
  (forall s,
     Js.Date_parse rt s = None ->
     App.processEntry rt key (Js.VStr s) = Js.Ok (Some Js.VNull)) /\
  (forall v,
     Js.truthy v = false ->
     App.processEntry rt key v = Js.Ok (Some Js.VNull)).
Proof.
  intros Hkey. split_and!.
  - intros q v Hq Hv Hfrac Hrange.
    exists (Calendar.date_of_day (v - Props.unix_epoch_serial)). split_and!.
    + apply days_after_serial_epoch.
    + apply date_of_day_valid.
    + by apply processEntry_serial.
  - intros v Hv Hrange.
    exists (Calendar.date_of_day (v - Props.unix_epoch_serial)). split_and!.
    + apply days_after_serial_epoch.
    + apply date_of_day_valid.
    + apply processEntry_serial; try done.
      * apply not_true_iff_false. intros Heq%Qeq_bool_iff.
        apply Hv. by apply (proj1 (inject_Z_injective v 0)).
      * apply Qfloor_Z.
      * assert (Hz : (inject_Z v - inject_Z v == 0)%Q) by ring. rewrite Hz. done.
  - intros s t Hs Ht. split; [|apply iso_date_render].
    rewrite (processEntry_date_key rt key _ Hkey).
    change (Js.truthy (Js.VStr s)) with (negb (String.eqb s "")).
    destruct (String.eqb_spec s ""); [done|]. cbn [negb]. cbv iota.
    by rewrite Ht, isoDay_iso_date.
  - intros s Hs. rewrite (processEntry_date_key rt key _ Hkey), Hs.
    by destruct (Js.truthy (Js.VStr s)).
  - intros v Hv. by rewrite (processEntry_date_key rt key _ Hkey), Hv.
Qed.

(** C4 on the column Date: serial number 45000 at noon and at midnight,
    the string "2024-01-05", a string that is no date, and [null]. *)
Lemma date_field_normalization_witness :
  (exists d,
     Calendar.days_after 45000 Calendar.serial_epoch d /\
     Calendar.valid_date d /\
     App.processEntry Host.runtime "Date" (Js.VNum (Js.Fin (90001 # 2))) =
     Js.Ok (Some (Js.VStr (Calendar.render d)))) /\
  (exists d,
     Calendar.days_after 45000 Calendar.serial_epoch d /\
     Calendar.valid_date d /\
     App.processEntry Host.runtime "Date" (Js.VNum (Js.num_of_Z 45000)) =
     Js.Ok (Some (Js.VStr (Calendar.render d)))) /\
  App.processEntry Host.runtime "Date" (Js.VStr "2024-01-05") =
    Js.Ok (Some (Js.VStr (Js.iso_date 1704412800000))) /\
  Js.iso_date 1704412800000 = Calendar.render (Calendar.date_of_day (Js.Day 1704412800000)) /\
  App.processEntry Host.runtime "Date" (Js.VStr "bad") = Js.Ok (Some Js.VNull) /\
  App.processEntry Host.runtime "Date" Js.VNull = Js.Ok (Some Js.VNull).
Proof.
  destruct (date_field_normalization Host.runtime "Date" eq_refl)
    as (Hnum & Hint & Hstr & Hbad & Hfalsy).
  destruct (Hstr "2024-01-05" 1704412800000) as [Hparsed Hrendered]; [done|reflexivity|].
  split; [|split; [|split; [|split; [|split]]]].
  - apply (Hnum (90001 # 2)%Q 45000); [reflexivity|reflexivity|reflexivity|].
    unfold Props.first_day, Props.last_day, Props.unix_epoch_serial. lia.
  - apply (Hint 45000); [done|].
    unfold Props.first_day, Props.last_day, Props.unix_epoch_serial. lia.
  - exact Hparsed.
  - apply Hrendered. unfold Props.first_day, Props.last_day.
    change (Js.Day 1704412800000) with 19727. lia.
  - apply Hbad. reflexivity.
  - apply Hfalsy. reflexivity.
Defined.

(** Serial number 45000, at noon and at midnight, is 2023-03-15. The
    double 51020.99999999421 is half a millisecond before the midnight
    that ends 2039-09-07: the product is rounded to 2199052799999.5,
    which [Math.round] takes to the next day. *)
Example date_field_sample :
  App.processEntry Host.runtime "Date" (Js.VNum (Js.Fin (90001 # 2))) =
    Js.Ok (Some (Js.VStr "2023-03-15")) /\
  App.processEntry Host.runtime "Date"
    (Js.VNum (Js.Fin (1753068211273529 # 34359738368))) =
    Js.Ok (Some (Js.VStr "2039-09-08")) /\
  Calendar.render (Calendar.date_of_day (51020 - Props.unix_epoch_serial)) = "2039-09-07" /\
  App.processEntry Host.runtime "Created DT" (Js.VNum (Js.num_of_Z 45000)) =
    Js.Ok (Some (Js.VStr "2023-03-15")) /\
  App.processEntry Host.runtime "start_time" (Js.VStr "2024-01-05") =
    Js.Ok (Some (Js.VStr "2024-01-05")).
Proof. split_and!; vm_compute; reflexivity. Qed.

(** C4 (counterexample). The number 0 is a numeric input and becomes
    [null], not "1899-12-30", the date 0 days after the epoch. (Serial
    numbers out of the range of the amended claim: 2958466 becomes
    "+010000-01-01", and on 100000000000 the conversion throws.) *)
Lemma date_field_zero_is_null :
  App.processEntry Host.runtime "Date" (Js.VNum (Js.num_of_Z 0)) = Js.Ok (Some Js.VNull) /\
  Calendar.days_after 0 Calendar.serial_epoch Calendar.serial_epoch /\
  Calendar.render Calendar.serial_epoch = "1899-12-30" /\
  App.processEntry Host.runtime "Date" (Js.VNum (Js.num_of_Z 2958466)) =
    Js.Ok (Some (Js.VStr "+010000-01-01")) /\
  App.processEntry Host.runtime "Date" (Js.VNum (Js.num_of_Z 100000000000)) =
    Js.Throw "Invalid time value".
Proof. split_and!; vm_compute; reflexivity. Qed.

(* ===================================================================== *)
(** * The sheets the structural validator lets through *)
(* ===================================================================== *)

Section StructureGate.
Import Js ErrorHandling Props.

Lemma List_filter_nil {A} (f : A -> bool) (l : list A) :
  List.filter f l = [] <-> Forall (fun x => f x = false) l.
Proof.
  induction l as [|x l IH]; simpl.
  - split; [constructor|done].
  - destruct (f x) eqn:Hx.
    + split; [done|]. intros H. inversion H; congruence.
    + rewrite IH. split; [by constructor|]. by inversion 1.
Qed.

Lemma missingColumns_nil (firstRow : object) :
  missingColumns firstRow = [] <->
  forall col, col ∈ requiredColumns -> col ∈ keys firstRow.
Proof.
  unfold missingColumns. rewrite List_filter_nil, Forall_forall.
  split; intros H col Hcol.
  - apply has_key_elem_of. specialize (H col Hcol). by destruct (has_key col firstRow).
  - apply H, has_key_elem_of in Hcol. by rewrite Hcol.
Qed.

Lemma existsb_eqb_elem_of (col : string) (l : list string) :
  existsb (String.eqb col) l = true <-> col ∈ l.
Proof.
  induction l as [|x l IH]; simpl.
  - split; [done|]. by intros ?%elem_of_nil.
  - rewrite elem_of_cons, <- IH. destruct (String.eqb_spec col x) as [->|Hne]; simpl.
    + split; [by left|done].
    + split; [by right|]. by intros [?|?].
Qed.

Lemma extraColumns_nil (firstRow : object) :
  extraColumns firstRow = [] <->
  forall col, col ∈ keys firstRow -> col ∈ requiredColumns.
Proof.
  unfold extraColumns. rewrite List_filter_nil, Forall_forall.
  split; intros H col Hcol; specialize (H col Hcol).
  - apply existsb_eqb_elem_of. by destruct (existsb (String.eqb col) requiredColumns).
  - apply existsb_eqb_elem_of in H. by rewrite H.
Qed.

Lemma length_pos_nil {A} (l : list A) : (0 <? length l)%nat = false <-> l = [].
Proof. destruct l; simpl; [done|]. split; [done|]. discriminate. Qed.

Lemma structureFindings_nil (firstRow : object) (rest : list object) :
  structureFindings (firstRow :: rest) = [] <->
  Z.of_nat (length (firstRow :: rest)) <= 10000 /\ exact_header firstRow.
Proof.
  unfold structureFindings, exact_header.
  destruct (Z.ltb_spec 10000 (Z.of_nat (length (firstRow :: rest)))) as [Hbig|Hsmall].
  - unfold validateSheetStructure. apply Z.ltb_lt in Hbig. rewrite Hbig.
    apply Z.ltb_lt in Hbig. split; [done|]. intros [? _]. lia.
  - rewrite validateSheetStructure_columns by by apply Z.ltb_ge.
    split.
    + intros [Hm He]%app_eq_nil. split; [done|].
      assert (Hmiss : missingColumns firstRow = []).
      { apply length_pos_nil. by destruct (0 <? length (missingColumns firstRow))%nat. }
      assert (Hextra : extraColumns firstRow = []).
      { apply length_pos_nil. by destruct (0 <? length (extraColumns firstRow))%nat. }
      intros col. split; [by apply extraColumns_nil|by apply missingColumns_nil].
    + intros [_ Hx].
      assert (Hmiss : missingColumns firstRow = []).
      { apply missingColumns_nil. intros col. apply Hx. }
      assert (Hextra : extraColumns firstRow = []).
      { apply extraColumns_nil. intros col. apply Hx. }
      by rewrite Hmiss, Hextra.
Qed.

(** A sheet without a structure finding gets to the loop over the rows
    of [validateExcelData]. *)
Lemma structureFindings_reachesRowPass (rows : list object) :
  structureFindings rows = [] -> reachesRowPass (RowArray rows).
Proof.
  destruct rows as [|firstRow rest]; [done|].
  intros [_ Hx]%structureFindings_nil. simpl.
  apply missingColumns_nil. intros col. apply Hx.
Qed.

(** ** One finding per cell *)

Context (rt : Runtime).

Ltac single_field_cases :=
  repeat match goal with
    | |- single_field _ _ (if ?c then _ else _) => destruct c
    | |- single_field _ _ (match ?c with _ => _ end) => destruct c
    end;
  first [ by left | right; left; by eexists | right; right; by eexists ].

Lemma single_validateName r n : single_field n "Name" (validateName r n no_findings).
Proof. unfold validateName. cbv zeta. single_field_cases. Qed.

Lemma single_validateAmount r n : single_field n "Amount" (validateAmount rt r n no_findings).
Proof. unfold validateAmount. cbv zeta. single_field_cases. Qed.

Lemma single_validateDate now r n :
  single_field n "Date" (validateDate rt now r n no_findings).
Proof. unfold validateDate. cbv zeta. single_field_cases. Qed.

Lemma single_validateVerified r n :
  single_field n "Verified" (validateVerified r n no_findings).
Proof. unfold validateVerified. cbv zeta. single_field_cases. Qed.

(** The findings of a row: at most four, about different cells of the
    row. *)
Lemma rowFindings_cells clock i r :
  let fs := rowErrors rt clock i r ++ rowWarnings rt clock i r in
  NoDup (cell_of <$> fs) /\
  (length fs <= 4)%nat /\
  Forall (fun f => row f = (i + 1)%nat /\ exists c, column f = Some c /\ c ∈ requiredColumns) fs.
Proof.
  unfold rowErrors, rowWarnings. rewrite rowFindings_fields.
  destruct (single_validateName r (i + 1)) as [->|[[m1 ->]|[m1 ->]]];
  destruct (single_validateAmount r (i + 1)) as [->|[[m2 ->]|[m2 ->]]];
  destruct (single_validateDate (clock i) r (i + 1)) as [->|[[m3 ->]|[m3 ->]]];
  destruct (single_validateVerified r (i + 1)) as [->|[[m4 ->]|[m4 ->]]];
  cbn [merge errors warnings no_findings app fmap list_fmap cell_of row column
       field_error field_warning length];
  (split; [|split];
   [ repeat (apply NoDup_cons; split; [rewrite ?elem_of_cons, elem_of_nil; intros Hin; decompose [or] Hin; first [discriminate|contradiction]|]);
     apply NoDup_nil_2
   | lia
   | repeat (apply Forall_cons; split;
             [split; [reflexivity|eexists; split; [reflexivity|apply existsb_eqb_elem_of; reflexivity]]|]);
     apply Forall_nil_2 ]).
Qed.
End StructureGate.

(** Two groups of lists laid side by side, or one after the other. *)
Lemma concat_imap_app_perm {A B} (f g : nat -> A -> list B) (l : list A) :
  concat (imap f l) ++ concat (imap g l) ≡ₚ concat (imap (fun i a => f i a ++ g i a) l).
Proof.
  revert f g. induction l as [|a l IH]; intros f g; simpl; [done|].
  rewrite <- (IH (f ∘ S) (g ∘ S)).
  rewrite <- !app_assoc. apply Permutation_app_head.
  rewrite !app_assoc. apply Permutation_app_tail, Permutation_app_comm.
Qed.

(** Groups of at most four findings, each about different cells of its
    own row. *)
Lemma concat_imap_cells (g : nat -> Js.object -> list ErrorHandling.ValidationError)
    (rows : list Js.object) (k : nat) :
  (forall j r,
     NoDup (Props.cell_of <$> g j r) /\ (length (g j r) <= 4)%nat /\
     Forall (fun f => ErrorHandling.row f = (k + j + 1)%nat) (g j r)) ->
  NoDup (Props.cell_of <$> concat (imap g rows)) /\
  (length (concat (imap g rows)) <= 4 * length rows)%nat /\
  Forall (fun f => (k + 1 <= ErrorHandling.row f <= k + length rows)%nat) (concat (imap g rows)).
Proof.
  revert g k. induction rows as [|r rows IH]; intros g k Hg; simpl.
  - split_and!; [constructor|lia|constructor].
  - destruct (Hg 0%nat r) as (Hnd & Hlen & Hrow).
    destruct (IH (g ∘ S) (S k)) as (Hnd' & Hlen' & Hrow').
    { intros j r'. destruct (Hg (S j) r') as (? & ? & Hr). split_and!; try done.
      eapply Forall_impl; [exact Hr|]. simpl. intros f ->. lia. }
    split_and!.
    + rewrite fmap_app. apply NoDup_app. split_and!; [done| |done].
      intros c (f & -> & Hf)%list_elem_of_fmap (f' & Heq & Hf')%list_elem_of_fmap.
      apply (proj1 (Forall_forall _ _) Hrow) in Hf.
      apply (proj1 (Forall_forall _ _) Hrow') in Hf'.
      unfold Props.cell_of in Heq. injection Heq as Heq _. lia.
    + rewrite length_app. lia.
    + apply Forall_app. split.
      * eapply Forall_impl; [exact Hrow|]. simpl. intros f ->. lia.
      * eapply Forall_impl; [exact Hrow'|]. simpl. intros f ?. lia.
Qed.

(** X1. [validateSheetStructure] returns no finding exactly for an array
    of 1 to 10,000 rows whose first row has the four required columns and
    no other column. *)
Theorem validateSheetStructure_accepts (data : ErrorHandling.sheet_data) :
  ErrorHandling.validateSheetStructure data = [] <->
  exists firstRow rest,
    data = ErrorHandling.RowArray (firstRow :: rest) /\
    Z.of_nat (length (firstRow :: rest)) <= 10000 /\
    Props.exact_header firstRow.
Proof.
  split.
  - destruct data as [|[|firstRow rest]]; [done|done|].
    intros [Hlen Hx]%structureFindings_nil. by exists firstRow, rest.
  - intros (firstRow & rest & -> & Hlen & Hx). by apply structureFindings_nil.
Qed.

(** The findings of a row are about its four cells. *)
Lemma four_cells (l : list ErrorHandling.ValidationError) (n : nat) :
  NoDup (Props.cell_of <$> l) ->
  Forall (fun f => exists c, ErrorHandling.column f = Some c /\ c ∈ ErrorHandling.requiredColumns) l ->
  (length (filter (fun f => ErrorHandling.row f = n) l) <= 4)%nat.
Proof.
  intros Hnd Hcols.
  set (l' := filter (fun f => ErrorHandling.row f = n) l).
  assert (Hsub : Props.cell_of <$> l' ⊆+ (fun c => (n, Some c)) <$> ErrorHandling.requiredColumns).
  { apply NoDup_submseteq.
    - apply (sublist_NoDup _ (Props.cell_of <$> l)); [exact Hnd|].
      apply fmap_sublist, sublist_filter.
    - intros cell (f & -> & Hin)%list_elem_of_fmap.
      apply list_elem_of_filter in Hin as [Hrow Hin].
      rewrite Forall_forall in Hcols. destruct (Hcols f Hin) as (c & Hc & Hreq).
      apply list_elem_of_fmap. exists c. split; [|done].
      unfold Props.cell_of. by rewrite Hrow, Hc. }
  apply submseteq_length in Hsub. rewrite !length_fmap in Hsub. exact Hsub.
Qed.

(** X2. Every cell is reported at most once: no two findings of
    [validateExcelData] have the same row number and the same column, and
    there are at most four findings for each row number. An input that
    is stopped before the rows are checked (no array, no row, or a first
    row that lacks a required column) draws one finding in all. *)
Theorem validateExcelData_one_finding_per_cell (rt : Js.Runtime) (clock : nat -> Z)
    (data : ErrorHandling.sheet_data) :
  NoDup (Props.cell_of <$> ErrorHandling.validateExcelData rt clock data) /\
  (forall n,
     (length (filter (fun f => ErrorHandling.row f = n)
                (ErrorHandling.validateExcelData rt clock data)) <= 4)%nat) /\
  (~ Props.reachesRowPass data ->
   length (ErrorHandling.validateExcelData rt clock data) = 1%nat) /\
  (length (ErrorHandling.validateExcelData rt clock data)
   <= Nat.max 1 (4 * length (Props.rowsOf data)))%nat.
Proof.
  assert (Hone : forall (f : ErrorHandling.ValidationError) (P : Prop),
            NoDup (Props.cell_of <$> [f]) /\
            (forall n, (length (filter (fun f => ErrorHandling.row f = n) [f]) <= 4)%nat) /\
            (P -> length [f] = 1%nat) /\
            (length [f] <= Nat.max 1 (4 * length (Props.rowsOf data)))%nat).
  { intros f P. split_and!; [apply NoDup_singleton| |done|simpl; lia].
    intros n. rewrite filter_cons, filter_nil. destruct (decide _); simpl; lia. }
  destruct data as [|[|firstRow rest]]; [apply Hone|apply Hone|].
  destruct (ErrorHandling.missingColumns firstRow) as [|col cols] eqn:Hmiss.
  - rewrite (validateExcelData_rows rt clock (ErrorHandling.RowArray (firstRow :: rest)))
      by exact Hmiss.
    assert (Hperm := concat_imap_app_perm (Props.rowErrors rt clock) (Props.rowWarnings rt clock)
                       (Props.rowsOf (ErrorHandling.RowArray (firstRow :: rest)))).
    destruct (concat_imap_cells
                (fun i r => Props.rowErrors rt clock i r ++ Props.rowWarnings rt clock i r)
                (Props.rowsOf (ErrorHandling.RowArray (firstRow :: rest))) 0) as (Hnd & Hlen & _).
    { intros j r. destruct (rowFindings_cells rt clock j r) as (? & ? & Hf).
      split_and!; [done|done|].
      eapply Forall_impl; [exact Hf|]. simpl. by intros f [-> _]. }
    assert (Hnd' : NoDup (Props.cell_of <$>
                    (concat (imap (Props.rowErrors rt clock)
                               (Props.rowsOf (ErrorHandling.RowArray (firstRow :: rest)))) ++
                     concat (imap (Props.rowWarnings rt clock)
                               (Props.rowsOf (ErrorHandling.RowArray (firstRow :: rest))))))).
    { by rewrite Hperm. }
    split_and!; [done| | |rewrite Hperm; lia].
    + intros n. apply four_cells; [done|].
      rewrite Hperm. apply Forall_forall.
      intros f (j & r & _ & Hin)%elem_of_concat_imap.
      destruct (rowFindings_cells rt clock j r) as (_ & _ & Hf).
      rewrite Forall_forall in Hf. by destruct (Hf f Hin) as [_ ?].
    + intros Hstop. exfalso. apply Hstop. exact Hmiss.
  - unfold ErrorHandling.validateExcelData. rewrite Hmiss.
    cbn [length Nat.ltb Nat.leb]. apply Hone.
Qed.

(** X3. A sheet that passes [validateSheetStructure] also passes the
    three file-level checks of [validateExcelData] (array, not empty,
    required columns): on such a sheet [validateExcelData] returns the
    findings of the rows and nothing else, each about a cell of one of
    the four required columns of a row of the sheet. *)
Theorem structure_pass_leaves_row_findings (rt : Js.Runtime) (clock : nat -> Z)
    (rows : list Js.object) :
  ErrorHandling.validateSheetStructure (ErrorHandling.RowArray rows) = [] ->
  ErrorHandling.validateExcelData rt clock (ErrorHandling.RowArray rows) =
    concat (imap (Props.rowErrors rt clock) rows) ++
    concat (imap (Props.rowWarnings rt clock) rows) /\
  Forall (fun f =>
            (1 <= ErrorHandling.row f <= length rows)%nat /\
            exists c, ErrorHandling.column f = Some c /\ c ∈ ErrorHandling.requiredColumns)
         (ErrorHandling.validateExcelData rt clock (ErrorHandling.RowArray rows)).
Proof.
  intros Hpass%structureFindings_reachesRowPass.
  rewrite (validateExcelData_rows rt clock _ Hpass). simpl. split; [done|].
  apply Forall_forall. intros f Hf.
  assert (exists i r, rows !! i = Some r /\
            f ∈ Props.rowErrors rt clock i r ++ Props.rowWarnings rt clock i r)
    as (i & r & Hi & Hfr).
  { apply elem_of_app in Hf as [Hf|Hf];
      apply elem_of_concat_imap in Hf as (i & r & Hi & Hf);
      exists i, r; (split; [done|]); apply elem_of_app; auto. }
  destruct (rowFindings_cells rt clock i r) as (_ & _ & Hcells).
  apply (proj1 (Forall_forall _ _) Hcells f) in Hfr as [-> Hc].
  split; [apply lookup_lt_Some in Hi; lia|done].
Qed.

(** X3 on a sheet of one clean row. *)
Lemma structure_pass_leaves_row_findings_witness :
  ErrorHandling.validateExcelData Host.runtime Examples.clock_2024
    (ErrorHandling.RowArray [Examples.row_clean]) =
    concat (imap (Props.rowErrors Host.runtime Examples.clock_2024) [Examples.row_clean]) ++
    concat (imap (Props.rowWarnings Host.runtime Examples.clock_2024) [Examples.row_clean]) /\
  Forall (fun f =>
            (1 <= ErrorHandling.row f <= length [Examples.row_clean])%nat /\
            exists c, ErrorHandling.column f = Some c /\ c ∈ ErrorHandling.requiredColumns)
         (ErrorHandling.validateExcelData Host.runtime Examples.clock_2024
            (ErrorHandling.RowArray [Examples.row_clean])).
Proof.
  apply (structure_pass_leaves_row_findings Host.runtime Examples.clock_2024
           [Examples.row_clean]).
  reflexivity.
Defined.

(* ===================================================================== *)
(** * handleValidate: what is sent to the server, and what is shown *)
(* ===================================================================== *)

Section ValidateGate.
Import Js ErrorHandling Handlers Props.

Lemma size_pos_empty {A} (m : gmap string A) : (0 <? size m)%nat = false <-> m = ∅.
Proof.
  rewrite <- map_size_empty_iff. destruct (size m); simpl; [done|].
  split; discriminate.
Qed.

Lemma assign_lookup {A} (m : gmap string A) (key : string) (v : A) (k : string) :
  assign m key v !! k =
  if decide (recordable key /\ k = key) then Some v else m !! k.
Proof.
  unfold assign, recordable.
  destruct (String.eqb_spec key "__proto__") as [->|Hne].
  - by rewrite decide_False by tauto.
  - destruct (decide (k = key)) as [->|Hk].
    + rewrite lookup_insert_eq. by rewrite decide_True.
    + rewrite lookup_insert_ne by done. by rewrite decide_False by tauto.
Qed.

(** The object filled by one of the two loops stays empty exactly when no
    recordable sheet has a finding. *)
Lemma collectErrors_empty check (entries : list (string * list object)) acc :
  collectErrors check entries acc = ∅ <->
  acc = ∅ /\
  forall sheetName rows,
    (sheetName, rows) ∈ entries -> recordable sheetName -> check sheetName rows = [].
Proof.
  revert acc. induction entries as [|[n d] entries IH]; intros acc; simpl.
  - split; [|tauto]. intros ->. split; [done|]. by intros ?? ?%elem_of_nil.
  - rewrite IH. clear IH.
    destruct (check n d) as [|e es] eqn:Hc; simpl.
    + split; intros [Hacc Hall]; (split; [done|]); intros s rows.
      * intros [[= -> ->]|Hin]%elem_of_cons; [done|]. by apply Hall.
      * intros Hin. apply Hall. by right.
    + split.
      * intros [Hacc Hall]. unfold assign in Hacc.
        destruct (String.eqb_spec n "__proto__") as [->|Hne].
        -- split; [done|]. intros s rows [[= -> ->]|Hin]%elem_of_cons; [done|].
           by apply Hall.
        -- by apply insert_non_empty in Hacc.
      * intros [-> Hall]. unfold assign.
        destruct (String.eqb_spec n "__proto__") as [->|Hne].
        -- split; [done|]. intros s rows Hin. apply Hall. by right.
        -- exfalso. specialize (Hall n d (list_elem_of_here _ _) Hne). congruence.
Qed.

(** What the object filled by one of the two loops holds, for sheets of
    different names. *)
Lemma collectErrors_lookup check (entries : list (string * list object)) acc :
  NoDup entries.*1 ->
  (forall n, n ∈ entries.*1 -> acc !! n = None) ->
  forall sheetName errs,
    collectErrors check entries acc !! sheetName = Some errs <->
    acc !! sheetName = Some errs \/
    (recordable sheetName /\ errs <> [] /\
     exists rows, (sheetName, rows) ∈ entries /\ errs = check sheetName rows).
Proof.
  revert acc. induction entries as [|[n d] entries IH]; intros acc Hnd Hfresh s errs; simpl.
  - split; [by left|]. intros [?|(_ & _ & rows & Hin & _)]; [done|].
    by apply elem_of_nil in Hin.
  - rewrite fmap_cons in Hnd. apply NoDup_cons in Hnd as [Hn Hnd]. simpl in Hn.
    assert (Hacc_n : acc !! n = None) by (apply Hfresh; simpl; left).
    rewrite IH; [|done|].
    2:{ intros n' Hn'. destruct (0 <? length (check n d))%nat.
        - rewrite assign_lookup. rewrite decide_False.
          + apply Hfresh. simpl. by right.
          + intros [_ ->]. done.
        - apply Hfresh. simpl. by right. }
    destruct (check n d) as [|e es] eqn:Hc; simpl.
    + split.
      * intros [?|(Hr & Hne & rows & Hin & ->)]; [by left|right].
        split_and!; try done. exists rows. split; [by right|done].
      * intros [?|(Hr & Hne & rows & Hin & ->)]; [by left|].
        apply elem_of_cons in Hin as [[= -> ->]|Hin]; [congruence|].
        right. split_and!; try done. by exists rows.
    + rewrite assign_lookup. split.
      * intros [Hl|(Hr & Hne & rows & Hin & ->)].
        -- destruct (decide (recordable n /\ s = n)) as [[Hr ->]|_]; [|by left].
           injection Hl as <-. right. split_and!; [done|done|].
           exists d. split; [left|done].
        -- right. split_and!; try done. exists rows. split; [by right|done].
      * intros [Hl|(Hr & Hne & rows & Hin & ->)].
        -- left. rewrite decide_False; [done|]. intros [_ ->]. congruence.
        -- apply elem_of_cons in Hin as [[= -> ->]|Hin].
           ++ left. rewrite decide_True by done. by rewrite Hc.
           ++ right. split_and!; try done. by exists rows.
Qed.

Lemma collectErrors_records check (entries : list (string * list object)) :
  NoDup entries.*1 -> records check entries (collectErrors check entries ∅).
Proof.
  intros Hnd s errs.
  rewrite (collectErrors_lookup check entries ∅ Hnd) by (intros; apply lookup_empty).
  rewrite lookup_empty. split; [by intros [?|?]|by right].
Qed.

Context (rt : Runtime) (clock : string -> nat -> Z).

(** A run that gets to the request has found nothing. *)
Lemma posts_clean file entries sheetName rows :
  posts (handleValidate rt clock (Some file) entries) = true ->
  (sheetName, rows) ∈ entries -> recordable sheetName ->
  structureFindings rows = [] /\ dataFindings rt clock sheetName rows = [].
Proof.
  unfold handleValidate. cbv zeta.
  destruct (0 <? size (collectErrors _ entries ∅))%nat eqn:Hs; [done|].
  destruct (0 <? size (collectErrors
              (fun sheetName data => validateExcelData rt (clock sheetName) (RowArray data))
              entries ∅))%nat eqn:Hd; [done|].
  intros _ Hin Hr.
  apply size_pos_empty, collectErrors_empty in Hs as [_ Hs].
  apply size_pos_empty, collectErrors_empty in Hd as [_ Hd].
  split; [by apply (Hs sheetName rows)|by apply (Hd sheetName rows)].
Qed.

(** ** Cells that draw a warning *)

Lemma long_Name_warning r n :
  long_Name r -> warnings (validateName r n no_findings) <> [].
Proof.
  intros (s & Hs & Htrim & Hlen). unfold validateName. cbv zeta. rewrite Hs.
  assert (Hne : s <> "") by (intros ->; by apply Htrim).
  cbn [truthy typeof jstype_eqb negb string_of].
  destruct (String.eqb_spec s ""); [done|]. cbn [negb].
  destruct (Nat.eqb_spec (String.length (trim s)) 0) as [Hz|_].
  { destruct (trim s); [done|discriminate]. }
  apply Nat.ltb_lt in Hlen. by rewrite Hlen.
Qed.

Lemma num_gtb_not_leb (n : number) :
  num_gtb n (Fin 1000000) = true -> num_isNaN n = false /\ num_leb n (Fin 0) = false.
Proof.
  destruct n as [| | |x]; try done. unfold num_gtb, num_ltb, num_leb, Qltb.
  intros Hgt. split; [done|].
  apply negb_true_iff in Hgt. apply not_true_iff_false. intros Hle%Qle_bool_iff.
  apply not_true_iff_false in Hgt. apply Hgt, Qle_bool_iff. lra.
Qed.

Lemma large_Amount_warning r n :
  large_Amount rt r -> warnings (validateAmount rt r n no_findings) <> [].
Proof.
  intros [Hnn Hgt]. unfold validateAmount. cbv zeta. rewrite Hnn.
  destruct (num_gtb_not_leb _ Hgt) as [-> ->]. by rewrite Hgt.
Qed.

Lemma future_Date_warning now r n :
  future_Date rt now r -> warnings (validateDate rt now r n no_findings) <> [].
Proof.
  intros (Ht & t & Hd & Hlt). unfold validateDate. cbv zeta. rewrite Ht, Hd.
  cbn [negb]. apply Z.ltb_lt in Hlt. by rewrite Hlt.
Qed.

Lemma rowWarnings_fields c i r :
  rowWarnings rt c i r =
  warnings (validateName r (i + 1) no_findings) ++
  warnings (validateAmount rt r (i + 1) no_findings) ++
  warnings (validateDate rt (c i) r (i + 1) no_findings) ++
  warnings (validateVerified r (i + 1) no_findings).
Proof.
  unfold rowWarnings. rewrite rowFindings_fields. simpl. by rewrite <- !app_assoc.
Qed.

Lemma warning_cell_rowWarnings c i r :
  long_Name r \/ large_Amount rt r \/ future_Date rt (c i) r ->
  rowWarnings rt c i r <> [].
Proof.
  rewrite rowWarnings_fields.
  intros [H|[H|H]] Hnil; repeat apply app_eq_nil in Hnil as [? Hnil].
  - by apply (long_Name_warning r (i + 1)).
  - by apply (large_Amount_warning r (i + 1)).
  - by apply (future_Date_warning (c i) r (i + 1)).
Qed.
End ValidateGate.

(** X4. [handleValidate] sends the file to the server exactly when no
    sheet has any finding of [validateSheetStructure] and no sheet has
    any finding of [validateExcelData], whatever the severity of the
    finding (a sheet named [__proto__] is not looked at: its findings are
    lost when they are stored under its name). *)
Theorem handleValidate_posts (rt : Js.Runtime) (clock : string -> nat -> Z)
    (file : FileChecks.File) (entries : list (string * list Js.object)) :
  Handlers.posts (Handlers.handleValidate rt clock (Some file) entries) = true <->
  forall sheetName rows,
    (sheetName, rows) ∈ entries -> Props.recordable sheetName ->
    Props.structureFindings rows = [] /\ Props.dataFindings rt clock sheetName rows = [].
Proof.
  split; [intros Hp s rows; by apply (posts_clean rt clock file entries)|].
  intros Hall. unfold Handlers.handleValidate. cbv zeta.
  assert (Hs : Handlers.collectErrors
                 (fun _ data => ErrorHandling.validateSheetStructure (ErrorHandling.RowArray data))
                 entries ∅ = ∅).
  { apply collectErrors_empty. split; [done|]. intros s rows Hin Hr.
    by destruct (Hall s rows Hin Hr). }
  assert (Hd : Handlers.collectErrors
                 (fun sheetName data =>
                    ErrorHandling.validateExcelData rt (clock sheetName)
                      (ErrorHandling.RowArray data))
                 entries ∅ = ∅).
  { apply collectErrors_empty. split; [done|]. intros s rows Hin Hr.
    by destruct (Hall s rows Hin Hr). }
  by rewrite Hs, Hd.
Qed.

(** X5. [handleValidate] reports in two stages. As long as some sheet has
    a structure finding, what it shows are the structure findings alone,
    sheet by sheet, with the toast about the structure; the data of no
    sheet is checked. Once no sheet has a structure finding, it shows the
    findings of [validateExcelData], sheet by sheet, with the toast about
    the data. In both cases nothing is sent. (The sheets are the entries
    of an object: their names differ.) *)
Theorem handleValidate_two_stages (rt : Js.Runtime) (clock : string -> nat -> Z)
    (file : FileChecks.File) (entries : list (string * list Js.object)) :
  NoDup entries.*1 ->
  Handlers.posts (Handlers.handleValidate rt clock (Some file) entries) = false ->
  exists m,
    Handlers.setErrors (Handlers.handleValidate rt clock (Some file) entries) = Some m /\
    Handlers.setShowErrors (Handlers.handleValidate rt clock (Some file) entries) = Some true /\
    m <> ∅ /\
    ((Props.records (fun _ rows => Props.structureFindings rows) entries m /\
      Handlers.errorToast (Handlers.handleValidate rt clock (Some file) entries) =
        Some "Invalid Excel structure. Please check the required columns.") \/
     ((forall sheetName rows,
         (sheetName, rows) ∈ entries -> Props.recordable sheetName ->
         Props.structureFindings rows = []) /\
      Props.records (Props.dataFindings rt clock) entries m /\
      Handlers.errorToast (Handlers.handleValidate rt clock (Some file) entries) =
        Some "Invalid data found. Please check the error details.")).
Proof.
  intros Hnd. unfold Handlers.handleValidate. cbv zeta.
  destruct (0 <? size (Handlers.collectErrors _ entries ∅))%nat eqn:Hs.
  - intros _. eexists. split_and!; [done|done| |].
    + intros Hm. rewrite Hm in Hs. done.
    + left. split; [|done]. by apply (collectErrors_records _ entries).
  - apply size_pos_empty in Hs. pose proof Hs as Hclean.
    apply collectErrors_empty in Hclean as [_ Hclean].
    match goal with |- context [(0 <? size ?m)%nat] =>
      destruct (0 <? size m)%nat eqn:Hd end; [|done].
    intros _. eexists. split_and!; [done|done| |].
    + intros Hm. rewrite Hm in Hd. done.
    + right. split_and!; [done| |done].
      by apply (collectErrors_records (Props.dataFindings rt clock) entries).
Qed.

(** X5 on a workbook of two sheets, one with a column of its own. *)
Lemma handleValidate_two_stages_witness :
  exists m,
    Handlers.setErrors
      (Handlers.handleValidate Host.runtime Examples.sheet_clock_2024 (Some Examples.xlsx_file)
         [("Sheet1", [Examples.row_with_notes]); ("Sheet2", [Examples.row_future])]) = Some m /\
    Handlers.setShowErrors
      (Handlers.handleValidate Host.runtime Examples.sheet_clock_2024 (Some Examples.xlsx_file)
         [("Sheet1", [Examples.row_with_notes]); ("Sheet2", [Examples.row_future])]) = Some true /\
    m <> ∅ /\
    ((Props.records (fun _ rows => Props.structureFindings rows)
        [("Sheet1", [Examples.row_with_notes]); ("Sheet2", [Examples.row_future])] m /\
      Handlers.errorToast
        (Handlers.handleValidate Host.runtime Examples.sheet_clock_2024 (Some Examples.xlsx_file)
           [("Sheet1", [Examples.row_with_notes]); ("Sheet2", [Examples.row_future])]) =
        Some "Invalid Excel structure. Please check the required columns.") \/
     ((forall sheetName rows,
         (sheetName, rows) ∈ [("Sheet1", [Examples.row_with_notes]);
                              ("Sheet2", [Examples.row_future])] ->
         Props.recordable sheetName ->
         Props.structureFindings rows = []) /\
      Props.records (Props.dataFindings Host.runtime Examples.sheet_clock_2024)
        [("Sheet1", [Examples.row_with_notes]); ("Sheet2", [Examples.row_future])] m /\
      Handlers.errorToast
        (Handlers.handleValidate Host.runtime Examples.sheet_clock_2024 (Some Examples.xlsx_file)
           [("Sheet1", [Examples.row_with_notes]); ("Sheet2", [Examples.row_future])]) =
        Some "Invalid data found. Please check the error details.")).
Proof.
  apply (handleValidate_two_stages Host.runtime Examples.sheet_clock_2024 Examples.xlsx_file
           [("Sheet1", [Examples.row_with_notes]); ("Sheet2", [Examples.row_future])]).
  - simpl. repeat (constructor; [rewrite ?elem_of_cons, elem_of_nil;
                                 intros Hin; decompose [or] Hin;
                                 first [discriminate|contradiction]|]).
    constructor.
  - vm_compute. reflexivity.
Defined.

(** X6. Warnings stop the upload like errors do. A sheet whose first row
    has a column beyond the four required ones (the finding says that the
    column will be ignored), or a row with a name of more than 100
    characters, an amount above 1,000,000 or a date after the reading of
    the clock, is never sent to the server by [handleValidate]. *)
Theorem handleValidate_warnings_block (rt : Js.Runtime) (clock : string -> nat -> Z)
    (file : FileChecks.File) (entries : list (string * list Js.object))
    (sheetName : string) (rows : list Js.object) :
  (sheetName, rows) ∈ entries ->
  Props.recordable sheetName ->
  (exists firstRow rest col,
     rows = firstRow :: rest /\ col ∈ Js.keys firstRow /\ col ∉ ErrorHandling.requiredColumns) \/
  (exists i r,
     rows !! i = Some r /\
     (Props.long_Name r \/ Props.large_Amount rt r \/
      Props.future_Date rt (clock sheetName i) r)) ->
  Handlers.posts (Handlers.handleValidate rt clock (Some file) entries) = false.
Proof.
  intros Hin Hr Hwarn. apply not_true_iff_false. intros Hposts.
  destruct (posts_clean rt clock file entries sheetName rows Hposts Hin Hr) as [Hs Hd].
  destruct Hwarn as [(firstRow & rest & col & -> & Hcol & Hextra)|(i & r & Hi & Hcell)].
  - apply structureFindings_nil in Hs as [_ Hx]. by apply Hextra, Hx.
  - unfold Props.dataFindings in Hd.
    rewrite (validateExcelData_rows rt (clock sheetName) (ErrorHandling.RowArray rows)) in Hd
      by by apply structureFindings_reachesRowPass.
    apply app_eq_nil in Hd as [_ Hw]. simpl in Hw.
    apply (warning_cell_rowWarnings rt (clock sheetName) i r Hcell).
    apply elem_of_nil_inv. intros f Hf.
    assert (Hall : f ∈ concat (imap (Props.rowWarnings rt (clock sheetName)) rows)).
    { apply elem_of_concat_imap. by exists i, r. }
    rewrite Hw in Hall. by apply elem_of_nil in Hall.
Qed.

(** X6 on a sheet with a column of its own, and on a sheet with a row
    dated 2099. *)
Lemma handleValidate_warnings_block_witness :
  Handlers.posts
    (Handlers.handleValidate Host.runtime Examples.sheet_clock_2024 (Some Examples.xlsx_file)
       [("Sheet1", [Examples.row_with_notes])]) = false /\
  Handlers.posts
    (Handlers.handleValidate Host.runtime Examples.sheet_clock_2024 (Some Examples.xlsx_file)
       [("Sheet1", [Examples.row_clean; Examples.row_future])]) = false.
Proof.
  split.
  - apply (handleValidate_warnings_block Host.runtime Examples.sheet_clock_2024
             Examples.xlsx_file [("Sheet1", [Examples.row_with_notes])]
             "Sheet1" [Examples.row_with_notes]).
    + apply list_elem_of_here.
    + discriminate.
    + left. exists Examples.row_with_notes, [], "Notes". split; [reflexivity|].
      split.
      * apply has_key_elem_of. reflexivity.
      * intros Hin. apply existsb_eqb_elem_of in Hin. discriminate Hin.
  - apply (handleValidate_warnings_block Host.runtime Examples.sheet_clock_2024
             Examples.xlsx_file [("Sheet1", [Examples.row_clean; Examples.row_future])]
             "Sheet1" [Examples.row_clean; Examples.row_future]).
    + apply list_elem_of_here.
    + discriminate.
    + right. exists 1%nat, Examples.row_future. split; [reflexivity|].
      right. right. split; [reflexivity|].
      exists 4070908800000. split; [reflexivity|]. vm_compute. reflexivity.
Defined.

(* ===================================================================== *)
(** * File names and sizes: the checks of the client and of the server *)
(* ===================================================================== *)

Section FileNames.
Import Js Text Props.

Lemma append_nil_l (s : string) : "" +:+ s = s.
Proof. reflexivity. Qed.

Lemma append_cons c (a b : string) : String c a +:+ b = String c (a +:+ b).
Proof. reflexivity. Qed.

Lemma endsWith_suffix (suffix s : string) :
  endsWith suffix s = true <-> exists stem, s = stem +:+ suffix.
Proof.
  induction s as [|c s IH]; cbn [endsWith].
  - rewrite orb_false_r. split.
    + intros <-%String.eqb_eq. by exists "".
    + intros ([|? ?] & Hs); [|discriminate]. rewrite append_nil_l in Hs. subst.
      apply String.eqb_refl.
  - rewrite orb_true_iff, IH. split.
    + intros [<-%String.eqb_eq|(stem & ->)]; [by exists ""|by exists (String c stem)].
    + intros ([|c' stem] & Hs).
      * left. rewrite append_nil_l in Hs. rewrite <- Hs. apply String.eqb_refl.
      * rewrite append_cons in Hs. injection Hs as -> ->. right. by exists stem.
Qed.

(** A folded text cut in two comes from a text cut at the same place. *)
Lemma fold_case_cut (s a b : string) :
  fold_case s = a +:+ b ->
  exists a' b', s = a' +:+ b' /\ fold_case a' = a /\ fold_case b' = b.
Proof.
  revert s. induction a as [|c a IH]; intros s.
  - rewrite append_nil_l. intros Hs. by exists "", s.
  - rewrite append_cons. destruct s as [|c' s]; simpl; [done|]. intros [= Hc Hs].
    destruct (IH s Hs) as (a' & b' & -> & Ha & Hb).
    exists (String c' a'), b'. rewrite append_cons. simpl. by rewrite Hc, Ha.
Qed.

Lemma fold_case_app (a b : string) : fold_case (a +:+ b) = fold_case a +:+ fold_case b.
Proof.
  induction a as [|c a IH]; [done|]. rewrite !append_cons. simpl. by rewrite IH.
Qed.

Lemma lower_fold_x c : lower_char c = "x"%char <-> fold_char c = "x"%char.
Proof. destruct c as [[] [] [] [] [] [] [] []]; vm_compute; split; congruence. Qed.

Lemma lower_fold_l c : lower_char c = "l"%char <-> fold_char c = "l"%char.
Proof. destruct c as [[] [] [] [] [] [] [] []]; vm_compute; split; congruence. Qed.

Lemma lower_fold_s c : lower_char c = "s"%char <-> fold_char c = "s"%char.
Proof. destruct c as [[] [] [] [] [] [] [] []]; vm_compute; split; congruence. Qed.

(** Lower-casing and case folding agree on the extension. *)
Lemma toLowerCase_xlsx (s : string) : toLowerCase s = "xlsx" <-> fold_case s = "xlsx".
Proof.
  destruct s as [|c1 [|c2 [|c3 [|c4 [|c5 s]]]]]; simpl; try (split; discriminate).
  split; intros [= H1 H2 H3 H4].
  - apply lower_fold_x in H1, H4. apply lower_fold_l in H2. apply lower_fold_s in H3.
    by rewrite H1, H2, H3, H4.
  - apply lower_fold_x in H1, H4. apply lower_fold_l in H2. apply lower_fold_s in H3.
    by rewrite H1, H2, H3, H4.
Qed.

Lemma fold_char_dot c : fold_char c = "."%char <-> c = "."%char.
Proof. destruct c as [[] [] [] [] [] [] [] []]; vm_compute; split; congruence. Qed.

Lemma lacks_fold_case c (s : string) :
  fold_char c = c -> (forall d, fold_char d = c <-> d = c) ->
  lacks c (fold_case s) = lacks c s.
Proof.
  intros Hc Hd. induction s as [|a s IH]; simpl; [done|]. rewrite IH.
  destruct (Ascii.eqb_spec (fold_char a) c) as [He|Hne], (Ascii.eqb_spec a c) as [He'|Hne'];
    try reflexivity.
  - apply (proj1 (Hd a)) in He. contradiction.
  - subst. contradiction.
Qed.

(** [split] and [pop]: the part after the last separator. *)
Lemma split_nonempty sep s : split sep s <> [].
Proof.
  destruct s as [|c s]; simpl; [done|].
  destruct (Ascii.eqb c sep); [done|]. by destruct (split sep s).
Qed.

Lemma pop_split_lacks sep (s : string) :
  lacks sep s = true -> split sep s = [s].
Proof.
  induction s as [|c s IH]; simpl; [done|].
  destruct (Ascii.eqb c sep); simpl; [done|]. intros Hs. by rewrite (IH Hs).
Qed.

Lemma last_cons_nonempty {A} (x : A) (l : list A) : l <> [] -> last (x :: l) = last l.
Proof. by destruct l. Qed.

Lemma pop_split_cons sep c (s : string) : pop (split sep (String c s)) =
  if lacks sep s then (if Ascii.eqb c sep then Some s else Some (String c s))
  else pop (split sep s).
Proof.
  unfold pop. simpl. destruct (lacks sep s) eqn:Hl.
  - rewrite (pop_split_lacks sep s Hl). by destruct (Ascii.eqb c sep).
  - assert (Htwo : exists a b rest, split sep s = a :: b :: rest).
    { clear c. induction s as [|d s IH]; simpl in *; [done|].
      destruct (Ascii.eqb d sep) eqn:Hd; simpl in Hl.
      - pose proof (split_nonempty sep s). destruct (split sep s) as [|b rest]; [done|].
        by exists "", b, rest.
      - destruct (IH Hl) as (a & b & rest & ->). by exists (String d a), b, rest. }
    destruct Htwo as (a & b & rest & ->). by destruct (Ascii.eqb c sep).
Qed.

(** The last segment of [stem ++ sep ++ ext] is [ext], when [ext] has no
    separator. *)
Lemma pop_split_app sep (stem ext : string) :
  lacks sep ext = true -> pop (split sep (stem +:+ String sep ext)) = Some ext.
Proof.
  intros Hext. induction stem as [|c stem IH].
  - rewrite append_nil_l, pop_split_cons, Hext. by rewrite Ascii.eqb_refl.
  - rewrite append_cons, pop_split_cons.
    assert (Hl : lacks sep (stem +:+ String sep ext) = false).
    { rewrite lacks_app. simpl. rewrite Ascii.eqb_refl. simpl. apply andb_false_r. }
    by rewrite Hl.
Qed.

(** The last segment has no separator, and the text is this segment
    alone or ends with a separator followed by it. *)
Lemma pop_split_last sep (s : string) :
  exists ext,
    pop (split sep s) = Some ext /\ lacks sep ext = true /\
    (s = ext \/ exists stem, s = stem +:+ String sep ext).
Proof.
  induction s as [|c s IH].
  - exists "". split_and!; [done|done|by left].
  - rewrite pop_split_cons. destruct (lacks sep s) eqn:Hl.
    + destruct (Ascii.eqb_spec c sep) as [->|Hne].
      * exists s. split_and!; [done|done|]. right. by exists "".
      * exists (String c s). split_and!; [done| |by left].
        simpl. rewrite Hl. by destruct (Ascii.eqb_spec c sep).
    + destruct IH as (ext & Hp & He & [->|(stem & ->)]); [congruence|].
      exists ext. split_and!; [done|done|]. right. by exists (String c stem).
Qed.

(** A text whose folded form is a dot followed by [e]. *)
Lemma fold_case_dot_ext (b e : string) :
  fold_case b = String "." e -> exists ext, b = String "." ext /\ fold_case ext = e.
Proof.
  destruct b as [|c ext]; simpl; [done|]. intros [= Hc He].
  apply fold_char_dot in Hc as ->. by exists ext.
Qed.

(** A name ends, in any case, with a dot and the extension [e]. *)
Lemma endsWith_fold_case (e name : string) :
  fold_case e = e ->
  endsWith (String "." e) (fold_case name) = true <->
  exists stem ext, name = stem +:+ "." +:+ ext /\ fold_case ext = e.
Proof.
  intros He. rewrite endsWith_suffix. split.
  - intros (stem' & Hs). apply fold_case_cut in Hs as (stem & b & -> & _ & Hb).
    apply fold_case_dot_ext in Hb as (ext & -> & Hext). by exists stem, ext.
  - intros (stem & ext & -> & Hext). exists (fold_case stem).
    rewrite fold_case_app. f_equal. change ("." +:+ ext) with (String "." ext).
    simpl. by rewrite Hext.
Qed.

Lemma matchesExcelName_ext (name : string) :
  FileChecks.matchesExcelName name = true <->
  exists stem ext,
    name = stem +:+ "." +:+ ext /\ (fold_case ext = "xlsx" \/ fold_case ext = "xls").
Proof.
  unfold FileChecks.matchesExcelName. cbv zeta.
  rewrite orb_true_iff, (endsWith_fold_case "xlsx" name eq_refl),
    (endsWith_fold_case "xls" name eq_refl).
  split.
  - intros [(stem & ext & ? & ?)|(stem & ext & ? & ?)]; exists stem, ext; auto.
  - intros (stem & ext & ? & [?|?]); [left|right]; by exists stem, ext.
Qed.

(** A file that passes [handleFileValidationError] is at most 10 MiB. *)
Lemma handleFileValidationError_size (file : FileChecks.File) :
  FileChecks.handleFileValidationError (Some file) = None ->
  (FileChecks.size file <= FileChecks.maxSize)%N.
Proof.
  unfold FileChecks.handleFileValidationError.
  destruct (negb _); [done|]. destruct (negb _); [done|]. destruct (_ =? _)%N; [done|].
  destruct (N.ltb_spec FileChecks.maxSize (FileChecks.size file)); [done|]. done.
Qed.

Lemma fileFilter_ext (originalname : string) :
  Middleware.fileFilter originalname = Ok true <->
  exists ext,
    fold_case ext = "xlsx" /\
    (originalname = ext \/ exists stem, originalname = stem +:+ "." +:+ ext).
Proof.
  unfold Middleware.fileFilter. split.
  - destruct (pop_split_last "." originalname) as (ext & -> & Hl & Hform).
    cbv zeta. unfold Middleware.allowedExtensions. cbn [existsb].
    rewrite orb_false_r.
    destruct (String.eqb_spec ("." +:+ toLowerCase ext) ".xlsx") as [Heq|Hne]; [|done].
    intros _. exists ext. split; [|done].
    apply toLowerCase_xlsx. change ("." +:+ toLowerCase ext) with (String "." (toLowerCase ext)) in Heq.
    by injection Heq.
  - intros (ext & Hext & Hform).
    assert (Hl : lacks "." ext = true).
    { rewrite <- (lacks_fold_case "." ext eq_refl fold_char_dot). by rewrite Hext. }
    assert (Hp : pop (split "." originalname) = Some ext).
    { destruct Hform as [->|(stem & ->)].
      - by rewrite (pop_split_lacks "." ext Hl).
      - by apply pop_split_app. }
    rewrite Hp. cbv zeta. apply toLowerCase_xlsx in Hext. by rewrite Hext.
Qed.
End FileNames.

(** X7. [handleFileValidationError] lets a file through exactly when its
    name ends, in any case, with [.xlsx] or [.xls], its type is one of
    the two spreadsheet types, and its size is above 0 and at most 10 MiB
    (10,485,760 bytes). *)
Theorem handleFileValidationError_accepts (file : FileChecks.File) :
  FileChecks.handleFileValidationError (Some file) = None <->
  (exists stem ext,
     FileChecks.name file = stem +:+ "." +:+ ext /\
     (Js.fold_case ext = "xlsx" \/ Js.fold_case ext = "xls")) /\
  FileChecks.type file ∈ FileChecks.allowedTypes /\
  (0 < FileChecks.size file <= 10485760)%N.
Proof.
  rewrite <- matchesExcelName_ext, <- existsb_eqb_elem_of.
  unfold FileChecks.handleFileValidationError.
  destruct (FileChecks.matchesExcelName (FileChecks.name file)); cbn [negb];
    [|split; [done|by intros [? _]]].
  destruct (existsb (String.eqb (FileChecks.type file)) FileChecks.allowedTypes); cbn [negb];
    [|split; [done|by intros (_ & ? & _)]].
  destruct (N.eqb_spec (FileChecks.size file) 0) as [Hz|Hnz];
    [split; [done|intros (_ & _ & ?); lia]|].
  destruct (N.ltb_spec FileChecks.maxSize (FileChecks.size file)) as [Hbig|Hfit];
    unfold FileChecks.maxSize in *.
  - split; [done|intros (_ & _ & ?); lia].
  - split; [intros _; split_and!; [done|done|lia|lia]|done].
Qed.

(** X8. The size check of the [FileUpload] component never fires when
    its limit [maxFileSize] is 10 MiB (the default) or more: the file has
    then already been refused by [handleFileValidationError]. A file is
    refused with the message of [handleFileValidationError], or handed to
    [onFileSelect]. *)
Theorem validateAndProcessFile_size_check_dead (rt : Js.Runtime)
    (onFileSelect : FileChecks.File -> Js.result unit) (maxFileSize : Js.number)
    (file : FileChecks.File) (st : FileChecks.UploadState) :
  Js.num_leb (Js.num_of_Z (Z.of_N FileChecks.maxSize)) maxFileSize = true ->
  FileChecks.validateAndProcessFile rt onFileSelect maxFileSize file st =
  match FileChecks.handleFileValidationError (Some file) with
  | Some msg =>
      ({| FileChecks.error := msg;
          FileChecks.isProcessing := FileChecks.isProcessing st;
          FileChecks.uploadProgress := FileChecks.uploadProgress st |}, false)
  | None =>
      match onFileSelect file with
      | Js.Ok _ =>
          ({| FileChecks.error := ""; FileChecks.isProcessing := false;
              FileChecks.uploadProgress := 100 |}, true)
      | Js.Throw _ =>
          ({| FileChecks.error := "Error processing file. Please try again.";
              FileChecks.isProcessing := false; FileChecks.uploadProgress := 0 |}, false)
      end
  end.
Proof.
  intros Hlimit. unfold FileChecks.validateAndProcessFile. cbv zeta.
  destruct (FileChecks.handleFileValidationError (Some file)) as [msg|] eqn:Hcheck.
  - assert (Hmsg : ErrorHandling.truthy_str (Some msg) = true).
    { unfold FileChecks.handleFileValidationError in Hcheck.
      repeat match type of Hcheck with
             | (if ?c then _ else _) = _ => destruct c
             end; try discriminate Hcheck; injection Hcheck as <-; reflexivity. }
    by rewrite Hmsg.
  - cbn [ErrorHandling.truthy_str].
    apply handleFileValidationError_size in Hcheck.
    assert (Hfit : Js.num_gtb (Js.num_of_Z (Z.of_N (FileChecks.size file))) maxFileSize = false).
    { destruct maxFileSize as [| | |q]; try done.
      unfold Js.num_gtb, Js.num_ltb, Js.num_leb, Js.num_of_Z, Js.Qltb in *.
      apply negb_false_iff, Qle_bool_iff. apply Qle_bool_iff in Hlimit.
      eapply Qle_trans; [|exact Hlimit]. rewrite <- Zle_Qle. lia. }
    by rewrite Hfit.
Qed.

(** X8 with the default limit of 10 MiB. *)
Lemma validateAndProcessFile_size_check_dead_witness :
  FileChecks.validateAndProcessFile Host.runtime (fun _ => Js.Ok tt) (Js.num_of_Z 10485760)
    Examples.xlsx_file
    {| FileChecks.error := ""; FileChecks.isProcessing := false;
       FileChecks.uploadProgress := 0 |} =
  ({| FileChecks.error := ""; FileChecks.isProcessing := false;
      FileChecks.uploadProgress := 100 |}, true).
Proof.
  exact (validateAndProcessFile_size_check_dead Host.runtime (fun _ => Js.Ok tt)
           (Js.num_of_Z 10485760) Examples.xlsx_file
           {| FileChecks.error := ""; FileChecks.isProcessing := false;
              FileChecks.uploadProgress := 0 |} eq_refl).
Defined.

(** With a limit of 1 MiB the check of the component does fire, on a
    file of 3 MiB. *)
Example validateAndProcessFile_small_limit :
  FileChecks.validateAndProcessFile Host.runtime (fun _ => Js.Ok tt) (Js.num_of_Z 1048576)
    {| FileChecks.name := "Book1.xlsx";
       FileChecks.type := "application/vnd.ms-excel";
       FileChecks.size := 3145728 |}
    {| FileChecks.error := ""; FileChecks.isProcessing := false;
       FileChecks.uploadProgress := 0 |} =
  ({| FileChecks.error := "File size should not exceed 1MB"; FileChecks.isProcessing := false;
      FileChecks.uploadProgress := 0 |}, false).
Proof. vm_compute. reflexivity. Qed.

(** X9. The file filter of the server looks at the text after the last
    dot of the name only: it accepts a name exactly when that text is
    [xlsx] in any case, so also a name that is [xlsx] alone, with no dot.
    Of the names that pass the name check of the client, it accepts those
    that end in [.xlsx] and refuses those that end in [.xls]. *)
Theorem fileFilter_and_client_name_check (originalname : string) :
  (Middleware.fileFilter originalname = Js.Ok true <->
   exists ext,
     Js.fold_case ext = "xlsx" /\
     (originalname = ext \/ exists stem, originalname = stem +:+ "." +:+ ext)) /\
  (FileChecks.matchesExcelName originalname = true ->
   (Middleware.fileFilter originalname = Js.Ok true <->
    Text.endsWith ".xlsx" (Js.fold_case originalname) = true)).
Proof.
  split; [apply fileFilter_ext|].
  intros Hclient. rewrite fileFilter_ext, (endsWith_fold_case "xlsx" originalname eq_refl).
  split.
  - intros (ext & Hext & [->|(stem & ->)]); [|by exists stem, ext].
    unfold FileChecks.matchesExcelName in Hclient. rewrite Hext in Hclient. done.
  - intros (stem & ext & -> & Hext). exists ext. split; [done|]. right. by exists stem.
Qed.

(** Names at the two checks. *)
Example file_name_samples :
  Middleware.fileFilter "Book1.xlsx" = Js.Ok true /\
  Middleware.fileFilter "Book1.XLSX" = Js.Ok true /\
  Middleware.fileFilter "xlsx" = Js.Ok true /\
  FileChecks.matchesExcelName "xlsx" = false /\
  Middleware.fileFilter "Book1.xls" =
    Js.Throw "Invalid file type. Only .xlsx files are allowed." /\
  FileChecks.matchesExcelName "Book1.xls" = true /\
  Middleware.fileFilter "Book1.xlsx.zip" =
    Js.Throw "Invalid file type. Only .xlsx files are allowed." /\
  FileChecks.matchesExcelName "Book1.xlsx.zip" = false.
Proof. split_and!; vm_compute; reflexivity. Qed.

(* ===================================================================== *)
(** * The rows of the server: what is accepted, stored and reported *)
(* ===================================================================== *)

Section ServerRows.
Import Js Server Props.
Context (rt : Runtime).

(** A turn of the loop stores the value of the column, or pushes the
    message and clears the verdict. *)
Lemma validateColumn_turn clk r config n sheetName st excelColumn dbField validation :
  lookup_validation dbField (validations config) = Some validation ->
  validateColumn rt clk r config n sheetName st (excelColumn, dbField) =
  Ok match columnTurn rt clk r excelColumn validation with
     | Ok v =>
         {| st_errors := st_errors st;
            st_transformedData := set dbField v (st_transformedData st);
            st_isValid := st_isValid st |}
     | Throw msg =>
         {| st_errors := st_errors st ++ [server_error sheetName n msg];
            st_transformedData := st_transformedData st;
            st_isValid := false |}
     end.
Proof.
  intros Hv. unfold validateColumn, columnTurn. rewrite Hv.
  destruct (required validation && negb (truthy (get excelColumn r))); [done|].
  by destruct (validateField rt clk (get excelColumn r) validation excelColumn).
Qed.


Lemma turn_Name clk r :
  columnTurn rt clk r "Name" name_validation =
  if truthy (get "Name" r) then Ok (VStr (ToString rt (get "Name" r)))
  else Throw "Name is required".
Proof.
  unfold columnTurn, validateField, name_validation. cbn [required type].
  by destruct (truthy (get "Name" r)).
Qed.

Lemma turn_Amount clk r :
  columnTurn rt clk r "Amount" amount_validation =
  if truthy (get "Amount" r) then
    if num_isNaN (Number rt (get "Amount" r)) then Throw "Amount must be a number"
    else if num_ltb (Number rt (get "Amount" r)) (Fin 0) then
      Throw ("Amount must be greater than " +:+ ToString rt (VNum (Fin 0)))
    else Ok (VNum (Number rt (get "Amount" r)))
  else Throw "Amount is required".
Proof.
  unfold columnTurn, validateField, amount_validation. cbn [required type min].
  destruct (truthy (get "Amount" r)); [|done]. cbn [negb andb]. cbv iota.
  change (String.eqb "number" "number") with true. cbv iota.
  destruct (num_isNaN (Number rt (get "Amount" r))); [done|].
  by destruct (num_ltb (Number rt (get "Amount" r)) (Fin 0)).
Qed.

Lemma isCurrentMonth_window clk t :
  isCurrentMonth rt clk t = true <-> twelveMonthsAgo rt clk <= t <= fst clk.
Proof. unfold isCurrentMonth, twelveMonthsAgo. cbv zeta. lia. Qed.

Lemma turn_Date clk r :
  columnTurn rt clk r "Date" date_validation =
  if truthy (get "Date" r) then
    match new_Date rt (get "Date" r) with
    | None => Throw "Date must be a valid date"
    | Some t =>
        if isCurrentMonth rt clk t then Ok (VDate (Some t))
        else Throw "Date must be in the current month"
    end
  else Throw "Date is required".
Proof.
  unfold columnTurn, validateField, date_validation. cbn [required type validator].
  destruct (truthy (get "Date" r)); [|done]. cbn [negb andb]. cbv iota.
  change (String.eqb "date" "number") with false.
  change (String.eqb "date" "date") with true. cbv iota.
  destruct (new_Date rt (get "Date" r)) as [t|]; [|done].
  rewrite bool_decide_eq_true_2 by done. by destruct (isCurrentMonth rt clk t).
Qed.

Lemma turn_Verified clk r :
  columnTurn rt clk r "Verified" verified_validation =
  if truthy (get "Verified" r) then verified_transform (get "Verified" r) else Ok VNull.
Proof.
  unfold columnTurn, validateField, verified_validation. cbn [required type transform].
  by destruct (truthy (get "Verified" r)).
Qed.

(** A Verified cell gets through its turn when it is falsy or a string;
    what is stored is then [server_verified]. *)
Lemma turn_Verified_ok clk r v :
  columnTurn rt clk r "Verified" verified_validation = Ok v <->
  (truthy (get "Verified" r) = false \/ exists s, get "Verified" r = VStr s) /\
  v = server_verified (get "Verified" r).
Proof.
  rewrite turn_Verified. unfold server_verified.
  destruct (get "Verified" r) as [| |b|[| | |q]|s|t]; simpl;
    try (split; [by intros [= <-]; split; [left|]|by intros [_ ->]]);
    try (split; [done|by intros [[?|[? ?]] _]]).
  - destruct b; simpl.
    + split; [done|by intros [[?|[? ?]] _]].
    + split; [by intros [= <-]; split; [left|]|by intros [_ ->]].
  - destruct (Qeq_bool q 0); simpl.
    + split; [by intros [= <-]; split; [left|]|by intros [_ ->]].
    + split; [done|by intros [[?|[? ?]] _]].
  - destruct (String.eqb s ""); simpl.
    + split; [by intros [= <-]; split; [left|]|by intros [_ ->]].
    + split; [intros [= <-]; split; [right; by exists s|done]|by intros [_ ->]].
Qed.

(** The result of [validateRow] under the default configuration, turn by
    turn. *)
Lemma validateRow_turns clk r n sheetName :
  exists res,
    validateRow rt clk r sheetConfigs_default n sheetName = Ok res /\
    errors res =
      turnErrors sheetName n (columnTurn rt clk r "Name" name_validation) ++
      turnErrors sheetName n (columnTurn rt clk r "Amount" amount_validation) ++
      turnErrors sheetName n (columnTurn rt clk r "Date" date_validation) ++
      turnErrors sheetName n (columnTurn rt clk r "Verified" verified_validation) /\
    (isValid res = true <-> errors res = []) /\
    (isValid res = false -> data res = None) /\
    (forall vN vA vD vV,
       columnTurn rt clk r "Name" name_validation = Ok vN ->
       columnTurn rt clk r "Amount" amount_validation = Ok vA ->
       columnTurn rt clk r "Date" date_validation = Ok vD ->
       columnTurn rt clk r "Verified" verified_validation = Ok vV ->
       data res = Some [("name", vN); ("amount", vA); ("date", vD); ("verified", vV);
                        ("sheetName", VStr sheetName)]).
Proof.
  unfold validateRow.
  change (columnMapping sheetConfigs_default)
    with [("Name", "name"); ("Amount", "amount"); ("Date", "date"); ("Verified", "verified")].
  rewrite validateColumns_cons,
    (validateColumn_turn clk r sheetConfigs_default n sheetName _ "Name" "name" name_validation eq_refl).
  cbn [bind].
  rewrite validateColumns_cons,
    (validateColumn_turn clk r sheetConfigs_default n sheetName _ "Amount" "amount" amount_validation eq_refl).
  cbn [bind].
  rewrite validateColumns_cons,
    (validateColumn_turn clk r sheetConfigs_default n sheetName _ "Date" "date" date_validation eq_refl).
  cbn [bind].
  rewrite validateColumns_cons,
    (validateColumn_turn clk r sheetConfigs_default n sheetName _ "Verified" "verified" verified_validation eq_refl).
  cbn [bind validateColumns].
  destruct (columnTurn rt clk r "Name" name_validation) as [vN|mN],
           (columnTurn rt clk r "Amount" amount_validation) as [vA|mA],
           (columnTurn rt clk r "Date" date_validation) as [vD|mD],
           (columnTurn rt clk r "Verified" verified_validation) as [vV|mV];
    eexists; (split; [reflexivity|]);
    cbn [errors isValid data st_errors st_isValid st_transformedData turnErrors app];
    (split_and!;
     [ reflexivity
     | split; [try reflexivity; discriminate|try reflexivity; discriminate]
     | try reflexivity; discriminate
     | intros ? ? ? ?; intros [= <-] [= <-] [= <-] [= <-] || (intros; discriminate) ]);
    reflexivity.
Qed.

Lemma turnErrors_nil sheetName n (turn : result value) :
  turnErrors sheetName n turn = [] <-> exists v, turn = Ok v.
Proof.
  destruct turn as [v|msg]; simpl.
  - split; [by exists v|done].
  - split; [done|by intros [? ?]].
Qed.

(** The cells the server accepts are those that get through the four
    turns, with the values of the document. *)
Lemma server_cells_turns clk r t :
  server_cells rt clk r t <->
  columnTurn rt clk r "Name" name_validation = Ok (VStr (ToString rt (get "Name" r))) /\
  columnTurn rt clk r "Amount" amount_validation = Ok (VNum (Number rt (get "Amount" r))) /\
  columnTurn rt clk r "Date" date_validation = Ok (VDate (Some t)) /\
  columnTurn rt clk r "Verified" verified_validation = Ok (server_verified (get "Verified" r)).
Proof.
  unfold server_cells. rewrite turn_Verified_ok, turn_Name, turn_Amount, turn_Date.
  rewrite <- isCurrentMonth_window.
  destruct (truthy (get "Name" r)); [|split; [by intros [? _]|by intros [? _]]].
  destruct (truthy (get "Amount" r));
    [|split; [by intros (_ & ? & _)|by intros (_ & ? & _)]].
  destruct (num_isNaN (Number rt (get "Amount" r)));
    [split; [by intros (_ & _ & ? & _)|by intros (_ & ? & _)]|].
  destruct (num_ltb (Number rt (get "Amount" r)) (Fin 0));
    [split; [by intros (_ & _ & _ & ? & _)|by intros (_ & ? & _)]|].
  destruct (truthy (get "Date" r));
    [|split; [by intros (_ & _ & _ & _ & ? & _)|by intros (_ & _ & ? & _)]].
  destruct (new_Date rt (get "Date" r)) as [t'|];
    [|split; [by intros (_ & _ & _ & _ & _ & ? & _)|by intros (_ & _ & ? & _)]].
  destruct (isCurrentMonth rt clk t') eqn:Hw.
  - split.
    + intros (_ & _ & _ & _ & _ & Heq & _ & Hv). injection Heq as Heq. subst t'.
      by split_and!.
    + intros (_ & _ & Heq & [Hv _]). injection Heq as Heq. subst t'. by split_and!.
  - split.
    + intros (_ & _ & _ & _ & _ & Heq & Ht & _). injection Heq as Heq. subst t'.
      congruence.
    + by intros (_ & _ & ? & _).
Qed.

(** Cells that get through the four turns are cells the server accepts. *)
Lemma turns_server_cells clk r vN vA vD vV :
  columnTurn rt clk r "Name" name_validation = Ok vN ->
  columnTurn rt clk r "Amount" amount_validation = Ok vA ->
  columnTurn rt clk r "Date" date_validation = Ok vD ->
  columnTurn rt clk r "Verified" verified_validation = Ok vV ->
  exists t, server_cells rt clk r t.
Proof.
  intros HN HA HD HV.
  assert (Ht : exists t, vD = VDate (Some t)).
  { rewrite turn_Date in HD. destruct (truthy (get "Date" r)); [|done].
    destruct (new_Date rt (get "Date" r)) as [t|]; [|done].
    destruct (isCurrentMonth rt clk t); [|done]. injection HD as <-. by exists t. }
  destruct Ht as [t ->]. exists t. apply server_cells_turns. split_and!; [| |done|].
  - rewrite turn_Name in *. by destruct (truthy (get "Name" r)).
  - rewrite turn_Amount in *. destruct (truthy (get "Amount" r)); [|done].
    destruct (num_isNaN (Number rt (get "Amount" r))); [done|].
    by destruct (num_ltb (Number rt (get "Amount" r)) (Fin 0)).
  - apply turn_Verified_ok. by apply turn_Verified_ok in HV as [? _].
Qed.

(** ** The rows of a sheet *)

Lemma validateSheetRows_valid clock rows i sheetName acc :
  exists res,
    validateSheetRows rt clock rows i sheetName acc = Ok res /\
    valid res =
    valid acc ++
    concat (imap (fun j r => option_list (serverRowData rt clock sheetName (i + j) r)) rows).
Proof.
  revert i acc. induction rows as [|r rows IH]; intros i acc; simpl.
  - eexists. split; [done|]. by rewrite app_nil_r.
  - destruct (validateRow_turns (clock i) r (i + 2) sheetName)
      as (res & Hres & _ & _ & Hinvalid & _).
    rewrite Hres. simpl.
    match goal with |- context [validateSheetRows rt clock rows (S i) sheetName ?a] =>
      destruct (IH (S i) a) as (res' & -> & He) end.
    exists res'. split; [done|]. rewrite He.
    unfold serverRowData at 2. rewrite Nat.add_0_r, Hres.
    assert (Htail :
      imap (fun j r0 => option_list (serverRowData rt clock sheetName (S i + j) r0)) rows =
      imap ((fun j r0 => option_list (serverRowData rt clock sheetName (i + j) r0)) ∘ S) rows).
    { apply imap_ext. intros j x _. simpl. by rewrite Nat.add_succ_r. }
    rewrite Htail.
    destruct (isValid res) eqn:Hv; simpl.
    + rewrite <- app_assoc. by destruct (data res).
    + by rewrite (Hinvalid eq_refl).
Qed.

(** A row has a document exactly when it has no error. *)
Lemma serverRowData_errors clock sheetName i r :
  is_Some (serverRowData rt clock sheetName i r) <->
  serverRowErrors rt clock sheetName i r = [].
Proof.
  unfold serverRowData, serverRowErrors.
  destruct (validateRow_turns (clock i) r (i + 2) sheetName)
    as (res & -> & He & Hvalid & Hinvalid & Hdata).
  split.
  - intros Hd. apply Hvalid. destruct (isValid res); [done|].
    rewrite (Hinvalid eq_refl) in Hd. by destruct Hd.
  - intros Hnil. rewrite He in Hnil.
    apply app_eq_nil in Hnil as [[vN HN]%turnErrors_nil Hnil].
    apply app_eq_nil in Hnil as [[vA HA]%turnErrors_nil Hnil].
    apply app_eq_nil in Hnil as [[vD HD]%turnErrors_nil [vV HV]%turnErrors_nil].
    by rewrite (Hdata vN vA vD vV HN HA HD HV).
Qed.
End ServerRows.

(** Rows that each yield a document or errors: as many documents as rows
    exactly when there is no error. *)
Lemma documents_or_errors {A B C} (d : nat -> A -> option B) (e : nat -> A -> list C)
    (l : list A) :
  (forall i a, is_Some (d i a) <-> e i a = []) ->
  (length (concat (imap (fun i a => option_list (d i a)) l)) <= length l)%nat /\
  (concat (imap e l) = [] <->
   length (concat (imap (fun i a => option_list (d i a)) l)) = length l).
Proof.
  revert d e. induction l as [|a l IH]; intros d e Hde; simpl; [done|].
  destruct (IH (fun i => d (S i)) (fun i => e (S i))) as [Hle Hiff];
    [intros i b; apply Hde|].
  rewrite length_app. cbv [compose]. cbv beta in Hle, Hiff.
  destruct (d 0%nat a) as [b|] eqn:Hd; simpl.
  - assert (He : e 0%nat a = []) by (apply Hde; by rewrite Hd).
    rewrite He. simpl. split; [lia|]. rewrite Hiff. lia.
  - assert (He : e 0%nat a <> []).
    { intros He. apply Hde in He. rewrite Hd in He. by destruct He. }
    split; [lia|]. split; [|lia]. intros [? _]%app_eq_nil. done.
Qed.

(** X10. Under the default configuration [validateRow] accepts a row
    exactly when its Name is truthy, its Amount is truthy with a number
    that is not [NaN] and not below zero, its Date is truthy and parses
    to a time between the time twelve months ago and now, and its
    Verified cell is falsy or a string. The document of an accepted row
    has the five fields name, amount, date, verified and sheetName, in
    this order: the text of the name, the number of the amount, the
    parsed date, [null] for a falsy Verified cell and otherwise whether
    its string, lower-cased (and not trimmed), is [yes], and the name of
    the sheet. A row that is not accepted has no document and at least
    one error. *)
Theorem validateRow_accepts (rt : Js.Runtime) (clk : Z * Z) (r : Js.object) (n : nat)
    (sheetName : string) :
  exists res,
    Server.validateRow rt clk r Server.sheetConfigs_default n sheetName = Js.Ok res /\
    (Server.isValid res = true <-> exists t, Props.server_cells rt clk r t) /\
    (forall t, Props.server_cells rt clk r t ->
       Server.data res = Some (Props.server_document rt r t sheetName) /\
       Server.errors res = []) /\
    (Server.isValid res = false -> Server.data res = None /\ Server.errors res <> []).
Proof.
  destruct (validateRow_turns rt clk r n sheetName)
    as (res & Hres & He & Hvalid & Hinvalid & Hdata).
  exists res. split; [done|].
  assert (Hcells : forall t, Props.server_cells rt clk r t ->
            Server.data res = Some (Props.server_document rt r t sheetName) /\
            Server.errors res = []).
  { intros t (HN & HA & HD & HV)%server_cells_turns. split.
    - by apply Hdata.
    - by rewrite He, HN, HA, HD, HV. }
  split_and!; [|done|].
  - rewrite Hvalid. split.
    + rewrite He. intros Hnil.
      apply app_eq_nil in Hnil as [[vN HN]%turnErrors_nil Hnil].
      apply app_eq_nil in Hnil as [[vA HA]%turnErrors_nil Hnil].
      apply app_eq_nil in Hnil as [[vD HD]%turnErrors_nil [vV HV]%turnErrors_nil].
      by apply (turns_server_cells rt clk r vN vA vD vV).
    + intros [t Ht]. by apply (Hcells t).
  - intros Hv. split; [by apply Hinvalid|].
    intros Hnil. apply Hvalid in Hnil. congruence.
Qed.

(** The window is twelve months wide: on a host in UTC, with the clock
    at 2024-06-01, a row dated 2023-07-15 is accepted; its amount is the
    string "0", stored as the number 0. *)
Example validateRow_last_year :
  Server.validateRow Host.runtime (1717200000000, 1717200000000) Examples.row_last_year
    Server.sheetConfigs_default 2 "Sheet1" =
  Js.Ok {| Server.isValid := true;
           Server.data :=
             Some [("name", Js.VStr "A"); ("amount", Js.VNum (Js.Fin 0));
                   ("date", Js.VDate (Some 1689379200000)); ("verified", Js.VBool true);
                   ("sheetName", Js.VStr "Sheet1")];
           Server.errors := [] |}.
Proof. vm_compute. reflexivity. Qed.

(** X11. [validateSheetData] sorts the rows into two: a row without
    error yields its document, appended to [valid]; a row with errors
    yields no document and its errors are appended to [errors]; both in
    the order of the rows. There are as many documents as rows exactly
    when there is no error. *)
Theorem validateSheetData_partition (rt : Js.Runtime) (clock : nat -> Z * Z)
    (rows : list Js.object) (sheetName : string) :
  exists res,
    Server.validateSheetData rt clock rows sheetName = Js.Ok res /\
    Server.valid res =
      concat (imap (fun i r => option_list (Props.serverRowData rt clock sheetName i r)) rows) /\
    Server.sheet_errors res = concat (imap (Props.serverRowErrors rt clock sheetName) rows) /\
    (forall i r, rows !! i = Some r ->
       (is_Some (Props.serverRowData rt clock sheetName i r) <->
        Props.serverRowErrors rt clock sheetName i r = [])) /\
    (length (Server.valid res) <= length rows)%nat /\
    (Server.sheet_errors res = [] <-> length (Server.valid res) = length rows).
Proof.
  destruct (validateSheetData_errors rt clock rows sheetName) as (res & Hres & He).
  exists res. split; [done|].
  assert (Hv : Server.valid res =
    concat (imap (fun i r => option_list (Props.serverRowData rt clock sheetName i r)) rows)).
  { unfold Server.validateSheetData in Hres.
    destruct (validateSheetRows_valid rt clock rows 0 sheetName
                {| Server.valid := []; Server.sheet_errors := [] |}) as (res' & Hres' & Hv).
    rewrite Hres in Hres'. injection Hres' as <-. exact Hv. }
  destruct (documents_or_errors (Props.serverRowData rt clock sheetName)
              (Props.serverRowErrors rt clock sheetName) rows) as [Hle Hiff].
  { intros i r. apply serverRowData_errors. }
  rewrite Hv, He. split_and!; try done.
  intros i r _. apply serverRowData_errors.
Qed.

(** X11 on the sample sheet: one document, for the third row. *)
Example validateSheetData_sample :
  exists res,
    Server.validateSheetData Host.runtime Examples.server_clock_2024
      [Examples.row_future; Examples.row_bad; Examples.row_last_year] "Sheet1" = Js.Ok res /\
    Js.get "date" <$> Server.valid res = [Js.VDate (Some 1689379200000)] /\
    Server.row <$> Server.sheet_errors res = [2; 3; 3; 3]%nat.
Proof. eexists. split; [vm_compute; reflexivity|]. split; reflexivity. Qed.

(** X12. What [validateRow] answers to a cell it refuses, under the
    default configuration. A required cell (Name, Amount, Date) that is
    falsy (absent, [null], the empty string, [false], the number 0 or
    [NaN]) is reported as missing: an Amount of 0 draws "Amount is
    required". An Amount whose number is [NaN] draws "Amount must be a
    number", one below zero "Amount must be greater than 0" (with the
    text of the number 0 of the host). A Date that does not parse draws
    "Date must be a valid date"; a Date outside the window from twelve
    months ago to now, so also every date in the future, draws "Date
    must be in the current month". A truthy Verified cell that is not a
    string (the boolean [true], a number) makes the row invalid. Every
    such row is invalid. *)
Theorem validateRow_messages (rt : Js.Runtime) (clk : Z * Z) (r : Js.object) (n : nat)
    (sheetName : string) :
  exists res,
    Server.validateRow rt clk r Server.sheetConfigs_default n sheetName = Js.Ok res /\
    (forall col,
       col ∈ ["Name"; "Amount"; "Date"] -> Js.truthy (Js.get col r) = false ->
       Props.server_error sheetName n (col +:+ " is required") ∈ Server.errors res) /\
    (Js.truthy (Js.get "Amount" r) = true ->
     Js.num_isNaN (Js.Number rt (Js.get "Amount" r)) = true ->
     Props.server_error sheetName n "Amount must be a number" ∈ Server.errors res) /\
    (Js.truthy (Js.get "Amount" r) = true ->
     Js.num_ltb (Js.Number rt (Js.get "Amount" r)) (Js.Fin 0) = true ->
     Props.server_error sheetName n
       ("Amount must be greater than " +:+ Js.ToString rt (Js.VNum (Js.Fin 0)))
     ∈ Server.errors res) /\
    (Js.truthy (Js.get "Date" r) = true ->
     Js.new_Date rt (Js.get "Date" r) = None ->
     Props.server_error sheetName n "Date must be a valid date" ∈ Server.errors res) /\
    (forall t,
       Js.truthy (Js.get "Date" r) = true ->
       Js.new_Date rt (Js.get "Date" r) = Some t ->
       t < Props.twelveMonthsAgo rt clk \/ fst clk < t ->
       Props.server_error sheetName n "Date must be in the current month" ∈ Server.errors res) /\
    (Js.truthy (Js.get "Verified" r) = true ->
     (forall s, Js.get "Verified" r <> Js.VStr s) ->
     exists msg, Props.server_error sheetName n msg ∈ Server.errors res) /\
    (Server.errors res <> [] -> Server.isValid res = false /\ Server.data res = None).
Proof.
  destruct (validateRow_turns rt clk r n sheetName)
    as (res & Hres & He & Hvalid & Hinvalid & Hdata).
  exists res. split; [done|].
  assert (Hlast : Server.errors res <> [] ->
            Server.isValid res = false /\ Server.data res = None).
  { intros Hne. assert (Hv : Server.isValid res = false).
    { apply not_true_iff_false. intros Hv%Hvalid. done. }
    split; [done|by apply Hinvalid]. }
  split_and!; [..|exact Hlast];
    rewrite He, turn_Name, turn_Amount, turn_Date, turn_Verified.
  - intros col Hcol Hf. rewrite !elem_of_cons, elem_of_nil in Hcol.
    destruct Hcol as [->|[->|[->|[]]]]; rewrite Hf; rewrite !elem_of_app; simpl.
    + left. apply list_elem_of_here.
    + right. left. apply list_elem_of_here.
    + right. right. left. apply list_elem_of_here.
  - intros -> ->. rewrite !elem_of_app; simpl. right. left. apply list_elem_of_here.
  - intros -> Hneg.
    assert (Hnan : Js.num_isNaN (Js.Number rt (Js.get "Amount" r)) = false).
    { by destruct (Js.Number rt (Js.get "Amount" r)). }
    rewrite Hnan, Hneg. rewrite !elem_of_app; simpl. right. left. apply list_elem_of_here.
  - intros -> ->. rewrite !elem_of_app; simpl. right. right. left. apply list_elem_of_here.
  - intros t -> -> Hout.
    assert (Hw : Server.isCurrentMonth rt clk t = false).
    { apply not_true_iff_false. intros Hw%isCurrentMonth_window. lia. }
    rewrite Hw. rewrite !elem_of_app; simpl. right. right. left. apply list_elem_of_here.
  - intros Ht Hs. rewrite Ht.
    assert (Hthrow : exists msg, Server.verified_transform (Js.get "Verified" r) = Js.Throw msg).
    { destruct (Js.get "Verified" r) as [| |b|x|s|t]; simpl; try by eexists.
      by destruct (Hs s). }
    destruct Hthrow as [msg ->]. exists msg. rewrite !elem_of_app; simpl.
    right. right. right. apply list_elem_of_here.
Qed.

(** X12 on a row whose amount is the number 0. *)
Example validateRow_zero_amount :
  Server.validateRow Host.runtime (1717200000000, 1717200000000) Examples.row_zero_amount
    Server.sheetConfigs_default 2 "Sheet1" =
  Js.Ok {| Server.isValid := false; Server.data := None;
           Server.errors := [Props.server_error "Sheet1" 2 "Amount is required"] |}.
Proof. vm_compute. reflexivity. Qed.

(* ===================================================================== *)
(** * The upload controller: validation, then import *)
(* ===================================================================== *)

Section UploadController.
Import Js Server Controller Props.
Context (rt : Runtime).

Lemma map_fmap {A B} (f : A -> B) (l : list A) : map f l = f <$> l.
Proof. induction l as [|x l IH]; simpl; [done|]. by rewrite IH. Qed.

(** [validateSheetData] returns the documents and the errors of the
    sheet. *)
Lemma validateSheetData_report (clk : nat -> Z * Z) (rows : list object) sheetName :
  exists res,
    validateSheetData rt clk rows sheetName = Ok res /\
    valid res = concat (imap (fun i r => option_list (serverRowData rt clk sheetName i r)) rows) /\
    sheet_errors res = concat (imap (serverRowErrors rt clk sheetName) rows).
Proof.
  destruct (validateSheetData_errors rt clk rows sheetName) as (res & Hres & He).
  exists res. split; [done|]. split; [|done].
  unfold validateSheetData in Hres.
  destruct (validateSheetRows_valid rt clk rows 0 sheetName
              {| valid := []; sheet_errors := [] |}) as (res' & Hres' & Hv).
  rewrite Hres in Hres'. by injection Hres' as <-.
Qed.

Lemma processSheets_reports clock sheets k results :
  processSheets rt clock sheets k results =
  Ok (results ++ imap (fun j sheet => sheetReport rt clock (k + j) sheet) sheets).
Proof.
  revert k results. induction sheets as [|[sheetName rows] sheets IH]; intros k results; simpl.
  - by rewrite app_nil_r.
  - destruct (validateSheetData_report (clock k) rows sheetName) as (res & -> & Hv & He).
    simpl. rewrite IH, <- app_assoc. f_equal. f_equal. simpl. f_equal.
    + unfold sheetReport, sheetDocuments, sheetErrors. simpl.
      by rewrite Nat.add_0_r, Hv, He.
    + apply imap_ext. intros j sheet _. simpl. by rewrite Nat.add_succ_r.
Qed.

Lemma processFile_reports clock sheets :
  processFile rt clock (Ok sheets) = Ok (imap (sheetReport rt clock) sheets).
Proof. unfold processFile. simpl. by rewrite processSheets_reports. Qed.

Lemma reports_errors clock (sheets : list (string * list object)) :
  concat (map errors (imap (sheetReport rt clock) sheets)) = allErrors rt clock sheets.
Proof.
  unfold allErrors. rewrite map_fmap. f_equal.
  revert clock. induction sheets as [|sheet sheets IH]; intros clock; simpl; [done|].
  f_equal. apply (IH (fun k => clock (S k))).
Qed.

Lemma reports_data clock (sheets : list (string * list object)) :
  concat (map data (imap (sheetReport rt clock) sheets)) = allDocuments rt clock sheets.
Proof.
  unfold allDocuments. rewrite map_fmap. f_equal.
  revert clock. induction sheets as [|sheet sheets IH]; intros clock; simpl; [done|].
  f_equal. apply (IH (fun k => clock (S k))).
Qed.

Lemma hasErrors_allErrors (reports : list SheetReport) :
  existsb (fun result => (0 <? length (errors result))%nat) reports = false <->
  concat (map errors reports) = [].
Proof.
  induction reports as [|report reports IH]; simpl; [done|].
  rewrite orb_false_iff, IH, length_pos_nil. split.
  - by intros [-> ->].
  - by intros [? ?]%app_eq_nil.
Qed.

(** Without an error there are as many documents as rows. *)
Lemma allDocuments_length clock (sheets : list (string * list object)) :
  allErrors rt clock sheets = [] ->
  length (allDocuments rt clock sheets) = totalRows sheets.
Proof.
  unfold allErrors, allDocuments, totalRows.
  revert clock. induction sheets as [|[sheetName rows] sheets IH]; intros clock; [done|].
  rewrite fmap_cons. cbn [imap concat snd].
  intros [Hs Hrest]%app_eq_nil. rewrite !length_app.
  rewrite <- (IH (fun k => clock (S k)) Hrest).
  f_equal. unfold sheetDocuments, sheetErrors in *. cbn [fst snd] in *.
  destruct (documents_or_errors (serverRowData rt (clock 0%nat) sheetName)
              (serverRowErrors rt (clock 0%nat) sheetName) rows) as [_ Hiff].
  { intros i r. apply serverRowData_errors. }
  by apply Hiff.
Qed.

(** The session after [validateFile]. *)
Lemma validateFile_session clock (sheets : list (string * list object)) session :
  (allErrors rt clock sheets = [] ->
   fst (validateFile rt clock (Some (Ok sheets)) session) =
   Rows (allDocuments rt clock sheets)) /\
  (allErrors rt clock sheets <> [] ->
   fst (validateFile rt clock (Some (Ok sheets)) session) = session).
Proof.
  unfold validateFile. rewrite processFile_reports.
  destruct (existsb _ (imap (sheetReport rt clock) sheets)) eqn:Hex.
  - split; [|done]. intros Hclean. rewrite <- reports_errors in Hclean.
    apply hasErrors_allErrors in Hclean. congruence.
  - split; [intros _; cbv zeta; by rewrite reports_data|].
    intros Hbad. apply hasErrors_allErrors in Hex. by rewrite reports_errors in Hex.
Qed.
End UploadController.

(** X13. [validateFile] is all or nothing. When no row of any sheet has
    an error it answers 200, stores the documents of all the rows of all
    the sheets in the session, in order, and reports their number, which
    is the number of rows of the workbook. When some row has an error it
    answers 400 with the errors of all the sheets, in order, and leaves
    the session as it was; so it does without a file (400, "No file
    uploaded") and when the workbook cannot be read (500, the message
    prefixed). *)
Theorem validateFile_all_or_nothing (rt : Js.Runtime) (clock : nat -> nat -> Z * Z)
    (sheets : list (string * list Js.object)) (session : Controller.SessionData) :
  (Props.allErrors rt clock sheets = [] ->
   Controller.validateFile rt clock (Some (Js.Ok sheets)) session =
   (Controller.Rows (Props.allDocuments rt clock sheets),
    {| Controller.status := 200;
       Controller.body :=
         {| Controller.success := Some true; Controller.error := None;
            Controller.body_errors := None;
            Controller.message := Some "File validated successfully";
            Controller.rowCount := Some (Props.totalRows sheets);
            Controller.importedCount := None |} |})) /\
  (Props.allErrors rt clock sheets <> [] ->
   Controller.validateFile rt clock (Some (Js.Ok sheets)) session =
   (session,
    {| Controller.status := 400;
       Controller.body :=
         {| Controller.success := Some false; Controller.error := None;
            Controller.body_errors := Some (Props.allErrors rt clock sheets);
            Controller.message := None; Controller.rowCount := None;
            Controller.importedCount := None |} |})) /\
  Controller.validateFile rt clock None session =
  (session,
   {| Controller.status := 400;
      Controller.body :=
        {| Controller.success := None; Controller.error := Some "No file uploaded";
           Controller.body_errors := None; Controller.message := None;
           Controller.rowCount := None; Controller.importedCount := None |} |}) /\
  (forall msg,
     Controller.validateFile rt clock (Some (Js.Throw msg)) session =
     (session,
      {| Controller.status := 500;
         Controller.body :=
           {| Controller.success := Some false;
              Controller.error := Some ("Error processing Excel file: " +:+ msg);
              Controller.body_errors := None; Controller.message := None;
              Controller.rowCount := None; Controller.importedCount := None |} |})).
Proof.
  split_and!; [| |done|done].
  - intros Hclean. unfold Controller.validateFile.
    rewrite processFile_reports.
    assert (Hno : existsb (fun result => (0 <? length (Controller.errors result))%nat)
                    (imap (Props.sheetReport rt clock) sheets) = false).
    { apply hasErrors_allErrors. by rewrite reports_errors. }
    rewrite Hno. cbv zeta. rewrite reports_data.
    by rewrite (allDocuments_length rt clock sheets Hclean).
  - intros Hbad. unfold Controller.validateFile.
    rewrite processFile_reports.
    assert (Hyes : existsb (fun result => (0 <? length (Controller.errors result))%nat)
                     (imap (Props.sheetReport rt clock) sheets) = true).
    { apply not_false_iff_true. intros Hno%hasErrors_allErrors.
      by rewrite reports_errors in Hno. }
    rewrite Hyes. by rewrite reports_errors.
Qed.

(** X13 on a workbook of two sheets and three rows. *)
Example validateFile_sample :
  Controller.status
    (snd (Controller.validateFile Host.runtime Examples.workbook_clock_2024
            (Some (Js.Ok Examples.workbook_accepted)) Controller.Unset)) = 200 /\
  Controller.rowCount
    (Controller.body
       (snd (Controller.validateFile Host.runtime Examples.workbook_clock_2024
               (Some (Js.Ok Examples.workbook_accepted)) Controller.Unset))) = Some 3%nat /\
  Controller.validateFile Host.runtime Examples.workbook_clock_2024
    (Some (Js.Ok Examples.workbook_refused)) Controller.Unset =
  (Controller.Unset,
   {| Controller.status := 400;
      Controller.body :=
        {| Controller.success := Some false; Controller.error := None;
           Controller.body_errors := Some [Props.server_error "Sheet1" 3 "Amount is required"];
           Controller.message := None; Controller.rowCount := None;
           Controller.importedCount := None |} |}).
Proof. split_and!; vm_compute; reflexivity. Qed.

(** X14. [importData] imports what the session holds, once. With no
    validated data in the session (never set, [null] or an empty array)
    it answers 400 and does not call [insertMany]. Otherwise it passes
    the array to [insertMany]; when that succeeds it answers 200 with the
    number of documents inserted and sets the session property to
    [null], so that a second run answers 400 and inserts nothing; when
    that fails it answers 500 with the message and leaves the session as
    it was. *)
Theorem importData_once (insertMany : list Js.object -> Js.result nat)
    (first : Js.object) (others : list Js.object) :
  (forall session,
     session = Controller.Unset \/ session = Controller.Null \/ session = Controller.Rows [] ->
     fst (fst (Controller.importData insertMany session)) = session /\
     Controller.status (snd (fst (Controller.importData insertMany session))) = 400 /\
     snd (Controller.importData insertMany session) = []) /\
  (forall n,
     insertMany (first :: others) = Js.Ok n ->
     Controller.importData insertMany (Controller.Rows (first :: others)) =
     (Controller.Null,
      {| Controller.status := 200;
         Controller.body :=
           {| Controller.success := Some true; Controller.error := None;
              Controller.body_errors := None;
              Controller.message := Some "Data imported successfully";
              Controller.rowCount := None; Controller.importedCount := Some n |} |},
      [first :: others]) /\
     Controller.status
       (snd (fst (Controller.importData insertMany
                    (fst (fst (Controller.importData insertMany
                                 (Controller.Rows (first :: others)))))))) = 400 /\
     snd (Controller.importData insertMany
            (fst (fst (Controller.importData insertMany
                         (Controller.Rows (first :: others)))))) = []) /\
  (forall msg,
     insertMany (first :: others) = Js.Throw msg ->
     Controller.importData insertMany (Controller.Rows (first :: others)) =
     (Controller.Rows (first :: others),
      {| Controller.status := 500;
         Controller.body :=
           {| Controller.success := Some false; Controller.error := Some msg;
              Controller.body_errors := None; Controller.message := None;
              Controller.rowCount := None; Controller.importedCount := None |} |},
      [first :: others])).
Proof.
  split_and!.
  - by intros session [->|[->| ->]].
  - intros n Hn. unfold Controller.importData at 1 3 5. rewrite Hn. by split_and!.
  - intros msg Hmsg. unfold Controller.importData. by rewrite Hmsg.
Qed.

(** X15. What gets inserted when [importData] runs after [validateFile],
    on the session that [validateFile] leaves. After a workbook without
    error: its documents, in one call, unless it has no row at all; then
    (validation has answered 200 with a count of 0) nothing is inserted
    and the import is refused. After a workbook with an error, after a
    workbook that could not be read and after a request without a file:
    whatever an earlier validation had left in the session, since the
    refusal does not clear it. *)
Theorem validate_then_import (rt : Js.Runtime) (clock : nat -> nat -> Z * Z)
    (insertMany : list Js.object -> Js.result nat)
    (sheets : list (string * list Js.object)) (session : Controller.SessionData) :
  (Props.allErrors rt clock sheets = [] ->
   Props.inserted rt clock insertMany (Some (Js.Ok sheets)) session =
   match Props.allDocuments rt clock sheets with
   | [] => []
   | docs => [docs]
   end /\
   (Props.totalRows sheets = 0%nat ->
    Controller.status
      (snd (Controller.validateFile rt clock (Some (Js.Ok sheets)) session)) = 200 /\
    Controller.status
      (snd (fst (Controller.importData insertMany
                   (fst (Controller.validateFile rt clock (Some (Js.Ok sheets)) session)))))
    = 400)) /\
  (Props.allErrors rt clock sheets <> [] ->
   Props.inserted rt clock insertMany (Some (Js.Ok sheets)) session =
   match session with
   | Controller.Rows (first :: others) => [first :: others]
   | _ => []
   end) /\
  (forall msg,
     Props.inserted rt clock insertMany (Some (Js.Throw msg)) session =
     match session with
     | Controller.Rows (first :: others) => [first :: others]
     | _ => []
     end) /\
  Props.inserted rt clock insertMany None session =
  match session with
  | Controller.Rows (first :: others) => [first :: others]
  | _ => []
  end.
Proof.
  assert (Hkept : snd (Controller.importData insertMany session) =
                  match session with
                  | Controller.Rows (first :: others) => [first :: others]
                  | _ => []
                  end).
  { destruct session as [| |[|first others]]; try done.
    unfold Controller.importData. by destruct (insertMany (first :: others)). }
  destruct (validateFile_session rt clock sheets session) as [Hclean Hbad].
  split_and!; [| |intros msg; exact Hkept|exact Hkept].
  - intros Hok. unfold Props.inserted. rewrite (Hclean Hok). split.
    + destruct (Props.allDocuments rt clock sheets) as [|d docs]; [done|].
      unfold Controller.importData. by destruct (insertMany (d :: docs)).
    + intros Hzero.
      assert (Hdocs : Props.allDocuments rt clock sheets = []).
      { apply length_zero_iff_nil. by rewrite (allDocuments_length rt clock sheets Hok). }
      rewrite Hdocs. split; [|done].
      unfold Controller.validateFile. rewrite processFile_reports.
      assert (Hno : existsb (fun result => (0 <? length (Controller.errors result))%nat)
                      (imap (Props.sheetReport rt clock) sheets) = false).
      { apply hasErrors_allErrors. by rewrite reports_errors. }
      by rewrite Hno.
  - intros Hnot. unfold Props.inserted. by rewrite (Hbad Hnot).
Qed.

(* ===================================================================== *)
(** * The preview: pages and the deletion of a row *)
(* ===================================================================== *)

Section Pages.
Import Js Preview Props.

Lemma totalPages_div (currentData : list object) :
  totalPages currentData = (Z.of_nat (length currentData) + 9) / 10.
Proof.
  unfold totalPages, ROWS_PER_PAGE.
  set (n := Z.of_nat (length currentData)).
  assert (Hq : (inject_Z n / inject_Z 10 == n # 10)%Q).
  { unfold Qdiv, Qinv, inject_Z. simpl. unfold Qeq, Qmult. simpl. lia. }
  rewrite (Qceiling_comp _ _ Hq). unfold Qceiling, Qfloor, Qopp. simpl.
  pose proof (Z.div_mod (- n) 10) as H1. pose proof (Z.mod_pos_bound (- n) 10) as H2.
  pose proof (Z.div_mod (n + 9) 10) as H3. pose proof (Z.mod_pos_bound (n + 9) 10) as H4.
  lia.
Qed.

(** The page that [slice] cuts out. *)
Lemma displayData_page_rows (currentData : list object) (page : Z) :
  1 <= page -> displayData currentData page = page_rows currentData page.
Proof.
  intros Hpage. unfold displayData, slice, startIndex, ROWS_PER_PAGE, page_rows.
  set (len := Z.of_nat (length currentData)).
  set (start := (page - 1) * 10).
  assert (Hstart : 0 <= start) by (unfold start; lia).
  replace (10 * (page - 1)) with start by (unfold start; lia).
  destruct (Z.ltb_spec start 0) as [?|_]; [lia|].
  destruct (Z.ltb_spec (start + 10) 0) as [?|_]; [lia|].
  destruct (Z.le_gt_cases len start) as [Hout|Hin].
  - rewrite (Z.min_r start len), (Z.min_r (start + 10) len) by lia.
    rewrite (drop_ge currentData (Z.to_nat len)) by (unfold len; lia).
    rewrite (drop_ge currentData (Z.to_nat start)) by (unfold len in Hout; lia).
    by rewrite !take_nil.
  - rewrite (Z.min_l start len) by lia.
    destruct (Z.le_gt_cases (start + 10) len) as [Hfull|Hpart].
    + rewrite (Z.min_l (start + 10) len) by lia. f_equal. lia.
    + rewrite (Z.min_r (start + 10) len) by lia.
      rewrite !take_ge; [done| |]; rewrite length_drop; unfold len in *; lia.
Qed.

Lemma page_rows_lookup (rows : list object) (page : Z) (i : nat) :
  1 <= page ->
  page_rows rows page !! i =
  if decide (i < 10)%nat then rows !! (Z.to_nat (10 * (page - 1)) + i)%nat else None.
Proof.
  intros Hpage. unfold page_rows. destruct (decide (i < 10)%nat) as [Hi|Hi].
  - by rewrite lookup_take_lt, lookup_drop.
  - apply lookup_take_ge. lia.
Qed.

(** The pages, one after the other, are the rows. *)
Lemma pages_concat (m : nat) (rows : list object) :
  (length rows <= 10 * m)%nat ->
  concat ((fun k => take 10 (drop (10 * k) rows)) <$> seq 0 m) = rows.
Proof.
  revert rows. induction m as [|m IH]; intros rows Hlen.
  - destruct rows; [done|simpl in Hlen; lia].
  - cbn [seq]. rewrite <- fmap_S_seq. rewrite fmap_cons, <- list_fmap_compose. cbn [concat].
    rewrite Nat.mul_0_r, drop_0.
    transitivity (take 10 rows ++ drop 10 rows); [|apply take_drop]. f_equal.
    etransitivity; [|apply (IH (drop 10 rows)); rewrite length_drop; lia].
    f_equal. apply list_fmap_ext. intros _ k _. simpl.
    rewrite drop_drop. f_equal. f_equal. lia.
Qed.

(** The filter of [handleDeleteRow] takes out the element at [rowIndex],
    when there is one. *)
Lemma filter_index_delete (rows : list object) (rowIndex : Z) (k : nat) :
  Handlers.filter_index (fun index => negb (Z.of_nat index =? rowIndex)) rows k =
  if decide (Z.of_nat k <= rowIndex) then delete (Z.to_nat (rowIndex - Z.of_nat k)) rows
  else rows.
Proof.
  revert k. induction rows as [|r rows IH]; intros k; simpl.
  - by destruct (decide _).
  - rewrite IH. destruct (Z.eqb_spec (Z.of_nat k) rowIndex) as [<-|Hne]; simpl.
    + rewrite decide_False by lia. rewrite decide_True by lia.
      by rewrite Z.sub_diag.
    + destruct (decide (Z.of_nat k <= rowIndex)) as [Hle|Hgt].
      * rewrite decide_True by lia.
        replace (Z.to_nat (rowIndex - Z.of_nat k))
          with (S (Z.to_nat (rowIndex - Z.of_nat (S k)))) by lia.
        done.
      * by rewrite decide_False by lia.
Qed.

Lemma handleDeleteRow_delete (sheets : gmap string (list object)) sheetName rows (k : nat) :
  sheets !! sheetName = Some rows ->
  Handlers.handleDeleteRow sheetName (Z.of_nat k) sheets =
  Ok (<[sheetName := delete k rows]> sheets).
Proof.
  intros Hs. unfold Handlers.handleDeleteRow. rewrite Hs, filter_index_delete.
  rewrite decide_True by lia. do 3 f_equal. lia.
Qed.
End Pages.

(** X16. The pages of the preview cover the rows: page [p] (counted from
    1) shows the rows of positions [10 * (p - 1)] to [10 * (p - 1) + 9];
    it shows at least one row exactly when it is not beyond the last
    page, [totalPages]; and the pages 1 to [totalPages], one after the
    other, are the rows, each once and in order. *)
Theorem displayData_pages (currentData : list Js.object) :
  (forall page i,
     1 <= page ->
     Preview.displayData currentData page !! i =
     if decide (i < 10)%nat then currentData !! (Z.to_nat (Preview.startIndex page) + i)%nat
     else None) /\
  (forall page,
     1 <= page ->
     (Preview.displayData currentData page <> [] <-> page <= Preview.totalPages currentData)) /\
  concat ((fun k => Preview.displayData currentData (Z.of_nat k + 1)) <$>
          seq 0 (Z.to_nat (Preview.totalPages currentData))) = currentData.
Proof.
  split_and!.
  - intros page i Hpage. rewrite displayData_page_rows, page_rows_lookup by done.
    unfold Preview.startIndex, Preview.ROWS_PER_PAGE.
    by replace ((page - 1) * 10) with (10 * (page - 1)) by lia.
  - intros page Hpage. rewrite displayData_page_rows, totalPages_div by done.
    unfold Props.page_rows.
    pose proof (Z.div_mod (Z.of_nat (length currentData) + 9) 10) as H1.
    pose proof (Z.mod_pos_bound (Z.of_nat (length currentData) + 9) 10) as H2.
    split.
    + intros Hne.
      assert (Hlt : (Z.to_nat (10 * (page - 1)) < length currentData)%nat).
      { destruct (decide (Z.to_nat (10 * (page - 1)) < length currentData)%nat); [done|].
        exfalso. apply Hne. rewrite drop_ge by lia. apply take_nil. }
      lia.
    + intros Hle Hnil.
      assert (Hlen : length (take 10 (drop (Z.to_nat (10 * (page - 1))) currentData)) = 0%nat)
        by by rewrite Hnil.
      rewrite length_take, length_drop in Hlen. lia.
  - rewrite totalPages_div.
    pose proof (Z.div_mod (Z.of_nat (length currentData) + 9) 10) as H1.
    pose proof (Z.mod_pos_bound (Z.of_nat (length currentData) + 9) 10) as H2.
    rewrite <- (pages_concat (Z.to_nat ((Z.of_nat (length currentData) + 9) / 10)) currentData)
      at 2 by lia.
    f_equal. apply list_fmap_ext. intros _ k _.
    rewrite displayData_page_rows by lia. unfold Props.page_rows. do 2 f_equal. lia.
Qed.

(** X17. The delete button of a row removes that row. When the row [r]
    is shown at position [index] of the current page of the selected
    sheet, a click on its delete button followed by the confirmation
    gives the sheets in which the selected sheet has lost the row at the
    position where [r] was, and nothing else: the rows before it and
    after it stay, in order, and the other sheets are as they were. The
    dialog is closed, and the page and the selection are kept. *)
Theorem delete_removes_the_row_shown (sheets : gmap string (list Js.object))
    (st : Preview.PreviewState) (rows : list Js.object) (index : nat) (r : Js.object) :
  sheets !! Preview.selectedSheet st = Some rows ->
  1 <= Preview.page st ->
  Preview.displayData rows (Preview.page st) !! index = Some r ->
  exists k,
    rows !! k = Some r /\
    k = (Z.to_nat (Preview.startIndex (Preview.page st)) + index)%nat /\
    Preview.handleDeleteConfirm (Preview.deleteButton index st) sheets =
    (Props.dialog_closed st,
     Js.Ok (<[Preview.selectedSheet st := take k rows ++ drop (S k) rows]> sheets)).
Proof.
  intros Hsheet Hpage Hshown.
  rewrite displayData_page_rows, page_rows_lookup in Hshown by done.
  destruct (decide (index < 10)%nat) as [Hi|]; [|done].
  assert (Hstart : Preview.startIndex (Preview.page st) = 10 * (Preview.page st - 1)).
  { unfold Preview.startIndex, Preview.ROWS_PER_PAGE. lia. }
  rewrite <- Hstart in Hshown.
  exists (Z.to_nat (Preview.startIndex (Preview.page st)) + index)%nat.
  split_and!; [done|done|].
  unfold Preview.handleDeleteConfirm, Preview.deleteButton, Preview.handleDeleteClick.
  cbn [Preview.deleteDialog Preview.sheetName Preview.rowIndex Preview.selectedSheet
       Preview.page].
  replace (Preview.startIndex (Preview.page st) + Z.of_nat index)
    with (Z.of_nat (Z.to_nat (Preview.startIndex (Preview.page st)) + index)) by lia.
  rewrite (handleDeleteRow_delete sheets _ rows _ Hsheet).
  by rewrite delete_take_drop.
Qed.

(** X17 on the third page of a sheet of twenty-one rows. *)
Lemma delete_removes_the_row_shown_witness :
  exists k,
    Examples.numbered_rows !! k =
      Some [("Name", Js.VStr "A"); ("Amount", Js.VNum (Js.num_of_Z 21));
            ("Date", Js.VStr "2024-01-05"); ("Verified", Js.VBool true)] /\
    k = (Z.to_nat (Preview.startIndex (Preview.page Examples.preview_page_3)) + 0)%nat /\
    Preview.handleDeleteConfirm (Preview.deleteButton 0 Examples.preview_page_3)
      {[ "Sheet1" := Examples.numbered_rows ]} =
    (Props.dialog_closed Examples.preview_page_3,
     Js.Ok (<[Preview.selectedSheet Examples.preview_page_3 :=
                take k Examples.numbered_rows ++ drop (S k) Examples.numbered_rows]>
              {[ "Sheet1" := Examples.numbered_rows ]})).
Proof.
  apply (delete_removes_the_row_shown {[ "Sheet1" := Examples.numbered_rows ]}
           Examples.preview_page_3 Examples.numbered_rows 0).
  - reflexivity.
  - simpl. lia.
  - reflexivity.
Defined.

(** X18. The page is not moved when a row is deleted. When the last page
    (the second or a later one) shows a single row and this row is
    deleted, the preview stays on that page, which is now beyond the
    last page: it shows no row, although the sheet still has rows. *)
Theorem delete_leaves_an_empty_page (sheets : gmap string (list Js.object))
    (st : Preview.PreviewState) (rows : list Js.object) :
  sheets !! Preview.selectedSheet st = Some rows ->
  2 <= Preview.page st ->
  Z.of_nat (length rows) = 10 * (Preview.page st - 1) + 1 ->
  exists st' sheets' rows',
    Preview.handleDeleteConfirm (Preview.deleteButton 0 st) sheets = (st', Js.Ok sheets') /\
    Preview.page st' = Preview.page st /\
    sheets' !! Preview.selectedSheet st' = Some rows' /\
    Z.of_nat (length rows') = 10 * (Preview.page st - 1) /\
    Preview.totalPages rows' = Preview.page st - 1 /\
    Preview.displayData rows' (Preview.page st') = [].
Proof.
  intros Hsheet Hpage Hlen.
  set (k := Z.to_nat (10 * (Preview.page st - 1))).
  exists (Props.dialog_closed st), (<[Preview.selectedSheet st := delete k rows]> sheets),
    (delete k rows).
  assert (Hk : (k < length rows)%nat) by (unfold k; lia).
  assert (Hlen' : Z.of_nat (length (delete k rows)) = 10 * (Preview.page st - 1)).
  { pose proof (length_delete rows k (lookup_lt_is_Some_2 rows k Hk)). lia. }
  split_and!.
  - unfold Preview.handleDeleteConfirm, Preview.deleteButton, Preview.handleDeleteClick.
    cbn [Preview.deleteDialog Preview.sheetName Preview.rowIndex Preview.selectedSheet
         Preview.page].
    replace (Preview.startIndex (Preview.page st) + Z.of_nat 0) with (Z.of_nat k)
      by (unfold Preview.startIndex, Preview.ROWS_PER_PAGE, k; lia).
    by rewrite (handleDeleteRow_delete sheets _ rows _ Hsheet).
  - done.
  - apply lookup_insert_eq.
  - done.
  - rewrite totalPages_div, Hlen'.
    pose proof (Z.div_mod (10 * (Preview.page st - 1) + 9) 10) as H1.
    pose proof (Z.mod_pos_bound (10 * (Preview.page st - 1) + 9) 10) as H2. lia.
  - cbn [Props.dialog_closed Preview.page].
    rewrite displayData_page_rows by lia. unfold Props.page_rows.
    rewrite drop_ge by (fold k; lia). apply take_nil.
Qed.

(** X18 on the third page of a sheet of twenty-one rows. *)
Lemma delete_leaves_an_empty_page_witness :
  exists st' sheets' rows',
    Preview.handleDeleteConfirm (Preview.deleteButton 0 Examples.preview_page_3)
      {[ "Sheet1" := Examples.numbered_rows ]} = (st', Js.Ok sheets') /\
    Preview.page st' = Preview.page Examples.preview_page_3 /\
    sheets' !! Preview.selectedSheet st' = Some rows' /\
    Z.of_nat (length rows') = 10 * (Preview.page Examples.preview_page_3 - 1) /\
    Preview.totalPages rows' = Preview.page Examples.preview_page_3 - 1 /\
    Preview.displayData rows' (Preview.page st') = [].
Proof.
  apply (delete_leaves_an_empty_page {[ "Sheet1" := Examples.numbered_rows ]}
           Examples.preview_page_3 Examples.numbered_rows).
  - reflexivity.
  - simpl. lia.
  - reflexivity.
Defined.

(* ===================================================================== *)
(** * The preview: what a normalized cell is shown as *)
(* ===================================================================== *)

Section Shown.
Import Js Text Preview Calendar Props.

Lemma is_digit_digit n : is_digit (digit n) = true.
Proof. by destruct (digit_cases n) as [->|[->|[->|[->|[->|[->|[->|[->|[->| ->]]]]]]]]]. Qed.

Lemma digit_not_dash n : Ascii.eqb (digit n) "-" = false.
Proof. by destruct (digit_cases n) as [->|[->|[->|[->|[->|[->|[->|[->|[->| ->]]]]]]]]]. Qed.

Lemma lacks_dash_pad2 n : lacks "-" (pad2 n) = true.
Proof. unfold pad2. simpl. by rewrite !digit_not_dash. Qed.

Lemma lacks_dash_pad4 n : lacks "-" (pad4 n) = true.
Proof. unfold pad4, pad3, pad2. simpl. by rewrite !digit_not_dash. Qed.

Lemma split_app_sep sep (a b : string) :
  lacks sep a = true -> split sep (a +:+ String sep b) = a :: split sep b.
Proof.
  induction a as [|c a IH].
  - intros _. rewrite append_nil_l. simpl. by rewrite Ascii.eqb_refl.
  - rewrite append_cons. simpl. intros [Hc Ha]%andb_true_iff.
    apply negb_true_iff in Hc. by rewrite Hc, (IH Ha).
Qed.

Lemma split_render (d : date) :
  split "-" (render d) = [pad4 (year d); pad2 (month d); pad2 (day d)].
Proof.
  unfold render. rewrite !(append_cons "-"), !append_nil_l.
  rewrite (split_app_sep "-" _ _ (lacks_dash_pad4 _)).
  rewrite (split_app_sep "-" _ _ (lacks_dash_pad2 _)).
  by rewrite (pop_split_lacks "-" _ (lacks_dash_pad2 _)).
Qed.

Lemma isIsoDateText_render (d : date) : isIsoDateText (render d) = true.
Proof.
  unfold render, pad4, pad3, pad2. cbv [String.append]. cbn [isIsoDateText].
  by rewrite !is_digit_digit.
Qed.

Lemma render_not_empty (d : date) : String.eqb (render d) "" = false.
Proof. unfold render, pad4. by cbv [String.append]. Qed.

Context (rt : Runtime) (intl : Intl).

(** An ISO date is shown with its three parts in the other order. *)
Lemma formatDate_render (d : date) : formatDate rt intl (VStr (render d)) = shown d.
Proof.
  unfold formatDate. cbn [truthy typeof jstype_eqb ErrorHandling.string_of].
  rewrite render_not_empty, isIsoDateText_render. cbn [negb andb]. cbv iota.
  by rewrite split_render.
Qed.

Lemma formatValue_date_text key (s : string) :
  App.isDateKey key = true -> formatValue rt intl (VStr s) key = formatDate rt intl (VStr s).
Proof. intros Hk. unfold formatValue. by rewrite Hk. Qed.

Lemma formatValue_null key : formatValue rt intl VNull key = "-".
Proof. done. Qed.
End Shown.

(** X19. What the preview shows in a column with a date name, after the
    normalization of [handleFileSelect]. A serial number whose date lies
    in the years 0000 to 9999 is shown as the date that many days after
    1899-12-30, written [DD/MM/YYYY] (the days counted by the whole part
    of the number; a time of day in the last millisecond before midnight
    is left out, since the rounding can move it to the next day); a
    string that parses to a date of
    these years is shown as that date, written [DD/MM/YYYY]; a falsy
    cell and a string that does not parse are shown as a dash. No cell of
    such a column holds a number once it is normalized: the branch of
    [formatDate] for serial numbers is never taken on normalized data. *)
Theorem preview_of_date_cells (rt : Js.Runtime) (intl : Preview.Intl) (key : string) :
  App.isDateKey key = true ->
  (forall q v,
     Qeq_bool q 0 = false ->
     Qfloor q = v ->
     (q - inject_Z v < 1 - (1 # 86400000))%Q ->
     Props.first_day <= v - Props.unix_epoch_serial <= Props.last_day ->
     exists d,
       Calendar.days_after v Calendar.serial_epoch d /\
       Calendar.valid_date d /\
       Preview.formatValue rt intl (Props.normalized rt key (Js.VNum (Js.Fin q))) key =
       Props.shown d) /\
  (forall s t,
     s <> "" ->
     Js.Date_parse rt s = Some t ->
     Props.first_day <= Js.Day t <= Props.last_day ->
     Preview.formatValue rt intl (Props.normalized rt key (Js.VStr s)) key =
     Props.shown (Calendar.date_of_day (Js.Day t))) /\
  (forall v,
     Js.truthy v = false \/ (exists s, v = Js.VStr s /\ Js.Date_parse rt s = None) ->
     Preview.formatValue rt intl (Props.normalized rt key v) key = "-") /\
  (forall v a n,
     App.processEntry rt key v = Js.Ok a -> Props.normalized rt key v <> Js.VNum n).
Proof.
  intros Hkey. split_and!.
  - intros q v Hq Hv Hfrac Hrange.
    exists (Calendar.date_of_day (v - Props.unix_epoch_serial)). split_and!.
    + apply days_after_serial_epoch.
    + apply date_of_day_valid.
    + unfold Props.normalized.
      rewrite (processEntry_serial rt key q v Hkey Hq Hv Hfrac Hrange).
      rewrite (formatValue_date_text rt intl key _ Hkey). apply formatDate_render.
  - intros s t Hs Ht Hrange. unfold Props.normalized.
    rewrite (processEntry_date_key rt key _ Hkey).
    change (Js.truthy (Js.VStr s)) with (negb (String.eqb s "")).
    destruct (String.eqb_spec s ""); [done|]. cbn [negb]. cbv iota.
    rewrite Ht, isoDay_iso_date. cbn [Js.bind].
    rewrite (iso_date_render t Hrange).
    rewrite (formatValue_date_text rt intl key _ Hkey). apply formatDate_render.
  - intros v Hv. unfold Props.normalized. rewrite (processEntry_date_key rt key _ Hkey).
    destruct Hv as [Hv|(s & -> & Hs)].
    + by rewrite Hv.
    + rewrite Hs. by destruct (Js.truthy (Js.VStr s)).
  - intros v a n. unfold Props.normalized. rewrite (processEntry_date_key rt key _ Hkey).
    destruct (Js.truthy v) eqn:Htruthy; [|by intros [= <-]].
    destruct v as [| |b|x|s|t]; try (by intros [= <-]).
    + destruct (App.isoDay (Js.TimeClip (App.serialToTime x))) as [day|msg]; [|done].
      by intros [= <-].
    + destruct (Js.Date_parse rt s) as [t|]; [|by intros [= <-]].
      rewrite isoDay_iso_date. by intros [= <-].
Qed.

(** X19 in the column Date: serial number 45000 at noon, the string
    "2024-01-05", and [null]. *)
Lemma preview_of_date_cells_witness :
  (exists d,
     Calendar.days_after 45000 Calendar.serial_epoch d /\
     Calendar.valid_date d /\
     Preview.formatValue Host.runtime Examples.intl
       (Props.normalized Host.runtime "Date" (Js.VNum (Js.Fin (90001 # 2)))) "Date" =
     Props.shown d) /\
  Preview.formatValue Host.runtime Examples.intl
    (Props.normalized Host.runtime "Date" (Js.VStr "2024-01-05")) "Date" =
  Props.shown (Calendar.date_of_day (Js.Day 1704412800000)) /\
  Preview.formatValue Host.runtime Examples.intl
    (Props.normalized Host.runtime "Date" Js.VNull) "Date" = "-".
Proof.
  destruct (preview_of_date_cells Host.runtime Examples.intl "Date" eq_refl)
    as (Hnum & Hstr & Hnone & _).
  split; [|split].
  - apply (Hnum (90001 # 2)%Q 45000); [reflexivity|reflexivity|reflexivity|].
    unfold Props.first_day, Props.last_day, Props.unix_epoch_serial. lia.
  - apply (Hstr "2024-01-05" 1704412800000); [done|reflexivity|].
    unfold Props.first_day, Props.last_day. change (Js.Day 1704412800000) with 19727. lia.
  - apply Hnone. left. reflexivity.
Defined.

(** Serial number 45000 is shown as 15/03/2023; the double
    51020.99999999421, half a millisecond before the end of 07/09/2039,
    as the next day. *)
Example preview_of_date_sample :
  Preview.formatValue Host.runtime Examples.intl
    (Props.normalized Host.runtime "Date" (Js.VNum (Js.Fin (90001 # 2)))) "Date" =
  "15/03/2023" /\
  Preview.formatValue Host.runtime Examples.intl
    (Props.normalized Host.runtime "Date"
       (Js.VNum (Js.Fin (1753068211273529 # 34359738368)))) "Date" =
  "08/09/2039" /\
  Preview.formatValue Host.runtime Examples.intl
    (Props.normalized Host.runtime "Invoice Dt" (Js.VStr "2024-01-05")) "Invoice Dt" =
  "05/01/2024".
Proof. split_and!; vm_compute; reflexivity. Qed.

Section VerifiedCell.
Import Js ErrorHandling Props.
Context (rt : Runtime).

Lemma normalized_Verified (v : value) :
  normalized rt "Verified" v =
  match v with
  | VStr s => VBool (String.eqb (token s) "yes")
  | VBool b => VBool b
  | _ => VNull
  end.
Proof. unfold normalized. by rewrite processEntry_Verified. Qed.

(** The Verified cell of a normalized row: a boolean, [null], or absent. *)
Lemma get_Verified_normalizedRow (r : object) :
  get "Verified" (normalizedRow rt r) =
  if has_key "Verified" r then
    match get "Verified" r with
    | VStr s => VBool (String.eqb (token s) "yes")
    | VBool b => VBool b
    | _ => VNull
    end
  else VUndefined.
Proof. by rewrite get_normalizedRow, normalized_Verified. Qed.
End VerifiedCell.

(** X20. The Verified cell after the normalization of [handleFileSelect].
    Whatever the text of a string cell, [validateExcelData] has no
    finding for it and the preview shows "Yes" when the text,
    lower-cased and trimmed, is [yes], and "No" otherwise: a text such as
    "maybe" or "true" passes as No. A boolean cell has no finding either.
    Every other cell is reported as missing. The findings "Verified must
    be Yes/No or True/False" and "Verified must be a boolean value" never
    occur for a normalized row. *)
Theorem Verified_after_normalization (rt : Js.Runtime) (intl : Preview.Intl)
    (r r' : Js.object) (n : nat) :
  NoDup (Js.keys r) ->
  App.processRow rt r = Js.Ok r' ->
  (ErrorHandling.validateVerified r' n ErrorHandling.no_findings = ErrorHandling.no_findings \/
   ErrorHandling.validateVerified r' n ErrorHandling.no_findings = Props.Verified_required n) /\
  (forall s,
     Js.get "Verified" r = Js.VStr s ->
     ErrorHandling.validateVerified r' n ErrorHandling.no_findings =
       ErrorHandling.no_findings /\
     Preview.formatValue rt intl (Js.get "Verified" r') "Verified" =
       if String.eqb (Props.token s) "yes" then "Yes" else "No") /\
  (forall b,
     Js.get "Verified" r = Js.VBool b ->
     ErrorHandling.validateVerified r' n ErrorHandling.no_findings =
       ErrorHandling.no_findings) /\
  ((forall s, Js.get "Verified" r <> Js.VStr s) ->
   (forall b, Js.get "Verified" r <> Js.VBool b) ->
   ErrorHandling.validateVerified r' n ErrorHandling.no_findings = Props.Verified_required n).
Proof.
  intros Hnd Hrun. apply (processRow_ok rt r r' Hnd) in Hrun. subst r'.
  assert (Hpresent : Js.get "Verified" r <> Js.VUndefined -> Js.has_key "Verified" r = true).
  { intros Hne. destruct (Js.has_key "Verified" r) eqn:Hk; [done|].
    by apply has_key_false_get in Hk. }
  unfold ErrorHandling.validateVerified. cbv zeta.
  rewrite (get_Verified_normalizedRow rt r).
  split_and!.
  - destruct (Js.has_key "Verified" r); [|by right].
    destruct (Js.get "Verified" r) as [| |b|x|s|t]; first [by left|by right].
  - intros s Hs. rewrite Hs in *. rewrite Hpresent by done. split; [done|].
    unfold Preview.formatValue. cbn [Js.is_nullish]. cbv iota.
    change (App.isDateKey "Verified") with false. cbv iota.
    by destruct (String.eqb (Props.token s) "yes").
  - intros b Hb. rewrite Hb in *. by rewrite Hpresent.
  - intros Hs Hb. destruct (Js.has_key "Verified" r); [|done].
    destruct (Js.get "Verified" r) as [| |b|x|s|t]; try done.
    + by destruct (Hb b).
    + by destruct (Hs s).
Qed.

(** X20 on a row whose Verified cell reads "maybe". *)
Lemma Verified_after_normalization_witness :
  (ErrorHandling.validateVerified (Props.normalizedRow Host.runtime Examples.row_maybe) 1
     ErrorHandling.no_findings = ErrorHandling.no_findings \/
   ErrorHandling.validateVerified (Props.normalizedRow Host.runtime Examples.row_maybe) 1
     ErrorHandling.no_findings = Props.Verified_required 1) /\
  ErrorHandling.validateVerified (Props.normalizedRow Host.runtime Examples.row_maybe) 1
    ErrorHandling.no_findings = ErrorHandling.no_findings /\
  Preview.formatValue Host.runtime Examples.intl
    (Js.get "Verified" (Props.normalizedRow Host.runtime Examples.row_maybe)) "Verified" = "No".
Proof.
  destruct (Verified_after_normalization Host.runtime Examples.intl Examples.row_maybe
              (Props.normalizedRow Host.runtime Examples.row_maybe) 1)
    as (Hany & Hstr & _ & _).
  - apply NoDup_four; discriminate.
  - reflexivity.
  - destruct (Hstr "maybe" eq_refl) as [Hnone Hshown].
    split; [exact Hany|]. split; [exact Hnone|exact Hshown].
Defined.

(* ===================================================================== *)
(** * Loading a workbook in the browser *)
(* ===================================================================== *)

Section Loading.
Import Js App Handlers Props.
Context (rt : Runtime).

Lemma processedData_rows (rows rows' : list object) :
  processedData rt rows = Ok rows' ->
  length rows' = length rows /\
  forall i r, rows !! i = Some r -> exists r', rows' !! i = Some r' /\ processRow rt r = Ok r'.
Proof.
  revert rows'. induction rows as [|r0 rows IH]; intros rows'; simpl.
  - intros [= <-]. split; [done|]. by intros i r ?.
  - destruct (processRow rt r0) as [r0'|] eqn:Hr0; [|done]. simpl.
    destruct (processedData rt rows) as [rest'|]; [|done]. simpl.
    intros [= <-]. destruct (IH rest' eq_refl) as [Hlen Hrows].
    split; [simpl; by rewrite Hlen|].
    intros [|i] r; simpl.
    + intros [= <-]. by exists r0'.
    + apply Hrows.
Qed.

(** A row that throws stops the sheet. *)
Lemma processedData_throws (rows : list object) (r : object) :
  r ∈ rows -> (exists msg, processRow rt r = Throw msg) ->
  exists msg, processedData rt rows = Throw msg.
Proof.
  intros Hin [msg Hr]. induction rows as [|r0 rows IH]; [by apply elem_of_nil in Hin|].
  simpl. apply elem_of_cons in Hin as [<-|Hin].
  - rewrite Hr. by exists msg.
  - destruct (processRow rt r0); [|by eexists]. simpl.
    destruct (IH Hin) as [msg' ->]. by exists msg'.
Qed.

(** A number out of the range of [Date] in a date cell stops the row. *)
Lemma processEntries_unreadable (entries pre : object) key n :
  (key, VNum n) ∈ entries -> isDateKey key = true -> truthy (VNum n) = true ->
  TimeClip (serialToTime n) = None ->
  exists msg, processEntries rt entries pre = Throw msg.
Proof.
  intros Hin Hkey Ht Hclip. revert pre.
  induction entries as [|[k v] entries IH]; intros pre; [by apply elem_of_nil in Hin|].
  simpl. apply elem_of_cons in Hin as [[= <- <-]|Hin].
  - rewrite (processEntry_date_key rt key _ Hkey), Ht, Hclip. by eexists.
  - destruct (processEntry rt k v) as [[w|]|msg]; simpl; [by apply IH|by apply IH|by eexists].
Qed.

Lemma processRow_unreadable (r : object) :
  unreadable_serial r -> exists msg, processRow rt r = Throw msg.
Proof.
  intros (key & n & Hin & Hkey & Ht & Hclip).
  by apply (processEntries_unreadable r r key n).
Qed.

(** A sheet without rows, or with a row that throws, stops the loop. *)
Lemma loadSheets_throws (workbook : list (string * list object)) acc sheetName rows :
  (sheetName, rows) ∈ workbook ->
  rows = [] \/ (exists msg, processedData rt rows = Throw msg) ->
  exists msg, loadSheets rt workbook acc = Throw msg.
Proof.
  intros Hin Hbad. revert acc.
  induction workbook as [|[n d] workbook IH]; intros acc; [by apply elem_of_nil in Hin|].
  simpl. apply elem_of_cons in Hin as [[= <- <-]|Hin].
  - destruct Hbad as [->|[msg Hmsg]]; [by eexists|].
    destruct (length rows =? 0)%nat; [by eexists|]. rewrite Hmsg. by eexists.
  - destruct (length d =? 0)%nat; [by eexists|].
    destruct (processedData rt d); simpl; [by apply IH|by eexists].
Qed.

(** What the loop stores, for sheets of different names. *)
Lemma loadSheets_lookup (workbook : list (string * list object)) acc m :
  NoDup workbook.*1 ->
  loadSheets rt workbook acc = Ok m ->
  (forall sheetName rows,
     (sheetName, rows) ∈ workbook -> recordable sheetName ->
     exists rows', m !! sheetName = Some rows' /\ rows <> [] /\
                   processedData rt rows = Ok rows') /\
  (forall sheetName,
     sheetName ∉ workbook.*1 \/ sheetName = "__proto__" -> m !! sheetName = acc !! sheetName).
Proof.
  revert acc. induction workbook as [|[n d] workbook IH]; intros acc Hnd; simpl.
  - intros [= <-]. split; [|done]. by intros ?? ?%elem_of_nil.
  - rewrite fmap_cons in Hnd. apply NoDup_cons in Hnd as [Hn Hnd]. simpl in Hn.
    destruct (Nat.eqb_spec (length d) 0) as [|Hlen]; [done|].
    destruct (processedData rt d) as [d'|] eqn:Hd; [|done]. simpl.
    intros Hrun. destruct (IH _ Hnd Hrun) as [Hin Hout]. split.
    + intros s rows [[= -> ->]|Hs]%elem_of_cons Hr.
      * exists d'. split_and!; [|by intros ->|done].
        rewrite Hout by by left. rewrite assign_lookup. by rewrite decide_True.
      * by apply Hin.
    + intros s Hs. rewrite Hout.
      * rewrite assign_lookup. apply decide_False. intros [Hr ->].
        destruct Hs as [Hs|Hs]; [|done]. apply Hs. simpl. left.
      * destruct Hs as [Hs|Hs]; [left|by right]. intros Hin'. apply Hs. simpl. by right.
Qed.

(** The normalization of a row with distinct keys keeps the keys, and
    the cells of the columns that are neither Verified nor dates. *)
Lemma normalizedRow_frame (r : object) :
  keys (normalizedRow rt r) = keys r /\
  forall key,
    key <> "Verified" -> isDateKey key = false ->
    get key (normalizedRow rt r) = get key r.
Proof.
  split.
  - unfold keys, normalizedRow. rewrite map_map. by apply map_ext; intros [? ?].
  - intros key Hv Hd. rewrite get_normalizedRow.
    destruct (has_key key r) eqn:Hk; [|by rewrite has_key_false_get].
    unfold normalized, processEntry. rewrite Hd.
    by destruct (String.eqb_spec key "Verified").
Qed.
End Loading.

(** X21. Loading keeps the table. When [handleFileSelect] loads a
    workbook (its sheets have different names), each sheet is stored
    under its name with as many rows as it had, and it had at least one;
    each row (an object: its keys differ) has the same columns in the
    same order, and the cells of the columns other than Verified and the
    columns with a date name are unchanged. Nothing else is stored, and a
    sheet named [__proto__] is not stored at all. *)
Theorem onload_keeps_the_table (rt : Js.Runtime) (workbook : list (string * list Js.object))
    (sheetsData : gmap string (list Js.object)) :
  NoDup workbook.*1 ->
  Handlers.onload rt workbook = Js.Ok sheetsData ->
  (forall sheetName rows,
     (sheetName, rows) ∈ workbook -> Props.recordable sheetName ->
     exists rows',
       sheetsData !! sheetName = Some rows' /\ rows <> [] /\ length rows' = length rows /\
       forall i r,
         rows !! i = Some r -> NoDup (Js.keys r) ->
         exists r',
           rows' !! i = Some r' /\ Js.keys r' = Js.keys r /\
           forall key,
             key <> "Verified" -> App.isDateKey key = false ->
             Js.get key r' = Js.get key r) /\
  (forall sheetName, is_Some (sheetsData !! sheetName) -> sheetName ∈ workbook.*1) /\
  sheetsData !! "__proto__" = None.
Proof.
  intros Hnd. unfold Handlers.onload.
  destruct (length workbook =? 0)%nat; [done|]. intros Hrun.
  destruct (loadSheets_lookup rt workbook ∅ sheetsData Hnd Hrun) as [Hin Hout].
  split_and!.
  - intros sheetName rows Hs Hr.
    destruct (Hin sheetName rows Hs Hr) as (rows' & Hm & Hne & Hrows).
    destruct (processedData_rows rt rows rows' Hrows) as [Hlen Hrow].
    exists rows'. split_and!; try done.
    intros i r Hi Hkeys. destruct (Hrow i r Hi) as (r' & Hi' & Hr').
    apply (processRow_ok rt r r' Hkeys) in Hr'. subst r'.
    exists (Props.normalizedRow rt r). split; [done|]. apply normalizedRow_frame.
  - intros sheetName [rows' Hm].
    destruct (decide (sheetName ∈ workbook.*1)) as [|Hnot]; [done|].
    rewrite Hout in Hm by by left. by rewrite lookup_empty in Hm.
  - rewrite Hout by by right. apply lookup_empty.
Qed.

(** X21 on a workbook of one sheet, one row. *)
Lemma onload_keeps_the_table_witness :
  (forall sheetName rows,
     (sheetName, rows) ∈ [("Sheet1", [Examples.row_decoded])] -> Props.recordable sheetName ->
     exists rows',
       ({[ "Sheet1" := [Props.normalizedRow Host.runtime Examples.row_decoded] ]}
          : gmap string (list Js.object)) !! sheetName = Some rows' /\
       rows <> [] /\ length rows' = length rows /\
       forall i r,
         rows !! i = Some r -> NoDup (Js.keys r) ->
         exists r',
           rows' !! i = Some r' /\ Js.keys r' = Js.keys r /\
           forall key,
             key <> "Verified" -> App.isDateKey key = false ->
             Js.get key r' = Js.get key r) /\
  (forall sheetName,
     is_Some (({[ "Sheet1" := [Props.normalizedRow Host.runtime Examples.row_decoded] ]}
                 : gmap string (list Js.object)) !! sheetName) ->
     sheetName ∈ [("Sheet1", [Examples.row_decoded])].*1) /\
  ({[ "Sheet1" := [Props.normalizedRow Host.runtime Examples.row_decoded] ]}
     : gmap string (list Js.object)) !! "__proto__" = None.
Proof.
  apply (onload_keeps_the_table Host.runtime [("Sheet1", [Examples.row_decoded])]).
  - simpl. apply NoDup_singleton.
  - reflexivity.
Defined.

(** X22. What makes [handleFileSelect] refuse a workbook, all of it: no
    sheet at all; a sheet without rows, wherever it stands; a row with a
    number in a date cell whose time is out of the range of [Date]. The
    message names the first sheet without rows when the sheets before it
    load. *)
Theorem onload_refusals (rt : Js.Runtime) (workbook : list (string * list Js.object)) :
  (workbook = [] -> Handlers.onload rt workbook = Js.Throw "The Excel file is empty") /\
  (forall sheetName,
     (sheetName, []) ∈ workbook -> exists msg, Handlers.onload rt workbook = Js.Throw msg) /\
  (forall before sheetName after,
     workbook = before ++ (sheetName, []) :: after ->
     Forall (fun sheet => snd sheet <> [] /\
                          exists rows', App.processedData rt (snd sheet) = Js.Ok rows') before ->
     Handlers.onload rt workbook =
     Js.Throw ("Sheet " +:+ Text.dquote +:+ sheetName +:+ Text.dquote +:+ " is empty")) /\
  (forall sheetName rows r,
     (sheetName, rows) ∈ workbook -> r ∈ rows -> Props.unreadable_serial r ->
     exists msg, Handlers.onload rt workbook = Js.Throw msg).
Proof.
  split_and!.
  - by intros ->.
  - intros sheetName Hin. unfold Handlers.onload.
    destruct (length workbook =? 0)%nat; [by eexists|].
    apply (loadSheets_throws rt workbook ∅ sheetName []); [done|by left].
  - intros before sheetName after -> Hbefore. unfold Handlers.onload.
    rewrite length_app. simpl.
    replace (length before + S (length after) =? 0)%nat with false
      by (symmetry; apply Nat.eqb_neq; lia).
    generalize (∅ : gmap string (list Js.object)).
    induction Hbefore as [|[n d] before [Hne [d' Hd]] _ IH]; intros acc; simpl; [done|].
    cbn [snd] in Hne, Hd. destruct d as [|r d]; [done|]. cbn [length Nat.eqb].
    rewrite Hd. simpl. apply IH.
  - intros sheetName rows r Hin Hr Hbad. unfold Handlers.onload.
    destruct (length workbook =? 0)%nat; [by eexists|].
    apply (loadSheets_throws rt workbook ∅ sheetName rows); [done|right].
    apply (processedData_throws rt rows r Hr). by apply processRow_unreadable.
Qed.

(** X22 on workbooks with a second sheet that is empty, and with a
    number that is no date. *)
Example onload_samples :
  Handlers.onload Host.runtime [("Sheet1", [Examples.row_clean]); ("Sheet2", [])] =
    Js.Throw ("Sheet " +:+ Text.dquote +:+ "Sheet2" +:+ Text.dquote +:+ " is empty") /\
  Handlers.onload Host.runtime [("Sheet1", [Examples.row_unreadable])] =
    Js.Throw "Invalid time value" /\
  Handlers.onload Host.runtime [("Sheet1", [Examples.row_decoded])] =
    Js.Ok {[ "Sheet1" := [[("Name", Js.VStr "A"); ("Amount", Js.VNum (Js.Fin 50));
                           ("Date", Js.VDate (Some 1704412800000));
                           ("Verified", Js.VBool true)]] ]}.
Proof. split_and!; vm_compute; reflexivity. Qed.

(* ===================================================================== *)
(** * The rows that the validator of the client has nothing to say about *)
(* ===================================================================== *)

Section CleanRows.
Import Js ErrorHandling Props.
Context (rt : Runtime).

Lemma push_error_findings st e : push_error st e <> no_findings.
Proof. destruct st as [es ws]. unfold push_error, push. simpl. intros [= H _]. by destruct es. Qed.

Lemma push_warning_findings st e : push_warning st e <> no_findings.
Proof.
  destruct st as [es ws]. unfold push_warning, push. simpl. intros [= _ H]. by destruct ws.
Qed.

Lemma validateName_clean r n : validateName r n no_findings = no_findings <-> clean_Name r.
Proof.
  unfold validateName, clean_Name. cbv zeta.
  destruct (get "Name" r) as [| |b|x|s|t]; cbn [typeof jstype_eqb negb string_of];
    try (split; [by destruct (negb _); intros ?%push_error_findings
                |by intros (? & ? & _)]).
  change (truthy (VStr s)) with (negb (String.eqb s "")).
  destruct (String.eqb_spec s "") as [->|Hs]; cbn [negb].
  { split; [by intros ?%push_error_findings|]. intros (s & [= <-] & Ht & _). exfalso. by apply Ht. }
  destruct (Nat.eqb_spec (String.length (trim s)) 0) as [Hz|Hnz].
  { split; [by intros ?%push_error_findings|]. intros (s' & [= <-] & Ht & _).
    exfalso. apply Ht. by destruct (trim s). }
  destruct (Nat.ltb_spec 100 (String.length s)) as [Hlong|Hshort].
  { split; [by intros ?%push_warning_findings|]. intros (s' & [= <-] & _ & Hl). lia. }
  split; [|done]. intros _. exists s. split_and!; [done| |done].
  intros Ht. apply Hnz. by rewrite Ht.
Qed.

Lemma validateAmount_clean r n :
  validateAmount rt r n no_findings = no_findings <-> clean_Amount rt r.
Proof.
  unfold validateAmount, clean_Amount. cbv zeta.
  destruct (is_nullish (get "Amount" r)).
  { split; [by intros ?%push_error_findings|by intros [? _]]. }
  destruct (Number rt (get "Amount" r)) as [| | |x]; cbn [num_isNaN].
  - split; [by intros ?%push_error_findings|by intros (_ & ? & ? & _)].
  - split; [by intros ?%push_warning_findings|by intros (_ & ? & ? & _)].
  - split; [by intros ?%push_error_findings|by intros (_ & ? & ? & _)].
  - unfold num_leb, num_gtb, num_ltb, Qltb.
    destruct (Qle_bool x 0) eqn:Hle.
    { split; [by intros ?%push_error_findings|].
      intros (_ & y & [= <-] & Hpos & _). apply Qle_bool_iff in Hle. lra. }
    destruct (Qle_bool x 1000000) eqn:Hbig; cbn [negb].
    + split; [|done]. intros _. split; [done|]. exists x. split_and!; [done| |].
      * apply Qnot_le_lt. intros Hx%Qle_bool_iff. congruence.
      * by apply Qle_bool_iff.
    + split; [by intros ?%push_warning_findings|].
      intros (_ & y & [= <-] & _ & Hy). apply Qle_bool_iff in Hy. congruence.
Qed.

Lemma validateDate_clean now r n :
  validateDate rt now r n no_findings = no_findings <-> clean_Date rt now r.
Proof.
  unfold validateDate, clean_Date. cbv zeta.
  destruct (truthy (get "Date" r)); cbn [negb].
  2:{ split; [by intros ?%push_error_findings|by intros [? _]]. }
  destruct (new_Date rt (get "Date" r)) as [t|].
  2:{ split; [by intros ?%push_error_findings|by intros (_ & ? & ? & _)]. }
  destruct (Z.ltb_spec now t) as [Hfuture|Hpast].
  - split; [by intros ?%push_warning_findings|]. intros (_ & t' & [= <-] & ?). lia.
  - split; [|done]. intros _. split; [done|]. by exists t.
Qed.

Lemma validateVerified_clean r n :
  validateVerified r n no_findings = no_findings <-> clean_Verified r.
Proof.
  unfold validateVerified, clean_Verified, token. cbv zeta.
  destruct (get "Verified" r) as [| |b|x|s|t];
    cbn [is_nullish typeof jstype_eqb negb string_of];
    try (split; [by intros ?%push_error_findings|by intros [[? ?]|(? & ? & _)]]).
  - split; [|done]. intros _. left. by exists b.
  - set (value := trim (toLowerCase s)).
    destruct (String.eqb_spec value "yes") as [Hy|Hy]; cbn [negb andb].
    { split; [|done]. intros _. right. exists s. split; [done|]. fold value.
      rewrite Hy. apply list_elem_of_here. }
    destruct (String.eqb_spec value "no") as [Hn|Hn]; cbn [negb andb].
    { split; [|done]. intros _. right. exists s. split; [done|]. fold value.
      rewrite Hn. apply list_elem_of_further, list_elem_of_here. }
    destruct (String.eqb_spec value "true") as [Ht|Ht]; cbn [negb andb].
    { split; [|done]. intros _. right. exists s. split; [done|]. fold value.
      rewrite Ht. do 2 apply list_elem_of_further. apply list_elem_of_here. }
    destruct (String.eqb_spec value "false") as [Hf|Hf]; cbn [negb andb].
    { split; [|done]. intros _. right. exists s. split; [done|]. fold value.
      rewrite Hf. do 3 apply list_elem_of_further. apply list_elem_of_here. }
    split; [by intros ?%push_error_findings|].
    intros [[? ?]|(s' & [= <-] & Hin)]; [done|]. fold value in Hin.
    rewrite !elem_of_cons, elem_of_nil in Hin. tauto.
Qed.

Lemma merge_no_findings a b :
  merge a b = no_findings <-> a = no_findings /\ b = no_findings.
Proof.
  destruct a as [ea wa], b as [eb wb]. unfold merge, no_findings. simpl. split.
  - intros [= [-> ->]%app_eq_nil [-> ->]%app_eq_nil]. done.
  - by intros [[= -> ->] [= -> ->]].
Qed.

Lemma rowFindings_clean clock i r :
  rowFindings rt clock i r = no_findings <-> clean_row rt (clock i) r.
Proof.
  rewrite rowFindings_fields, !merge_no_findings.
  rewrite validateName_clean, validateAmount_clean, validateDate_clean, validateVerified_clean.
  unfold clean_row. tauto.
Qed.

Lemma concat_imap_nil {A B} (g : nat -> A -> list B) (l : list A) :
  concat (imap g l) = [] <-> forall i a, l !! i = Some a -> g i a = [].
Proof.
  split.
  - intros Hnil i a Hi. apply elem_of_nil_inv. intros x Hx.
    assert (Hin : x ∈ concat (imap g l)) by (apply elem_of_concat_imap; by exists i, a).
    rewrite Hnil in Hin. by apply elem_of_nil in Hin.
  - intros Hall. apply elem_of_nil_inv. intros x (i & a & Hi & Hx)%elem_of_concat_imap.
    rewrite (Hall i a Hi) in Hx. by apply elem_of_nil in Hx.
Qed.
End CleanRows.

(** X23. [validateExcelData] returns no finding exactly when the input
    is an array with a first row that has the four required columns, and
    every row is clean: its Name is a string of at most 100 characters
    that does not trim to nothing; its Amount is neither [null] nor
    [undefined] and its number is above 0 and at most 1,000,000 (the
    type of the cell is not looked at); its Date is truthy and parses to
    a time that is not after the reading of the clock; its Verified cell
    is a boolean or a string that reads yes, no, true or false. *)
Theorem validateExcelData_clean (rt : Js.Runtime) (clock : nat -> Z)
    (data : ErrorHandling.sheet_data) :
  ErrorHandling.validateExcelData rt clock data = [] <->
  Props.reachesRowPass data /\
  forall i r, Props.rowsOf data !! i = Some r -> Props.clean_row rt (clock i) r.
Proof.
  destruct data as [|[|firstRow rest]]; [by split; [|intros [[] _]]..|].
  destruct (ErrorHandling.missingColumns firstRow) as [|col cols] eqn:Hmiss.
  - rewrite (validateExcelData_rows rt clock (ErrorHandling.RowArray (firstRow :: rest)))
      by exact Hmiss.
    cbn [Props.reachesRowPass Props.rowsOf]. rewrite Hmiss. split.
    + intros [He Hw]%app_eq_nil. split; [done|]. intros i r Hi.
      apply rowFindings_clean. unfold Props.rowErrors, Props.rowWarnings in *.
      pose proof (proj1 (concat_imap_nil _ _) He i r Hi) as He'.
      pose proof (proj1 (concat_imap_nil _ _) Hw i r Hi) as Hw'.
      simpl in He', Hw'.
      destruct (Props.rowFindings rt clock i r) as [es ws]. simpl in *. by subst.
    + intros [_ Hclean].
      assert (Hall : forall i r, (firstRow :: rest) !! i = Some r ->
                Props.rowFindings rt clock i r = ErrorHandling.no_findings).
      { intros i r Hi. by apply rowFindings_clean, Hclean. }
      apply app_nil. split; apply concat_imap_nil; intros i r Hi;
        unfold Props.rowErrors, Props.rowWarnings; by rewrite (Hall i r Hi).
  - unfold ErrorHandling.validateExcelData. rewrite Hmiss. cbn [length Nat.ltb Nat.leb].
    cbn [Props.reachesRowPass]. rewrite Hmiss. by split; [|intros [? _]].
Qed.

(** The cells of the sample rows. *)
Example clean_row_samples :
  ErrorHandling.validateExcelData Host.runtime Examples.clock_2024
    (ErrorHandling.RowArray [Examples.row_clean; Examples.row_verified_true]) = [] /\
  ErrorHandling.message <$>
    ErrorHandling.validateExcelData Host.runtime Examples.clock_2024
      (ErrorHandling.RowArray [Examples.row_clean; Examples.row_zero_amount]) =
  ["Amount must be positive"].
Proof. split; vm_compute; reflexivity. Qed.

(* ===================================================================== *)
(** * The answers of the server, as the client shows them *)
(* ===================================================================== *)

Section AnswersShown.
Import Js Server Controller Props.
Context (rt : Runtime).

(** The errors of a sheet carry its name. *)
Lemma sheetErrors_sheet clock k (sheet : string * list object) :
  Forall (fun err => Server.sheet err = fst sheet) (sheetErrors rt clock k sheet).
Proof.
  unfold sheetErrors. apply Forall_forall.
  intros err (i & r & Hi & Hin)%elem_of_concat_imap.
  unfold serverRowErrors in Hin.
  destruct (validateRow_default rt (clock k i) r (i + 2) (fst sheet)) as (res & Hres & Hall & _).
  rewrite Hres in Hin. rewrite Forall_forall in Hall. by apply Hall.
Qed.

Lemma allErrors_cons clock sheet (sheets : list (string * list object)) :
  allErrors rt clock (sheet :: sheets) =
  sheetErrors rt clock 0 sheet ++ allErrors rt (fun k => clock (S k)) sheets.
Proof. reflexivity. Qed.

Lemma allErrors_sheet clock (sheets : list (string * list object)) :
  Forall (fun err => Server.sheet err ∈ sheets.*1) (allErrors rt clock sheets).
Proof.
  revert clock. induction sheets as [|sheet sheets IH]; intros clock; [by constructor|].
  rewrite allErrors_cons, fmap_cons. apply Forall_app. split.
  - eapply Forall_impl; [apply sheetErrors_sheet|]. intros err ->. apply list_elem_of_here.
  - eapply Forall_impl; [apply IH|]. intros err Hin. by apply list_elem_of_further.
Qed.

Lemma filter_all_match {A} (P : A -> Prop) `{!forall x, Decision (P x)} (l : list A) :
  Forall P l -> filter P l = l.
Proof.
  induction 1 as [|x l Hx _ IH]; [done|]. by rewrite filter_cons_True, IH.
Qed.

Lemma filter_no_match {A} (P : A -> Prop) `{!forall x, Decision (P x)} (l : list A) :
  Forall (fun x => ~ P x) l -> filter P l = [].
Proof.
  induction 1 as [|x l Hx _ IH]; [done|]. by rewrite filter_cons_False.
Qed.

(** Under sheet names that differ, the errors of the workbook with the
    name of a sheet are the errors of that sheet. *)
Lemma filter_allErrors clock (sheets : list (string * list object)) k name rows :
  NoDup sheets.*1 -> sheets !! k = Some (name, rows) ->
  filter (fun err => Server.sheet err = name) (allErrors rt clock sheets) =
  sheetErrors rt clock k (name, rows).
Proof.
  revert clock k. induction sheets as [|sheet sheets IH]; intros clock k Hnd Hk; [done|].
  rewrite fmap_cons in Hnd. apply NoDup_cons in Hnd as [Hfresh Hnd].
  rewrite allErrors_cons, filter_app. destruct k as [|k]; simpl in Hk.
  - injection Hk as ->. rewrite filter_all_match by apply (sheetErrors_sheet clock 0 (name, rows)).
    rewrite filter_no_match; [by rewrite app_nil_r|].
    eapply Forall_impl; [apply allErrors_sheet|]. intros err Hin Heq. cbv beta in Hin.
    apply Hfresh. simpl. by rewrite <- Heq.
  - rewrite filter_no_match.
    + simpl. apply (IH (fun k => clock (S k)) k Hnd Hk).
    + eapply Forall_impl; [apply sheetErrors_sheet|]. intros err Hs Heq.
      apply Hfresh. rewrite <- Hs, Heq.
      apply list_elem_of_fmap. exists (name, rows). split; [done|].
      by apply list_elem_of_lookup_2 with k.
Qed.

(** The object that the loop of [handleValidate] builds: under each
    name, the errors with that name, in their order, after what the
    object held. *)
Lemma groupBySheet_lookup (errors : list RowError) (acc : gmap string (list Exchange.ShownError)) :
  Forall (fun err => inherited (Server.sheet err) = false) errors ->
  exists m,
    Exchange.groupBySheet errors acc = Ok m /\
    forall name,
      m !! name =
      if decide (filter (fun err => Server.sheet err = name) errors = []) then acc !! name
      else Some (default [] (acc !! name) ++
                 (shown_error <$> filter (fun err => Server.sheet err = name) errors)).
Proof.
  revert acc. induction errors as [|err errors IH]; intros acc Hplain.
  { exists acc. split; [done|]. intros name. by rewrite decide_True. }
  apply Forall_cons in Hplain as [Herr Hplain]. cbn [Exchange.groupBySheet]. rewrite Herr.
  set (arr := default [] (acc !! Server.sheet err)).
  set (acc' := <[Server.sheet err := ErrorHandling.push arr (shown_error err)]> acc).
  assert (Hstep : match acc !! Server.sheet err with
                  | Some arr0 =>
                      Exchange.groupBySheet errors
                        (<[Server.sheet err := ErrorHandling.push arr0 (shown_error err)]> acc)
                  | None =>
                      Exchange.groupBySheet errors
                        (<[Server.sheet err := ErrorHandling.push [] (shown_error err)]> acc)
                  end = Exchange.groupBySheet errors acc').
  { subst acc' arr. by destruct (acc !! Server.sheet err). }
  unfold shown_error in Hstep at 1 2. cbv beta in Hstep. rewrite Hstep. clear Hstep.
  destruct (IH acc' Hplain) as (m & Hm & Hlook). exists m. split; [done|].
  intros name. rewrite (Hlook name), !filter_cons.
  destruct (decide (Server.sheet err = name)) as [Heq|Hne].
  - rewrite (decide_False (P := _ :: _ = [])) by done.
    subst acc'. rewrite Heq, lookup_insert_eq. unfold ErrorHandling.push.
    subst arr. rewrite Heq.
    destruct (decide (filter _ errors = [])) as [->|_]; [done|].
    simpl. by rewrite <- app_assoc.
  - subst acc'. by rewrite lookup_insert_ne.
Qed.

Lemma validateFile_reply_errors clock (sheets : list (string * list object)) session :
  allErrors rt clock sheets <> [] ->
  validateFile_reply rt clock (Some (Ok sheets)) session =
  {| status := 400;
     body := {| success := Some false; error := None;
                body_errors := Some (allErrors rt clock sheets);
                message := None; rowCount := None; importedCount := None |} |}.
Proof.
  intros Herr. unfold validateFile_reply, validateFile. rewrite processFile_reports.
  destruct (existsb _ (imap (sheetReport rt clock) sheets)) eqn:Hex.
  - simpl. by rewrite reports_errors.
  - apply hasErrors_allErrors in Hex. by rewrite reports_errors in Hex.
Qed.

Lemma validateFile_reply_clean clock (sheets : list (string * list object)) session :
  allErrors rt clock sheets = [] ->
  status (validateFile_reply rt clock (Some (Ok sheets)) session) = 200 /\
  success (body (validateFile_reply rt clock (Some (Ok sheets)) session)) = Some true.
Proof.
  intros Herr. unfold validateFile_reply, validateFile. rewrite processFile_reports.
  destruct (existsb _ (imap (sheetReport rt clock) sheets)) eqn:Hex; [|done].
  rewrite <- reports_errors in Herr. apply hasErrors_allErrors in Herr. congruence.
Qed.
End AnswersShown.

(** X24. The errors of the server reach the screen sheet by sheet. For
    a workbook whose sheet names differ and are no names of
    [Object.prototype], [handleValidate] throws nothing on the answer of
    [validateFile]. When no row has an error it marks the file as
    validated and clears the errors. Otherwise it leaves the file
    unvalidated, shows the errors and sets, under the name of each sheet
    with errors, the row and the message of every error of that sheet in
    the order of the server, and nothing under any other name. *)
Theorem handleValidate_shows_server_errors (rt : Js.Runtime) (clock : nat -> nat -> Z * Z)
    (sheets : list (string * list Js.object)) (session : Controller.SessionData) :
  NoDup sheets.*1 ->
  Props.plain_names sheets ->
  Exchange.thrown (Props.validate_shown rt clock sheets session) = None /\
  (Props.allErrors rt clock sheets = [] ->
   Exchange.setIsValidated (Props.validate_shown rt clock sheets session) = Some true /\
   Exchange.setErrors (Props.validate_shown rt clock sheets session) = Some ∅ /\
   Exchange.setShowErrors (Props.validate_shown rt clock sheets session) = Some false /\
   Exchange.errorToast (Props.validate_shown rt clock sheets session) = None) /\
  (Props.allErrors rt clock sheets <> [] ->
   Exchange.setIsValidated (Props.validate_shown rt clock sheets session) = None /\
   Exchange.setShowErrors (Props.validate_shown rt clock sheets session) = Some true /\
   Exchange.errorToast (Props.validate_shown rt clock sheets session) =
     Some "Validation failed. Please check the error details." /\
   exists m,
     Exchange.setErrors (Props.validate_shown rt clock sheets session) = Some m /\
     (forall k name rows,
        sheets !! k = Some (name, rows) ->
        m !! name =
        if decide (Props.sheetErrors rt clock k (name, rows) = []) then None
        else Some (Props.shown_error <$> Props.sheetErrors rt clock k (name, rows))) /\
     (forall name, name ∉ sheets.*1 -> m !! name = None)).
Proof.
  intros Hnd Hplain. unfold Props.validate_shown.
  destruct (decide (Props.allErrors rt clock sheets = [])) as [Hclean|Herr].
  - destruct (validateFile_reply_clean rt clock sheets session Hclean) as [Hst Hok].
    unfold Exchange.handleValidate_settled, Exchange.resolves. rewrite Hst, Hok. simpl.
    split; [done|]. split; [done|]. intros Hne. by destruct Hne.
  - rewrite (validateFile_reply_errors rt clock sheets session Herr).
    unfold Exchange.handleValidate_settled, Exchange.resolves. cbn -[Exchange.groupBySheet].
    destruct (groupBySheet_lookup (Props.allErrors rt clock sheets) ∅) as (m & Hm & Hlook).
    { eapply Forall_impl; [apply allErrors_sheet|]. intros err (sheet & -> & Hin)%list_elem_of_fmap.
      unfold Props.plain_names in Hplain. rewrite Forall_forall in Hplain. by apply Hplain. }
    rewrite Hm. simpl. split; [done|]. split; [done|]. intros _.
    split_and!; [done..|]. exists m. split_and!; [done| |].
    + intros k name rows Hk. rewrite (Hlook name), lookup_empty.
      by rewrite (filter_allErrors rt clock sheets k name rows Hnd Hk).
    + intros name Hname. rewrite (Hlook name), lookup_empty. rewrite decide_True; [done|].
      apply filter_no_match. eapply Forall_impl; [apply (allErrors_sheet rt)|].
      intros err Hin Heq. apply Hname. by rewrite <- Heq.
Qed.

Lemma handleValidate_shows_server_errors_witness :
  NoDup Examples.workbook_refused.*1 /\
  Props.plain_names Examples.workbook_refused /\
  Exchange.thrown
    (Props.validate_shown Host.runtime Examples.workbook_clock_2024 Examples.workbook_refused
       Controller.Unset) = None.
Proof.
  assert (Hnd : NoDup Examples.workbook_refused.*1)
    by (apply (bool_decide_unpack _); vm_compute; reflexivity).
  assert (Hplain : Props.plain_names Examples.workbook_refused)
    by (repeat constructor).
  split; [exact Hnd|]. split; [exact Hplain|].
  apply (handleValidate_shows_server_errors Host.runtime Examples.workbook_clock_2024
           Examples.workbook_refused Controller.Unset Hnd Hplain).
Defined.

(** The errors shown for the sample workbook. *)
Example handleValidate_sample :
  Exchange.setErrors
    (Props.validate_shown Host.runtime Examples.workbook_clock_2024 Examples.workbook_refused
       Controller.Unset) =
  Some {[ "Sheet1" := [{| Exchange.row := 3%nat;
                          Exchange.message := "Amount is required" |}] ]}.
Proof. vm_compute. reflexivity. Qed.

Section AnswersLost.
Import Js Server Controller Props.

(** The loop of [handleValidate] throws at the first error whose sheet
    has a name of [Object.prototype]. *)
Lemma groupBySheet_throws (errors : list RowError) (acc : gmap string (list Exchange.ShownError)) :
  (forall name, inherited name = true -> acc !! name = None) ->
  Exists (fun err => inherited (Server.sheet err) = true) errors ->
  exists msg, Exchange.groupBySheet errors acc = Throw msg.
Proof.
  revert acc. induction errors as [|err errors IH]; intros acc Hacc Hex.
  { by apply Exists_nil in Hex. }
  cbn [Exchange.groupBySheet]. destruct (inherited (Server.sheet err)) eqn:Hin.
  { rewrite (Hacc _ Hin). by eexists. }
  apply Exists_cons in Hex as [Hhere|Hex]; [congruence|].
  destruct (acc !! Server.sheet err); (apply IH; [|done]); intros name Hname;
    (rewrite lookup_insert_ne; [by apply Hacc|congruence]).
Qed.
End AnswersLost.

(** X25. A sheet whose name is a name of [Object.prototype]
    (constructor, toString, ...) and that has a row the server refuses
    makes [handleValidate] throw while it groups the errors: no error is
    set or shown and no toast is raised. *)
Theorem handleValidate_inherited_sheet_name (rt : Js.Runtime) (clock : nat -> nat -> Z * Z)
    (sheets : list (string * list Js.object)) (session : Controller.SessionData)
    (k : nat) (name : string) (rows : list Js.object) :
  sheets !! k = Some (name, rows) ->
  Js.inherited name = true ->
  Props.sheetErrors rt clock k (name, rows) <> [] ->
  is_Some (Exchange.thrown (Props.validate_shown rt clock sheets session)) /\
  Exchange.setErrors (Props.validate_shown rt clock sheets session) = None /\
  Exchange.setShowErrors (Props.validate_shown rt clock sheets session) = None /\
  Exchange.errorToast (Props.validate_shown rt clock sheets session) = None /\
  Exchange.setIsValidated (Props.validate_shown rt clock sheets session) = None.
Proof.
  intros Hk Hname Hne.
  destruct (Props.sheetErrors rt clock k (name, rows)) as [|err errs] eqn:Herrs; [done|].
  assert (Hsheet : Server.sheet err = name).
  { pose proof (sheetErrors_sheet rt clock k (name, rows)) as Hall.
    rewrite Herrs in Hall. by apply Forall_cons in Hall as [-> _]. }
  assert (Hin : err ∈ Props.allErrors rt clock sheets).
  { apply elem_of_concat_imap. exists k, (name, rows). split; [done|].
    rewrite Herrs. apply list_elem_of_here. }
  assert (Herr : Props.allErrors rt clock sheets <> []).
  { intros Hnil. rewrite Hnil in Hin. by apply elem_of_nil in Hin. }
  unfold Props.validate_shown.
  rewrite (validateFile_reply_errors rt clock sheets session Herr).
  unfold Exchange.handleValidate_settled, Exchange.resolves. cbn -[Exchange.groupBySheet].
  destruct (groupBySheet_throws (Props.allErrors rt clock sheets) ∅) as (msg & ->).
  - intros ? _. apply lookup_empty.
  - apply Exists_exists. exists err. split; [done|]. by rewrite Hsheet.
  - simpl. by split_and!.
Qed.

Lemma handleValidate_inherited_sheet_name_witness :
  Examples.workbook_constructor !! 0%nat =
    Some ("constructor", [Examples.row_last_year; Examples.row_zero_amount]) /\
  Js.inherited "constructor" = true /\
  Exchange.errorToast
    (Props.validate_shown Host.runtime Examples.workbook_clock_2024
       Examples.workbook_constructor Controller.Unset) = None.
Proof.
  split; [reflexivity|]. split; [reflexivity|].
  apply (handleValidate_inherited_sheet_name Host.runtime Examples.workbook_clock_2024
           Examples.workbook_constructor Controller.Unset 0
           "constructor" [Examples.row_last_year; Examples.row_zero_amount]);
    [reflexivity|reflexivity|vm_compute; discriminate].
Defined.

(** X26. What the user is told of an import of a validated file.
    [handleImport] sets no errors and throws nothing on the answer of
    [importData]. When the session holds no row, the toast is the
    message of the server that asks to validate first; when the insert
    succeeds, the toast is the success message and the file is no longer
    marked as validated; when the insert fails, the toast is the message
    of the failure or, when that is empty, the text for status 500. *)
Theorem handleImport_tells_the_outcome (insertMany : list Js.object -> Js.result nat)
    (session : Controller.SessionData) (file : FileChecks.File) :
  Exchange.setErrors (Props.import_shown insertMany session file) = None /\
  Exchange.formatted (Props.import_shown insertMany session file) = None /\
  Exchange.thrown (Props.import_shown insertMany session file) = None /\
  (session = Controller.Unset \/ session = Controller.Null \/ session = Controller.Rows [] ->
   Exchange.errorToast (Props.import_shown insertMany session file) =
     Some "No validated data found. Please upload and validate a file first." /\
   Exchange.successToast (Props.import_shown insertMany session file) = None /\
   Exchange.setIsValidated (Props.import_shown insertMany session file) = None) /\
  (forall first others n,
     session = Controller.Rows (first :: others) ->
     insertMany (first :: others) = Js.Ok n ->
     Exchange.successToast (Props.import_shown insertMany session file) =
       Some "Data imported successfully" /\
     Exchange.errorToast (Props.import_shown insertMany session file) = None /\
     Exchange.setIsValidated (Props.import_shown insertMany session file) = Some false) /\
  (forall first others msg,
     session = Controller.Rows (first :: others) ->
     insertMany (first :: others) = Js.Throw msg ->
     Exchange.errorToast (Props.import_shown insertMany session file) =
       Some (if String.eqb msg "" then "Server error. Please try again later." else msg) /\
     Exchange.successToast (Props.import_shown insertMany session file) = None /\
     Exchange.setIsValidated (Props.import_shown insertMany session file) = None).
Proof.
  unfold Props.import_shown, Props.importData_reply, Controller.importData.
  destruct session as [| |[|first others]].
  1-3: split_and!; [done..| |intros ? ? ? [=]|intros ? ? ? [=]]; by intros _.
  destruct (insertMany (first :: others)) as [n|msg] eqn:Hins.
  - split_and!; [done..|by intros [[=]|[[=]|[=]]]| |].
    + by intros ? ? ? [= <- <-] _.
    + intros ? ? ? [= <- <-]. by rewrite Hins.
  - assert (Htoast :
      Exchange.handleImport_settled true (Some file)
        (Some {| Controller.status := 500;
                 Controller.body :=
                   {| Controller.success := Some false; Controller.error := Some msg;
                      Controller.body_errors := None; Controller.message := None;
                      Controller.rowCount := None; Controller.importedCount := None |} |}) =
      Exchange.error_toast
        (if String.eqb msg "" then "Server error. Please try again later." else msg)).
    { unfold Exchange.handleImport_settled, Exchange.resolves, ErrorHandling.handleAxiosError.
      simpl. by destruct (String.eqb msg ""). }
    cbn [fst snd]. rewrite Htoast.
    split_and!; [done..|by intros [[=]|[[=]|[=]]]| |].
    + intros ? ? ? [= <- <-]. by rewrite Hins.
    + intros ? ? m [= <- <-]. rewrite Hins. by intros [= <-].
Qed.

(* ===================================================================== *)
(** * Where the verdicts of the client and of the server are the same *)
(* ===================================================================== *)

Section Agreement.
Import Js ErrorHandling Props.
Context (rt : Runtime).

(** *** The errors of the client, field by field *)

Lemma validateName_accepts r n :
  errors (validateName r n no_findings) = [] <->
  exists s, get "Name" r = VStr s /\ trim s <> "".
Proof.
  unfold validateName. cbv zeta.
  destruct (get "Name" r) as [| |b|x|s|t]; cbn [typeof jstype_eqb negb string_of];
    try (split; [by destruct (negb _)|by intros (? & ? & _)]).
  change (truthy (VStr s)) with (negb (String.eqb s "")).
  destruct (String.eqb_spec s "") as [->|Hs]; cbn [negb].
  { split; [done|]. intros (s & [= <-] & Ht). exfalso. by apply Ht. }
  destruct (Nat.eqb_spec (String.length (trim s)) 0) as [Hz|Hnz].
  { split; [done|]. intros (s' & [= <-] & Ht). exfalso. apply Ht. by destruct (trim s). }
  split.
  - intros _. exists s. split; [done|]. intros Ht. apply Hnz. by rewrite Ht.
  - intros _. by destruct (100 <? _)%nat.
Qed.

Lemma validateAmount_accepts r n :
  errors (validateAmount rt r n no_findings) = [] <->
  num_gtb (Number rt (get "Amount" r)) (Fin 0) = true /\ is_nullish (get "Amount" r) = false.
Proof.
  unfold validateAmount. cbv zeta.
  destruct (is_nullish (get "Amount" r)); [split; [done|by intros [_ ?]]|].
  destruct (Number rt (get "Amount" r)) as [| | |x]; cbn [num_isNaN num_leb num_gtb num_ltb].
  - split; [done|by intros [? _]].
  - done.
  - split; [done|by intros [? _]].
  - unfold Qltb. destruct (Qle_bool x 0); cbn [negb].
    + split; [done|by intros [? _]].
    + split; [done|]. intros _. by destruct (negb _).
Qed.

Lemma validateDate_accepts now r n :
  errors (validateDate rt now r n no_findings) = [] <->
  truthy (get "Date" r) = true /\ is_Some (new_Date rt (get "Date" r)).
Proof.
  unfold validateDate. cbv zeta.
  destruct (truthy (get "Date" r)); cbn [negb]; [|split; [done|by intros [? _]]].
  destruct (new_Date rt (get "Date" r)) as [t|].
  - split; [done|]. intros _. by destruct (now <? t).
  - split; [done|]. by intros [_ [? ?]].
Qed.

(** The Verified cell of a normalized row passes when the cell was a
    text or a boolean. *)
Lemma validateVerified_accepts (r : object) n :
  errors (validateVerified (normalizedRow rt r) n no_findings) = [] <->
  (exists s, get "Verified" r = VStr s) \/ (exists b, get "Verified" r = VBool b).
Proof.
  unfold validateVerified. cbv zeta. rewrite get_Verified_normalizedRow.
  destruct (has_key "Verified" r) eqn:Hk.
  - destruct (get "Verified" r) as [| |b|x|s|t]; simpl;
      try (split; [done|by intros [[? ?]|[? ?]]]).
    + split; [|done]. intros _. right. by exists b.
    + split; [|done]. intros _. left. by exists s.
  - rewrite (has_key_false_get _ _ Hk). simpl. split; [done|by intros [[? ?]|[? ?]]].
Qed.

(** *** The verdict of the client *)

Lemma client_accepts_cells clock i r :
  NoDup (keys r) ->
  loads rt r ->
  client_accepts rt clock i r = true <->
  (exists s, get "Name" r = VStr s /\ trim s <> "") /\
  (num_gtb (Number rt (get "Amount" r)) (Fin 0) = true /\ is_nullish (get "Amount" r) = false) /\
  (truthy (get "Date" (normalizedRow rt r)) = true /\
   is_Some (new_Date rt (get "Date" (normalizedRow rt r)))) /\
  ((exists s, get "Verified" r = VStr s) \/ (exists b, get "Verified" r = VBool b)).
Proof.
  intros Hnd [r' Hrun]. unfold client_accepts. rewrite Hrun.
  apply (processRow_ok rt r r' Hnd) in Hrun. subst r'.
  rewrite <- (validateName_accepts r (i + 1)), <- (validateAmount_accepts r (i + 1)),
    <- (validateDate_accepts (clock i) (normalizedRow rt r) (i + 1)),
    <- (validateVerified_accepts r (i + 1)).
  rewrite rowErrors_fields.
  assert (HN : validateName (normalizedRow rt r) (i + 1) no_findings =
               validateName r (i + 1) no_findings).
  { unfold validateName. by rewrite (get_normalizedRow_same rt "Name" r (normalized_Name rt)). }
  assert (HA : validateAmount rt (normalizedRow rt r) (i + 1) no_findings =
               validateAmount rt r (i + 1) no_findings).
  { unfold validateAmount.
    by rewrite (get_normalizedRow_same rt "Amount" r (normalized_Amount rt)). }
  rewrite HN, HA.
  destruct (errors (validateName r (i + 1) no_findings)) as [|? ?];
    [|split; [done|by intros [? _]]].
  destruct (errors (validateAmount rt r (i + 1) no_findings)) as [|? ?];
    [|split; [done|by intros (_ & ? & _)]].
  destruct (errors (validateDate rt (clock i) (normalizedRow rt r) (i + 1) no_findings))
    as [|? ?]; [|split; [done|by intros (_ & _ & ? & _)]].
  destruct (errors (validateVerified (normalizedRow rt r) (i + 1) no_findings)) as [|? ?];
    [|split; [done|by intros (_ & _ & _ & ?)]].
  done.
Qed.

(** *** The verdict of the server *)

Lemma server_accepts_cells clock sheetName i r :
  server_accepts rt clock sheetName i r = true <-> exists t, server_cells rt (clock i) r t.
Proof.
  unfold server_accepts.
  destruct (validateRow_turns rt (clock i) r (i + 2) sheetName)
    as (res & -> & He & Hvalid & _ & _).
  rewrite Hvalid, He. split.
  - intros Hnil.
    apply app_eq_nil in Hnil as [[vN HN]%turnErrors_nil Hnil].
    apply app_eq_nil in Hnil as [[vA HA]%turnErrors_nil Hnil].
    apply app_eq_nil in Hnil as [[vD HD]%turnErrors_nil [vV HV]%turnErrors_nil].
    by apply (turns_server_cells rt (clock i) r vN vA vD vV).
  - intros [t (HN & HA & HD & HV)%server_cells_turns]. by rewrite HN, HA, HD, HV.
Qed.

(** *** The rows on which the two agree *)

Lemma truthy_not_nullish (v : value) : truthy v = true -> is_nullish v = false.
Proof. by destruct v. Qed.

Lemma iso_date_not_empty t : iso_date t <> "".
Proof.
  unfold iso_date. cbv zeta. destruct (iso_year _) as [|c y].
  - by rewrite append_nil_l, append_cons.
  - by rewrite append_cons.
Qed.

Lemma plain_Name_cells (r : object) :
  plain_Name r ->
  truthy (get "Name" r) = true <-> exists s, get "Name" r = VStr s /\ trim s <> "".
Proof.
  intros Hplain. split.
  - intros Ht. destruct Hplain as [Hf|?]; [congruence|done].
  - intros (s & -> & Hs). change (truthy (VStr s)) with (negb (String.eqb s "")).
    destruct (String.eqb_spec s "") as [->|]; [|done]. exfalso. by apply Hs.
Qed.

Lemma plain_Amount_cells (r : object) :
  plain_Amount rt r ->
  (truthy (get "Amount" r) = true /\
   num_isNaN (Number rt (get "Amount" r)) = false /\
   num_ltb (Number rt (get "Amount" r)) (Fin 0) = false) <->
  num_gtb (Number rt (get "Amount" r)) (Fin 0) = true.
Proof.
  unfold plain_Amount.
  destruct (Number rt (get "Amount" r)) as [| | |q];
    cbn [num_isNaN num_ltb num_gtb]; intros Hplain.
  - split; [by intros (_ & ? & _)|done].
  - by rewrite Hplain.
  - split; [by intros (_ & _ & ?)|done].
  - rewrite Hplain. unfold Qltb. rewrite !negb_true_iff, negb_false_iff. split.
    + intros (Hnz & _ & Hge). apply not_true_iff_false. intros Hle.
      apply Qle_bool_iff in Hle, Hge.
      apply not_true_iff_false in Hnz. apply Hnz, Qeq_bool_iff. by apply Qle_antisym.
    + intros Hpos. apply not_true_iff_false in Hpos.
      assert (Hlt : (0 < q)%Q).
      { apply Qnot_le_lt. intros Hle. by apply Hpos, Qle_bool_iff. }
      split_and!; [|done|].
      * apply not_true_iff_false. intros Hz%Qeq_bool_iff. rewrite Hz in Hlt.
        by apply Qlt_irrefl in Hlt.
      * apply Qle_bool_iff. by apply Qlt_le_weak.
Qed.

(** What the client checks of the Date cell after normalization is what
    the server checks, the window apart. *)
Lemma plain_Date_cells clk (r : object) :
  plain_Date rt clk r ->
  (truthy (get "Date" (normalizedRow rt r)) = true /\
   is_Some (new_Date rt (get "Date" (normalizedRow rt r)))) <->
  (exists t, truthy (get "Date" r) = true /\ new_Date rt (get "Date" r) = Some t /\
             twelveMonthsAgo rt clk <= t <= fst clk).
Proof.
  unfold plain_Date. rewrite get_normalizedRow.
  destruct (has_key "Date" r) eqn:Hk.
  2:{ rewrite (has_key_false_get _ _ Hk). intros _.
      split; [by intros [? _]|by intros (? & ? & _)]. }
  unfold normalized. rewrite (processEntry_date_key rt "Date" _ eq_refl).
  destruct (get "Date" r) as [| |b|x|s|t].
  - intros _. split; [by intros [? _]|by intros (? & ? & _)].
  - intros _. split; [by intros [? _]|by intros (? & ? & _)].
  - intros ->. split; [by intros [? _]|by intros (? & ? & _)].
  - intros ->. split; [by intros [? _]|by intros (? & ? & _)].
  - change (truthy (VStr s)) with (negb (String.eqb s "")).
    destruct (String.eqb_spec s "") as [->|Hs]; cbn [negb]; cbv iota.
    { intros _. split; [by intros [? _]|by intros (? & ? & _)]. }
    cbn [new_Date]. destruct (Date_parse rt s) as [t|] eqn:Hparse.
    + intros Hplain. destruct (Hplain Hs) as [Hwindow Hagain].
      rewrite isoDay_iso_date. cbn [bind new_Date]. split.
      * intros _. by exists t.
      * intros _. split; [|done].
        change (truthy (VStr (iso_date t))) with (negb (String.eqb (iso_date t) "")).
        destruct (String.eqb_spec (iso_date t) "") as [He|]; [|done].
        by apply iso_date_not_empty in He.
    + intros _. split; [by intros [? _]|by intros (? & _ & ? & _)].
  - destruct t as [t|]; cbn [truthy new_Date].
    + intros Hwindow. split; [intros _; by exists t|done].
    + intros _. split; [by intros [_ [? ?]]|by intros (? & _ & ? & _)].
Qed.

Lemma plain_Verified_cells (r : object) :
  plain_Verified r ->
  ((exists s, get "Verified" r = VStr s) \/ (exists b, get "Verified" r = VBool b) <->
   (exists s, get "Verified" r = VStr s) \/ get "Verified" r = VBool false) /\
  ((truthy (get "Verified" r) = false \/ exists s, get "Verified" r = VStr s) <->
   (exists s, get "Verified" r = VStr s) \/ get "Verified" r = VBool false).
Proof.
  unfold plain_Verified. destruct (get "Verified" r) as [| |b|x|s|t]; intros Hplain.
  - done.
  - done.
  - subst b. split; split; intros _; [by right|right; by exists false|by right|by left].
  - split; split; intros H; decompose [or ex] H; congruence.
  - split; split; intros _; [left|left|left|right]; by exists s.
  - split; split; intros H; decompose [or ex] H; congruence.
Qed.

(** On a row that loads and is plain, the client accepts exactly the
    accepted cells, and so does the server. *)
Lemma plain_client_accepts clock clk i r :
  NoDup (keys r) -> loads rt r -> plain_row rt clk r ->
  client_accepts rt clock i r = true <-> accepted_cells rt clk r.
Proof.
  intros Hnd Hloads (HN & HA & HD & HV).
  rewrite (client_accepts_cells clock i r Hnd Hloads).
  rewrite (plain_Date_cells clk r HD), (proj1 (plain_Verified_cells r HV)).
  unfold accepted_cells. split.
  - by intros (? & [? _] & ? & ?).
  - intros (? & Hgt & ? & ?). split_and!; try done.
    apply truthy_not_nullish. by apply (plain_Amount_cells r HA).
Qed.

Lemma plain_server_accepts clock sheetName i r :
  plain_row rt (clock i) r ->
  server_accepts rt clock sheetName i r = true <-> accepted_cells rt (clock i) r.
Proof.
  intros (HN & HA & HD & HV). rewrite server_accepts_cells.
  unfold server_cells, accepted_cells.
  rewrite <- (plain_Name_cells r HN), <- (plain_Amount_cells r HA),
    <- (proj2 (plain_Verified_cells r HV)).
  split.
  - intros [t (? & ? & ? & ? & ? & ? & ? & ?)]. split_and!; try done. by exists t.
  - intros (? & (? & ? & ?) & (t & ? & ? & Hwindow) & ?). exists t.
    split_and!; try done; apply Hwindow.
Qed.
End Agreement.

(** C1 (as amended). The two validators are not equivalent, but:
    - they agree on a common core of rejections: a row whose Name cell
      is falsy, whose Amount cell is [null], [undefined], [NaN] or a
      number not above zero, or whose Date cell is falsy or a string
      that does not parse as a date, is rejected by the client
      (normalization, then [validateExcelData]) and by the server
      ([validateRow] under the default configuration);
    - their verdicts are the same on every row that loads (its
      normalization throws nothing) and is plain, that is, outside the
      cases in which the two rule sets differ: a Name that is falsy or a
      text that is not blank; an Amount whose number is [NaN] or that is
      truthy exactly when its number is not zero; a Date that is falsy,
      a text that does not parse, or a text or [Date] object whose time
      lies in the window of the server (the date part of the ISO text of
      a text, which is what the client checks, being parsed by the
      host); a Verified cell that is a text, the boolean [false], or a
      truthy value of another type. Such a row is accepted, by both,
      exactly when its Name is a text that is not blank, the number of
      its Amount is above zero, its Date parses to a time in the window,
      and its Verified cell is a text or the boolean [false]. *)
Theorem client_and_server_verdicts (rt : Js.Runtime) (clock : nat -> Z)
    (server_clock : nat -> Z * Z) (sheetName : string) (index : nat) (r : Js.object) :
  NoDup (Js.keys r) ->
  (Props.bad_Name r \/ Props.bad_Amount r \/ Props.bad_Date rt r ->
   Props.client_accepts rt clock index r = false /\
   Props.server_accepts rt server_clock sheetName index r = false) /\
  (Props.loads rt r ->
   Props.plain_row rt (server_clock index) r ->
   Props.client_accepts rt clock index r =
     Props.server_accepts rt server_clock sheetName index r /\
   (Props.server_accepts rt server_clock sheetName index r = true <->
    Props.accepted_cells rt (server_clock index) r)).
Proof.
  intros Hnd. split.
  - intros Hbad. split.
    + by apply client_rejects.
    + by apply server_rejects.
  - intros Hloads Hplain.
    pose proof (plain_client_accepts rt clock (server_clock index) index r Hnd Hloads Hplain)
      as Hclient.
    pose proof (plain_server_accepts rt server_clock sheetName index r Hplain) as Hserver.
    split; [|exact Hserver].
    apply eq_true_iff_eq. by rewrite Hclient, Hserver.
Qed.

(** C1 on a row as the workbook decoder hands it over, with a [Date]
    object in the date column: it loads and is plain, and both
    validators accept it. *)
Lemma client_and_server_verdicts_witness :
  NoDup (Js.keys Examples.row_decoded) /\
  Props.client_accepts Host.runtime Examples.clock_2024 0 Examples.row_decoded = true /\
  Props.server_accepts Host.runtime Examples.server_clock_2024 "Sheet1" 0 Examples.row_decoded
    = true.
Proof.
  assert (Hnd : NoDup (Js.keys Examples.row_decoded)) by by apply NoDup_four.
  destruct (client_and_server_verdicts Host.runtime Examples.clock_2024
              Examples.server_clock_2024 "Sheet1" 0%nat Examples.row_decoded Hnd)
    as [_ Hsame].
  destruct Hsame as [Heq Hacc].
  - by eexists.
  - split_and!.
    + right. exists "A". split; [reflexivity|vm_compute; discriminate].
    + reflexivity.
    + vm_compute. split; discriminate.
    + exact I.
  - assert (Hserver : Props.server_accepts Host.runtime Examples.server_clock_2024 "Sheet1" 0
                        Examples.row_decoded = true).
    { apply Hacc. split_and!.
      - exists "A". split; [reflexivity|vm_compute; discriminate].
      - reflexivity.
      - exists 1704412800000.
        split; [reflexivity|]. split; [reflexivity|]. vm_compute. split; discriminate.
      - left. by eexists. }
    split; [exact Hnd|]. split; [|exact Hserver]. by rewrite Heq.
Defined.

(** C1 (counterexample). Rows on which the verdicts differ, each by a
    rule that one side has and the other has not; the clock of the
    server is at 2024-06-01.
    - A date of 2020: the client accepts, the server has the window of
      twelve months.
    - A serial number as the date: the client converts it (2024-01-09)
      and accepts, the server reads it as milliseconds since 1970.
    - A number as the name: the client wants a text, the server does
      not look at the type.
    - No Verified cell: the client requires one, the server does not.
    - The text 0 as the amount: the client wants more than zero, the
      server at least zero. *)
Lemma client_and_server_differ :
  (Props.client_accepts Host.runtime Examples.clock_2024 0 Examples.row_old_date = true /\
   Props.server_accepts Host.runtime Examples.server_clock_2024 "Sheet1" 0
     Examples.row_old_date = false) /\
  (Props.client_accepts Host.runtime Examples.clock_2024 0 Examples.row_serial_date = true /\
   Props.server_accepts Host.runtime Examples.server_clock_2024 "Sheet1" 0
     Examples.row_serial_date = false) /\
  (Props.client_accepts Host.runtime Examples.clock_2024 0 Examples.row_numeric_name = false /\
   Props.server_accepts Host.runtime Examples.server_clock_2024 "Sheet1" 0
     Examples.row_numeric_name = true) /\
  (Props.client_accepts Host.runtime Examples.clock_2024 0 Examples.row_unverified = false /\
   Props.server_accepts Host.runtime Examples.server_clock_2024 "Sheet1" 0
     Examples.row_unverified = true) /\
  (Props.client_accepts Host.runtime Examples.clock_2024 0 Examples.row_last_year = false /\
   Props.server_accepts Host.runtime Examples.server_clock_2024 "Sheet1" 0
     Examples.row_last_year = true).
Proof. split_and!; vm_compute; reflexivity. Qed.

(** The messages of the two sides on these rows. *)
Example client_and_server_differ_messages :
  Server.message <$>
    Props.serverRowErrors Host.runtime Examples.server_clock_2024 "Sheet1" 0
      Examples.row_old_date = ["Date must be in the current month"] /\
  Server.message <$>
    Props.serverRowErrors Host.runtime Examples.server_clock_2024 "Sheet1" 0
      Examples.row_serial_date = ["Date must be in the current month"] /\
  ErrorHandling.message <$>
    Props.rowErrors Host.runtime Examples.clock_2024 0
      (Props.normalizedRow Host.runtime Examples.row_numeric_name) = ["Name must be text"] /\
  ErrorHandling.message <$>
    Props.rowErrors Host.runtime Examples.clock_2024 0
      (Props.normalizedRow Host.runtime Examples.row_unverified) =
    ["Verified status is required"] /\
  ErrorHandling.message <$>
    Props.rowErrors Host.runtime Examples.clock_2024 0
      (Props.normalizedRow Host.runtime Examples.row_last_year) = ["Amount must be positive"].
Proof. split_and!; vm_compute; reflexivity. Qed.
